(* ===== verification/_CoqProject ===== *)
-Q . S2P
Prelude.v
PyStr.v
Files.v
Config.v
Json.v
Flask.v
Cover.v
Http.v
Fixtures.v
Matcher.v
Db.v
Accounts.v
Profile.v
Search.v
Description.v
TimeAgo.v
Social.v
Catalog.v
Listing.v
Reviews.v
Shelf.v
Settings.v
Migrate.v
Seeder.v
AddBook.v
App.v
Sessions.v
