(* ===== verification/Prelude.v ===== *)
(** * BookBuddy: a verification development for [src/main.py]

    BookBuddy is a Flask application over an SQLite database: a catalogue
    of books, reviews, favourites, a reading history and user accounts.
    Its logic is a thin layer over the tables and over look-ups at Open
    Library, a public bibliographic service, for covers and descriptions.
    This library is a shallow embedding of that logic in Rocq: each
    function of the source is a definition of the same name, translated
    line by line, and the theorems state what the function does on every
    input, the inputs on which it raises included.

    ** The program and the files that model it

    - [Prelude] (this file): the effects of Python that the program
      relies on.  A call returns or raises ([outcome], [exn]); code that
      changes state is a function from a state to an outcome and a state
      ([M], with [get], [modify], [lift], [try_except], [zoom] to run a
      computation on a field of the state); [for_each] and [mapM] are the
      two shapes of [for] loop of the source; [py_max_by] is
      [max(l, key=f)], which keeps the first item of greatest key and
      lets an exception of the key through; [sort_desc] is
      [sorted(l, key=f, reverse=True)] and [order_by(... .desc())].
      [keeps R c] says that every run of [c] leaves a state related by
      [R] to the one it found; for a preorder it follows the text of a
      computation ([keeps_bind], [keeps_for_each], [keeps_zoom], the
      tactic [solve_keeps]).
    - [PyStr]: the methods of [str] the program calls ([strip], [lower],
      [in], [startswith], slices, [split], [rsplit], [title]), truth
      values, [x or d], [str(int)] and [int(str)].
    - [Files]: the part of the file system the program writes to: paths
      built with [os.path.join], [os.makedirs(..., exist_ok=True)] and
      the save of an upload, on a finite map from paths to directories
      and files.
    - [Config]: what the module sets when it is loaded ([SECRET_KEY]
      from the environment, the address of the database file, the
      instance folder, the login page) and the call of [app.run].
    - [Json]: a value decoded by [json.loads] and the operations applied
      to it without any check of its shape ([.get], [isinstance],
      indexing, iteration, [str]).  [PyRuntime] is the interface to what
      the program calls and does not define: [urllib.parse.quote] and
      [repr].
    - [Flask]: a parameter of a request that may be absent, read as
      text ([arg_text]) or as an integer ([arg_int]), the body of a
      request to a JSON endpoint ([get_json]), and the answers of
      a handler: a redirect with its flashed message or a template
      ([page]), a JSON body with its status ([response]).
    - [Cover]: [_ol_cover_url] and [PLACEHOLDER_COVER].
    - [Http]: a request to Open Library.  [Network] is the interface to
      the outside: the answer to the n-th request of a run is any
      function of n and of the request, an exception included.  A
      computation that calls out threads the list of the requests sent,
      so that how many requests a function sends, and which, are facts
      about its final state.
    - [Fixtures]: one runtime and a few networks and documents, to
      evaluate the model on concrete inputs.  Nothing is proved of them.
    - [Matcher]: [_ol_best_match] with its nested [score]: the request,
      the score of a candidate, the choice of the first candidate of
      highest score, the identifiers read off it.
    - [Db]: a table as a SQLAlchemy session shows it, for any row type
      with an integer primary key and a UNIQUE constraint (class [Row]):
      committed rows, rows inserted by the open transaction, rows added
      and not yet flushed; [session_add], [session_delete],
      [session_update], the flush that precedes every query, [commit],
      and the [IntegrityError] and roll-back of a refused INSERT.
    - [Accounts]: the model [User] with its instance of [Row], and the
      handlers over it: [signup], [login], [logout], [forgot_password],
      [reset_password], [change_password], [edit_profile], [settings],
      [share_profile], [public_profile] and [qr_profile].  The state
      [accounts] holds the user table, the id that flask_login keeps in
      the cookie, and the reset links printed on the terminal.  [Crypto]
      is the interface to werkzeug.security and itsdangerous: hashing
      with a salt, signing an address at an instant, and the two laws
      the handlers rely on (a password matches its own hash; a token is
      accepted until its age exceeds the limit).  The requests are the
      steps of a transition system ([Accounts.serves]).
    - [Profile]: [edit_profile] with the picture that comes with the
      form, over the accounts and the file system.  [Uploads] is the
      interface to [secure_filename] of werkzeug: the name it returns
      has no separator, and may be empty.
    - [Search]: [_ol_search], which nothing calls, and the handler
      [api_openlibrary]; [Search.listed] is the specification of what
      the route answers for the editions a response describes.
    - [Description]: [_ol_description_for]: two requests, the choice of
      the work, the cut of the text at 600 characters.
    - [TimeAgo]: [_time_ago].
    - [Catalog]: the model [Book], its instance of [Row], and
      [get_or_create_book_row].
    - [Listing]: [BOOKS], the cache [_DEMO_COVER_CACHE], [all_books_ui],
      and the handlers that filter and order the listing: [home],
      [browse], [top_rated], [api_search_books], and the two small
      routes [genre_page] and [inject_globals].  The state [site] holds
      the log of requests, the cache, the [Book] table and the reviews.
    - [Reviews]: the handlers over the [Review] rows, on the state
      [site]: [book_details], [book_reviews], [add_review],
      [my_reviews] and [profile_page].  The rows of the [User] table are
      only read there and are a parameter, as are the user who is logged
      in and the instant of the request.
    - [Shelf]: the models [Favourite] and [History] with their
      instances of [Row], the endpoints [api_favourites_toggle],
      [api_favourites_list] and [api_history_add], which are the steps
      of a second transition system ([Shelf.shelf_step]), and the pages
      [favourites] and [history], which join the rows of a user with
      the [Book] table.
    - [Settings]: [get_pref], [set_pref], [LANGS] and the pages
      [privacy_settings], [notifications_settings], [theme_settings] and
      [language_settings] over the Flask session, a finite map from
      names to JSON values; the pages are the steps of a transition
      system ([Settings.submits]).
    - [Migrate]: what runs once when the module is loaded:
      [db.create_all()] and the two blocks that add missing columns
      with ALTER TABLE ([setup]), on the schema of the database file.
    - [Social]: the module-level lists [FOLLOWING] and [FOLLOWERS], the
      pages [following] and [followers], and the endpoints
      [api_following_toggle] and [api_followers_remove], which are the
      steps of a transition system ([Social.step]) over the two lists.
    - [Seeder]: [CURATED_SHELVES], [_ensure_seeded_curated] and the call
      made when the module is loaded ([startup]).  The state [world]
      holds the log of requests and the [Book] table.
    - [AddBook]: the form handler [add_book], over the same state.
    - [App]: the application as a whole.  The state of the process
      ([App.server]: the database, the cache, the social lists, the log,
      the terminal) is apart from what each browser holds
      ([App.browser]: the cookie and the preferences).  [App.route] is
      the route table, [App.handle] runs the handler of a route on the
      part of the state it touches, under [@login_required] where the
      source has it ([App.protected]); [App.respond] is one request of
      one browser, ended by the removal of the database session;
      [App.started] is the process started again on the database file
      and the folders it left, after [Config.configure], [Migrate.setup]
      and the seeding pass.  Requests and starts are the steps of the
      transition system [App.app_step]; [App.live] are the states of a
      process started on an empty file, [App.started_on] those of a
      process started on what an earlier run or version left.
    - [Sessions]: sequences of such steps as one browser sees them:
      [Sessions.quiet_step] is a step in which a given browser neither
      logs in nor out, [Sessions.user_at] the user whose cookie it
      holds.  The file adds no code of the source; its theorems are
      about [App.respond] over several requests.

    A handler is modelled up to what it passes to [render_template] or
    [jsonify]: its result is that value, and an exception stands for the
    response with status 500 that Flask makes of it.  The one exception
    that is not a failure of the code is [BadRequest], raised by
    [request.get_json(force=True)] on a body that is not a JSON
    document ([Flask.get_json]): Flask answers it with status 400 and a
    page of its own ([App.bad_body_social], [App.bad_body_shelves]).

    ** What is proved

    - Refinement of a function by its specification: the seeding pass
      against the list of missing curated pairs
      ([Seeder.ensure_seeded_spec]), [_ol_cover_url] against the choice
      of the first usable identifier ([Cover.ol_cover_url_refines]),
      [_time_ago] against a table of thresholds
      ([TimeAgo.time_ago_refines]), [all_books_ui] against the listing
      determined by the final state ([Listing.books_ui_spec]), the two
      look-ups against functions of the responses
      ([Matcher.best_match_run], [Description.description_run]), the
      page of a book against a function of the state the listing leaves
      ([Reviews.book_details_spec]).
    - Invariants: uniqueness of (title, author) and of primary keys in
      the [Book] table through [session_add], flush, [commit]
      ([Db.flush_wf], [Db.commit_ok]), [get_or_create_book_row],
      [add_book] and the seeding pass; the cache and the log only grow;
      in every reachable state of the social lists handles are distinct
      and followers are only ever removed ([Social.reachable_invariant],
      by induction on the steps), and every list of handles can be
      reached ([Social.reachable_following]); primary keys of the
      reviews stay distinct ([Reviews.add_review_wf]); in every
      reachable state of the favourites and the history no user has a
      book twice ([Shelf.reachable_shelves_wf]), so that a request is
      never refused by the constraint ([Shelf.reachable_failures]); in
      every state the account pages can reach, addresses and ids are
      distinct, addresses are stored stripped and in lower case, handles
      start with [@] and the cookie names a user of the table
      ([Accounts.attainable_accounts_ok]); every preference a settings
      page shows is one of its choices ([Settings.held_shows_choices]).
    - The application as a whole.  Every route is one step of one
      component or none ([App.handle_change], [App.respond_refines]),
      so the invariants of the components hold together in every state
      of a running process, with what ties them: every review,
      favourite and history row names a user of the table, and so does
      every cookie ([App.live_invariant]).  A request leaves the
      reviews, favourites and history of every user but the one of its
      cookie as they are ([App.respond_isolated]); a protected route
      asked without a cookie changes nothing
      ([App.protected_unauthorized]); a cookie is obtained by a login
      with a matching password or by the signup that creates the user,
      and in no other way ([App.cookie_needs_password]); once
      obtained it is kept, and names the same user, until the browser
      logs out, whatever other browsers ask and however often the
      process is started again ([Sessions.session_kept],
      [Sessions.login_opens], [Sessions.logout_closes]); a review that
      a user posts heads the page of the reviews of its book for every
      visitor, under the name of the user
      ([Sessions.review_published]).  Every JSON
      answer has the fields of its route ([App.respond_typed]); a
      process started on the database file of an earlier version starts
      and has every column of the models from then on, and every later
      start finds nothing to change ([App.upgrade_schema]); the cache of
      covers holds entries of
      demo books only, nine at most, and all nine once a listing has
      been returned ([App.live_cache], [App.listing_fills_cache]); no
      request waits for Open Library more than eleven times, and every
      call the process ever makes goes out under the name of the
      program with a time limit of 10 to 20 seconds
      ([App.respond_requests], [App.live_polite]).  The host of a call
      is fixed by the code except for the second call of the
      description look-up, whose address is built from the response
      ([Description.work_request_host]).
    - Files: [os.makedirs] fails exactly when a file is on the way, is
      idempotent and only adds directories ([Files.makedirs_spec],
      [Files.makedirs_idempotent]); loading the module creates the
      instance folder and takes the key from the environment or from
      the source ([Config.configure_spec], [Config.secret_key_fallback]).
    - The profile form with a picture: the picture is saved under the
      name [secure_filename] returns, in one folder for all users
      ([Profile.upload_saved]); a save that fails ends the request
      before the commit, so the text fields are lost
      ([Profile.upload_failure], [Profile.upload_empty_name]); when the
      handler answers, the accounts are those the handler without a
      picture leaves ([Profile.edit_profile_refines]); the picture is
      never shown ([Profile.avatar_not_shown]).
    - The set-up at import: it cannot fail on a file with lower-case
      column names, running it again changes nothing, and no column is
      lost ([Migrate.setup_spec], [Migrate.setup_idempotent],
      [Migrate.setup_keeps], [Migrate.setup_complete]).
    - Handlers branch by branch: [Accounts.signup_spec],
      [Accounts.login_spec], [Accounts.change_password_spec],
      [Accounts.edit_profile_spec], with the order of their guards and
      the state each branch leaves.
    - Round trip: a review that was accepted heads the page of the
      reviews of its book ([Reviews.add_review_listed]); a book that was
      viewed heads the history ([Shelf.history_add_front]); two toggles
      of a favourite cancel ([Shelf.favourites_toggle_twice]); who
      signed up can log in ([Accounts.signup_then_login]); a reset link
      is accepted within the hour and the new password then opens the
      account ([Accounts.reset_then_login]); a language that was chosen
      is the one shown ([Settings.language_settings_roundtrip]).
    - Idempotence: a second seeding pass, a second listing, a second
      [get_or_create_book_row] and a second [add_book] change nothing
      and send no request.
    - Error behaviour: exactly which responses make the matcher, the
      description look-up, the search proxy and the listing raise
      ([Matcher.select_best_is_Ok] and the theorems derived from it), and
      that a failed request never does.
    - Bounds: scores, the number of requests of each function, the
      length of a description, the count shown with each unit of time.
    - Ordering: [sorted(..., reverse=True)] is a stable sort
      ([Listing.sort_by_rating_spec]), and so is the order of the
      reviews ([Reviews.newest_first_spec]).
    - The search of the route /api/openlibrary against a specification
      written on the editions a response describes: which are listed,
      in which order and with which fields ([Search.api_openlibrary_lists]).
    - The start-up pass cannot reach its own threshold
      ([Seeder.startup_below_minimum]).
    - What the model fixes and the program does not depend on.  A
      JSON object is the list of its items here, a dict in Python: of
      two items with the same key [.get] sees the later one, as
      [json.loads] keeps it ([Json.assoc]); two
      values with the same items in another order are equivalent
      ([Json.same_items], written [≡]), [.get], truth and the score
      respect the equivalence ([Json.dict_get_proper],
      [Matcher.score_proper]), and two responses that list the same
      candidates have the same match
      ([Matcher.select_best_fields_order]).  The reviews are a list
      here, a table in SQL: the average of a title and the entries of
      the listing are the same for every order of the rows
      ([Listing.avg_rating_proper], [Listing.listing_of_reviews_order]).
    - Effects that are not meant: showing the page of a book inserts a
      row, after which the book is listed twice
      ([Reviews.book_details_lists_twice]); a rating that is not a
      number fails the request ([Reviews.add_review_bad_rating]).

    Each theorem that has hypotheses is applied to a concrete input by a
    lemma named after it with the suffix [_witness].

    ** Bounds of the model

    - A string is a sequence of bytes.  [strip] and [lower] are exact on
      ASCII text (white space 9-13 and 28-32, letters A-Z); other bytes
      are left as they are.  Lengths are counted in bytes, so the cut at
      600 of a description is exact for ASCII descriptions.
    - Ratings are rationals: the decimal written in the source, or the
      exact average of the ratings of the reviews.  Python computes with
      doubles; orders and comparisons agree except between averages
      that differ by less than a rounding error.
    - Instants are integers in microseconds.  [_time_ago] takes the
      value of [datetime.utcnow()] as a parameter, and a handler reads
      the clock once.  The conversion of an
      interval to seconds goes through a double in Python and is exact
      for intervals of less than 285 years.
    - The database assigns a new row the largest primary key in use plus
      one, which is what SQLite does for an INTEGER PRIMARY KEY.  Ids
      are unbounded integers: the 64 bits of an SQLite INTEGER, beyond
      which a query with an id from a request body fails in the
      driver, are not modelled.  Columns
      are never NULL in the model: the empty string stands for NULL where
      the code reads a column through [x or ""].  Where rows are
      ordered by a column and two rows agree on it, the model keeps them
      in insertion order; SQL leaves their order open.  A request is
      served alone: two sessions that interleave are not modelled, so
      the invariants are those of a single worker.
    - No definition needs fuel: every loop of the modelled code is over a
      finite list and every definition is structurally recursive.  What
      bounds the time of a request is the number of calls to Open
      Library, each with a time limit: [App.respond_requests].
    - The environment and the instance folder are those of one machine
      for the whole life of a process ([App.machine]): every start
      reads the same secret key and opens the same database file.
      What a start under another key does to the cookies the browsers
      hold is left to Flask and is not modelled.
    - A path is the sequence of its names; [.], [..], symbolic links and
      permissions are not modelled.  The assignments of [edit_profile]
      to the row of the user are applied with the commit: nothing reads
      the row in between, and a request that fails before the commit
      loses them when its session is discarded.

    - Every theorem on accounts holds for every implementation of
      [Crypto]; [Accounts.demo_crypto], which stores passwords in the
      clear and writes the instant of a token in unary, only serves to
      evaluate the handlers.  The instant of a request is in seconds
      there, and the salt that [generate_password_hash] draws is a
      parameter of the handler.

    ** What is not modelled

    The rendering of templates and the matching of a URL to its route
    (a request is given as the route and what it carries); the
    algorithms of
    password hashing and of signed tokens, which are libraries the
    source only calls (their contract is [Accounts.Crypto]); the [next]
    argument of the redirect of flask_login; the QR code image, made by
    a library ([Accounts.qr_profile] answers the URL it encodes); how
    [secure_filename] cleans a name (its contract is
    [Profile.Uploads]); the objects [Flask], [SQLAlchemy] and
    [LoginManager], and the dependence of signatures on the secret key
    ([Accounts.Crypto] is one implementation for one key); the rows of
    a table during a migration (the schema alone is modelled there);
    requests that interleave. *)

From Stdlib Require Import ZArith Lia.
From stdpp Require Import base tactics option list sets sorting strings.

#[local] Open Scope Z_scope.

Declare Scope py_scope.
Delimit Scope py_scope with py.

(** ** Exceptions and outcomes

    A Python call either returns a value or raises.  Only the exception
    classes that the modelled code can raise or catch are listed. *)

Inductive exn : Type :=
  | AttributeError   (* a method looked up on a value that lacks it *)
  | TypeError        (* iterating a non-iterable, indexing a scalar *)
  | ValueError       (* [max] of an empty sequence, [int] of a non-number *)
  | OverflowError    (* [int] of an infinite float *)
  | IntegrityError   (* a UNIQUE constraint refused by the database *)
  | OperationalError (* a statement refused by the database *)
  | OSError          (* a path that cannot be created or opened *)
  | URLError         (* any failure raised by [urlopen] / [json.loads] *)
  | BadRequest.      (* a request body that [request.get_json] cannot decode *)

Inductive outcome (A : Type) : Type :=
  | Ok (a : A)
  | Raise (e : exn).
Arguments Ok {A} a.
Arguments Raise {A} e.

#[export] Instance exn_eq_dec : EqDecision exn.
Proof. solve_decision. Defined.

#[export] Instance outcome_eq_dec `{EqDecision A} : EqDecision (outcome A).
Proof. solve_decision. Defined.

#[export] Instance Ok_inj {A} : Inj (=) (=) (@Ok A).
Proof. by intros x y [= ->]. Qed.

#[export] Instance outcome_ret : MRet outcome := @Ok.
#[export] Instance outcome_bind : MBind outcome :=
  λ A B f m, match m with Ok a => f a | Raise e => Raise e end.
#[export] Instance outcome_fmap : FMap outcome :=
  λ A B f m, match m with Ok a => Ok (f a) | Raise e => Raise e end.

Definition is_Ok {A} (o : outcome A) : bool :=
  match o with Ok _ => true | Raise _ => false end.

Definition from_outcome {A} (d : A) (o : outcome A) : A :=
  match o with Ok a => a | Raise _ => d end.

(** Two outcomes that agree up to [R]: the same exception, or values
    related by [R]. *)
Inductive outcome_rel {A} (R : relation A) : relation (outcome A) :=
  | Ok_rel a b : R a b → outcome_rel R (Ok a) (Ok b)
  | Raise_rel e : outcome_rel R (Raise e) (Raise e).

(** ** The state-and-exception monad

    [M S A] is a computation over a mutable state [S] that returns an [A]
    or raises.  The state reached when the exception was raised is kept,
    so that a caller can still see what was done before the failure. *)

Definition M (S A : Type) : Type := S → outcome A * S.

#[export] Instance M_ret {S} : MRet (M S) := λ A a s, (Ok a, s).
#[export] Instance M_bind {S} : MBind (M S) :=
  λ A B f m s, match m s with
               | (Ok a, s') => f a s'
               | (Raise e, s') => (Raise e, s')
               end.

Definition get {S} : M S S := λ s, (Ok s, s).
Definition gets {S A} (f : S → A) : M S A := λ s, (Ok (f s), s).
Definition put {S} (s : S) : M S unit := λ _, (Ok tt, s).
Definition modify {S} (f : S → S) : M S unit := λ s, (Ok tt, f s).
Definition raise {S A} (e : exn) : M S A := λ s, (Raise e, s).
Definition lift {S A} (o : outcome A) : M S A := λ s, (o, s).

(** [try: c except Exception: h] *)
Definition try_except {S A} (c : M S A) (h : exn → M S A) : M S A :=
  λ s, match c s with
       | (Ok a, s') => (Ok a, s')
       | (Raise e, s') => h e s'
       end.

(** Run a computation over a part of the state. *)
Definition zoom {S T A} (proj : S → T) (upd : T → S → S) (c : M T A) : M S A :=
  λ s, let '(r, t) := c (proj s) in (r, upd t s).

(** [keeps R c]: whatever its outcome, [c] leaves a state related by
    [R] to the one it found.  For a preorder [R] this is kept by every
    way the source composes computations, so that a fact of this kind
    about a handler follows the text of the handler. *)
Definition keeps {S A} (R : relation S) (c : M S A) : Prop := ∀ s, R s (c s).2.

(** A relation on a part of the state, as a relation on the state. *)
Definition via {S T} (proj : S → T) (R : relation T) : relation S :=
  λ s s', R (proj s) (proj s').

(** A [for x in l: body] loop whose body neither breaks nor returns. *)
Fixpoint for_each {S A} (l : list A) (body : A → M S unit) : M S unit :=
  match l with
  | [] => mret tt
  | x :: l' => body x ;; for_each l' body
  end.

(** [out = []; for x in l: out.append(f(x))] *)
Fixpoint mapM {S A B} (f : A → M S B) (l : list A) : M S (list B) :=
  match l with
  | [] => mret []
  | x :: l' => y ← f x; ys ← mapM f l'; mret (y :: ys)
  end.

(** [sorted(l, key=..., reverse=True)], [leb c b] telling that the key of
    [c] is at most the key of [b]: an item goes before the first item
    whose key is not greater, so that items of equal key keep their
    order. *)
Fixpoint insert_desc {A} (leb : A → A → bool) (b : A) (l : list A) : list A :=
  match l with
  | [] => [b]
  | c :: l' => if leb c b then b :: c :: l' else c :: insert_desc leb b l'
  end.

Definition sort_desc {A} (leb : A → A → bool) (l : list A) : list A :=
  foldr (insert_desc leb) [] l.

Definition run_value {S A} (c : M S A) (s : S) : outcome A := (c s).1.
Definition run_state {S A} (c : M S A) (s : S) : S := (c s).2.

(** ** Python's [max(l, key=f)]

    CPython walks the sequence once, calls [f] on every item in order and
    replaces the running maximum only when the new key is strictly
    greater: the first item of maximal key wins.  An exception raised by
    [f] ends the walk; an empty sequence raises [ValueError]. *)

Fixpoint max_loop {A} (key : A → outcome Z) (best : A) (kbest : Z) (l : list A)
  : outcome A :=
  match l with
  | [] => Ok best
  | x :: l' =>
      kx ← key x;
      if bool_decide (kbest < kx) then max_loop key x kx l'
      else max_loop key best kbest l'
  end.

Definition py_max_by {A} (key : A → outcome Z) (l : list A) : outcome A :=
  match l with
  | [] => Raise ValueError
  | x :: l' => kx ← key x; max_loop key x kx l'
  end.

(** The reference definition, for a key that cannot raise. *)
Fixpoint first_max_from {A} (k : A → Z) (best : A) (l : list A) : A :=
  match l with
  | [] => best
  | x :: l' =>
      if bool_decide (k best < k x) then first_max_from k x l'
      else first_max_from k best l'
  end.

Definition first_max {A} (k : A → Z) (l : list A) : option A :=
  match l with
  | [] => None
  | x :: l' => Some (first_max_from k x l')
  end.

(** [r] is the first item of maximal key of [l]. *)
Definition is_first_max {A} (k : A → Z) (l : list A) (r : A) : Prop :=
  ∃ l1 l2, l = l1 ++ r :: l2 ∧
           Forall (λ x, k x < k r) l1 ∧ Forall (λ x, k x ≤ k r) l2.

(** ** Proof automation *)

Create HintDb py discriminated.
Create Rewrite HintDb py.

Ltac monad_unfold :=
  unfold mbind, mret, fmap, M_bind, M_ret, outcome_bind, outcome_ret,
    outcome_fmap, get, gets, put, modify, raise, lift, try_except, zoom,
    run_value, run_state in *.

Ltac monad_simpl := monad_unfold; simpl in *.

(** Case analysis on the outcome or the test that blocks the goal. *)
Ltac case_outcome :=
  match goal with
  | |- context [match ?o with Ok _ => _ | Raise _ => _ end] =>
      let E := fresh "E" in destruct o eqn:E; simpl
  | |- context [match ?p with (_, _) => _ end] =>
      let E := fresh "E" in destruct p eqn:E; simpl
  | |- context [if ?b then _ else _] =>
      let E := fresh "E" in destruct b eqn:E; simpl
  end.

(** ** Laws of the monad, pointwise *)

Section monad_laws.
Context {S A B C : Type}.
Implicit Types (m : M S A) (f : A → M S B) (g : B → M S C) (s : S).

Lemma M_bind_ret_l a f s : (mret a ≫= f) s = f a s.
Proof. reflexivity. Qed.

Lemma M_bind_ret_r m s : (m ≫= mret) s = m s.
Proof. monad_unfold. by destruct (m s) as [[]]. Qed.

Lemma M_bind_assoc m f g s : ((m ≫= f) ≫= g) s = (m ≫= (λ a, f a ≫= g)) s.
Proof. monad_unfold. by destruct (m s) as [[]]. Qed.

Lemma zoom_run {T} (proj : S → T) (upd : T → S → S) (c : M T A) s :
  zoom proj upd c s = ((c (proj s)).1, upd (c (proj s)).2 s).
Proof. unfold zoom. by destruct (c (proj s)). Qed.

Lemma M_bind_ok m f s a s' : m s = (Ok a, s') → (m ≫= f) s = f a s'.
Proof. monad_unfold. by intros ->. Qed.

(** Two steps that succeed, followed by the rest. *)
Lemma M_seq_ok (m k : M S unit) (r : M S B) s s' :
  (m ;; k) s = (Ok tt, s') → (m ;; k ;; r) s = r s'.
Proof.
  unfold mbind, M_bind. destruct (m s) as [[[]|e] s1]; [|done].
  destruct (k s1) as [[[]|e] s2]; [|done]. by intros [= ->].
Qed.

(** Dropping the result of a step does not change the state it
    leaves. *)
Lemma M_then_tt_state m s : ((m ;; mret tt) s).2 = (m s).2.
Proof. unfold mbind, M_bind. by destruct (m s) as [[]]. Qed.

(** A step and the rest, for either outcome of the step. *)
Lemma M_bind_run m f s :
  (m ≫= f) s = match (m s).1 with Ok a => f a (m s).2 | Raise e => (Raise e, (m s).2) end.
Proof. monad_unfold. by destruct (m s) as [[]]. Qed.

Lemma M_bind_raise m f s e s' :
  m s = (Raise e, s') → (m ≫= f) s = (Raise e, s').
Proof. monad_unfold. by intros ->. Qed.
End monad_laws.

#[export] Hint Rewrite @M_bind_ret_l @M_bind_ret_r @M_bind_assoc : py.

Section for_each.
Context {S A : Type}.
Implicit Types (l : list A) (body : A → M S unit) (s : S).

Lemma for_each_nil body s : for_each [] body s = (Ok tt, s).
Proof. reflexivity. Qed.

Lemma for_each_cons x l body s :
  for_each (x :: l) body s = (body x ;; for_each l body) s.
Proof. reflexivity. Qed.

(** One turn of the loop: an exception of the body ends it. *)
Lemma for_each_cons_run x l body s :
  for_each (x :: l) body s =
    match (body x s).1 with
    | Ok _ => for_each l body (body x s).2
    | Raise e => (Raise e, (body x s).2)
    end.
Proof. rewrite for_each_cons. monad_unfold. by destruct (body x s) as [[[]|e] s1]. Qed.

Lemma for_each_app l1 l2 body s :
  for_each (l1 ++ l2) body s = (for_each l1 body ;; for_each l2 body) s.
Proof.
  revert s; induction l1 as [|x l1 IH]; intros s; [reflexivity|].
  simpl; monad_unfold. destruct (body x s) as [[[]|e] s1]; [|done]. apply IH.
Qed.

(** An invariant kept by every iteration is kept by the loop, whether
    it ends normally or by an exception. *)
Lemma for_each_invariant (I : S → Prop) l body :
  (∀ x s, x ∈ l → I s → I (body x s).2) →
  ∀ s, I s → I (for_each l body s).2.
Proof.
  induction l as [|x l IH]; intros Hb s Hs; [done|].
  simpl; monad_unfold.
  pose proof (Hb x s (list_elem_of_here _ _) Hs) as H1.
  destruct (body x s) as [[[]|e] s1]; simpl in *; [|done].
  apply IH; [|done]. intros y t Hy. apply Hb. by apply list_elem_of_further.
Qed.
(** A loop nested in a loop is one loop over the flattened sequence. *)
Lemma for_each_bind {B} (f : B → list A) (l : list B) body s :
  for_each l (λ x, for_each (f x) body) s = for_each (l ≫= f) body s.
Proof.
  revert s; induction l as [|x l IH]; intros s; [done|].
  change ((x :: l) ≫= f) with (f x ++ (l ≫= f)). rewrite for_each_app.
  simpl; monad_unfold. destruct (for_each (f x) body s) as [[[]|e] s1]; [|done].
  apply IH.
Qed.
End for_each.

(** ** Lists *)

(** ** Loops that collect *)

Section mapM.
Context {S A B : Type}.
Implicit Types (f : A → M S B) (l : list A) (s : S).

Lemma mapM_cons f x l s :
  mapM f (x :: l) s =
    match f x s with
    | (Ok y, s1) => match mapM f l s1 with
                    | (Ok ys, s2) => (Ok (y :: ys), s2)
                    | (Raise e, s2) => (Raise e, s2)
                    end
    | (Raise e, s1) => (Raise e, s1)
    end.
Proof. simpl. monad_unfold. destruct (f x s) as [[y|e] s1]; [|done]. by destruct (mapM f l s1) as [[]]. Qed.

(** A property of the state kept by every step is kept by the loop. *)
Lemma mapM_invariant (P : S → Prop) f l s :
  (∀ x s, x ∈ l → P s → P (f x s).2) → P s → P (mapM f l s).2.
Proof.
  revert s. induction l as [|x l IH]; intros s Hf Hs; [done|]. rewrite mapM_cons.
  pose proof (Hf x s ltac:(set_solver) Hs) as H1.
  destruct (f x s) as [[y|e] s1]; simpl in *; [|done].
  pose proof (IH s1 ltac:(set_solver) H1) as H2.
  by destruct (mapM f l s1) as [[ys|e] s2].
Qed.

Lemma mapM_length f l s ys s' : mapM f l s = (Ok ys, s') → length ys = length l.
Proof.
  revert s ys. induction l as [|x l IH]; intros s ys; [by intros [= <- _]|].
  rewrite mapM_cons. destruct (f x s) as [[y|e] s1]; [|done].
  destruct (mapM f l s1) as [[zs|e] s2] eqn:E; [|done].
  intros [= <- <-]. simpl. f_equal. eauto.
Qed.

(** Steps that return without touching the state make a plain map. *)
Lemma mapM_pure (g : A → B) f l s :
  (∀ x, x ∈ l → f x s = (Ok (g x), s)) → mapM f l s = (Ok (g <$> l), s).
Proof.
  induction l as [|x l IH]; intros Hf; [done|]. rewrite mapM_cons.
  rewrite Hf by set_solver. rewrite IH; [done|]. intros y Hy. apply Hf. set_solver.
Qed.

End mapM.

(** A pair is known once its first component is. *)
Lemma pair_eq_fst {A B} (p : A * B) (a : A) : p.1 = a → p = (a, p.2).
Proof. destruct p. by intros <-. Qed.

Lemma forallb_ext {A} (f g : A → bool) (l : list A) :
  (∀ x, f x = g x) → forallb f l = forallb g l.
Proof. intros Hfg. induction l as [|x l IH]; simpl; by rewrite ?Hfg, ?IH. Qed.

Lemma find_app {A} (p : A → bool) (l1 l2 : list A) :
  List.find p (l1 ++ l2) =
    match List.find p l1 with Some x => Some x | None => List.find p l2 end.
Proof. induction l1 as [|x l1 IH]; simpl; [done|]. by destruct (p x). Qed.

Lemma omap_cons {A B} (f : A → option B) (x : A) (l : list A) :
  omap f (x :: l) = option_list (f x) ++ omap f l.
Proof. simpl. by destruct (f x). Qed.

Lemma omap_length_le {A B} (f : A → option B) (l : list A) :
  (length (omap f l) ≤ length l)%nat.
Proof.
  induction l as [|x l IH]; [done|]. rewrite omap_cons, length_app.
  destruct (f x); simpl; lia.
Qed.

(** [l.pop(i)] removes the only occurrence of an item of a list without
    duplicates. *)
Lemma NoDup_delete_lookup {A} (l : list A) i x :
  NoDup l → l !! i = Some x → x ∉ delete i l.
Proof.
  intros Hnd Hi. rewrite <- (take_drop_middle l i x Hi) in Hnd.
  apply NoDup_app in Hnd as (_ & H1 & [H2 _]%NoDup_cons).
  rewrite delete_take_drop. intros [?|?]%elem_of_app; [|done].
  eapply H1; [done|]. by left.
Qed.

Lemma delete_snoc {A} (l : list A) x : delete (length l) (l ++ [x]) = l.
Proof. by rewrite delete_middle, app_nil_r. Qed.

(** Sortedness survives taking a sublist: [filter], [l[:n]]. *)
Lemma Forall_sublist {A} (P : A → Prop) l1 l2 :
  l1 `sublist_of` l2 → Forall P l2 → Forall P l1.
Proof.
  induction 1 as [|x l1 l2 _ IH|x l1 l2 _ IH]; [done|..];
    intros [? ?]%Forall_cons; [constructor|]; auto.
Qed.

Lemma StronglySorted_sublist {A} (R : relation A) l1 l2 :
  l1 `sublist_of` l2 → StronglySorted R l2 → StronglySorted R l1.
Proof.
  induction 1 as [|x l1 l2 Hs IH|x l1 l2 _ IH]; [done|..];
    intros [? ?]%StronglySorted_inv; [|by auto].
  constructor; [by auto|]. by eapply Forall_sublist.
Qed.

Lemma StronglySorted_impl {A} (R1 R2 : relation A) l :
  (∀ x y, R1 x y → R2 x y) → StronglySorted R1 l → StronglySorted R2 l.
Proof.
  intros HR. induction 1 as [|x l _ IH Hx]; constructor; [done|].
  eapply Forall_impl; [exact Hx|]. apply HR.
Qed.

Lemma StronglySorted_filter {A} (R : relation A) (P : A → Prop) `{∀ x, Decision (P x)} l :
  StronglySorted R l → StronglySorted R (filter P l).
Proof. apply StronglySorted_sublist, sublist_filter. Qed.

Lemma StronglySorted_take {A} (R : relation A) n l :
  StronglySorted R l → StronglySorted R (take n l).
Proof. apply StronglySorted_sublist, sublist_take. Qed.

(** Where the images of the items of a list are distinct, an item is
    known by its image. *)
Lemma NoDup_fmap_inj_on {A B} (g : A → B) (l : list A) x y :
  NoDup (g <$> l) → x ∈ l → y ∈ l → g x = g y → x = y.
Proof.
  induction l as [|a l IH]; [by intros _ ?%elem_of_nil|].
  rewrite fmap_cons, NoDup_cons, list_elem_of_fmap.
  intros [Ha Hl] [->|Hx]%elem_of_cons [->|Hy]%elem_of_cons Hg; [done|..|by apply IH].
  - destruct Ha. by exists y.
  - destruct Ha. by exists x.
Qed.

(** Filters that agree on a list. *)
Lemma filter_filter_implied {A} (P Q : A → Prop) `{∀ x, Decision (P x), ∀ x, Decision (Q x)}
    (l : list A) :
  (∀ x, x ∈ l → P x → Q x) → filter P (filter Q l) = filter P l.
Proof.
  induction l as [|a l IH]; intros Hl; [done|].
  rewrite (filter_cons Q), (filter_cons P). destruct (decide (Q a)) as [Hq|Hq].
  - rewrite filter_cons, IH; [done|]. intros x Hx. apply Hl. by right.
  - rewrite IH by (intros x Hx; apply Hl; by right).
    destruct (decide (P a)) as [Hp|]; [|done]. destruct Hq. apply Hl; [by left|done].
Qed.

(** A map that fixes the items a filter keeps, before or after. *)
Lemma filter_fmap_fixed {A} (P : A → Prop) `{∀ x, Decision (P x)} (g : A → A) (l : list A) :
  (∀ x, x ∈ l → P x ∨ P (g x) → g x = x) → filter P (g <$> l) = filter P l.
Proof.
  induction l as [|a l IH]; intros Hl; [done|].
  rewrite fmap_cons, !filter_cons, IH by (intros x Hx; apply Hl; by right).
  destruct (decide (P (g a))) as [Hg|Hg], (decide (P a)) as [Hp|Hp]; try done;
    assert (g a = a) as Ha by (apply Hl; [by left|tauto]); congruence.
Qed.

(** A sum does not depend on the order of its terms. *)
#[export] Instance foldr_add_Permutation : Proper ((≡ₚ) ==> (=)) (foldr Z.add 0).
Proof. induction 1; simpl; lia. Qed.

Lemma filter_snoc_not {A} (P : A → Prop) `{∀ x, Decision (P x)} (l : list A) x :
  ¬ P x → filter P (l ++ [x]) = filter P l.
Proof. intros Hx. by rewrite filter_app, filter_cons, decide_False, app_nil_r. Qed.

Lemma NoDup_omap_inj_on {A B} (g : A → option B) (l : list A) x y k :
  NoDup (omap g l) → x ∈ l → y ∈ l → g x = Some k → g y = Some k → x = y.
Proof.
  induction l as [|a l IH]; [by intros _ ?%elem_of_nil|]. rewrite omap_cons.
  intros Hn [->|Hx]%elem_of_cons [->|Hy]%elem_of_cons Hgx Hgy; [done|..].
  - rewrite Hgx in Hn. apply NoDup_cons in Hn as [Hk _]. destruct Hk.
    apply list_elem_of_omap. by exists y.
  - rewrite Hgy in Hn. apply NoDup_cons in Hn as [Hk _]. destruct Hk.
    apply list_elem_of_omap. by exists x.
  - apply IH; [|done..]. by apply NoDup_app in Hn as (_ & _ & ?).
Qed.

(** ** What every run of a computation keeps *)

Section keeps.
Context {S : Type} (R : relation S) `{!PreOrder R}.

Lemma keeps_ret {A} (a : A) : keeps R (mret a).
Proof. by intros s. Qed.

Lemma keeps_bind {A B} (m : M S A) (f : A → M S B) :
  keeps R m → (∀ a, keeps R (f a)) → keeps R (m ≫= f).
Proof.
  intros Hm Hf s. rewrite M_bind_run. specialize (Hm s).
  destruct (m s).1 as [a|e]; [|done]. etrans; [done|apply Hf].
Qed.

Lemma keeps_get : keeps R get.
Proof. by intros s. Qed.

Lemma keeps_gets {A} (f : S → A) : keeps R (gets f).
Proof. by intros s. Qed.

Lemma keeps_raise {A} e : keeps R (raise (A := A) e).
Proof. by intros s. Qed.

Lemma keeps_lift {A} (o : outcome A) : keeps R (lift o).
Proof. by intros s. Qed.

Lemma keeps_modify f : (∀ s, R s (f s)) → keeps R (modify f).
Proof. intros Hf s. apply Hf. Qed.

Lemma keeps_try_except {A} (c : M S A) h :
  keeps R c → (∀ e, keeps R (h e)) → keeps R (try_except c h).
Proof.
  intros Hc Hh s. unfold try_except. specialize (Hc s).
  destruct (c s) as [[a|e] s1]; [done|]. etrans; [done|apply Hh].
Qed.

Lemma keeps_for_each {A} (l : list A) body :
  (∀ x, x ∈ l → keeps R (body x)) → keeps R (for_each l body).
Proof.
  intros Hb s. apply (for_each_invariant (R s)); [|done].
  intros x s1 Hx Hs1. etrans; [done|by apply Hb].
Qed.

Lemma keeps_mapM {A B} (f : A → M S B) l :
  (∀ x, x ∈ l → keeps R (f x)) → keeps R (mapM f l).
Proof.
  intros Hf s. apply (mapM_invariant (R s)); [|done].
  intros x s1 Hx Hs1. etrans; [done|by apply Hf].
Qed.

End keeps.

(** A computation on a part of the state keeps what the part is related
    by, when writing the part back respects it; and keeps whatever the
    write does not touch. *)
Lemma keeps_zoom {S T A} (RS : relation S) (RT : relation T) (proj : S → T) upd (c : M T A) :
  (∀ s t, RT (proj s) t → RS s (upd t s)) → keeps RT c → keeps RS (zoom proj upd c).
Proof. intros Hu Hc s. rewrite zoom_run. apply Hu, Hc. Qed.

Lemma keeps_zoom_frame {S T A} (RS : relation S) (proj : S → T) upd (c : M T A) :
  (∀ s t, RS s (upd t s)) → keeps RS (zoom proj upd c).
Proof. intros Hu s. rewrite zoom_run. apply Hu. Qed.

#[export] Instance via_preorder {S T} (proj : S → T) (R : relation T) `{!PreOrder R} :
  PreOrder (via proj R).
Proof.
  split; [intros s; unfold via; reflexivity|]. intros s1 s2 s3. unfold via. apply transitivity.
Qed.

Create HintDb keeps discriminated.
#[export] Hint Resolve keeps_ret keeps_get keeps_gets keeps_raise keeps_lift : keeps.

(** One step along the text of a computation. *)
Ltac keeps_step :=
  first [ apply keeps_bind; [apply _| |intros ?]
        | apply keeps_try_except; [apply _| |intros ?]
        | apply keeps_for_each; [apply _|intros ? _]
        | apply keeps_modify; intros ?; unfold via; simpl; reflexivity
        | apply keeps_mapM; [apply _|intros ? _]
        | solve [eauto with keeps typeclass_instances]
        | match goal with
          | |- keeps _ (match ?x with _ => _ end) => destruct x
          | |- keeps _ (let _ := _ in _) => cbv zeta
          end ].

Ltac solve_keeps := repeat keeps_step.

(** ** Sorting in descending order *)

Section sort_desc.
Context {A : Type} (leb : A → A → bool).
Implicit Types (a b c : A) (l : list A).

Lemma insert_desc_perm b l : insert_desc leb b l ≡ₚ b :: l.
Proof.
  induction l as [|c l IH]; simpl; [done|].
  destruct (leb c b); [done|]. by rewrite IH, Permutation_swap.
Qed.

Lemma sort_desc_perm l : sort_desc leb l ≡ₚ l.
Proof. induction l as [|b l IH]; simpl; [done|]. by rewrite insert_desc_perm, IH. Qed.

Lemma sort_desc_length l : length (sort_desc leb l) = length l.
Proof. by rewrite sort_desc_perm. Qed.

Lemma sort_desc_elem_of a l : a ∈ sort_desc leb l ↔ a ∈ l.
Proof. by rewrite sort_desc_perm. Qed.

(** For an order that is total and transitive the result is sorted. *)
Section sorted.
Hypothesis leb_total : ∀ a b, leb a b = false → leb b a = true.
Hypothesis leb_trans : ∀ a b c, leb a b = true → leb b c = true → leb a c = true.

Lemma insert_desc_sorted b l :
  StronglySorted (λ x y, leb y x = true) l →
  StronglySorted (λ x y, leb y x = true) (insert_desc leb b l).
Proof.
  induction 1 as [|c l Hl IH Hc]; simpl; [by repeat constructor|].
  destruct (leb c b) eqn:E.
  - constructor; [by constructor|]. constructor; [done|].
    eapply Forall_impl; [exact Hc|]. simpl. intros x Hx. by eapply leb_trans.
  - constructor; [done|]. rewrite insert_desc_perm. constructor; [by apply leb_total|done].
Qed.

Lemma sort_desc_sorted l : StronglySorted (λ x y, leb y x = true) (sort_desc leb l).
Proof. induction l as [|b l IH]; simpl; [constructor|]. by apply insert_desc_sorted. Qed.

(** An item that is greater than every other item is the first. *)
Lemma sort_desc_head_max x l :
  x ∈ l → (∀ a, a ∈ l → leb x a = true → a = x) → head (sort_desc leb l) = Some x.
Proof.
  intros Hx Hmax. pose proof (sort_desc_sorted l) as Hs.
  apply sort_desc_elem_of in Hx. setoid_rewrite <- sort_desc_elem_of in Hmax.
  destruct (sort_desc leb l) as [|h t]; [by apply elem_of_nil in Hx|]. simpl.
  apply StronglySorted_inv in Hs as [_ Hh]. apply elem_of_cons in Hx as [->|Hx]; [done|].
  rewrite Forall_forall in Hh. f_equal. apply Hmax; [left|by apply Hh].
Qed.

End sorted.

(** Stability: the items of a class whose members are all equal under
    the order keep their order. *)
Lemma insert_desc_filter (P : A → Prop) `{∀ x, Decision (P x)} b l :
  (∀ x y, P x → P y → leb x y = true) →
  filter P (insert_desc leb b l) = filter P (b :: l).
Proof.
  intros HP. induction l as [|c l IH]; simpl; [done|]. destruct (leb c b) eqn:E; [done|].
  rewrite filter_cons, IH, !filter_cons.
  destruct (decide (P c)) as [Hc|]; [|done].
  destruct (decide (P b)) as [Hb|]; [|done]. by rewrite HP in E.
Qed.

Lemma sort_desc_filter (P : A → Prop) `{∀ x, Decision (P x)} l :
  (∀ x y, P x → P y → leb x y = true) →
  filter P (sort_desc leb l) = filter P l.
Proof.
  intros HP. induction l as [|b l IH]; simpl; [done|].
  by rewrite insert_desc_filter, !filter_cons, IH.
Qed.

(** An item that is greater than all the others and comes last is put
    first. *)
Lemma sort_desc_snoc_max x l :
  Forall (λ a, leb x a = false) l → sort_desc leb (l ++ [x]) = x :: sort_desc leb l.
Proof.
  induction 1 as [|a l Ha _ IH]; simpl; [done|]. by rewrite IH; simpl; rewrite Ha.
Qed.

End sort_desc.

(** ** Lemmas on [max(l, key=f)] *)

Section py_max.
Context {A : Type}.

Section pure_key.
Context (k : A → Z).

Lemma first_max_from_ge b l : k b ≤ k (first_max_from k b l).
Proof.
  revert b; induction l as [|x l IH]; intros b; simpl; [lia|].
  case_bool_decide; [|done]. specialize (IH x). lia.
Qed.

Lemma first_max_from_spec b l :
  is_first_max k (b :: l) (first_max_from k b l).
Proof.
  revert b; induction l as [|x l IH]; intros b; simpl.
  { exists [], []. by repeat constructor. }
  case_bool_decide as Hlt.
  - destruct (IH x) as (l1 & l2 & Heq & H1 & H2).
    exists (b :: l1), l2. rewrite Heq. split_and!; [done| |done].
    constructor; [|done]. pose proof (first_max_from_ge x l). lia.
  - pose proof (first_max_from_ge b l) as Hge.
    destruct (IH b) as (l1 & l2 & Heq & H1 & H2).
    revert Hge Heq H1 H2. generalize (first_max_from k b l) as r.
    intros r Hge Heq H1 H2. destruct l1 as [|b' l1]; simplify_eq/=.
    + exists [], (x :: l2). split_and!; [done..|].
      constructor; [lia|done].
    + exists (b' :: x :: l1), l2.
      apply Forall_cons in H1 as [Hb H1].
      split_and!; [done| |done]. repeat constructor; [done|lia|done].
Qed.

Lemma first_max_spec l r : first_max k l = Some r → is_first_max k l r.
Proof.
  destruct l as [|x l]; intros [= <-]. apply first_max_from_spec.
Qed.

Lemma is_first_max_elem l r : is_first_max k l r → r ∈ l.
Proof. intros (l1 & l2 & -> & _). set_solver. Qed.

Lemma is_first_max_ge l r x : is_first_max k l r → x ∈ l → k x ≤ k r.
Proof.
  intros (l1 & l2 & -> & H1 & H2) Hx.
  rewrite Forall_forall in H1, H2.
  apply elem_of_app in Hx as [Hx|Hx]; [apply H1 in Hx; lia|].
  apply elem_of_cons in Hx as [->|Hx]; [lia|by apply H2].
Qed.

(** The first maximum is unique: the selection rule is deterministic. *)
Lemma is_first_max_unique l r r' l1 l2 l1' l2' :
  l = l1 ++ r :: l2 → Forall (λ x, k x < k r) l1 →
  Forall (λ x, k x ≤ k r) l2 →
  l = l1' ++ r' :: l2' → Forall (λ x, k x < k r') l1' →
  Forall (λ x, k x ≤ k r') l2' →
  l1 = l1' ∧ r = r'.
Proof.
  intros -> H1 H2 Heq H1' H2'. revert l1' Heq H1'.
  induction l1 as [|a l1 IH]; intros [|a' l1'] Heq H1'; simpl in Heq.
  - by injection Heq as ->.
  - injection Heq as Hr Hl; subst. apply Forall_cons in H1' as [Ha _].
    rewrite Forall_forall in H2. pose proof (H2 r' ltac:(set_solver)). lia.
  - injection Heq as Hr Hl; subst. apply Forall_cons in H1 as [Ha _].
    rewrite Forall_forall in H2'. pose proof (H2' r ltac:(set_solver)). lia.
  - injection Heq as -> Heq.
    apply Forall_cons in H1 as [_ H1]. apply Forall_cons in H1' as [_ H1'].
    by destruct (IH H1 l1' Heq H1') as [-> ->].
Qed.
End pure_key.

Section raising_key.
Context (key : A → outcome Z).
Let k (x : A) : Z := from_outcome 0 (key x).

Lemma max_loop_ok b l :
  Forall (λ x, is_Ok (key x)) l →
  max_loop key b (k b) l = Ok (first_max_from k b l).
Proof.
  revert b; induction l as [|x l IH]; intros b Hl; simpl; [done|].
  apply Forall_cons in Hl as [Hx Hl]. subst k; simpl in *.
  destruct (key x) as [kx|] eqn:E; [simpl|done].
  case_bool_decide.
  - specialize (IH x Hl). by rewrite E in IH.
  - by apply IH.
Qed.

(** Refinement of the loop by the reference definition. *)
Lemma py_max_by_ok l :
  Forall (λ x, is_Ok (key x)) l →
  py_max_by key l = from_option Ok (Raise ValueError) (first_max k l).
Proof.
  destruct l as [|x l]; [done|]. intros [Hx Hl]%Forall_cons. simpl.
  pose proof (max_loop_ok x l Hl) as H. subst k; simpl in *.
  by destruct (key x).
Qed.

Lemma max_loop_raise b kb l1 x l2 e :
  Forall (λ y, is_Ok (key y)) l1 → key x = Raise e →
  max_loop key b kb (l1 ++ x :: l2) = Raise e.
Proof.
  revert b kb; induction l1 as [|y l1 IH]; intros b kb Hl Hx; simpl.
  { by rewrite Hx. }
  apply Forall_cons in Hl as [Hy Hl].
  destruct (key y); [simpl|done]. case_bool_decide; by apply IH.
Qed.

(** The exception of the first failing key is the one that escapes. *)
Lemma py_max_by_raise l1 x l2 e :
  Forall (λ y, is_Ok (key y)) l1 → key x = Raise e →
  py_max_by key (l1 ++ x :: l2) = Raise e.
Proof.
  destruct l1 as [|y l1]; simpl; intros Hl Hx; [by rewrite Hx|].
  apply Forall_cons in Hl as [Hy Hl].
  destruct (key y); [simpl|done]. by apply max_loop_raise.
Qed.

Lemma max_loop_inv b kb l r :
  max_loop key b kb l = Ok r → Forall (λ x, is_Ok (key x)) l.
Proof.
  revert b kb; induction l as [|x l IH]; intros b kb; simpl; [done|].
  destruct (key x) eqn:E; simpl; [|done].
  case_bool_decide; intros ?%IH; constructor; by rewrite ?E.
Qed.

Lemma py_max_by_inv l r :
  py_max_by key l = Ok r →
  Forall (λ x, is_Ok (key x)) l ∧ is_first_max k l r.
Proof.
  intros Hr. assert (Forall (λ x, is_Ok (key x)) l) as Hl.
  { destruct l as [|x l]; [done|]. simpl in Hr.
    destruct (key x) eqn:E; [simpl in Hr|done].
    constructor; [by rewrite E|by eapply max_loop_inv]. }
  split; [done|]. rewrite py_max_by_ok in Hr by done.
  destruct (first_max k l) eqn:E; simplify_eq/=. by apply first_max_spec.
Qed.
Lemma py_max_by_elem l r : py_max_by key l = Ok r → r ∈ l.
Proof. intros [_ Hr]%py_max_by_inv. by eapply is_first_max_elem. Qed.

(** The selection returns exactly when the sequence is not empty and no
    key raises. *)
Lemma py_max_by_is_Ok l :
  is_Ok (py_max_by key l) = bool_decide (l ≠ []) && forallb (λ x, is_Ok (key x)) l.
Proof.
  destruct l as [|x l]; [done|]. rewrite bool_decide_eq_true_2 by done.
  destruct (forallb _ (x :: l)) eqn:E.
  - rewrite forallb_forall in E.
    rewrite py_max_by_ok; [done|]. apply Forall_forall. intros y Hy.
    by apply Is_true_true, E, list_elem_of_In.
  - destruct (py_max_by key (x :: l)) eqn:Er; [|done].
    apply py_max_by_inv in Er as [Hl _].
    assert (forallb (λ x, is_Ok (key x)) (x :: l) = true); [|congruence].
    apply forallb_forall. intros y Hy%list_elem_of_In.
    rewrite Forall_forall in Hl. by apply Is_true_true, Hl.
Qed.
End raising_key.
End py_max.

(** *** Keys that respect a relation

    When the key cannot tell two related items apart, [max] over two
    sequences of related items picks related items: the same position
    wins, or the same exception escapes. *)

Section related_keys.
Context {A : Type} (R : relation A) (key : A → outcome Z).
Context (key_proper : Proper (R ==> eq) key).

#[export] Instance outcome_rel_refl `{!Reflexive R} : Reflexive (outcome_rel R).
Proof. intros [a|e]; by constructor. Qed.

Lemma outcome_rel_bind {B} (R' : relation B) (f g : A → outcome B) m m' :
  outcome_rel R m m' → (∀ a b, R a b → outcome_rel R' (f a) (g b)) →
  outcome_rel R' (m ≫= f) (m' ≫= g).
Proof. intros [a b Hab|e] Hf; [by apply Hf|constructor]. Qed.

Lemma max_loop_proper b b' kb l l' :
  R b b' → Forall2 R l l' → outcome_rel R (max_loop key b kb l) (max_loop key b' kb l').
Proof.
  intros Hb Hl. revert b b' kb Hb.
  induction Hl as [|x x' l l' Hx Hl IH]; intros b b' kb Hb; simpl; [by constructor|].
  rewrite <- (key_proper _ _ Hx). destruct (key x) as [kx|e]; simpl; [|constructor].
  case_bool_decide; by apply IH.
Qed.

Lemma py_max_by_related l l' :
  Forall2 R l l' → outcome_rel R (py_max_by key l) (py_max_by key l').
Proof.
  intros [|x x' l1 l1' Hx Hl]; simpl; [constructor|].
  rewrite <- (key_proper _ _ Hx). destruct (key x); simpl; [by apply max_loop_proper|constructor].
Qed.

#[export] Instance py_max_by_proper : Proper (Forall2 R ==> outcome_rel R) (py_max_by key).
Proof. intros l l'. apply py_max_by_related. Qed.

End related_keys.

Lemma outcome_rel_eq {A} (m m' : outcome A) : outcome_rel (=) m m' ↔ m = m'.
Proof. split; [by intros [a b ->|e]|intros ->; reflexivity]. Qed.
