(* ===== verification/PyStr.v ===== *)
(** * PyStr: the operations of Python's [str] that the program uses

    [strip], [lower], [title], the substring test [in], [startswith],
    slices, [rsplit], [lstrip] and [replace] of a character, truth value,
    [x or d] and [str(int)].  A Python string is modelled by a Rocq
    [string]; [strip] and [lower] act on the ASCII range (white space
    9-13, 28-32; letters A-Z) and leave every other byte unchanged. *)

From Stdlib Require Import ZArith NArith Lia Ascii String DecimalString.
From stdpp Require Import base tactics list strings.
From S2P Require Import Prelude.

#[local] Open Scope string_scope.

(** ** Definitions *)

(** [c.isspace()] on the ASCII range. *)
Definition is_space (c : ascii) : bool :=
  let n := N_of_ascii c in
  ((9 <=? n) && (n <=? 13) || (28 <=? n) && (n <=? 32))%N.

(** [c.lower()] on the ASCII range. *)
Definition lower_char (c : ascii) : ascii :=
  let n := N_of_ascii c in
  if ((65 <=? n) && (n <=? 90))%N then ascii_of_N (n + 32) else c.

(** [s.lower()] *)
Fixpoint lower (s : string) : string :=
  match s with
  | EmptyString => EmptyString
  | String c s' => String (lower_char c) (lower s')
  end.

(** [s.lstrip()] *)
Fixpoint lstrip (s : string) : string :=
  match s with
  | EmptyString => EmptyString
  | String c s' => if is_space c then lstrip s' else s
  end.

(** [s.rstrip()] *)
Fixpoint rstrip (s : string) : string :=
  match s with
  | EmptyString => EmptyString
  | String c s' =>
      match rstrip s' with
      | EmptyString => if is_space c then EmptyString else String c EmptyString
      | r => String c r
      end
  end.

(** [s.strip()] *)
Definition strip (s : string) : string := rstrip (lstrip s).

(** [bool(s)]: a string is true when it is not empty. *)
Definition truthy (s : string) : bool :=
  match s with EmptyString => false | String _ _ => true end.

(** [s or d] on strings. *)
Definition str_or (s d : string) : string := if truthy s then s else d.

(** [s.startswith(p)] *)
Fixpoint startswith (s p : string) {struct p} : bool :=
  match p, s with
  | EmptyString, _ => true
  | String a p', String b s' => bool_decide (a = b) && startswith s' p'
  | String _ _, EmptyString => false
  end.

(** [needle in hay] *)
Fixpoint contains (needle hay : string) : bool :=
  startswith hay needle ||
  match hay with
  | EmptyString => false
  | String _ hay' => contains needle hay'
  end.

(** [str(z)] for an [int]. *)
Definition str_of_int (z : Z) : string := NilZero.string_of_int (Z.to_int z).

(** Every character of [s] is white space: [s.strip()] is empty. *)
Fixpoint blank (s : string) : bool :=
  match s with
  | EmptyString => true
  | String c s' => is_space c && blank s'
  end.

(** A string is [trimmed] when neither end is white space. *)
Definition head_space (s : string) : bool :=
  match s with EmptyString => false | String c _ => is_space c end.

Fixpoint last_space (s : string) : bool :=
  match s with
  | EmptyString => false
  | String c EmptyString => is_space c
  | String _ s' => last_space s'
  end.

Definition trimmed (s : string) : bool := negb (head_space s) && negb (last_space s).

(** [s[:n]] *)
Definition str_take (n : nat) (s : string) : string := substring 0 n s.

(** The part of [s] before its last space, if it has one. *)
Fixpoint before_last_space (s : string) : option string :=
  match s with
  | EmptyString => None
  | String c s' =>
      match before_last_space s' with
      | Some r => Some (String c r)
      | None => if bool_decide (c = " "%char) then Some EmptyString else None
      end
  end.

(** [s.rsplit(" ", 1)[0]]: [s] itself when it has no space. *)
Definition rsplit_head (s : string) : string := default s (before_last_space s).

(** [c.upper()] on the ASCII range. *)
Definition upper_char (c : ascii) : ascii :=
  let n := N_of_ascii c in
  if ((97 <=? n) && (n <=? 122))%N then ascii_of_N (n - 32) else c.

(** A cased character: an ASCII letter. *)
Definition is_alpha (c : ascii) : bool :=
  let n := N_of_ascii c in
  ((65 <=? n) && (n <=? 90) || (97 <=? n) && (n <=? 122))%N.

(** [s.title()]: a letter that follows a letter is lowered, any other
    letter is raised; [cased] tells whether the previous character was
    a letter. *)
Fixpoint title_from (cased : bool) (s : string) : string :=
  match s with
  | EmptyString => EmptyString
  | String c s' =>
      if is_alpha c
      then String (if cased then lower_char c else upper_char c) (title_from true s')
      else String c (title_from false s')
  end.

Definition title (s : string) : string := title_from false s.

(** An ASCII digit. *)
Definition is_digit (c : ascii) : bool :=
  let n := N_of_ascii c in ((48 <=? n) && (n <=? 57))%N.

(** The value of a run of digits in which single underscores may stand
    between two digits; [after_digit] tells whether the previous
    character was a digit. *)
Fixpoint digits_value (acc : Z) (after_digit : bool) (s : string) : option Z :=
  match s with
  | EmptyString => if after_digit then Some acc else None
  | String c s' =>
      if is_digit c then digits_value (10 * acc + (Z.of_N (N_of_ascii c) - 48)) true s'
      else if bool_decide (c = "_"%char) && after_digit then digits_value acc false s'
      else None
  end.

(** [int(s)] for a string: white space around, an optional sign, decimal
    digits; anything else is a [ValueError]. *)
Definition py_int (s : string) : outcome Z :=
  let parsed :=
    match strip s with
    | String "+"%char r => digits_value 0 false r
    | String "-"%char r => Z.opp <$> digits_value 0 false r
    | t => digits_value 0 false t
    end in
  from_option Ok (Raise ValueError) parsed.

(** [s.split(x)[0]] for a single character [x]: the part of [s] before
    the first [x]. *)
Fixpoint split_head (x : ascii) (s : string) : string :=
  match s with
  | EmptyString => EmptyString
  | String c s' => if bool_decide (c = x) then EmptyString else String c (split_head x s')
  end.

(** [s.lstrip(x)] for a single character [x]. *)
Fixpoint lstrip_char (x : ascii) (s : string) : string :=
  match s with
  | EmptyString => EmptyString
  | String c s' => if bool_decide (c = x) then lstrip_char x s' else s
  end.

(** [s.replace(x, y)] for single characters. *)
Fixpoint replace_char (x y : ascii) (s : string) : string :=
  match s with
  | EmptyString => EmptyString
  | String c s' => String (if bool_decide (c = x) then y else c) (replace_char x y s')
  end.

(** [s.replace(x, "")] for a single character. *)
Fixpoint remove_char (x : ascii) (s : string) : string :=
  match s with
  | EmptyString => EmptyString
  | String c s' => if bool_decide (c = x) then remove_char x s' else String c (remove_char x s')
  end.

Notation "a 'isin' b" := (contains a b) (at level 70, no associativity) : py_scope.
Notation "a 'orelse' b" := (str_or a b) (at level 71, left associativity) : py_scope.

(** ** Lemmas *)

Lemma truthy_iff s : truthy s = true ↔ s ≠ EmptyString.
Proof. by destruct s. Qed.

Lemma truthy_false_iff s : truthy s = false ↔ s = EmptyString.
Proof. by destruct s. Qed.

Lemma str_or_truthy s d : truthy s = true → str_or s d = s.
Proof. unfold str_or. by intros ->. Qed.

Lemma str_or_empty d : str_or EmptyString d = d.
Proof. done. Qed.

Lemma str_or_empty_r s : str_or s EmptyString = s.
Proof. by destruct s. Qed.

Lemma truthy_str_or s d : truthy d = true → truthy (str_or s d) = true.
Proof. unfold str_or. by destruct (truthy s) eqn:E. Qed.

(** *** lower *)

Lemma lower_char_idemp c : lower_char (lower_char c) = lower_char c.
Proof.
  unfold lower_char at 2 3.
  destruct ((65 <=? N_of_ascii c) && (N_of_ascii c <=? 90))%N eqn:E.
  - apply andb_prop in E as [H1%N.leb_le H2%N.leb_le].
    unfold lower_char. rewrite N_ascii_embedding by lia.
    destruct (_ && _)%N eqn:E'; [|done].
    apply andb_prop in E' as [H3%N.leb_le H4%N.leb_le]. lia.
  - unfold lower_char. by rewrite E.
Qed.

Lemma lower_idemp s : lower (lower s) = lower s.
Proof. induction s; simpl; [done|]. by rewrite lower_char_idemp, IHs. Qed.

Lemma lower_length s : String.length (lower s) = String.length s.
Proof. induction s as [|c s IH]; simpl; by rewrite ?IH. Qed.

Lemma lower_app s t : lower (s ++ t) = lower s ++ lower t.
Proof. induction s as [|c s IH]; simpl; by rewrite ?IH. Qed.

Lemma lower_empty_iff s : lower s = EmptyString ↔ s = EmptyString.
Proof. by destruct s. Qed.

Lemma truthy_lower s : truthy (lower s) = truthy s.
Proof. by destruct s. Qed.

Lemma is_space_lower_char c : is_space (lower_char c) = is_space c.
Proof. by destruct c as [[] [] [] [] [] [] [] []]. Qed.

Lemma head_space_lower s : head_space (lower s) = head_space s.
Proof. destruct s; simpl; [done|apply is_space_lower_char]. Qed.

Lemma last_space_lower s : last_space (lower s) = last_space s.
Proof.
  induction s as [|c [|c' s] IH]; simpl in *; [done|apply is_space_lower_char|done].
Qed.

Lemma trimmed_lower s : trimmed (lower s) = trimmed s.
Proof. unfold trimmed. by rewrite head_space_lower, last_space_lower. Qed.

(** *** strip *)

Lemma lstrip_blank s : blank s = true → lstrip s = EmptyString.
Proof.
  induction s as [|c s IH]; simpl; [done|].
  intros [-> ?]%andb_prop. auto.
Qed.

Lemma rstrip_blank s : blank s = true → rstrip s = EmptyString.
Proof.
  induction s as [|c s IH]; simpl; [done|].
  intros [-> ?]%andb_prop. by rewrite IH.
Qed.

Lemma rstrip_empty_blank s : rstrip s = EmptyString → blank s = true.
Proof.
  induction s as [|c s IH]; simpl; [done|].
  destruct (rstrip s); [|done]. destruct (is_space c); [|done]. auto.
Qed.

Lemma lstrip_empty_blank s : lstrip s = EmptyString → blank s = true.
Proof.
  induction s as [|c s IH]; simpl; [done|].
  destruct (is_space c); [auto|done].
Qed.

Lemma blank_lstrip s : blank (lstrip s) = blank s.
Proof.
  induction s as [|c s IH]; simpl; [done|].
  destruct (is_space c) eqn:E; simpl; [done|by rewrite E].
Qed.

(** [strip] returns the empty string exactly on blank strings. *)
Lemma strip_empty_iff s : strip s = EmptyString ↔ blank s = true.
Proof.
  unfold strip. split.
  - intros H%rstrip_empty_blank. by rewrite blank_lstrip in H.
  - intros H. apply rstrip_blank. by rewrite blank_lstrip.
Qed.

Lemma strip_blank s : blank s = true → strip s = EmptyString.
Proof. apply strip_empty_iff. Qed.

Lemma truthy_strip s : truthy (strip s) = negb (blank s).
Proof.
  destruct (blank s) eqn:E; simpl.
  - by rewrite (strip_blank s E).
  - apply truthy_iff. intros H%strip_empty_iff. congruence.
Qed.

Lemma blank_empty_or_not s : blank s = false → s ≠ EmptyString.
Proof. by destruct s. Qed.

Lemma lstrip_head s : head_space (lstrip s) = false.
Proof.
  induction s as [|c s IH]; simpl; [done|].
  destruct (is_space c) eqn:E; simpl; [done|by rewrite E].
Qed.

Lemma lstrip_id s : head_space s = false → lstrip s = s.
Proof. destruct s; simpl; [done|]. by intros ->. Qed.

Lemma rstrip_last s : last_space (rstrip s) = false.
Proof.
  induction s as [|c s IH]; simpl; [done|].
  destruct (rstrip s) as [|d r] eqn:E.
  - destruct (is_space c) eqn:Ec; simpl; [done|by rewrite Ec].
  - done.
Qed.

Lemma rstrip_id s : last_space s = false → rstrip s = s.
Proof.
  induction s as [|c s IH]; simpl; [done|].
  destruct s as [|d s]; [by intros ->|].
  intros H. by rewrite (IH H).
Qed.

Lemma rstrip_head s : head_space s = false → head_space (rstrip s) = false.
Proof.
  destruct s as [|c s]; simpl; [done|]. intros Hc.
  destruct (rstrip s); [by rewrite Hc; simpl|done].
Qed.

Lemma strip_trimmed s : trimmed (strip s) = true.
Proof.
  unfold trimmed, strip.
  by rewrite rstrip_last, (rstrip_head _ (lstrip_head s)).
Qed.

Lemma strip_id s : trimmed s = true → strip s = s.
Proof.
  unfold trimmed, strip.
  intros [H1%negb_true_iff H2%negb_true_iff]%andb_prop.
  by rewrite lstrip_id, rstrip_id.
Qed.

(** [strip] is idempotent: the program may strip a field twice. *)
Lemma strip_idemp s : strip (strip s) = strip s.
Proof. apply strip_id, strip_trimmed. Qed.

Lemma blank_strip s : blank (strip s) = blank s.
Proof.
  pose proof (truthy_strip (strip s)) as H1. pose proof (truthy_strip s) as H2.
  rewrite strip_idemp, H2 in H1. by destruct (blank s), (blank (strip s)).
Qed.

(** *** Concatenation *)

Lemma str_app_cons c s t : String c s ++ t = String c (s ++ t).
Proof. reflexivity. Qed.

Lemma str_app_nil_l s : EmptyString ++ s = s.
Proof. reflexivity. Qed.

Lemma str_app_nil_r s : s ++ EmptyString = s.
Proof. induction s as [|c s IH]; by rewrite ?str_app_cons, ?IH. Qed.

Lemma str_app_assoc s t u : (s ++ t) ++ u = s ++ (t ++ u).
Proof. induction s as [|c s IH]; by rewrite ?str_app_cons, ?IH. Qed.

Lemma str_app_length s t :
  String.length (s ++ t) = (String.length s + String.length t)%nat.
Proof. induction s as [|c s IH]; rewrite ?str_app_cons; simpl; by rewrite ?IH. Qed.

Lemma str_app_empty s t : s ++ t = EmptyString → s = EmptyString ∧ t = EmptyString.
Proof. by destruct s. Qed.

Lemma str_app_same_length s t s' t' :
  s ++ t = s' ++ t' → String.length s = String.length s' → s = s' ∧ t = t'.
Proof.
  revert s'; induction s as [|c s IH]; intros [|c' s'] Heq Hlen;
    rewrite ?str_app_cons, ?str_app_nil_l in *; simpl in *; try done.
  injection Heq as -> Heq. injection Hlen as Hlen.
  by destruct (IH s' Heq Hlen) as [-> ->].
Qed.

Lemma str_app_inv_r s s' t : s ++ t = s' ++ t → s = s'.
Proof.
  intros Heq. apply (str_app_same_length s t s' t Heq).
  apply (f_equal String.length) in Heq. rewrite !str_app_length in Heq. lia.
Qed.

Lemma str_app_inv_l s t t' : s ++ t = s ++ t' → t = t'.
Proof. intros Heq. by apply (str_app_same_length s t s t' Heq). Qed.

(** *** Removing a character *)

Lemma remove_char_length x s : (String.length (remove_char x s) ≤ String.length s)%nat.
Proof. induction s as [|c s IH]; simpl; [done|]. case_bool_decide; simpl; lia. Qed.

Lemma remove_char_absent x s : contains (String x EmptyString) (remove_char x s) = false.
Proof.
  induction s as [|c s IH]; simpl; [done|]. case_bool_decide as Hc; [done|]. simpl.
  rewrite IH. rewrite bool_decide_eq_false_2 by done. done.
Qed.

(** *** startswith and the substring test *)

Lemma startswith_spec s p : startswith s p = true ↔ ∃ q, s = p ++ q.
Proof.
  revert s; induction p as [|a p IH]; intros s; simpl.
  { split; [intros _; by exists s|done]. }
  destruct s as [|b s].
  { split; [done|by intros [q ?]]. }
  rewrite andb_true_iff, bool_decide_eq_true, IH. split.
  - intros [-> [q ->]]. by exists q.
  - intros [q Hq]. rewrite str_app_cons in Hq. injection Hq as -> ->. eauto.
Qed.

Lemma startswith_refl s : startswith s s = true.
Proof. apply startswith_spec. exists EmptyString. by rewrite str_app_nil_r. Qed.

Lemma startswith_empty s : startswith s EmptyString = true.
Proof. by destruct s. Qed.

Lemma contains_spec needle hay :
  contains needle hay = true ↔ ∃ p q, hay = p ++ needle ++ q.
Proof.
  induction hay as [|c hay IH]; simpl.
  - rewrite orb_false_r, startswith_spec. split.
    + intros [q Hq]. by exists EmptyString, q.
    + intros ([|] & q & Hq); [by exists q|done].
  - rewrite orb_true_iff, startswith_spec, IH. split.
    + intros [[q Hq]|(p & q & ->)]; [by exists EmptyString, q|].
      by exists (String c p), q.
    + intros ([|c' p] & q & Hq); [left; by exists q|].
      rewrite str_app_cons in Hq. injection Hq as -> ->.
      right. by exists p, q.
Qed.

Lemma contains_empty hay : contains EmptyString hay = true.
Proof. destruct hay; simpl; by rewrite ?startswith_empty. Qed.

Lemma contains_refl s : contains s s = true.
Proof. destruct s; simpl; [done|]. by rewrite bool_decide_eq_true_2, startswith_refl. Qed.

Lemma startswith_contains s p : startswith s p = true → contains p s = true.
Proof. destruct s; simpl; by intros ->. Qed.

Lemma contains_length needle hay :
  contains needle hay = true → (String.length needle ≤ String.length hay)%nat.
Proof.
  intros (p & q & ->)%contains_spec. rewrite !str_app_length. lia.
Qed.

(** Containment is a partial order on strings: two strings that contain
    each other are equal. *)
Lemma contains_antisym s t :
  contains s t = true → contains t s = true → s = t.
Proof.
  intros Hst Hts. pose proof (contains_length _ _ Hst).
  pose proof (contains_length _ _ Hts).
  apply contains_spec in Hst as (p & q & ->).
  rewrite !str_app_length in *.
  destruct p; [|simpl in *; lia]. destruct q; [|simpl in *; lia].
  simpl. by rewrite str_app_nil_r.
Qed.

Lemma contains_trans s t u :
  contains s t = true → contains t u = true → contains s u = true.
Proof.
  intros (p & q & ->)%contains_spec (p' & q' & ->)%contains_spec.
  apply contains_spec. exists (p' ++ p), (q ++ q').
  by rewrite !str_app_assoc.
Qed.

(** Lower-casing both sides keeps a containment. *)
Lemma contains_lower s t :
  contains s t = true → contains (lower s) (lower t) = true.
Proof.
  intros (p & q & ->)%contains_spec. apply contains_spec.
  exists (lower p), (lower q). by rewrite !lower_app.
Qed.

Lemma contains_nonempty_in_empty s :
  truthy s = true → contains s EmptyString = false.
Proof. by destruct s. Qed.

(** *** str(int) *)

Lemma str_of_int_truthy z : truthy (str_of_int z) = true.
Proof.
  unfold str_of_int, NilZero.string_of_int.
  destruct (Z.to_int z) as [d|d]; [|done].
  unfold NilZero.string_of_uint. by destruct d.
Qed.

Lemma last_space_cons c s :
  is_space c = false → last_space s = false → last_space (String c s) = false.
Proof. intros Hc Hs. simpl. by destruct s. Qed.

Lemma string_of_uint_last d : last_space (NilEmpty.string_of_uint d) = false.
Proof. induction d; [done|by apply last_space_cons..]. Qed.

(** The digits of an integer have no white space around them. *)
Lemma str_of_int_trimmed z : trimmed (str_of_int z) = true.
Proof.
  assert (∀ d, last_space (NilZero.string_of_uint d) = false) as Hlast.
  { intros d. destruct d; try done; apply string_of_uint_last. }
  unfold str_of_int, NilZero.string_of_int, trimmed.
  destruct (Z.to_int z) as [d|d].
  - rewrite Hlast. by destruct d.
  - rewrite last_space_cons by done. done.
Qed.

(** *** Slices *)

Lemma str_take_length n s : String.length (str_take n s) = (n `min` String.length s)%nat.
Proof.
  unfold str_take. revert s. induction n as [|n IH]; intros [|c s]; simpl; try done.
  by rewrite IH.
Qed.

Lemma str_take_all n s : (String.length s ≤ n)%nat → str_take n s = s.
Proof.
  unfold str_take. revert s. induction n as [|n IH]; intros [|c s]; simpl; try done.
  - lia.
  - intros Hn. rewrite IH; [done|lia].
Qed.

Lemma before_last_space_spec s r :
  before_last_space s = Some r → ∃ q, s = r ++ String " " q ∧ before_last_space q = None.
Proof.
  revert r. induction s as [|c s IH]; intros r; simpl; [done|].
  destruct (before_last_space s) as [r'|] eqn:E.
  - intros [= <-]. destruct (IH r' eq_refl) as (q & -> & Hq). by exists q.
  - case_bool_decide; [|done]. intros [= <-]. subst c. by exists s.
Qed.

(** The head is a prefix of the string. *)
Lemma rsplit_head_prefix s : ∃ q, s = rsplit_head s ++ q.
Proof.
  unfold rsplit_head. destruct (before_last_space s) as [r|] eqn:E; simpl.
  - apply before_last_space_spec in E as (q & -> & _). eauto.
  - exists EmptyString. by rewrite str_app_nil_r.
Qed.

Lemma rsplit_head_length s : (String.length (rsplit_head s) ≤ String.length s)%nat.
Proof.
  destruct (rsplit_head_prefix s) as [q Hq]. rewrite Hq at 2.
  rewrite str_app_length. lia.
Qed.

Lemma rstrip_length s : (String.length (rstrip s) ≤ String.length s)%nat.
Proof.
  induction s as [|c s IH]; simpl; [done|].
  destruct (rstrip s); [destruct (is_space c)|]; simpl in *; lia.
Qed.

Lemma lstrip_length s : (String.length (lstrip s) ≤ String.length s)%nat.
Proof. induction s as [|c s IH]; simpl; [done|]. destruct (is_space c); simpl; lia. Qed.

Lemma strip_length s : (String.length (strip s) ≤ String.length s)%nat.
Proof.
  unfold strip. pose proof (rstrip_length (lstrip s)). pose proof (lstrip_length s). lia.
Qed.

(** *** title, lstrip of a character, replace *)

Lemma title_from_length b s : String.length (title_from b s) = String.length s.
Proof.
  revert b. induction s as [|c s IH]; intros b; simpl; [done|].
  destruct (is_alpha c); simpl; by rewrite IH.
Qed.

Lemma title_length s : String.length (title s) = String.length s.
Proof. apply title_from_length. Qed.

Lemma title_truthy s : truthy (title s) = truthy s.
Proof. destruct s as [|c s]; [done|]. unfold title. simpl. by destruct (is_alpha c). Qed.

Lemma replace_char_length x y s : String.length (replace_char x y s) = String.length s.
Proof. induction s as [|c s IH]; simpl; by rewrite ?IH. Qed.

Lemma replace_char_truthy x y s : truthy (replace_char x y s) = truthy s.
Proof. by destruct s. Qed.

(** *** int *)

Lemma digits_value_nonneg acc b s z : (0 ≤ acc)%Z → digits_value acc b s = Some z → (0 ≤ z)%Z.
Proof.
  revert acc b. induction s as [|c s IH]; intros acc b Hacc; simpl.
  - destruct b; [by intros [= <-]|done].
  - destruct (is_digit c) eqn:Hd.
    + apply IH. unfold is_digit in Hd. apply andb_prop in Hd as [Hd _].
      apply N.leb_le in Hd. lia.
    + destruct (_ && _); [by apply IH|done].
Qed.

Lemma py_int_strip s : py_int (strip s) = py_int s.
Proof. unfold py_int. by rewrite strip_idemp. Qed.

Lemma py_int_blank s : blank s = true → py_int s = Raise ValueError.
Proof. intros Hb. unfold py_int. by rewrite (strip_blank s Hb). Qed.

Lemma split_head_prefix x s : ∃ q, s = split_head x s ++ q.
Proof.
  induction s as [|c s [q IH]]; simpl; [by exists EmptyString|].
  case_bool_decide; [by eexists|]. exists q. by rewrite str_app_cons, <- IH.
Qed.

Lemma lstrip_char_length x s : (String.length (lstrip_char x s) ≤ String.length s)%nat.
Proof. induction s as [|c s IH]; simpl; [done|]. case_bool_decide; simpl; lia. Qed.

#[export] Hint Rewrite strip_idemp lower_idemp truthy_lower truthy_strip
  str_app_nil_r contains_refl contains_empty startswith_refl : py.
#[export] Hint Resolve strip_trimmed contains_refl contains_empty
  startswith_refl str_of_int_truthy : py.
