(* ===== verification/Files.v ===== *)
(** * Files: the part of the file system the program writes to

    The program creates two directories ([os.makedirs(..., exist_ok=True)]
    on the instance folder and on the folder of the uploaded pictures)
    and saves an uploaded picture under the name the browser sent.  A
    path is written in the source as a string, built with
    [os.path.join]; the file system sees the sequence of its names
    ([path_of]).  The state is a finite map from such sequences to
    directories and files.  Names [.] and [..] and symbolic links do not
    occur in the paths of the program and are not modelled. *)

From Stdlib Require Import Ascii String Lia.
From stdpp Require Import base tactics option list strings gmap.
From S2P Require Import Prelude PyStr.

(** ** Definitions *)

Inductive node : Type :=
  | Dir
  | File (content : string).

#[export] Instance node_eq_dec : EqDecision node.
Proof. solve_decision. Defined.

Notation path := (list string).
Notation files := (gmap (list string) node).

(** [s.endswith("/")] *)
Fixpoint ends_with_slash (s : string) : bool :=
  match s with
  | EmptyString => false
  | String c EmptyString => bool_decide (c = "/"%char)
  | String _ s' => ends_with_slash s'
  end.

(** [os.path.join(a, b)] on POSIX. *)
Definition path_join (a b : string) : string :=
  if startswith b "/" then b
  else if negb (truthy a) || ends_with_slash a then a +:+ b
  else a +:+ "/" +:+ b.

(** [s.split("/")] *)
Fixpoint components (s : string) : list string :=
  match s with
  | EmptyString => [EmptyString]
  | String c s' =>
      if bool_decide (c = "/"%char) then EmptyString :: components s'
      else match components s' with
           | h :: t => String c h :: t
           | [] => [String c EmptyString]
           end
  end.

(** The names of a path; an absolute path starts with the empty name,
    and repeated or trailing separators do not count. *)
Definition path_of (s : string) : path :=
  (if startswith s "/" then [EmptyString] else []) ++
  filter (λ n, truthy n = true) (components s).

(** The directories down to a path, outermost first, the path included. *)
Definition ancestors (p : path) : list path := (λ n, take n p) <$> seq 1 (length p).

(** The working directory and the root are always there. *)
Definition is_dir (fs : files) (d : path) : bool :=
  bool_decide (d = [] ∨ d = [EmptyString] ∨ fs !! d = Some Dir).

(** [os.mkdir(p)] as [makedirs] with [exist_ok=True] calls it: a
    directory that is there is left alone, a file in its place is an
    error. *)
Definition mkdir_ok (p : path) : M files unit :=
  fs ← get;
  match fs !! p with
  | None => put (<[p := Dir]> fs)
  | Some Dir => mret tt
  | Some (File _) => raise OSError
  end.

(** [os.makedirs(p, exist_ok=True)] *)
Definition makedirs (p : path) : M files unit := for_each (ancestors p) mkdir_ok.

(** [open(p, "wb")] and the copy of the content: the folder has to be
    there, and the path must not name a directory; a file that is there
    is replaced. *)
Definition write (p : path) (content : string) : M files unit :=
  fs ← get;
  if bool_decide (p = []) || negb (is_dir fs (removelast p)) then raise OSError else
  match fs !! p with
  | Some Dir => raise OSError
  | _ => put (<[p := File content]> fs)
  end.

(** [file.save(dst)] of an upload. *)
Definition file_save (dst content : string) : M files unit :=
  if negb (truthy dst) || ends_with_slash dst then raise OSError
  else write (path_of dst) content.

(** Every entry lies in a directory, and a file has nothing below it. *)
Definition files_ok (fs : files) : Prop :=
  map_Forall (λ p _, p ≠ [] ∧ is_dir fs (removelast p) = true) fs.

(** ** Lemmas *)

Lemma components_not_nil s : components s ≠ [].
Proof. destruct s as [|c s]; simpl; [done|]. case_bool_decide; [done|]. by destruct (components s). Qed.

(** A name without a separator is a path of one name. *)
Lemma components_flat s : contains "/" s = false → components s = [s].
Proof.
  induction s as [|c s IH]; simpl; [done|]. intros [Hc Hs]%orb_false_iff.
  rewrite andb_true_r in Hc. apply bool_decide_eq_false in Hc.
  rewrite bool_decide_false by done. by rewrite IH.
Qed.

Lemma components_app_slash a b :
  components (a +:+ "/" +:+ b) = components a ++ components b.
Proof.
  induction a as [|c a IH]; [done|]. rewrite str_app_cons. simpl.
  case_bool_decide; [by rewrite IH|]. rewrite IH.
  pose proof (components_not_nil a). by destruct (components a).
Qed.

Lemma path_of_flat s : truthy s = true → contains "/" s = false → path_of s = [s].
Proof.
  intros Ht Hs. unfold path_of. rewrite components_flat by done.
  assert (startswith s "/" = false) as ->.
  { destruct (startswith s "/") eqn:E; [|done]. apply startswith_contains in E. congruence. }
  cbn [app]. by rewrite filter_cons_True.
Qed.

Lemma ends_with_slash_app a : ends_with_slash (a +:+ "/") = true.
Proof.
  induction a as [|c a IH]; [done|]. rewrite str_app_cons. cbn [ends_with_slash].
  destruct a; [done|]. by rewrite str_app_cons in *.
Qed.

Lemma ends_with_slash_flat name : contains "/" name = false → ends_with_slash name = false.
Proof.
  induction name as [|c name IH]; [done|]. cbn [contains startswith ends_with_slash].
  rewrite andb_true_r. intros [Hc%bool_decide_eq_false Hn]%orb_false_iff.
  destruct name; [|by apply IH]. apply bool_decide_eq_false. congruence.
Qed.

Lemma ends_with_slash_app_r a b :
  truthy b = true → ends_with_slash (a +:+ b) = ends_with_slash b.
Proof.
  intros Hb. induction a as [|c a IH]; [done|]. rewrite str_app_cons. cbn [ends_with_slash].
  rewrite IH. destruct (a +:+ b) eqn:E; [|done]. apply str_app_empty in E as [_ ->]. done.
Qed.

(** A name joined to a folder is one more name on its path; an empty
    name gives a path that ends with the separator. *)
Lemma path_join_flat dir name :
  truthy dir = true → ends_with_slash dir = false → contains "/" name = false →
  path_join dir name = dir +:+ "/" +:+ name.
Proof.
  intros Hd He Hn. unfold path_join. rewrite Hd, He.
  destruct (startswith name "/") eqn:E; [|done]. apply startswith_contains in E. congruence.
Qed.

Lemma path_of_join_flat dir name :
  truthy dir = true → ends_with_slash dir = false →
  truthy name = true → contains "/" name = false →
  path_of (path_join dir name) = path_of dir ++ [name].
Proof.
  intros Hd He Ht Hn. rewrite path_join_flat by done. unfold path_of.
  rewrite components_app_slash, filter_app, (components_flat name) by done.
  rewrite filter_cons_True, filter_nil by done. destruct dir as [|c dir]; [done|].
  rewrite str_app_cons. cbn [startswith]. by rewrite app_assoc.
Qed.

Lemma ancestors_snoc p n : ancestors (p ++ [n]) = ancestors p ++ [p ++ [n]].
Proof.
  unfold ancestors. rewrite length_app, Nat.add_1_r, seq_S, fmap_app. simpl. f_equal.
  - apply list_fmap_ext. intros i n' [-> ?]%lookup_seq. by rewrite take_app_le by lia.
  - f_equal. by rewrite take_ge by (rewrite length_app; simpl; lia).
Qed.

Lemma ancestors_length p d : d ∈ ancestors p → length d ≤ length p.
Proof.
  unfold ancestors. intros (n & -> & Hn)%list_elem_of_fmap. rewrite length_take. lia.
Qed.

(** A name below a directory is not on the way to it. *)
Lemma ancestors_below p n : p ++ [n] ∉ ancestors p.
Proof. intros Hd%ancestors_length. rewrite length_app in Hd. simpl in Hd. lia. Qed.

Lemma is_dir_insert fs p n d :
  fs !! p ≠ Some Dir → is_dir fs d = true → is_dir (<[p := n]> fs) d = true.
Proof.
  unfold is_dir. intros Hp Hd%bool_decide_eq_true. apply bool_decide_eq_true.
  destruct Hd as [?|[?|Hd]]; [by left|by right; left|]. right; right.
  rewrite lookup_insert_ne; [done|]. by intros ->.
Qed.

(** Adding an entry in a directory that is there, in the place of none
    or of a file. *)
Lemma files_ok_insert fs p n :
  files_ok fs → p ≠ [] → is_dir fs (removelast p) = true → fs !! p ≠ Some Dir →
  files_ok (<[p := n]> fs).
Proof.
  intros Hok Hp Hd Hn q m Hq. destruct (decide (q = p)) as [->|Hne].
  - split; [done|]. by apply is_dir_insert.
  - rewrite lookup_insert_ne in Hq by done. destruct (Hok q m Hq) as [? ?].
    split; [done|]. by apply is_dir_insert.
Qed.

Section mkdir.
Implicit Types (fs : files) (p : path).

Lemma mkdir_ok_run p fs :
  mkdir_ok p fs =
    match fs !! p with
    | None => (Ok tt, <[p := Dir]> fs)
    | Some Dir => (Ok tt, fs)
    | Some (File _) => (Raise OSError, fs)
    end.
Proof. unfold mkdir_ok. monad_unfold. by destruct (fs !! p) as [[]|]. Qed.

Lemma makedirs_nil fs : makedirs [] fs = (Ok tt, fs).
Proof. done. Qed.

Lemma makedirs_snoc p n fs :
  makedirs (p ++ [n]) fs = (makedirs p ;; mkdir_ok (p ++ [n])) fs.
Proof.
  unfold makedirs. rewrite ancestors_snoc, for_each_app. monad_unfold.
  destruct (for_each (ancestors p) mkdir_ok fs) as [[[]|e] fs1]; [|done].
  simpl. monad_unfold. by destruct (mkdir_ok _ _) as [[[]|]].
Qed.

(** What [makedirs] leaves: more entries, a well-formed file system, and
    the directory when it returns. *)
Lemma makedirs_ok p fs :
  files_ok fs →
  let r := makedirs p fs in
  files_ok r.2 ∧ fs ⊆ r.2 ∧ (r.1 = Ok tt → is_dir r.2 p = true) ∧
  (∀ e, r.1 = Raise e → e = OSError).
Proof.
  intros Hok. induction p as [|n p IH] using rev_ind; [by rewrite makedirs_nil|].
  rewrite makedirs_snoc. monad_unfold. destruct IH as (Hok1 & Hsub & Hdir & He).
  destruct (makedirs p fs) as [[[]|e] fs1]; simpl in *; [|split_and!; try done; eauto].
  rewrite mkdir_ok_run. specialize (Hdir eq_refl).
  destruct (fs1 !! (p ++ [n])) as [[|c]|] eqn:Hl; simpl.
  - split_and!; [done..| |done]. intros _. unfold is_dir. apply bool_decide_eq_true. auto.
  - split_and!; [done..|]. by intros e [= <-].
  - split_and!; [| | |done].
    + apply files_ok_insert; [done|by destruct p| |by rewrite Hl].
      by rewrite removelast_last.
    + etrans; [done|]. by apply insert_subseteq.
    + intros _. unfold is_dir. apply bool_decide_eq_true. right; right. apply lookup_insert_eq.
Qed.

End mkdir.

Section for_each_mkdir.
Implicit Types (fs : files) (l : list path) (x q : path).

(** One directory: entries stay, other names are not touched, and a
    file is never made nor removed. *)
Lemma mkdir_ok_keeps x fs q n : fs !! q = Some n → (mkdir_ok x fs).2 !! q = Some n.
Proof.
  intros Hq. rewrite mkdir_ok_run. destruct (fs !! x) as [[|c]|] eqn:Hx; cbn [snd]; [done..|].
  rewrite lookup_insert_ne; [done|congruence].
Qed.

Lemma mkdir_ok_frame x fs q : q ≠ x → (mkdir_ok x fs).2 !! q = fs !! q.
Proof.
  intros Hq. rewrite mkdir_ok_run. destruct (fs !! x) as [[|c]|]; cbn [snd]; [done..|].
  by rewrite lookup_insert_ne.
Qed.

Lemma mkdir_ok_dir x fs : (mkdir_ok x fs).1 = Ok tt → (mkdir_ok x fs).2 !! x = Some Dir.
Proof.
  rewrite mkdir_ok_run. destruct (fs !! x) as [[|c]|] eqn:Hx; cbn [fst snd]; [done..|].
  intros _. apply lookup_insert_eq.
Qed.

Lemma mkdir_ok_raises x fs : (mkdir_ok x fs).1 ≠ Ok tt ↔ ∃ c, fs !! x = Some (File c).
Proof.
  rewrite mkdir_ok_run. destruct (fs !! x) as [[|c]|]; cbn [fst]; split; try done.
  - by intros [? [=]].
  - by exists c.
  - by intros [? [=]].
Qed.

Lemma mkdir_ok_file x fs q c :
  (mkdir_ok x fs).2 !! q = Some (File c) ↔ fs !! q = Some (File c).
Proof.
  rewrite mkdir_ok_run. destruct (fs !! x) as [[|c']|] eqn:Hx; cbn [snd]; [done..|].
  destruct (decide (q = x)) as [->|].
  - rewrite lookup_insert_eq, Hx. by split.
  - by rewrite lookup_insert_ne.
Qed.

(** The loop of [makedirs]. *)
Lemma for_each_mkdir_keeps l fs q n :
  fs !! q = Some n → (for_each l mkdir_ok fs).2 !! q = Some n.
Proof.
  revert fs; induction l as [|x l IH]; intros fs Hq; [done|]. rewrite for_each_cons_run.
  pose proof (mkdir_ok_keeps x fs q n Hq). destruct (mkdir_ok x fs).1; [by apply IH|done].
Qed.

Lemma for_each_mkdir_frame l fs q : q ∉ l → (for_each l mkdir_ok fs).2 !! q = fs !! q.
Proof.
  revert fs; induction l as [|x l IH]; intros fs Hq; [done|].
  apply not_elem_of_cons in Hq as [Hx Hl]. rewrite for_each_cons_run. pose proof (mkdir_ok_frame x fs q Hx) as Hf.
  destruct (mkdir_ok x fs).1; [by rewrite IH|done].
Qed.

Lemma for_each_mkdir_file l fs q c :
  (for_each l mkdir_ok fs).2 !! q = Some (File c) ↔ fs !! q = Some (File c).
Proof.
  revert fs; induction l as [|x l IH]; intros fs; [done|]. rewrite for_each_cons_run.
  pose proof (mkdir_ok_file x fs q c) as Hf. destruct (mkdir_ok x fs).1; [by rewrite IH|done].
Qed.

Lemma for_each_mkdir_dirs l fs :
  (for_each l mkdir_ok fs).1 = Ok tt →
  Forall (λ d, (for_each l mkdir_ok fs).2 !! d = Some Dir) l.
Proof.
  revert fs; induction l as [|x l IH]; intros fs; [done|]. rewrite for_each_cons_run.
  pose proof (mkdir_ok_dir x fs) as Hd. destruct (mkdir_ok x fs).1 as [[]|e]; [|done].
  intros Hr. constructor; [by apply for_each_mkdir_keeps, Hd|by apply IH].
Qed.

Lemma for_each_mkdir_raises l fs :
  (for_each l mkdir_ok fs).1 ≠ Ok tt ↔ ∃ d c, d ∈ l ∧ fs !! d = Some (File c).
Proof.
  revert fs; induction l as [|x l IH]; intros fs.
  { split; [done|]. by intros (? & ? & ?%elem_of_nil & _). }
  rewrite for_each_cons_run. pose proof (mkdir_ok_raises x fs) as Hr.
  destruct (mkdir_ok x fs).1 as [[]|e]; cbn [fst].
  - rewrite IH. split; intros (d & c & Hd & Hl).
    + exists d, c. split; [by right|]. by apply (mkdir_ok_file x).
    + apply elem_of_cons in Hd as [->|Hd]; [destruct Hr as [_ Hr]; destruct Hr; eauto|].
      exists d, c. split; [done|]. by apply mkdir_ok_file.
  - split; [|done]. intros _. destruct Hr as [[c Hc] _]; [done|]. exists x, c. split; [left|done].
Qed.

End for_each_mkdir.

Section makedirs.
Implicit Types (fs : files) (p : path).

Lemma makedirs_keeps p fs q n : fs !! q = Some n → (makedirs p fs).2 !! q = Some n.
Proof. apply for_each_mkdir_keeps. Qed.

Lemma makedirs_frame p fs q : q ∉ ancestors p → (makedirs p fs).2 !! q = fs !! q.
Proof. apply for_each_mkdir_frame. Qed.

Lemma makedirs_dirs p fs :
  (makedirs p fs).1 = Ok tt → Forall (λ d, (makedirs p fs).2 !! d = Some Dir) (ancestors p).
Proof. apply for_each_mkdir_dirs. Qed.

Lemma makedirs_raises p fs :
  (makedirs p fs).1 ≠ Ok tt ↔ ∃ d c, d ∈ ancestors p ∧ fs !! d = Some (File c).
Proof. apply for_each_mkdir_raises. Qed.

(** When the directories are there [makedirs] does nothing. *)
Lemma makedirs_present p fs :
  Forall (λ d, fs !! d = Some Dir) (ancestors p) → makedirs p fs = (Ok tt, fs).
Proof.
  unfold makedirs. induction (ancestors p) as [|x l IH]; [done|].
  intros [Hx Hl]%Forall_cons. rewrite for_each_cons. monad_unfold.
  rewrite mkdir_ok_run, Hx. by apply IH.
Qed.

Lemma write_run p content fs :
  write p content fs =
    if bool_decide (p = []) || negb (is_dir fs (removelast p)) then (Raise OSError, fs)
    else if bool_decide (fs !! p = Some Dir) then (Raise OSError, fs)
    else (Ok tt, <[p := File content]> fs).
Proof.
  unfold write. monad_unfold. destruct (_ || _); [done|].
  destruct (fs !! p) as [[]|]; by repeat case_bool_decide.
Qed.

Lemma write_raises p content fs e : (write p content fs).1 = Raise e → e = OSError.
Proof. rewrite write_run. repeat case_match; cbn [fst]; congruence. Qed.

Lemma makedirs_raises_OSError p fs e : (makedirs p fs).1 = Raise e → e = OSError.
Proof.
  unfold makedirs. revert fs. induction (ancestors p) as [|x l IH]; intros fs; [done|].
  rewrite for_each_cons_run, mkdir_ok_run.
  destruct (fs !! x) as [[|c]|]; cbn [fst snd]; [apply IH| |apply IH]. by intros [= <-].
Qed.

Lemma write_files_ok p content fs : files_ok fs → files_ok (write p content fs).2.
Proof.
  intros Hok. rewrite write_run.
  destruct (bool_decide (p = [])) eqn:Hp; [done|]. apply bool_decide_eq_false in Hp.
  destruct (is_dir fs (removelast p)) eqn:Hd; [|done]. cbn [orb negb].
  case_bool_decide; [done|]. by apply files_ok_insert.
Qed.

(** Saving under a name in a folder: a name that is empty leaves a path
    that ends with the separator. *)
Lemma file_save_flat dir name content fs :
  truthy dir = true → ends_with_slash dir = false → contains "/" name = false →
  file_save (path_join dir name) content fs =
    if truthy name then write (path_of dir ++ [name]) content fs else (Raise OSError, fs).
Proof.
  intros Hd He Hn. unfold file_save. rewrite path_join_flat by done.
  destruct (truthy name) eqn:Ht.
  - rewrite <- path_of_join_flat, path_join_flat by done.
    rewrite (ends_with_slash_app_r dir), (ends_with_slash_app_r "/" name) by done.
    rewrite ends_with_slash_flat by done. by destruct dir.
  - apply truthy_false_iff in Ht as ->. rewrite ends_with_slash_app, orb_true_r. done.
Qed.

End makedirs.

(** What [makedirs] does on a well-formed file system. *)
Lemma makedirs_full p fs :
  files_ok fs →
  let r := makedirs p fs in
  files_ok r.2 ∧ fs ⊆ r.2 ∧
  (r.1 = Ok tt ∨ r.1 = Raise OSError) ∧
  (r.1 = Ok tt ↔ ¬ ∃ d c, d ∈ ancestors p ∧ fs !! d = Some (File c)) ∧
  (r.1 = Ok tt → is_dir r.2 p = true) ∧
  (∀ q, q ∉ ancestors p → r.2 !! q = fs !! q).
Proof.
  intros Hok. cbv zeta. destruct (makedirs_ok p fs Hok) as (Hok' & Hsub & Hdir & He).
  pose proof (makedirs_raises p fs) as Hr.
  split_and!; [exact Hok'|exact Hsub| | |exact Hdir|apply makedirs_frame].
  - destruct (makedirs p fs).1 as [[]|e]; [by left|right]. by rewrite (He e).
  - rewrite <- Hr. destruct (makedirs p fs).1 as [[]|]; split; [by intros ? []|done..|].
    by intros [].
Qed.

(** ** Theorems *)

(** [os.makedirs(p, exist_ok=True)] on a well-formed file system: it
    returns unless a name on the way is a file, and then the directory
    is there, every entry that was there still is, and nothing else was
    added than the directories down to [p]. *)
Theorem makedirs_spec p fs :
  files_ok fs →
  let r := makedirs p fs in
  files_ok r.2 ∧ fs ⊆ r.2 ∧
  (r.1 = Ok tt ∨ r.1 = Raise OSError) ∧
  (r.1 = Ok tt ↔ ¬ ∃ d c, d ∈ ancestors p ∧ fs !! d = Some (File c)) ∧
  (r.1 = Ok tt → is_dir r.2 p = true) ∧
  (∀ q, q ∉ ancestors p → r.2 !! q = fs !! q).
Proof. apply makedirs_full. Qed.

(** Creating the directories again changes nothing. *)
Theorem makedirs_idempotent p fs :
  (makedirs p fs).1 = Ok tt → makedirs p (makedirs p fs).2 = (Ok tt, (makedirs p fs).2).
Proof. intros Hr. by apply makedirs_present, makedirs_dirs. Qed.

(** A file that was written is there with its content, and the other
    entries are as before. *)
Theorem write_spec p content fs :
  (write p content fs).1 = Ok tt →
  (write p content fs).2 = <[p := File content]> fs ∧
  p ≠ [] ∧ is_dir fs (removelast p) = true ∧ fs !! p ≠ Some Dir.
Proof.
  rewrite write_run. destruct (bool_decide (p = [])) eqn:Hp; [done|].
  apply bool_decide_eq_false in Hp. destruct (is_dir fs (removelast p)); [|done].
  cbn [orb negb]. by case_bool_decide.
Qed.

(** ** Witnesses *)

Lemma makedirs_spec_witness :
  let r := makedirs ["static"; "uploads"] ∅ in
  files_ok r.2 ∧ ∅ ⊆ r.2 ∧ (r.1 = Ok tt ∨ r.1 = Raise OSError) ∧
  (r.1 = Ok tt ↔ ¬ ∃ d c, d ∈ ancestors ["static"; "uploads"] ∧ (∅ : files) !! d = Some (File c)) ∧
  (r.1 = Ok tt → is_dir r.2 ["static"; "uploads"] = true) ∧
  (∀ q, q ∉ ancestors ["static"; "uploads"] → r.2 !! q = (∅ : files) !! q).
Proof. apply (makedirs_spec ["static"; "uploads"] ∅). apply map_Forall_empty. Defined.

Lemma makedirs_idempotent_witness :
  makedirs ["static"] (makedirs ["static"] ∅).2 = (Ok tt, (makedirs ["static"] ∅).2).
Proof. by apply (makedirs_idempotent ["static"] ∅). Defined.

Lemma write_spec_witness :
  (write ["a.png"] "img" ∅).2 = <[["a.png"] := File "img"]> ∅ ∧
  ["a.png"] ≠ [] ∧ is_dir ∅ (removelast ["a.png"]) = true ∧ (∅ : files) !! ["a.png"] ≠ Some Dir.
Proof. by apply (write_spec ["a.png"] "img" ∅). Defined.

(** A file in the place of a directory stops [makedirs]. *)
Example makedirs_over_file :
  makedirs ["static"; "uploads"] {[ ["static"] := File "x" ]}
    = (Raise OSError, {[ ["static"] := File "x" ]}).
Proof. reflexivity. Qed.

Example path_of_examples :
  path_of (path_join (path_join "static" "uploads") "avatars") = ["static"; "uploads"; "avatars"] ∧
  path_of "/srv/app/instance" = [""; "srv"; "app"; "instance"] ∧
  path_join "/srv/instance" "bookbuddy.db" = "/srv/instance/bookbuddy.db" ∧
  path_join "static" "/etc/passwd" = "/etc/passwd" ∧
  path_of "static//uploads/" = ["static"; "uploads"].
Proof. repeat split. Qed.
