(* ===== verification/Config.v ===== *)
(** * Config: what the module sets when it is loaded, and how it is run

    The secret key read from the environment, the address of the
    database file in the instance folder, the folder itself, the login
    page of flask_login, and the call of [app.run] under
    [__name__ == "__main__"].  The environment is a finite map from
    names to values; the instance folder is the absolute path Flask
    derives from the place of the module, a parameter here. *)

From Stdlib Require Import ZArith Ascii String.
From stdpp Require Import base tactics option list strings gmap.
From S2P Require Import Prelude PyStr Files.

(** ** Definitions *)

Notation environ := (gmap string string).

(** [os.environ.get(name, default)] *)
Definition environ_get (env : environ) (name d : string) : string :=
  default d (env !! name).

(** The entries of [app.config] the module sets, and the login page. *)
Record config : Type := Config {
  SECRET_KEY : string;
  SQLALCHEMY_DATABASE_URI : string;
  SQLALCHEMY_TRACK_MODIFICATIONS : bool;
  login_view : string;
}.

(** The path of the database file. *)
Definition database_file (instance_path : string) : string :=
  path_join instance_path "bookbuddy.db".

(** The statements of the module from [app = Flask(__name__)] to
    [login_manager.login_view = "login"]. *)
Definition configure (env : environ) (instance_path : string) : M files config :=
  let secret := environ_get env "BOOKBUDDY_SECRET" "dev-change-me" in
  let uri := "sqlite:///" +:+ database_file instance_path in
  makedirs (path_of instance_path) ;;
  mret (Config secret uri false "login").

(** Flask signs the session cookie only with a key that is not empty. *)
Definition session_available (c : config) : bool := truthy (SECRET_KEY c).

(** The arguments of [app.run]; host and port are the defaults of
    Flask. *)
Record run_options : Type := RunOptions {
  run_host : string;
  run_port : Z;
  run_debug : bool;
}.

(** The block under [if __name__ == "__main__"]: the line printed and
    the server started. *)
Definition main : string * run_options :=
  (">>> http://127.0.0.1:5000", RunOptions "127.0.0.1" 5000 true).

(** ** Lemmas *)

Lemma environ_get_set (env : environ) name d v : env !! name = Some v → environ_get env name d = v.
Proof. unfold environ_get. by intros ->. Qed.

Lemma environ_get_unset (env : environ) name d : env !! name = None → environ_get env name d = d.
Proof. unfold environ_get. by intros ->. Qed.

Lemma configure_run env instance_path fs :
  configure env instance_path fs =
    (match (makedirs (path_of instance_path) fs).1 with
     | Ok _ => Ok (Config (environ_get env "BOOKBUDDY_SECRET" "dev-change-me")
                          ("sqlite:///" +:+ database_file instance_path) false "login")
     | Raise e => Raise e
     end, (makedirs (path_of instance_path) fs).2).
Proof.
  unfold configure. cbv zeta. rewrite M_bind_run. by destruct (makedirs _ fs).1.
Qed.

(** What loading the module does on a well-formed file system. *)
Lemma configure_full env instance_path fs :
  files_ok fs →
  let r := configure env instance_path fs in
  files_ok r.2 ∧ fs ⊆ r.2 ∧
  (∀ q, q ∉ ancestors (path_of instance_path) → r.2 !! q = fs !! q) ∧
  ((∃ d c, d ∈ ancestors (path_of instance_path) ∧ fs !! d = Some (File c)) →
   r.1 = Raise OSError) ∧
  ((¬ ∃ d c, d ∈ ancestors (path_of instance_path) ∧ fs !! d = Some (File c)) →
   is_dir r.2 (path_of instance_path) = true ∧
   r.1 = Ok (Config (default "dev-change-me" (env !! "BOOKBUDDY_SECRET"))
                    ("sqlite:///" +:+ path_join instance_path "bookbuddy.db") false "login")).
Proof.
  intros Hok. cbv zeta. rewrite configure_run. cbn [fst snd].
  destruct (makedirs_full (path_of instance_path) fs Hok) as (? & ? & Hor & Hiff & Hdir & ?).
  split_and!; [done..| |].
  - intros Hfile. destruct Hor as [Hr|Hr]; rewrite Hr; [|done].
    apply Hiff in Hr. by destruct Hr.
  - intros Hfree%Hiff. rewrite Hfree. by split; [apply Hdir|].
Qed.

(** ** Theorems *)

(** C34. Loading the module on a well-formed file system: it fails only when
    a file is in the place of the instance folder or of a folder above
    it; otherwise the folder is there afterwards, nothing else changed,
    the key is the value of [BOOKBUDDY_SECRET] when it is set and
    ["dev-change-me"] when it is not, and the database is the file
    [bookbuddy.db] of the instance folder. *)
Theorem configure_spec env instance_path fs :
  files_ok fs →
  let r := configure env instance_path fs in
  files_ok r.2 ∧ fs ⊆ r.2 ∧
  (∀ q, q ∉ ancestors (path_of instance_path) → r.2 !! q = fs !! q) ∧
  ((∃ d c, d ∈ ancestors (path_of instance_path) ∧ fs !! d = Some (File c)) →
   r.1 = Raise OSError) ∧
  ((¬ ∃ d c, d ∈ ancestors (path_of instance_path) ∧ fs !! d = Some (File c)) →
   is_dir r.2 (path_of instance_path) = true ∧
   r.1 = Ok (Config (default "dev-change-me" (env !! "BOOKBUDDY_SECRET"))
                    ("sqlite:///" +:+ path_join instance_path "bookbuddy.db") false "login")).
Proof. apply configure_full. Qed.

(** Loading the module again leaves the file system as the first load
    left it. *)
Theorem configure_idempotent env env' instance_path fs :
  is_Ok (configure env instance_path fs).1 = true →
  (configure env' instance_path (configure env instance_path fs).2).2
    = (configure env instance_path fs).2.
Proof.
  rewrite !configure_run. cbn [fst snd].
  destruct (makedirs (path_of instance_path) fs).1 as [[]|] eqn:Hm; [|done].
  intros _. by rewrite (makedirs_idempotent _ _ Hm).
Qed.

(** The database file lies in the instance folder. *)
Theorem database_file_spec instance_path :
  truthy instance_path = true → ends_with_slash instance_path = false →
  database_file instance_path = instance_path +:+ "/bookbuddy.db" ∧
  path_of (database_file instance_path) = path_of instance_path ++ ["bookbuddy.db"].
Proof.
  intros Ht He. unfold database_file.
  split; [by rewrite path_join_flat|by rewrite path_of_join_flat].
Qed.

(** Without [BOOKBUDDY_SECRET] in the environment the key that signs
    the session cookie and the reset links is the text in the source;
    with the variable set to the empty text there is no key and no
    session. *)
Theorem secret_key_fallback env instance_path fs c :
  (configure env instance_path fs).1 = Ok c →
  (env !! "BOOKBUDDY_SECRET" = None → SECRET_KEY c = "dev-change-me") ∧
  (env !! "BOOKBUDDY_SECRET" = Some EmptyString → session_available c = false) ∧
  (∀ v, env !! "BOOKBUDDY_SECRET" = Some v → SECRET_KEY c = v).
Proof.
  rewrite configure_run. cbn [fst]. destruct (makedirs _ fs).1; [|done]. intros [= <-].
  unfold session_available. cbn [SECRET_KEY]. split_and!.
  - intros Hn. by rewrite environ_get_unset.
  - intros Hs. by rewrite (environ_get_set _ _ _ _ Hs).
  - intros v Hs. by rewrite (environ_get_set _ _ _ _ Hs).
Qed.

(** The line printed names the address the server listens on, and the
    server runs with the debugger on. *)
Theorem main_spec :
  main.1 = ">>> http://" +:+ run_host main.2 +:+ ":" +:+ str_of_int (run_port main.2) ∧
  run_debug main.2 = true.
Proof. split; reflexivity. Qed.

(** ** Witnesses *)

Lemma configure_spec_witness :
  let r := configure ∅ "/srv/instance" ∅ in
  files_ok r.2 ∧ ∅ ⊆ r.2 ∧
  (∀ q, q ∉ ancestors (path_of "/srv/instance") → r.2 !! q = (∅ : files) !! q) ∧
  ((∃ d c, d ∈ ancestors (path_of "/srv/instance") ∧ (∅ : files) !! d = Some (File c)) →
   r.1 = Raise OSError) ∧
  ((¬ ∃ d c, d ∈ ancestors (path_of "/srv/instance") ∧ (∅ : files) !! d = Some (File c)) →
   is_dir r.2 (path_of "/srv/instance") = true ∧
   r.1 = Ok (Config (default "dev-change-me" ((∅ : environ) !! "BOOKBUDDY_SECRET"))
                    ("sqlite:///" +:+ path_join "/srv/instance" "bookbuddy.db") false "login")).
Proof. apply (configure_spec ∅ "/srv/instance" ∅). apply map_Forall_empty. Defined.

Lemma configure_idempotent_witness :
  (configure {["BOOKBUDDY_SECRET" := "k"]} "/srv/instance" (configure ∅ "/srv/instance" ∅).2).2
    = (configure ∅ "/srv/instance" ∅).2.
Proof. by apply (configure_idempotent ∅ {["BOOKBUDDY_SECRET" := "k"]} "/srv/instance" ∅). Defined.

Lemma database_file_spec_witness :
  database_file "/srv/instance" = "/srv/instance" +:+ "/bookbuddy.db" ∧
  path_of (database_file "/srv/instance") = path_of "/srv/instance" ++ ["bookbuddy.db"].
Proof. by apply (database_file_spec "/srv/instance"). Defined.

Lemma secret_key_fallback_witness :
  ((∅ : environ) !! "BOOKBUDDY_SECRET" = None →
   SECRET_KEY (Config "dev-change-me" "sqlite:////srv/instance/bookbuddy.db" false "login")
     = "dev-change-me") ∧
  ((∅ : environ) !! "BOOKBUDDY_SECRET" = Some EmptyString →
   session_available (Config "dev-change-me" "sqlite:////srv/instance/bookbuddy.db" false "login")
     = false) ∧
  (∀ v, (∅ : environ) !! "BOOKBUDDY_SECRET" = Some v →
        SECRET_KEY (Config "dev-change-me" "sqlite:////srv/instance/bookbuddy.db" false "login")
          = v).
Proof. by apply (secret_key_fallback ∅ "/srv/instance" ∅). Defined.

(** An empty [BOOKBUDDY_SECRET] leaves the application without
    sessions. *)
Example empty_secret :
  session_available <$> (configure {["BOOKBUDDY_SECRET" := EmptyString]} "/srv/instance" ∅).1
    = Ok false.
Proof. reflexivity. Qed.

(** A file named like the instance folder stops the module from
    loading. *)
Example instance_is_a_file :
  (configure ∅ "/srv/instance" {[ [""; "srv"] := Dir; [""; "srv"; "instance"] := File "x" ]}).1
    = Raise OSError.
Proof. vm_compute. reflexivity. Qed.
