(* ===== verification/Json.v ===== *)
(** * Json: the values [json.loads] returns and what the program does to them

    The program never inspects a response by schema: it calls [.get] on
    whatever was decoded, tests [isinstance], relies on truth values and
    applies [str].  Each of these is a total function here, returning an
    [outcome] where Python may raise.  A dict is the list of its items;
    two dicts with the same items are equivalent ([same_items]) and
    [.get] and truth respect the equivalence. *)

From Stdlib Require Import ZArith Floats Ascii String.
From stdpp Require Import base tactics option list strings.
From S2P Require Import Prelude PyStr.

#[local] Open Scope string_scope.

(** ** Values *)

(** A decoded JSON document.  An object is the list of the items of the
    document, in its order; where a key occurs twice the dict that
    [json.loads] makes holds the value of the later item ([assoc]) at
    the place of the earlier one ([keys]).  A number with a fraction or
    an exponent is an IEEE-754 double, any other number an unbounded
    integer. *)
#[warnings="-register-all"] Inductive json : Type :=
  | JNull
  | JBool (b : bool)
  | JInt (z : Z)
  | JFloat (f : float)
  | JStr (s : string)
  | JList (l : list json)
  | JDict (kvs : list (string * json)).

#[export] Instance json_inhabited : Inhabited json := populate JNull.

(** What the program needs of the Python runtime and does not define
    itself: [urllib.parse.quote] and the [repr] of floats and containers,
    which [str] falls back to. *)
Class PyRuntime : Type := {
  quote : string → string;
  repr_float : float → string;
  repr_list : list json → string;
  repr_dict : list (string * json) → string;
}.

(** ** Operations *)

(** [bool(x)] *)
Definition truth (x : json) : bool :=
  match x with
  | JNull => false
  | JBool b => b
  | JInt z => negb (Z.eqb z 0)
  | JFloat f => negb (PrimFloat.eqb f 0%float)
  | JStr s => truthy s
  | JList l => match l with [] => false | _ => true end
  | JDict kvs => match kvs with [] => false | _ => true end
  end.

(** [x or d] *)
Definition py_or (x d : json) : json := if truth x then x else d.

(** The value stored under [k] by the items of a dict: of two items
    with the same key the later one. *)
Fixpoint assoc (k : string) (kvs : list (string * json)) : option json :=
  match kvs with
  | [] => None
  | (k', v) :: kvs' =>
      match assoc k kvs' with
      | Some v' => Some v'
      | None => if bool_decide (k = k') then Some v else None
      end
  end.

(** [d.get(k)]: [None] when the key is absent; only a dict has [get]. *)
Definition dict_get (k : string) (d : json) : outcome json :=
  match d with
  | JDict kvs => Ok (default JNull (assoc k kvs))
  | _ => Raise AttributeError
  end.

Definition isinstance_list (x : json) : bool :=
  match x with JList _ => true | _ => false end.

Definition isinstance_dict (x : json) : bool :=
  match x with JDict _ => true | _ => false end.

Definition isinstance_str (x : json) : bool :=
  match x with JStr _ => true | _ => false end.

(** [isinstance(x, int)]: [bool] is a subclass of [int]. *)
Definition isinstance_int (x : json) : bool :=
  match x with JInt _ | JBool _ => true | _ => false end.

(** [x.strip()]: only a string has the method. *)
Definition method_strip (x : json) : outcome string :=
  match x with
  | JStr s => Ok (strip s)
  | _ => Raise AttributeError
  end.

(** [x[0]] for a list known to be non-empty. *)
Definition index0 (x : json) : outcome json :=
  match x with
  | JList (y :: _) => Ok y
  | _ => Raise TypeError
  end.

(** Iterating a string yields its characters, a dict its keys, each
    once, in the order in which they were first stored. *)
Definition chars (s : string) : list json :=
  (λ c, JStr (String c EmptyString)) <$> list_ascii_of_string s.

Fixpoint distinct (ks : list string) : list string :=
  match ks with
  | [] => []
  | k :: ks' => k :: filter (λ k', k' ≠ k) (distinct ks')
  end.

Definition keys (kvs : list (string * json)) : list json := JStr <$> distinct kvs.*1.

(** The items a [for] loop or [max] sees when it iterates over [x]. *)
Definition py_iter (x : json) : outcome (list json) :=
  match x with
  | JList l => Ok l
  | JDict kvs => Ok (keys kvs)
  | JStr s => Ok (chars s)
  | _ => Raise TypeError
  end.

(** [str(x)] *)
Definition py_str `{PyRuntime} (x : json) : string :=
  match x with
  | JNull => "None"
  | JBool true => "True"
  | JBool false => "False"
  | JInt z => str_of_int z
  | JFloat f => repr_float f
  | JStr s => s
  | JList l => repr_list l
  | JDict kvs => repr_dict kvs
  end.

(** [(x or "").strip()], the idiom applied to every text field. *)
Definition text_field (x : json) : outcome string :=
  method_strip (py_or x (JStr EmptyString)).

(** [str(x or "").strip()], the idiom applied to every identifier. *)
Definition ident_field `{PyRuntime} (x : json) : string :=
  strip (py_str (py_or x (JStr EmptyString))).

(** [str(l[0] or "").strip()] guarded by [isinstance(l, list) and l]. *)
Definition first_ident `{PyRuntime} (x : json) : string :=
  match x with
  | JList (y :: _) => ident_field y
  | _ => EmptyString
  end.

(** [int(f)] of a double: the integer part, towards zero. *)
Definition int_of_float (f : float) : outcome Z :=
  match Prim2SF f with
  | S754_zero _ => Ok 0%Z
  | S754_infinity _ => Raise OverflowError
  | S754_nan => Raise ValueError
  | S754_finite s m e =>
      let magnitude := Z.shiftl (Z.pos m) e in
      Ok (if s then (- magnitude)%Z else magnitude)
  end.

(** [int(x)] *)
Definition int_of (x : json) : outcome Z :=
  match x with
  | JInt z => Ok z
  | JBool b => Ok (if b then 1 else 0)%Z
  | JFloat f => int_of_float f
  | JStr s => py_int s
  | JNull | JList _ | JDict _ => Raise TypeError
  end.

(** [int(x or 0)], the idiom applied to every identifier of a row. *)
Definition id_field (x : json) : outcome Z := int_of (py_or x (JInt 0)).

(** Two values that [.get] cannot tell apart: the same value, or two
    dicts that hold the same value under every key, whatever the order
    of their items in the document. *)
Definition same_items (x y : json) : Prop :=
  match x, y with
  | JDict kvs, JDict kvs' => ∀ k, assoc k kvs = assoc k kvs'
  | _, _ => x = y
  end.

#[export] Instance json_equiv : Equiv json := same_items.

(** ** Lemmas *)

Lemma truth_py_or x d : truth (py_or x d) = truth x || truth d.
Proof. unfold py_or. by destruct (truth x) eqn:E; rewrite ?E. Qed.

Lemma py_or_truth x d : truth x = true → py_or x d = x.
Proof. unfold py_or. by intros ->. Qed.

Lemma py_or_false x d : truth x = false → py_or x d = d.
Proof. unfold py_or. by intros ->. Qed.

Lemma dict_get_ok k d v : dict_get k d = Ok v → isinstance_dict d = true.
Proof. by destruct d. Qed.

Lemma dict_get_dict k kvs : dict_get k (JDict kvs) = Ok (default JNull (assoc k kvs)).
Proof. done. Qed.

Lemma dict_get_raise k d : isinstance_dict d = false → dict_get k d = Raise AttributeError.
Proof. by destruct d. Qed.

Lemma assoc_elem k kvs v : assoc k kvs = Some v → (k, v) ∈ kvs.
Proof.
  induction kvs as [|[k' v'] kvs IH]; simpl; [done|].
  destruct (assoc k kvs); [intros [= ->]; right; auto|].
  case_bool_decide; [intros [= ->]; subst; left|done].
Qed.

(** A key that has an item has a value. *)
Lemma assoc_head k v kvs : is_Some (assoc k ((k, v) :: kvs)).
Proof. simpl. destruct (assoc k kvs); [done|]. by rewrite bool_decide_eq_true_2. Qed.

(** Where no key occurs twice, the value is that of the only item. *)
Lemma assoc_NoDup k v kvs : NoDup kvs.*1 → (k, v) ∈ kvs → assoc k kvs = Some v.
Proof.
  induction kvs as [|[k' v'] kvs IH]; [by intros _ ?%elem_of_nil|].
  rewrite fmap_cons, NoDup_cons. intros [Hk Hnd] [[= -> ->]|Hin]%elem_of_cons; simpl.
  - destruct (assoc k' kvs) as [w|] eqn:E; [|by rewrite bool_decide_eq_true_2].
    destruct Hk. apply assoc_elem in E. by apply (list_elem_of_fmap_2 fst _ (k', w)).
  - by rewrite (IH Hnd Hin).
Qed.

Lemma keys_cons k v kvs : ∃ l, keys ((k, v) :: kvs) = JStr k :: l.
Proof. by eexists. Qed.

(** [id_field] of a false value is 0; of an integer, the integer. *)
Lemma id_field_false x : truth x = false → id_field x = Ok 0%Z.
Proof. intros Hx. unfold id_field. by rewrite py_or_false. Qed.

Lemma id_field_int z : id_field (JInt z) = Ok z.
Proof. unfold id_field, py_or. simpl. by destruct (Z.eqb_spec z 0) as [->|]. Qed.

Lemma id_field_container x :
  truth x = true → isinstance_list x || isinstance_dict x = true →
  id_field x = Raise TypeError.
Proof. intros Hx. unfold id_field. rewrite py_or_truth by done. by destruct x. Qed.

(** What [.get] and [int] can raise. *)
Lemma dict_get_raise_inv k d e : dict_get k d = Raise e → e = AttributeError.
Proof. destruct d; simpl; congruence. Qed.

Lemma py_int_raise_inv s e : py_int s = Raise e → e = ValueError.
Proof. unfold py_int. destruct (match strip s with EmptyString => _ | _ => _ end); simpl; congruence. Qed.

Lemma int_of_raise_inv x e :
  int_of x = Raise e → e = TypeError ∨ e = ValueError ∨ e = OverflowError.
Proof.
  destruct x as [|b|z|f|s|l|kvs]; simpl; try (intros [= <-]; by auto).
  - unfold int_of_float. destruct (Prim2SF f); intros [= <-]; auto.
  - intros ->%py_int_raise_inv. auto.
Qed.

(** [text_field] succeeds exactly on a string or a false value. *)
Lemma text_field_ok x :
  is_Ok (text_field x) = isinstance_str x || negb (truth x).
Proof.
  unfold text_field, py_or. destruct (truth x) eqn:E; [|by rewrite orb_true_r].
  by destruct x.
Qed.

Lemma text_field_str s : text_field (JStr s) = Ok (strip s).
Proof. unfold text_field, py_or; simpl. by destruct s. Qed.

Lemma text_field_null : text_field JNull = Ok EmptyString.
Proof. done. Qed.

Lemma text_field_trimmed x s : text_field x = Ok s → trimmed s = true.
Proof.
  unfold text_field, py_or. destruct (truth x); [destruct x|]; simpl;
    intros [= <-]; auto using strip_trimmed.
Qed.

Lemma ident_field_trimmed `{PyRuntime} x : trimmed (ident_field x) = true.
Proof. apply strip_trimmed. Qed.

Lemma ident_field_str `{PyRuntime} s : ident_field (JStr s) = strip s.
Proof. unfold ident_field, py_or; simpl. by destruct s. Qed.

Lemma ident_field_int `{PyRuntime} z : z ≠ 0%Z → ident_field (JInt z) = strip (str_of_int z).
Proof.
  intros Hz. unfold ident_field, py_or; simpl.
  by rewrite (proj2 (Z.eqb_neq z 0) Hz).
Qed.

Lemma ident_field_false `{PyRuntime} x : truth x = false → ident_field x = EmptyString.
Proof. intros Hx. unfold ident_field. by rewrite py_or_false. Qed.

Lemma first_ident_not_list `{PyRuntime} x :
  isinstance_list x = false → first_ident x = EmptyString.
Proof. by destruct x. Qed.

(** *** Dicts up to the order of their items *)

#[export] Instance same_items_equivalence : Equivalence (≡@{json}).
Proof.
  split.
  - by intros [].
  - intros [] []; by cbn.
  - intros [] [] []; cbn; try congruence.
Qed.

(** Equivalent values are equal, or two dicts with the same lookups. *)
Lemma same_items_cases x y :
  x ≡ y →
  x = y ∨ ∃ kvs kvs', x = JDict kvs ∧ y = JDict kvs' ∧ ∀ k, assoc k kvs = assoc k kvs'.
Proof. destruct x, y; try (by left). intros Hxy. right. by eexists _, _. Qed.

#[export] Instance isinstance_dict_proper : Proper ((≡) ==> (=)) isinstance_dict.
Proof. by intros x y [->|(kvs & kvs' & -> & -> & Hk)]%same_items_cases. Qed.

#[export] Instance dict_get_proper k : Proper ((≡) ==> (=)) (dict_get k).
Proof.
  intros x y [->|(kvs & kvs' & -> & -> & Hk)]%same_items_cases; [done|].
  cbn. by rewrite Hk.
Qed.

(** A dict with no value under any key is the empty dict. *)
#[export] Instance truth_proper : Proper ((≡) ==> (=)) truth.
Proof.
  intros x y [->|(kvs & kvs' & -> & -> & Hk)]%same_items_cases; [done|].
  destruct kvs as [|[k v] kvs], kvs' as [|[k' v'] kvs']; try done.
  - specialize (Hk k'). by destruct (assoc_head k' v' kvs') as [w Hw]; rewrite Hw in Hk.
  - specialize (Hk k). by destruct (assoc_head k v kvs) as [w Hw]; rewrite Hw in Hk.
Qed.

#[export] Hint Rewrite truth_py_or text_field_str text_field_null : py.
