(* ===== verification/Flask.v ===== *)
(** * Flask: what a handler reads from a request and what it answers

    The idioms shared by the handlers: a query or form parameter that may
    be absent, read through [(request.args.get(name) or "").strip()]; the
    body of a request read through [request.get_json(force=True)]; and
    the three shapes of an answer: a redirect after a flashed message, a
    template, a JSON body with its status. *)

From Stdlib Require Import ZArith.
From stdpp Require Import base tactics option list strings.
From S2P Require Import Prelude PyStr Json.

(** ** Definitions *)

(** [request.args.get(name) or d]: [None] when the parameter is absent. *)
Definition arg_or (x : option string) (d : string) : string :=
  match x with
  | Some s => str_or s d
  | None => d
  end.

(** [(request.args.get(name) or "").strip()], and the same on
    [request.form]. *)
Definition arg_text (x : option string) : string := strip (arg_or x EmptyString).

(** [int(request.form.get(name) or 0)]: an absent or empty field is 0,
    any other text is parsed and may raise [ValueError]. *)
Definition arg_int (x : option string) : outcome Z :=
  match x with
  | Some s => if truthy s then py_int s else Ok 0%Z
  | None => Ok 0%Z
  end.

(** [request.get_json(force=True)]: the body decoded, whatever its
    content type says.  A body that is not a JSON document, the empty
    body included, is [None]: the call raises [BadRequest], which Flask
    answers with status 400 and a page of its own. *)
Definition get_json {S} (body : option json) : M S json :=
  match body with
  | Some data => mret data
  | None => raise BadRequest
  end.

(** What a page handler answers: [flash(message, category)] followed by
    [redirect(url_for(endpoint))]; the same with arguments for [url_for]
    and with or without a flashed message; or
    [render_template(template, ...)]. *)
Inductive page : Type :=
  | Redirect (endpoint : string) (message category : string)
  | RedirectArgs (endpoint : string) (args : list (string * string))
                 (flashed : option (string * string))
  | Render (template : string).

#[export] Instance page_eq_dec : EqDecision page.
Proof. solve_decision. Defined.

(** What a JSON endpoint answers: the body and the status. *)
Definition response : Type := json * Z.

(** [{"ok": True}] *)
Definition ok_response : response := (JDict [("ok", JBool true)], 200%Z).

(** [{"ok": False, "error": msg}, status] *)
Definition error_response (msg : string) (status : Z) : response :=
  (JDict [("ok", JBool false); ("error", JStr msg)], status).

(** *** The shape of a JSON answer

    What the scripts of the pages read of an answer: an object with the
    boolean [ok] and the fields of the endpoint, in any order. *)
Inductive ty : Type :=
  | TBool
  | TInt
  | TStr
  | TList (t : ty)
  | TObject (fields : list (string * ty)).

Fixpoint has_ty (t : ty) (j : json) {struct t} : bool :=
  match t, j with
  | TBool, JBool _ | TInt, JInt _ | TStr, JStr _ => true
  | TList t', JList l => forallb (has_ty t') l
  | TObject fields, JDict kvs =>
      (length kvs =? length fields)%nat &&
      forallb (λ field, match assoc field.1 kvs with
                        | Some v => has_ty field.2 v
                        | None => false
                        end) fields
  | _, _ => false
  end.

(** An answer with the fields [fields] after [ok]. *)
Definition answer (fields : list (string * ty)) : ty := TObject (("ok", TBool) :: fields).

Definition error_answer : ty := answer [("error", TStr)].

(** The value of [ok]. *)
Definition ok_of (j : json) : option bool :=
  match j with
  | JDict kvs => match assoc "ok" kvs with Some (JBool b) => Some b | _ => None end
  | _ => None
  end.

(** An answer of an endpoint whose fields are [fields]: status 200 with
    [ok] true and these fields, or a status from 400 to 499 with [ok]
    false and a message. *)
Definition well_typed (fields : list (string * ty)) (r : response) : Prop :=
  (r.2 = 200%Z ∧ has_ty (answer fields) r.1 = true ∧ ok_of r.1 = Some true) ∨
  ((400 ≤ r.2 < 500)%Z ∧ has_ty error_answer r.1 = true ∧ ok_of r.1 = Some false).

(** ** Lemmas *)

Lemma ok_response_typed : well_typed [] ok_response.
Proof. by left. Qed.

Lemma error_response_typed fields msg status :
  (400 ≤ status < 500)%Z → well_typed fields (error_response msg status).
Proof. intros Hs. by right. Qed.

Lemma has_ty_ints l : has_ty (TList TInt) (JList (JInt <$> l)) = true.
Proof. cbn. by induction l. Qed.

(** [{"ok": True, name: [ints]}] *)
Lemma answer_with_ints name l :
  name ≠ "ok" →
  has_ty (answer [(name, TList TInt)]) (JDict [("ok", JBool true); (name, JList (JInt <$> l))])
    = true.
Proof.
  intros Hn. cbn [has_ty answer length Nat.eqb andb forallb fst snd assoc].
  rewrite (bool_decide_eq_true_2 ("ok" = "ok")), (bool_decide_eq_false_2 ("ok" = name)) by done.
  rewrite (bool_decide_eq_true_2 (name = name)) by done. cbn [has_ty andb].
  rewrite andb_true_r. apply (has_ty_ints l).
Qed.

Lemma get_json_bind {S A} body (f : json → M S A) (s : S) :
  (data ← get_json body; f data) s =
    match body with Some data => f data s | None => (Raise BadRequest, s) end.
Proof. by destruct body. Qed.

Lemma arg_or_empty x : arg_or x EmptyString = default EmptyString x.
Proof. destruct x; simpl; [apply str_or_empty_r|done]. Qed.

Lemma arg_text_Some s : arg_text (Some s) = strip s.
Proof. unfold arg_text. by rewrite arg_or_empty. Qed.

Lemma arg_text_None : arg_text None = EmptyString.
Proof. done. Qed.

Lemma arg_text_trimmed x : trimmed (arg_text x) = true.
Proof. apply strip_trimmed. Qed.

Lemma arg_text_strip x : strip (arg_text x) = arg_text x.
Proof. apply strip_idemp. Qed.

(** A parameter is usable exactly when it is given and not blank. *)
Lemma truthy_arg_text x : truthy (arg_text x) = negb (blank (default EmptyString x)).
Proof. unfold arg_text. by rewrite arg_or_empty, truthy_strip. Qed.

Lemma arg_text_blank x : blank (arg_text x) = negb (truthy (arg_text x)).
Proof. by rewrite <- (arg_text_strip x) at 2; rewrite truthy_strip, negb_involutive. Qed.

(** A blank field that is not empty is not a number. *)
Lemma arg_int_blank s : truthy s = true → blank s = true → arg_int (Some s) = Raise ValueError.
Proof. intros Ht Hb. simpl. rewrite Ht. by apply py_int_blank. Qed.

#[export] Hint Rewrite arg_text_Some arg_text_strip : py.
#[export] Hint Resolve arg_text_trimmed : py.
