(* ===== verification/Cover.v ===== *)
(** * Cover: the cover-image URL scheme ([_ol_cover_url])

    Three URL templates, keyed by cover id, ISBN and edition id, chosen in
    that strict priority; the placeholder shown when none applies. *)

From Stdlib Require Import ZArith.
From stdpp Require Import base tactics list strings.
From S2P Require Import Prelude PyStr.

#[local] Open Scope string_scope.

(** ** Definitions *)

Definition PLACEHOLDER_COVER : string :=
  "https://placehold.co/400x600/EEE/AAA?text=No+Cover".

(** Which identifier a cover URL was built from. *)
Inductive cover_kind : Type := ById | ByIsbn | ByOlid.

#[export] Instance cover_kind_eq_dec : EqDecision cover_kind.
Proof. solve_decision. Defined.

Definition cover_segment (k : cover_kind) : string :=
  match k with ById => "id" | ByIsbn => "isbn" | ByOlid => "olid" end.

(** The f-string of each [return] of [_ol_cover_url]. *)
Definition cover_template (k : cover_kind) (ident : string) : string :=
  "https://covers.openlibrary.org/b/" ++ cover_segment k ++ "/" ++ ident ++ "-L.jpg".

Definition _ol_cover_url (cover_i isbn olid : string) : string :=
  let cover_i := strip (str_or cover_i EmptyString) in
  let isbn := strip (str_or isbn EmptyString) in
  let olid := strip (str_or olid EmptyString) in
  if truthy cover_i then cover_template ById cover_i
  else if truthy isbn then cover_template ByIsbn isbn
  else if truthy olid then cover_template ByOlid olid
  else EmptyString.

(** The abstract contract: the first usable identifier, in priority
    order, or none. *)
Definition cover_choice (cover_i isbn olid : string) : option (cover_kind * string) :=
  if negb (blank cover_i) then Some (ById, strip cover_i)
  else if negb (blank isbn) then Some (ByIsbn, strip isbn)
  else if negb (blank olid) then Some (ByOlid, strip olid)
  else None.

(** ** Lemmas *)

Lemma cover_template_truthy k ident : truthy (cover_template k ident) = true.
Proof. by destruct k. Qed.

Lemma cover_template_inj k k' i i' :
  cover_template k i = cover_template k' i' → k = k' ∧ i = i'.
Proof.
  unfold cover_template. intros Heq.
  destruct k, k'; simpl in Heq;
    rewrite ?str_app_cons, ?str_app_nil_l in Heq; simplify_eq/=;
    by eauto using str_app_inv_r.
Qed.

Lemma truthy_strip_str_or s : truthy (strip (str_or s EmptyString)) = negb (blank s).
Proof. by rewrite str_or_empty_r, truthy_strip. Qed.

Lemma ol_cover_url_choice cover_i isbn olid :
  _ol_cover_url cover_i isbn olid =
    from_option (λ c, cover_template c.1 c.2) EmptyString
      (cover_choice cover_i isbn olid).
Proof.
  unfold _ol_cover_url, cover_choice. rewrite !truthy_strip_str_or, !str_or_empty_r.
  by repeat case_match.
Qed.

(** C4. The code implements the contract: the URL is the template of the
    chosen identifier, and empty when there is none. *)
Theorem ol_cover_url_refines cover_i isbn olid :
  _ol_cover_url cover_i isbn olid =
    from_option (λ c, cover_template c.1 c.2) EmptyString
      (cover_choice cover_i isbn olid).
Proof. exact (ol_cover_url_choice cover_i isbn olid). Qed.

(** Priority of the cover id: when [cover_i] is not blank,
    [_ol_cover_url] returns the cover-id URL built from the stripped
    [cover_i], whatever the ISBN and the edition id are. *)
Theorem ol_cover_url_by_id cover_i isbn olid :
  blank cover_i = false →
  _ol_cover_url cover_i isbn olid = cover_template ById (strip cover_i).
Proof. intros Hc. rewrite ol_cover_url_choice. unfold cover_choice. by rewrite Hc. Qed.

Lemma ol_cover_url_by_id_witness :
  _ol_cover_url " 123 " "9780141182636" "OL1M" = cover_template ById "123".
Proof. apply (ol_cover_url_by_id " 123 " "9780141182636" "OL1M"). reflexivity. Defined.

Theorem ol_cover_url_by_isbn cover_i isbn olid :
  blank cover_i = true → blank isbn = false →
  _ol_cover_url cover_i isbn olid = cover_template ByIsbn (strip isbn).
Proof.
  intros Hc Hi. rewrite ol_cover_url_choice. unfold cover_choice. by rewrite Hc, Hi.
Qed.

Theorem ol_cover_url_by_olid cover_i isbn olid :
  blank cover_i = true → blank isbn = true → blank olid = false →
  _ol_cover_url cover_i isbn olid = cover_template ByOlid (strip olid).
Proof.
  intros Hc Hi Ho. rewrite ol_cover_url_choice. unfold cover_choice.
  by rewrite Hc, Hi, Ho.
Qed.

(** The result is empty exactly when no identifier is usable. *)
Theorem ol_cover_url_empty_iff cover_i isbn olid :
  _ol_cover_url cover_i isbn olid = EmptyString ↔
  blank cover_i = true ∧ blank isbn = true ∧ blank olid = true.
Proof.
  rewrite ol_cover_url_choice. unfold cover_choice.
  destruct (blank cover_i), (blank isbn), (blank olid); simpl;
    split; try done; try (intros (? & ? & ?); done).
Qed.

(** The URL tells which identifier was used: a URL of the ISBN or edition
    template is never returned while a cover id is usable. *)
Theorem ol_cover_url_determines_choice cover_i isbn olid k ident :
  _ol_cover_url cover_i isbn olid = cover_template k ident →
  cover_choice cover_i isbn olid = Some (k, ident).
Proof.
  rewrite ol_cover_url_choice.
  destruct (cover_choice cover_i isbn olid) as [[k' i']|]; simpl.
  - by intros [-> ->]%cover_template_inj.
  - intros Heq. pose proof (cover_template_truthy k ident) as Ht.
    by rewrite <- Heq in Ht.
Qed.

Lemma ol_cover_url_strip cover_i isbn olid :
  _ol_cover_url (strip cover_i) (strip isbn) (strip olid) =
  _ol_cover_url cover_i isbn olid.
Proof. unfold _ol_cover_url. by rewrite !str_or_empty_r, !strip_idemp. Qed.

Lemma ol_cover_url_truthy_or_empty cover_i isbn olid :
  _ol_cover_url cover_i isbn olid = EmptyString ∨
  ∃ k ident, truthy ident = true ∧ trimmed ident = true ∧
             _ol_cover_url cover_i isbn olid = cover_template k ident.
Proof.
  rewrite ol_cover_url_choice. unfold cover_choice.
  repeat case_match; simplify_eq/=; auto; right; eexists _, _;
    (split_and!; [|apply strip_trimmed|done]);
    rewrite truthy_strip; by apply negb_true_iff, negb_true_iff.
Qed.

(** The example of the specification: all three identifiers present. *)
Example ol_cover_url_example :
  _ol_cover_url "123" "9780141182636" "OL1M" =
  "https://covers.openlibrary.org/b/id/123-L.jpg".
Proof. reflexivity. Qed.
