(* ===== verification/Http.v ===== *)
(** * Http: requests to Open Library and the log of the calls made

    The network is an interface: the answer to the n-th request of a run
    is any function of n and the request.  A computation that calls out
    appends the request to the log it threads, so that the number and the
    order of external calls are facts about the final state.  [sent P]
    relates a log to the logs that extend it by requests satisfying
    [P]; [polite] is what every request of the program satisfies. *)

From Stdlib Require Import ZArith Lia.
From stdpp Require Import base tactics list strings.
From S2P Require Import Prelude PyStr Json.

(** ** Definitions *)

(** [Request(url, headers={"User-Agent": agent})] sent with a timeout. *)
Record request : Type := Request {
  req_url : string;
  req_agent : string;
  req_timeout : Z;
}.

#[export] Instance request_eq_dec : EqDecision request.
Proof. solve_decision. Defined.

(** What the outside world answers: the decoded body, or the exception
    raised by [urlopen], [read], [decode] or [json.loads]. *)
Class Network : Type := {
  respond : nat → request → outcome json;
}.

Definition USER_AGENT : string := "BookBuddy/1.0 (personal project)".

(** [with urlopen(req, timeout=t) as resp:
       data = json.loads(resp.read().decode("utf-8"))] *)
Definition urlopen_json `{Network} (req : request) : M (list request) json :=
  λ log, (respond (length log) req, log ++ [req]).

(** The same, inside [try: ... except Exception: return <empty>]. *)
Definition try_urlopen_json `{Network} (req : request)
  : M (list request) (option json) :=
  try_except (data ← urlopen_json req; mret (Some data)) (λ _, mret None).

(** [https://openlibrary.org/search.json?q={quote(q)}&limit={limit}&page={page}] *)
Definition search_url `{PyRuntime} (q : string) (limit page : Z) : string :=
  "https://openlibrary.org/search.json?q=" +:+ quote q +:+
  "&limit=" +:+ str_of_int limit +:+ "&page=" +:+ str_of_int page.

(** The query text: the title, followed by the author when there is one. *)
Definition query_text (t a : string) : string :=
  if negb (truthy a) then t else t +:+ " " +:+ a.

(** A request as the program means to send it: under its own
    [User-Agent] and with a time limit of 10 to 20 seconds. *)
Definition polite (req : request) : Prop :=
  req_agent req = USER_AGENT ∧ (10 ≤ req_timeout req ≤ 20)%Z.

(** The host of Open Library, with the slash that ends it. *)
Definition to_open_library (req : request) : bool :=
  startswith (req_url req) "https://openlibrary.org/".

(** The log [log'] is [log] followed by requests that satisfy [P]. *)
Definition sent (P : request → Prop) (log log' : list request) : Prop :=
  ∃ new, log' = log ++ new ∧ Forall P new.

(** ** Lemmas *)

#[export] Instance sent_preorder P : PreOrder (sent P).
Proof.
  split.
  - intros log. exists []. by rewrite app_nil_r.
  - intros l1 l2 l3 (n1 & -> & H1) (n2 & -> & H2). exists (n1 ++ n2).
    split; [by rewrite app_assoc|by apply Forall_app].
Qed.

Lemma sent_Forall P log log' : sent P log log' → Forall P log → Forall P log'.
Proof. intros (new & -> & Hn) Hl. by apply Forall_app. Qed.

Lemma sent_prefix P log log' : sent P log log' → log `prefix_of` log'.
Proof. intros (new & -> & _). by exists new. Qed.

Section http.
Context `{Network}.
Implicit Types (req : request) (log : list request).

Lemma urlopen_json_log req log :
  (urlopen_json req log).2 = log ++ [req].
Proof. done. Qed.

Lemma try_urlopen_json_log req log :
  (try_urlopen_json req log).2 = log ++ [req].
Proof.
  unfold try_urlopen_json, urlopen_json. monad_unfold.
  by destruct (respond _ _).
Qed.

(** The guarded call never raises. *)
Lemma try_urlopen_json_ok req log :
  (try_urlopen_json req log).1 =
    Ok (match respond (length log) req with Ok d => Some d | Raise _ => None end).
Proof.
  unfold try_urlopen_json, urlopen_json. monad_unfold.
  by destruct (respond _ _).
Qed.

Lemma try_urlopen_json_run req log :
  try_urlopen_json req log =
    (Ok (match respond (length log) req with Ok d => Some d | Raise _ => None end),
     log ++ [req]).
Proof.
  rewrite (surjective_pairing (try_urlopen_json req log)).
  by rewrite try_urlopen_json_ok, try_urlopen_json_log.
Qed.
(** A call appends its request, whatever the answer. *)
Lemma urlopen_json_sent P req : P req → keeps (sent P) (urlopen_json req).
Proof. intros Hreq log. exists [req]. split; [done|by constructor]. Qed.

Lemma try_urlopen_json_sent P req : P req → keeps (sent P) (try_urlopen_json req).
Proof.
  intros Hreq. unfold try_urlopen_json. solve_keeps. by apply urlopen_json_sent.
Qed.

End http.

#[export] Hint Resolve urlopen_json_sent try_urlopen_json_sent : keeps.
#[export] Hint Extern 1 (polite _) => split; [reflexivity|simpl; lia] : keeps.
#[export] Hint Extern 1 (_ ≤ _ ≤ _)%Z => lia : keeps.

(** A search goes to Open Library, whatever is searched for. *)
Lemma search_url_host `{PyRuntime} q limit page agent timeout :
  to_open_library (Request (search_url q limit page) agent timeout) = true.
Proof. apply startswith_spec. by eexists. Qed.

Lemma query_text_no_author t : query_text t EmptyString = t.
Proof. done. Qed.

Lemma query_text_author t a :
  truthy a = true → query_text t a = t +:+ " " +:+ a.
Proof. unfold query_text. by intros ->. Qed.
