(* ===== verification/Fixtures.v ===== *)
(** * Fixtures: a concrete runtime and canned responses

    The theorems hold for every runtime and every network.  To evaluate
    the model on concrete inputs this file fixes one of each: a
    percent-encoder for [quote], and networks that answer from a table. *)

From Stdlib Require Import ZArith NArith Ascii.
From stdpp Require Import base tactics option list strings.
From S2P Require Import Prelude PyStr Json Http.

(** ** A runtime *)

Definition hex_digit (n : N) : ascii :=
  ascii_of_N (if (n <? 10)%N then 48 + n else 55 + n).

(** Characters [quote] leaves as they are: letters, digits, [_.-~/]. *)
Definition quote_safe (c : ascii) : bool :=
  let n := N_of_ascii c in
  ((48 <=? n) && (n <=? 57) || (65 <=? n) && (n <=? 90) ||
   (97 <=? n) && (n <=? 122) ||
   (n =? 45) || (n =? 46) || (n =? 47) || (n =? 95) || (n =? 126))%N.

Fixpoint quote_bytes (s : string) : string :=
  match s with
  | EmptyString => EmptyString
  | String c s' =>
      if quote_safe c then String c (quote_bytes s')
      else let n := N_of_ascii c in
           String "%"%char (String (hex_digit (n / 16)) (String (hex_digit (n mod 16))
             (quote_bytes s')))
  end.

Definition demo_runtime : PyRuntime := {|
  quote := quote_bytes;
  repr_float := λ _, "0.0";
  repr_list := λ _, "[...]";
  repr_dict := λ _, "{...}";
|}.

(** ** Networks *)

(** No connectivity: every request fails. *)
Definition offline : Network := {| respond := λ _ _, Raise URLError |}.

(** Every request gets the same body. *)
Definition always (body : json) : Network := {| respond := λ _ _, Ok body |}.

(** Answers from a table keyed by URL; any other request fails. *)
Definition table_net (tbl : list (string * json)) : Network :=
  {| respond := λ _ req, from_option Ok (Raise URLError) (assoc (req_url req) tbl) |}.

(** The n-th request gets the n-th answer of a script; requests beyond
    its end fail. *)
Definition script (answers : list (outcome json)) : Network :=
  {| respond := λ n _, default (Raise URLError) (answers !! n) |}.

(** ** Documents *)

Definition doc_1984 : json :=
  JDict [("title", JStr "1984"); ("author_name", JList [JStr "George Orwell"]);
         ("cover_i", JInt 123); ("isbn", JList [JStr "9780141182636"]);
         ("edition_key", JList [JStr "OL1M"]); ("first_publish_year", JInt 1949)].

Definition doc_1984_study_guide : json :=
  JDict [("title", JStr "1984 (Study Guide)"); ("author_name", JList [JStr "SparkNotes"]);
         ("cover_i", JInt 77); ("isbn", JList [JStr "9781411469488"]);
         ("edition_key", JList [JStr "OL9M"]); ("first_publish_year", JInt 2002)].

Definition doc_1984_no_cover : json :=
  JDict [("title", JStr "1984"); ("author_name", JList [JStr "George Orwell"]);
         ("isbn", JList [JStr "9780141182636"]); ("edition_key", JList [JStr "OL1M"])].

Definition doc_1984_other_author : json :=
  JDict [("title", JStr "1984"); ("author_name", JList [JStr "Haruki Murakami"]);
         ("cover_i", JInt 123); ("isbn", JList [JStr "9780141182636"]);
         ("edition_key", JList [JStr "OL1M"]); ("first_publish_year", JInt 1949)].

Definition items_of (d : json) : list (string * json) :=
  match d with JDict kvs => kvs | _ => [] end.

Definition body_1984 : json :=
  JDict [("numFound", JInt 2); ("docs", JList [doc_1984_study_guide; doc_1984])].

Definition url_1984 : string :=
  "https://openlibrary.org/search.json?q=1984%20George%20Orwell&limit=20&page=1".
