(* ===== verification/Matcher.v ===== *)
(** * Matcher: the best-match heuristic over Open Library results
      ([_ol_best_match] and its nested [score])

    One search request, a score for every candidate, the first candidate
    of highest score, and the identifiers read off it. *)

From Stdlib Require Import ZArith Lia.
From stdpp Require Import base tactics option list strings gmap.
From S2P Require Import Prelude PyStr Json Cover Http Fixtures.

#[local] Open Scope Z_scope.

(** ** Definitions *)

(** The title part of the score: an exact match, or the query inside the
    candidate's title. *)
Definition title_points (t_low d_title : string) : Z :=
  if bool_decide (d_title = t_low) then 50
  else if truthy t_low && contains t_low d_title then 25
  else 0.

(** The author part: only when an author was asked for and the candidate
    lists one. *)
Definition author_points (a_low first_author : string) : Z :=
  if truthy a_low && truthy first_author then
    if bool_decide (first_author = a_low) then 50
    else if contains a_low first_author || contains first_author a_low then 25
    else 0
  else 0.

(** [(authors[0] or "").strip().lower()] when [authors] is a non-empty
    list, the empty string otherwise. *)
Definition first_author_of (authors : json) : outcome string :=
  if isinstance_list authors && truth authors then
    a0 ← index0 authors; lower <$> text_field a0
  else Ok EmptyString.

Definition cover_points (cover_i : json) : Z := if truth cover_i then 10 else 0.

Definition isbn_points (isbns : json) : Z :=
  if isinstance_list isbns && truth isbns then 3 else 0.

(** The nested function [score(doc)] of [_ol_best_match]. *)
Definition score (t_low a_low : string) (doc : json) : outcome Z :=
  title ← dict_get "title" doc;
  d_title ← lower <$> text_field title;
  authors ← dict_get "author_name" doc;
  first_author ← first_author_of authors;
  cover_i ← dict_get "cover_i" doc;
  isbns ← dict_get "isbn" doc;
  Ok (title_points t_low d_title + author_points a_low first_author
      + cover_points cover_i + isbn_points isbns).

(** [str(best["first_publish_year"])] when the field is an [int]. *)
Definition year_of `{PyRuntime} (y : json) : string :=
  if isinstance_int y then py_str y else EmptyString.

(** The dict [_ol_best_match] returns for the winning candidate. *)
Definition extract_meta `{PyRuntime} (best : json) : outcome (gmap string string) :=
  ci ← dict_get "cover_i" best;
  let cover_i := ident_field ci in
  edition_keys ← dict_get "edition_key" best;
  let olid := first_ident edition_keys in
  isbns ← dict_get "isbn" best;
  let isbn := first_ident isbns in
  y ← dict_get "first_publish_year" best;
  let year := year_of y in
  let cover := _ol_cover_url cover_i isbn olid in
  Ok {[ "cover" := cover; "cover_i" := cover_i; "isbn" := isbn;
        "olid" := olid; "year" := year ]}.

(** Everything after the response was decoded. *)
Definition select_best `{PyRuntime} (t a : string) (data : json)
  : outcome (gmap string string) :=
  docs0 ← dict_get "docs" data;
  let docs := py_or docs0 (JList []) in
  if negb (truth docs) then Ok ∅ else
  items ← py_iter docs;
  best ← py_max_by (score (lower t) (lower a)) items;
  extract_meta best.

Definition best_match_request `{PyRuntime} (t a : string) (timeout : Z) : request :=
  Request (search_url (query_text t a) 20 1) USER_AGENT timeout.

(** [_ol_best_match(title, author, timeout)]; the empty dict stands for
    no match. *)
Definition _ol_best_match `{PyRuntime, Network} (title author : string) (timeout : Z)
  : M (list request) (gmap string string) :=
  let t := strip (str_or title EmptyString) in
  let a := strip (str_or author EmptyString) in
  if negb (truthy t) then mret ∅ else
  r ← try_urlopen_json (best_match_request t a timeout);
  match r with
  | None => mret ∅
  | Some data => lift (select_best t a data)
  end.

(** [meta.get(k) or ""] on a dict of strings. *)
Definition meta_get (meta : gmap string string) (k : string) : string :=
  default EmptyString (meta !! k).

(** A field that [text_field] accepts: a string, or a false value. *)
Definition text_ok (x : json) : bool := isinstance_str x || negb (truth x).

Definition authors_ok (x : json) : bool :=
  match x with JList (y :: _) => text_ok y | _ => true end.

(** The candidates [score] does not raise on. *)
Definition scorable (doc : json) : bool :=
  match doc with
  | JDict kvs =>
      text_ok (default JNull (assoc "title" kvs)) &&
      authors_ok (default JNull (assoc "author_name" kvs))
  | _ => false
  end.

(** The score as a number, 0 where [score] raises. *)
Definition score_of (t_low a_low : string) (doc : json) : Z :=
  from_outcome 0 (score t_low a_low doc).

(** The shape of a non-empty result: the five keys, the cover built from
    the other fields, every identifier trimmed. *)
Definition meta_wf (m : gmap string string) : Prop :=
  ∃ cover_i isbn olid year,
    m = {[ "cover" := _ol_cover_url cover_i isbn olid; "cover_i" := cover_i;
           "isbn" := isbn; "olid" := olid; "year" := year ]} ∧
    trimmed cover_i = true ∧ trimmed isbn = true ∧ trimmed olid = true.

(** A [docs] value that can be iterated into scorable candidates. *)
Definition docs_ok (docs : json) : bool :=
  match docs with JList l => forallb scorable l | _ => false end.

(** The responses [select_best] does not raise on: a dict whose [docs]
    is false or a list of scorable candidates. *)
Definition wf_response (data : json) : bool :=
  match data with
  | JDict kvs =>
      let docs := default JNull (assoc "docs" kvs) in
      if truth docs then docs_ok docs else true
  | _ => false
  end.

(** ** The score *)

Lemma title_points_cases t d :
  title_points t d = 50 ∧ d = t ∨
  title_points t d = 25 ∧ d ≠ t ∧ contains t d = true ∨
  title_points t d = 0 ∧ d ≠ t.
Proof.
  unfold title_points. case_bool_decide; [auto|].
  destruct (truthy t && contains t d) eqn:E; [|auto].
  apply andb_prop in E as [_ E]. auto.
Qed.

Lemma author_points_cases a fa :
  author_points a fa = 50 ∧ fa = a ∧ truthy a = true ∨
  author_points a fa = 25 ∧ fa ≠ a ∨
  author_points a fa = 0.
Proof.
  unfold author_points. destruct (truthy a && truthy fa) eqn:E; [|auto].
  apply andb_prop in E as [Ha _].
  case_bool_decide; [auto|]. destruct (_ || _); auto.
Qed.

Lemma title_points_exact t : title_points t t = 50.
Proof. unfold title_points. by rewrite bool_decide_eq_true_2. Qed.

Lemma author_points_exact a : truthy a = true → author_points a a = 50.
Proof. intros Ha. unfold author_points. by rewrite Ha, bool_decide_eq_true_2. Qed.

Lemma author_points_no_query fa : author_points EmptyString fa = 0.
Proof. done. Qed.

Lemma author_points_inexact a fa : fa ≠ a → author_points a fa ≤ 25.
Proof. intros Hne. destruct (author_points_cases a fa) as [(?&?&?)|[[? ?]|?]]; [done|lia..]. Qed.

Lemma title_points_range t d : 0 ≤ title_points t d ≤ 50.
Proof. destruct (title_points_cases t d) as [[-> _]|[[-> _]|[-> _]]]; lia. Qed.

Lemma author_points_range a fa : 0 ≤ author_points a fa ≤ 50.
Proof. destruct (author_points_cases a fa) as [(->&_)|[[-> _]| ->]]; lia. Qed.

Lemma cover_points_range x : 0 ≤ cover_points x ≤ 10.
Proof. unfold cover_points. destruct (truth x); lia. Qed.

Lemma isbn_points_range x : 0 ≤ isbn_points x ≤ 3.
Proof. unfold isbn_points. destruct (_ && _); lia. Qed.

Lemma first_author_of_ok x : is_Ok (first_author_of x) = authors_ok x.
Proof.
  unfold first_author_of, authors_ok.
  destruct x as [| | | | |[|y l]|]; simpl; try done.
  pose proof (text_field_ok y) as Hy. unfold text_ok.
  by destruct (text_field y).
Qed.

(** On a dict, [score] is the sum of the four parts. *)
Lemma score_dict t a kvs :
  let field k := default JNull (assoc k kvs) in
  score t a (JDict kvs) =
    d_title ← lower <$> text_field (field "title");
    first_author ← first_author_of (field "author_name");
    Ok (title_points t d_title + author_points a first_author
        + cover_points (field "cover_i") + isbn_points (field "isbn")).
Proof. reflexivity. Qed.

Lemma score_not_dict t a doc :
  isinstance_dict doc = false → score t a doc = Raise AttributeError.
Proof. by destruct doc. Qed.

(** [score] raises exactly on the candidates that are not [scorable]. *)
Lemma score_is_Ok t a doc : is_Ok (score t a doc) = scorable doc.
Proof.
  destruct doc as [| | | | | |kvs]; try done.
  rewrite score_dict. unfold scorable.
  pose proof (text_field_ok (default JNull (assoc "title" kvs))) as Ht.
  pose proof (first_author_of_ok (default JNull (assoc "author_name" kvs))) as Ha.
  fold (text_ok (default JNull (assoc "title" kvs))) in Ht.
  destruct (text_field _); simpl in *; rewrite <- Ht; [|done].
  destruct (first_author_of _); simpl in *; by rewrite <- Ha.
Qed.

Lemma text_field_raises x e : text_field x = Raise e → e = AttributeError.
Proof.
  unfold text_field, method_strip. destruct (py_or x _); by intros [= <-].
Qed.

Lemma first_author_of_raises x e : first_author_of x = Raise e → e = AttributeError.
Proof.
  unfold first_author_of. destruct x as [| | | | |[|y l]|]; simpl; try done.
  destruct (text_field y) eqn:E; simpl; [done|].
  intros [= <-]. by eapply text_field_raises.
Qed.

(** Whatever [score] raises is an [AttributeError]. *)
Lemma score_raises t a doc e : score t a doc = Raise e → e = AttributeError.
Proof.
  destruct doc as [| | | | | |kvs]; try by intros [= <-].
  rewrite score_dict. simpl.
  destruct (text_field _) eqn:Et; simpl.
  - destruct (first_author_of _) eqn:Ea; simpl; [done|].
    intros [= <-]. by eapply first_author_of_raises.
  - intros [= <-]. by eapply text_field_raises.
Qed.

(** Bounds of the score: whenever [score] returns, the result is
    between 0 and 113 (50 + 50 + 10 + 3). *)
Theorem score_bounds t a doc s : score t a doc = Ok s → 0 ≤ s ≤ 113.
Proof.
  destruct doc as [| | | | | |kvs]; try done. rewrite score_dict. simpl.
  destruct (text_field _) as [dt|]; simpl; [|done].
  destruct (first_author_of _) as [fa|]; simpl; [|done]. intros [= <-].
  pose proof (title_points_range t (lower dt)).
  pose proof (author_points_range a fa).
  pose proof (cover_points_range (default JNull (assoc "cover_i" kvs))).
  pose proof (isbn_points_range (default JNull (assoc "isbn" kvs))). lia.
Qed.

(** Two candidates that differ only in their authors: the one whose
    first author is exactly the author asked for scores at least 25
    more than the other. *)
Theorem score_exact_author_wins t a kvs1 kvs2 s1 s2 :
  let f1 k := default JNull (assoc k kvs1) in
  let f2 k := default JNull (assoc k kvs2) in
  truthy a = true →
  f1 "title" = f2 "title" → f1 "cover_i" = f2 "cover_i" → f1 "isbn" = f2 "isbn" →
  first_author_of (f1 "author_name") = Ok a →
  first_author_of (f2 "author_name") ≠ Ok a →
  score t a (JDict kvs1) = Ok s1 → score t a (JDict kvs2) = Ok s2 →
  s2 + 25 ≤ s1.
Proof.
  intros f1 f2 Ha Ht Hc Hi H1 H2. rewrite !score_dict. cbv zeta.
  subst f1 f2. cbv beta in *. rewrite <- Ht, <- Hc, <- Hi, H1.
  destruct (text_field _) as [dt|]; simpl; [|done].
  destruct (first_author_of (default JNull (assoc "author_name" kvs2)))
    as [fa|]; simpl; [|done].
  intros [= E1] [= E2]. pose proof (author_points_exact a Ha).
  assert (fa ≠ a) as Hne by (intros ->; done).
  pose proof (author_points_inexact a fa Hne). lia.
Qed.

(** The score reads a candidate through [.get] only: the order of the
    fields of a candidate in the response does not change it. *)
#[export] Instance score_proper t a : Proper ((≡) ==> (=)) (score t a).
Proof.
  intros x y [->|(kvs & kvs' & -> & -> & Hk)]%same_items_cases; [done|].
  rewrite !score_dict. cbn zeta. by rewrite !Hk.
Qed.

(** ** Picking a candidate

    Both lookups iterate [docs], take the maximum under a key and read
    fields off the winner.  Whatever the key and the reading are, the
    three steps return exactly on a list of scorable candidates, given
    that the key returns on the scorable candidates only and the reading
    returns on dicts. *)

Section pick.
Context {A : Type} (key : json → outcome Z) (post : json → outcome A).
Hypothesis key_is_Ok : ∀ d, is_Ok (key d) = scorable d.
Hypothesis post_is_Ok : ∀ d, isinstance_dict d = true → is_Ok (post d) = true.

Lemma scorable_dict doc : scorable doc = true → isinstance_dict doc = true.
Proof. by destruct doc. Qed.

Lemma chars_unscorable s : forallb scorable (chars s) = false ∨ chars s = [].
Proof. destruct s; [by right|by left]. Qed.

Lemma keys_unscorable kvs : forallb scorable (keys kvs) = false ∨ keys kvs = [].
Proof. destruct kvs; [by right|by left]. Qed.

Lemma max_is_Ok_scorable l :
  is_Ok (py_max_by key l) = bool_decide (l ≠ []) && forallb scorable l.
Proof. rewrite py_max_by_is_Ok. f_equal. by apply forallb_ext. Qed.

Lemma max_scorable l best : py_max_by key l = Ok best → scorable best = true.
Proof.
  intros E. pose proof (max_is_Ok_scorable l) as Hm. rewrite E in Hm.
  symmetry in Hm. apply andb_prop in Hm as [_ Hm].
  rewrite forallb_forall in Hm. apply Hm, list_elem_of_In.
  by eapply py_max_by_elem.
Qed.

Lemma pick_items_is_Ok l :
  is_Ok (best ← py_max_by key l; post best) =
    bool_decide (l ≠ []) && forallb scorable l.
Proof.
  rewrite <- max_is_Ok_scorable.
  destruct (py_max_by _ l) as [best|] eqn:E; simpl; [|done].
  eauto using post_is_Ok, scorable_dict, max_scorable.
Qed.

Lemma pick_docs_is_Ok docs :
  truth docs = true →
  is_Ok (items ← py_iter docs; best ← py_max_by key items; post best)
    = docs_ok docs.
Proof.
  destruct docs as [| | | |s|l|kvs]; try done; intros Hd;
    cbn [py_iter mbind outcome_bind docs_ok]; rewrite pick_items_is_Ok.
  - destruct (chars_unscorable s) as [-> | ->]; [apply andb_false_r|done].
  - destruct l; [done|]. by rewrite bool_decide_eq_true_2.
  - destruct (keys_unscorable kvs) as [-> | ->]; [apply andb_false_r|done].
Qed.

End pick.

(** ** The selection *)

Section select.
Context `{PyRuntime}.
Implicit Types (t a : string) (data best : json) (m : gmap string string).

Lemma extract_meta_dict kvs :
  let field k := default JNull (assoc k kvs) in
  let cover_i := ident_field (field "cover_i") in
  let isbn := first_ident (field "isbn") in
  let olid := first_ident (field "edition_key") in
  extract_meta (JDict kvs) =
    Ok {[ "cover" := _ol_cover_url cover_i isbn olid; "cover_i" := cover_i;
          "isbn" := isbn; "olid" := olid;
          "year" := year_of (field "first_publish_year") ]}.
Proof. reflexivity. Qed.

Lemma extract_meta_is_Ok best : is_Ok (extract_meta best) = isinstance_dict best.
Proof. by destruct best. Qed.

Lemma first_ident_trimmed x : trimmed (first_ident x) = true.
Proof. destruct x as [| | | | |[|y l]|]; try done. apply ident_field_trimmed. Qed.

Lemma extract_meta_wf best m : extract_meta best = Ok m → meta_wf m.
Proof.
  destruct best as [| | | | | |kvs]; try done. rewrite extract_meta_dict.
  intros [= <-]. eexists _, _, _, _. split; [done|].
  auto using ident_field_trimmed, first_ident_trimmed.
Qed.

Lemma select_best_not_dict t a data :
  isinstance_dict data = false → select_best t a data = Raise AttributeError.
Proof. by destruct data. Qed.

Lemma select_best_no_docs t a kvs :
  truth (default JNull (assoc "docs" kvs)) = false →
  select_best t a (JDict kvs) = Ok ∅.
Proof.
  intros Hd. unfold select_best. rewrite dict_get_dict.
  cbn [mbind outcome_bind]. by rewrite py_or_false.
Qed.

Lemma select_best_docs t a kvs :
  let docs := default JNull (assoc "docs" kvs) in
  truth docs = true →
  select_best t a (JDict kvs) =
    items ← py_iter docs;
    best ← py_max_by (score (lower t) (lower a)) items;
    extract_meta best.
Proof.
  intros docs Hd. unfold select_best. rewrite dict_get_dict.
  cbn [mbind outcome_bind]. fold docs. by rewrite py_or_truth, Hd.
Qed.

Lemma select_docs_is_Ok t a docs :
  truth docs = true →
  is_Ok (items ← py_iter docs; best ← py_max_by (score t a) items; extract_meta best)
    = docs_ok docs.
Proof.
  apply pick_docs_is_Ok; [apply score_is_Ok|].
  intros d Hd. by rewrite extract_meta_is_Ok.
Qed.

Lemma select_best_ok_iff t a data :
  is_Ok (select_best t a data) = wf_response data.
Proof.
  destruct data as [| | | | | |kvs]; try done. unfold wf_response.
  destruct (truth (default JNull (assoc "docs" kvs))) eqn:Hd.
  - rewrite select_best_docs by done. by apply select_docs_is_Ok.
  - by rewrite select_best_no_docs.
Qed.

(** C5. C. [select_best] returns exactly on the well-formed responses. *)
Theorem select_best_is_Ok t a data :
  is_Ok (select_best t a data) = wf_response data.
Proof. exact (select_best_ok_iff t a data). Qed.

(** C3. On a list of scorable candidates the result is read off the first
    candidate of highest score. *)
Theorem select_best_first_max t a kvs l m :
  default JNull (assoc "docs" kvs) = JList l →
  select_best t a (JDict kvs) = Ok m → l ≠ [] →
  ∃ best, is_first_max (score_of (lower t) (lower a)) l best ∧
          extract_meta best = Ok m.
Proof.
  intros Hd Hm Hl. rewrite select_best_docs in Hm by (rewrite Hd; by destruct l).
  rewrite Hd in Hm. simpl in Hm.
  destruct (py_max_by _ l) as [best|] eqn:E; simpl in Hm; [|done].
  apply py_max_by_inv in E as [_ E]. by exists best.
Qed.

(** Whatever [select_best] raises is an [AttributeError] or, for a
    [docs] that cannot be iterated, a [TypeError]. *)
Lemma select_best_result_wf t a data m :
  select_best t a data = Ok m → m = ∅ ∨ meta_wf m.
Proof.
  destruct data as [| | | | | |kvs]; try done.
  destruct (truth (default JNull (assoc "docs" kvs))) eqn:Hd.
  2:{ rewrite select_best_no_docs by done. intros [= <-]. by left. }
  rewrite select_best_docs by done.
  destruct (py_iter _) as [items|]; simpl; [|done].
  destruct (py_max_by _ items) as [best|]; simpl; [|done].
  intros Hm. right. by eapply extract_meta_wf.
Qed.
(** *** The order of the fields of a candidate *)

#[export] Instance extract_meta_proper : Proper ((≡) ==> (=)) extract_meta.
Proof.
  intros x y [->|(kvs & kvs' & -> & -> & Hk)]%same_items_cases; [done|].
  rewrite !extract_meta_dict. cbn zeta. by rewrite !Hk.
Qed.

(** Two responses that list the same candidates, the fields of each in
    any order, have the same match. *)
Theorem select_best_fields_order t a kvs kvs' l l' :
  assoc "docs" kvs = Some (JList l) → assoc "docs" kvs' = Some (JList l') →
  Forall2 (≡) l l' →
  select_best t a (JDict kvs) = select_best t a (JDict kvs').
Proof.
  intros Hl Hl' Hll. destruct Hll as [|x x' l1 l1' Hx Hl1].
  { rewrite !select_best_no_docs; [done|by rewrite ?Hl, ?Hl'..]. }
  rewrite !select_best_docs by (by rewrite ?Hl, ?Hl'). rewrite Hl, Hl'.
  cbn [default from_option id py_iter mbind outcome_bind]. apply outcome_rel_eq.
  apply (outcome_rel_bind (≡) (=)); [apply py_max_by_related; [apply _|by constructor]|].
  intros b b' Hb. apply outcome_rel_eq. by rewrite Hb.
Qed.

End select.

(** ** The call *)

Section best_match.
Context `{PyRuntime, Network}.
Implicit Types (title author : string) (timeout : Z) (log : list request).
Implicit Types (m : gmap string string).

Lemma best_match_blank_run title author timeout log :
  blank title = true → _ol_best_match title author timeout log = (Ok ∅, log).
Proof.
  intros Hb. unfold _ol_best_match.
  by rewrite str_or_empty_r, truthy_strip, Hb.
Qed.

(** A blank title returns the empty dict and leaves the log alone. *)
Theorem best_match_blank title author timeout log :
  blank title = true → _ol_best_match title author timeout log = (Ok ∅, log).
Proof. exact (best_match_blank_run title author timeout log). Qed.

Lemma best_match_nonblank_run title author timeout log :
  blank title = false →
  let t := strip title in
  let a := strip author in
  let req := best_match_request t a timeout in
  _ol_best_match title author timeout log =
    (match respond (length log) req with
     | Ok data => select_best t a data
     | Raise _ => Ok ∅
     end, log ++ [req]).
Proof.
  intros Hb t a req. unfold _ol_best_match.
  rewrite !str_or_empty_r, truthy_strip, Hb. cbn [negb].
  fold t a req. unfold mbind, M_bind. rewrite try_urlopen_json_run.
  by destruct (respond _ _).
Qed.

(** C8. Otherwise exactly one request is sent, and the result is decided by
    its answer alone. *)
Theorem best_match_run title author timeout log :
  blank title = false →
  let t := strip title in
  let a := strip author in
  let req := best_match_request t a timeout in
  _ol_best_match title author timeout log =
    (match respond (length log) req with
     | Ok data => select_best t a data
     | Raise _ => Ok ∅
     end, log ++ [req]).
Proof. exact (best_match_nonblank_run title author timeout log). Qed.

Lemma best_match_log title author timeout log :
  (_ol_best_match title author timeout log).2 =
    if blank title then log
    else log ++ [best_match_request (strip title) (strip author) timeout].
Proof.
  destruct (blank title) eqn:Hb.
  - by rewrite best_match_blank_run.
  - by rewrite best_match_nonblank_run.
Qed.

Lemma best_match_prefix title author timeout log :
  log `prefix_of` (_ol_best_match title author timeout log).2.
Proof. rewrite best_match_log. destruct (blank title); [done|]. by apply prefix_app_r. Qed.

Lemma best_match_length title author timeout log :
  (length (_ol_best_match title author timeout log).2 ≤ S (length log))%nat.
Proof.
  rewrite best_match_log. destruct (blank title); [lia|]. rewrite length_app. simpl. lia.
Qed.

(** A dict returned by _ol_best_match is empty or has exactly the five keys, with trimmed identifiers and the cover built from them by _ol_cover_url. *)
Lemma best_match_result_wf title author timeout log m :
  (_ol_best_match title author timeout log).1 = Ok m → m = ∅ ∨ meta_wf m.
Proof.
  destruct (blank title) eqn:Hb.
  - rewrite best_match_blank_run by done. intros [= <-]. by left.
  - rewrite best_match_nonblank_run by done. simpl.
    destruct (respond _ _); [apply select_best_result_wf|].
    intros [= <-]. by left.
Qed.

(** Only an [AttributeError] or a [TypeError] can escape, and only from
    the code that reads the decoded response. *)
Lemma best_match_raises title author timeout log e :
  (_ol_best_match title author timeout log).1 = Raise e →
  ∃ data, respond (length log)
            (best_match_request (strip title) (strip author) timeout) = Ok data ∧
          wf_response data = false.
Proof.
  destruct (blank title) eqn:Hb.
  - by rewrite best_match_blank_run.
  - rewrite best_match_nonblank_run by done. simpl.
    destruct (respond _ _) as [data|] eqn:E; [|done].
    intros He. exists data. split; [done|].
    by rewrite <- (select_best_ok_iff (strip title) (strip author)), He.
Qed.
(** Every request of the look-up is sent under the name of the program
    and with the time limit it was given. *)
Lemma best_match_polite title author timeout :
  10 ≤ timeout ≤ 20 → keeps (sent polite) (_ol_best_match title author timeout).
Proof. intros Ht. unfold _ol_best_match. solve_keeps. Qed.

End best_match.

#[export] Hint Resolve best_match_polite : keeps.

Lemma meta_get_empty k : meta_get ∅ k = EmptyString.
Proof. done. Qed.

Lemma meta_get_insert (m : gmap string string) k v :
  meta_get (<[k:=v]> m) k = v.
Proof. unfold meta_get. by rewrite lookup_insert_eq. Qed.

Lemma meta_wf_cover m :
  meta_wf m →
  meta_get m "cover" =
    _ol_cover_url (meta_get m "cover_i") (meta_get m "isbn") (meta_get m "olid").
Proof. intros (ci & isbn & olid & year & -> & _). reflexivity. Qed.

Lemma meta_wf_trimmed m k :
  meta_wf m → k ∈ ["cover_i"; "isbn"; "olid"] → trimmed (meta_get m k) = true.
Proof.
  intros (ci & isbn & olid & year & -> & H1 & H2 & H3) Hk.
  repeat (apply elem_of_cons in Hk as [->|Hk]; [done|]). by apply elem_of_nil in Hk.
Qed.

(** ** Witnesses *)

(** The same candidate, its fields in another order, and the two
    responses that list it. *)
Example fields_order_example :
  let doc := JDict [("title", JStr "1984"); ("cover_i", JInt 7222246)] in
  let doc' := JDict [("cover_i", JInt 7222246); ("title", JStr "1984")] in
  @select_best demo_runtime "1984" "" (JDict [("docs", JList [doc])]) =
  @select_best demo_runtime "1984" "" (JDict [("numFound", JInt 1); ("docs", JList [doc'])]).
Proof.
  intros doc doc'. apply (select_best_fields_order _ _ _ _ [doc] [doc']); [done..|].
  constructor; [|done]. intros k. cbn [assoc]. repeat case_bool_decide; congruence.
Qed.

Lemma score_bounds_witness : 0 ≤ 113 ≤ 113.
Proof. apply (score_bounds "1984" "george orwell" doc_1984 113). reflexivity. Defined.

Lemma score_exact_author_wins_witness : 63 + 25 ≤ 113.
Proof.
  apply (score_exact_author_wins "1984" "george orwell"
           (items_of doc_1984) (items_of doc_1984_other_author) 113 63);
    (reflexivity || discriminate).
Defined.

Lemma select_best_first_max_witness :
  ∃ best, is_first_max (score_of "1984" "george orwell")
            [doc_1984_study_guide; doc_1984] best ∧
          @extract_meta demo_runtime best = @extract_meta demo_runtime doc_1984.
Proof.
  apply (@select_best_first_max demo_runtime "1984" "George Orwell"
           (items_of body_1984) [doc_1984_study_guide; doc_1984]);
    (reflexivity || discriminate).
Defined.

Lemma best_match_blank_witness :
  @_ol_best_match demo_runtime offline "   " "George Orwell" 15 [] = (Ok ∅, []).
Proof. apply (@best_match_blank demo_runtime offline). reflexivity. Defined.

Lemma best_match_run_witness :
  @_ol_best_match demo_runtime offline " 1984 " "George Orwell" 15 [] =
    (Ok ∅, [] ++ [@best_match_request demo_runtime "1984" "George Orwell" 15]).
Proof. apply (@best_match_run demo_runtime offline " 1984 " "George Orwell" 15 []). reflexivity. Defined.

Lemma best_match_result_wf_witness :
  let m := from_outcome ∅
    (@_ol_best_match demo_runtime (always body_1984) "1984" "George Orwell" 15 []).1 in
  m = ∅ ∨ meta_wf m.
Proof.
  apply (@best_match_result_wf demo_runtime (always body_1984)
           "1984" "George Orwell" 15 []). reflexivity.
Defined.
