(* ===== verification/Db.v ===== *)
(** * Db: a table seen through the SQLAlchemy session

    The program reads and writes its tables only through
    [Model.query...], [db.session.add] and [db.session.commit].  A table
    is modelled with the three places a row can be: committed, inserted
    by the open transaction (flushed), or added to the session and not
    yet flushed.  A query flushes first (autoflush), so it sees all
    three. *)

From Stdlib Require Import ZArith Lia.
From stdpp Require Import base tactics option list.
From S2P Require Import Prelude.

#[local] Open Scope Z_scope.

(** ** The interface a row type offers to the table *)

(** A row has an integer primary key, assigned when it is inserted, and
    may have columns under a UNIQUE constraint. *)
Class Row (R K : Type) `{EqDecision K} : Type := {
  row_id : R → Z;
  with_id : Z → R → R;
  unique_key : R → option K;
  row_id_with_id i r : row_id (with_id i r) = i;
  unique_key_with_id i r : unique_key (with_id i r) = unique_key r;
}.

(** ** Definitions *)

Record table (R : Type) : Type := Table {
  rows : list R;      (* committed, in insertion order *)
  txn : list R;       (* inserted by the open transaction *)
  pending : list R;   (* [session.new]: added, not flushed *)
}.
Arguments Table {R} _ _ _.
Arguments rows {R} _.
Arguments txn {R} _.
Arguments pending {R} _.

Definition empty_table {R} : table R := Table [] [] [].

Section table.
Context `{Row R K}.
Implicit Types (t : table R) (r : R) (l : list R).

(** The rows a query sees once the session is flushed. *)
Definition visible t : list R := rows t ++ txn t.

Definition keys_of l : list K := omap unique_key l.

(** SQLite gives a new row the largest rowid in use plus one. *)
Definition next_id l : Z := 1 + foldr (λ r m, Z.max (row_id r) m) 0 l.

(** The UNIQUE constraint refuses a row whose key is already there. *)
Definition conflicts r l : bool :=
  match unique_key r with
  | Some k => bool_decide (k ∈ keys_of l)
  | None => false
  end.

(** [db.session.rollback()] *)
Definition rollback t : table R := Table (rows t) [] [].

(** INSERT the pending rows one by one; a refused row rolls the
    transaction back and raises. *)
Fixpoint flush_rows (committed : list R) (inserted : list R) (l : list R)
  : outcome (list R) :=
  match l with
  | [] => Ok inserted
  | r :: l' =>
      let r' := with_id (next_id (committed ++ inserted)) r in
      if conflicts r' (committed ++ inserted) then Raise IntegrityError
      else flush_rows committed (inserted ++ [r']) l'
  end.

Definition flush : M (table R) unit :=
  λ t, match flush_rows (rows t) (txn t) (pending t) with
       | Ok inserted => (Ok tt, Table (rows t) inserted [])
       | Raise e => (Raise e, rollback t)
       end.

(** [db.session.add(r)] *)
Definition session_add r : M (table R) unit :=
  modify (λ t, Table (rows t) (txn t) (pending t ++ [r])).

(** [db.session.delete(r)] for the row of primary key [i]: the row
    leaves the table.  The DELETE is sent by the flush of the commit
    that follows at once in every handler; a roll-back between the two
    is not modelled. *)
Definition session_delete (i : Z) : M (table R) unit :=
  modify (λ t, Table (filter (λ r, row_id r ≠ i) (rows t))
                     (filter (λ r, row_id r ≠ i) (txn t)) (pending t)).

(** The row of primary key [i] with [f] applied to it. *)
Definition update_row (i : Z) (f : R → R) r : R :=
  if decide (row_id r = i) then f r else r.

(** [r.column = value] for the row of primary key [i], under the same
    proviso. *)
Definition session_update (i : Z) (f : R → R) : M (table R) unit :=
  modify (λ t, Table (update_row i f <$> rows t) (update_row i f <$> txn t) (pending t)).

(** [db.session.commit()] *)
Definition commit : M (table R) unit :=
  flush ;; modify (λ t, Table (rows t ++ txn t) [] []).

(** [Model.query.filter_by(...).first()] *)
Definition query_first (p : R → bool) : M (table R) (option R) :=
  flush ;; gets (λ t, List.find p (visible t)).

(** [Model.query.count()] *)
Definition query_count : M (table R) Z :=
  flush ;; gets (λ t, Z.of_nat (length (visible t))).

(** [Model.query.all()] *)
Definition query_all : M (table R) (list R) :=
  flush ;; gets visible.

(** The invariant: the constraint holds of what a query sees, primary
    keys are distinct and positive. *)
Record rows_wf l : Prop := {
  wf_unique : NoDup (keys_of l);
  wf_ids : NoDup (row_id <$> l);
  wf_ids_pos : Forall (λ r, 0 < row_id r) l;
}.

Definition table_wf t : Prop := rows_wf (visible t).

(** Nothing is waiting in the session. *)
Definition clean t : Prop := txn t = [] ∧ pending t = [].

(** Every row of the session, flushed or not. *)
Definition all_rows t : list R := visible t ++ pending t.

(** The session can be flushed: the rows waiting do not collide with
    each other nor with the rows a query sees. *)
Definition session_ok t : Prop := table_wf t ∧ NoDup (keys_of (all_rows t)).

(** ** Lemmas *)

Lemma keys_of_app l1 l2 : keys_of (l1 ++ l2) = keys_of l1 ++ keys_of l2.
Proof. apply omap_app. Qed.

Lemma next_id_gt l r : r ∈ l → row_id r < next_id l.
Proof.
  unfold next_id. induction l as [|x l IH]; simpl; [by intros ?%elem_of_nil|].
  intros [->|Hr%IH]%elem_of_cons; lia.
Qed.

Lemma next_id_pos l : 0 < next_id l.
Proof. unfold next_id. induction l as [|x l IH]; simpl; lia. Qed.

Lemma next_id_fresh l : next_id l ∉ row_id <$> l.
Proof. intros (r & Heq & Hr%next_id_gt)%list_elem_of_fmap. lia. Qed.

Lemma conflicts_false_iff r l :
  conflicts r l = false ↔ ∀ k, unique_key r = Some k → k ∉ keys_of l.
Proof.
  unfold conflicts. destruct (unique_key r) as [k|]; [|naive_solver].
  rewrite bool_decide_eq_false. naive_solver.
Qed.

Lemma conflicts_with_id i r l : conflicts (with_id i r) l = conflicts r l.
Proof. unfold conflicts. by rewrite unique_key_with_id. Qed.

Lemma rows_wf_nil : rows_wf [].
Proof. split; simpl; constructor. Qed.

Lemma rows_wf_app_l l1 l2 : rows_wf (l1 ++ l2) → rows_wf l1.
Proof.
  intros [H1 H2 H3]. split.
  - rewrite keys_of_app in H1. by apply NoDup_app in H1 as [? _].
  - rewrite fmap_app in H2. by apply NoDup_app in H2 as [? _].
  - by apply Forall_app in H3 as [? _].
Qed.

(** Inserting a row the constraint accepts keeps the invariant. *)
Lemma rows_wf_insert l r :
  rows_wf l → conflicts r l = false →
  rows_wf (l ++ [with_id (next_id l) r]).
Proof.
  intros [H1 H2 H3] Hc. split.
  - rewrite keys_of_app. simpl. rewrite unique_key_with_id.
    destruct (unique_key r) as [k|] eqn:Ek; simpl; [|by rewrite app_nil_r].
    apply NoDup_app. split_and!; [done| |apply NoDup_singleton].
    intros k' Hk' ->%list_elem_of_singleton.
    by eapply conflicts_false_iff.
  - rewrite fmap_app. simpl. rewrite row_id_with_id.
    apply NoDup_app. split_and!; [done| |apply NoDup_singleton].
    intros i Hi ->%list_elem_of_singleton. by eapply next_id_fresh.
  - apply Forall_app. split; [done|]. constructor; [|done].
    rewrite row_id_with_id. apply next_id_pos.
Qed.

Lemma flush_rows_wf c ins l ins' :
  rows_wf (c ++ ins) → flush_rows c ins l = Ok ins' → rows_wf (c ++ ins').
Proof.
  revert ins; induction l as [|r l IH]; intros ins Hwf; simpl.
  { by intros [= <-]. }
  destruct (conflicts _ _) eqn:Hc; [done|]. intros Hl.
  apply (IH _ (ltac:(rewrite app_assoc; apply rows_wf_insert; [done|]; by rewrite conflicts_with_id in Hc)) Hl).
Qed.

(** What a successful flush inserts: the pending rows, in order, each
    with an identifier. *)
Lemma flush_rows_inserted c ins l ins' :
  flush_rows c ins l = Ok ins' →
  ∃ l', ins' = ins ++ l' ∧ Forall2 (λ r r', ∃ i, r' = with_id i r) l l'.
Proof.
  revert ins; induction l as [|r l IH]; intros ins; simpl.
  { intros [= <-]. exists []. by rewrite app_nil_r. }
  destruct (conflicts _ _); [done|]. intros (l' & -> & Hl')%IH.
  eexists (_ :: l'). rewrite <- app_assoc. split; [done|].
  constructor; [eauto|done].
Qed.

Lemma flush_clean t : pending t = [] → flush t = (Ok tt, t).
Proof. destruct t as [c i p]; simpl. intros ->. done. Qed.

Lemma flush_pending t : pending (flush t).2 = [].
Proof. unfold flush. by destruct (flush_rows _ _ _). Qed.

Lemma flush_rows_committed t : rows (flush t).2 = rows t.
Proof. unfold flush. by destruct (flush_rows _ _ _). Qed.

Lemma flush_wf t : table_wf t → table_wf (flush t).2.
Proof.
  unfold table_wf, visible, flush. intros Hwf.
  destruct (flush_rows _ _ _) eqn:E; simpl.
  - by eapply flush_rows_wf.
  - rewrite app_nil_r. by eapply rows_wf_app_l.
Qed.

Lemma session_add_wf r t : table_wf t → table_wf (session_add r t).2.
Proof. done. Qed.

Lemma session_add_rows r t : rows (session_add r t).2 = rows t.
Proof. done. Qed.

Lemma commit_wf t : table_wf t → table_wf (commit t).2.
Proof.
  intros Hwf%flush_wf. unfold commit. monad_unfold.
  destruct (flush t) as [[[]|e] t']; simpl in *; [|done].
  unfold table_wf, visible in *. simpl. by rewrite app_nil_r.
Qed.

Lemma commit_pending t : pending (commit t).2 = [].
Proof.
  pose proof (flush_pending t). unfold commit. monad_unfold.
  by destruct (flush t) as [[[]|e] t'].
Qed.

Lemma visible_clean t : clean t → visible t = rows t.
Proof. intros [Ht _]. unfold visible. rewrite Ht. apply app_nil_r. Qed.

Lemma clean_table t : clean t → t = Table (rows t) [] [].
Proof. destruct t as [r x p]. intros [Ht Hp]. simpl in *. by subst. Qed.

Lemma commit_clean t : clean t → commit t = (Ok tt, t).
Proof.
  destruct t as [r x p]. intros [Ht Hp]; simpl in *; subst.
  unfold commit. monad_unfold. simpl. by rewrite app_nil_r.
Qed.

(** Adding one acceptable row to a session with nothing pending and
    committing appends it, with the next identifier. *)
Lemma insert_commit_clean r t :
  clean t → conflicts r (rows t) = false →
  (session_add r ;; commit) t =
    (Ok tt, Table (rows t ++ [with_id (next_id (rows t)) r]) [] []).
Proof.
  destruct t as [c x p]. intros [Ht Hp] Hn; simpl in *; subst.
  unfold session_add, commit, flush. monad_unfold. cbn [rows txn pending app flush_rows].
  by rewrite app_nil_r, conflicts_with_id, Hn.
Qed.

Lemma insert_commit_then {A} r t (k : M (table R) A) :
  clean t → conflicts r (rows t) = false →
  (session_add r ;; commit ;; k) t =
    k (Table (rows t ++ [with_id (next_id (rows t)) r]) [] []).
Proof.
  intros Hc Hn. pose proof (insert_commit_clean r t Hc Hn) as Hi.
  unfold mbind, M_bind in *. destruct (session_add r t) as [[[]|e] t1]; [|done].
  by destruct (commit t1) as [[[]|e] t2]; simplify_eq.
Qed.

(** *** Deleting and updating a row *)

Lemma keys_of_sublist l1 l2 : l1 `sublist_of` l2 → keys_of l1 `sublist_of` keys_of l2.
Proof.
  unfold keys_of. induction 1 as [|x l1 l2 _ IH|x l1 l2 _ IH]; simpl; [done|..];
    destruct (unique_key x); simpl; by try constructor.
Qed.

Lemma keys_of_fmap (h : R → R) l :
  (∀ r, unique_key (h r) = unique_key r) → keys_of (h <$> l) = keys_of l.
Proof.
  intros Hh. unfold keys_of. induction l as [|r l IH]; [done|].
  by rewrite fmap_cons, !omap_cons, Hh, IH.
Qed.

Lemma rows_wf_sublist l1 l2 : l1 `sublist_of` l2 → rows_wf l2 → rows_wf l1.
Proof.
  intros Hs [H1 H2 H3]. split.
  - eapply sublist_NoDup; [done|by apply keys_of_sublist].
  - eapply sublist_NoDup; [done|by apply fmap_sublist].
  - by eapply Forall_sublist.
Qed.

Lemma elem_of_keys_of k l : k ∈ keys_of l ↔ ∃ r, r ∈ l ∧ unique_key r = Some k.
Proof. apply list_elem_of_omap. Qed.

(** In a well-formed table a row is known by its primary key and by
    its columns under the constraint. *)
Lemma rows_wf_id_inj l r1 r2 :
  rows_wf l → r1 ∈ l → r2 ∈ l → row_id r1 = row_id r2 → r1 = r2.
Proof. intros [_ Hn _]. by apply NoDup_fmap_inj_on. Qed.

Lemma rows_wf_key_inj l r1 r2 k :
  rows_wf l → r1 ∈ l → r2 ∈ l → unique_key r1 = Some k → unique_key r2 = Some k → r1 = r2.
Proof. intros [Hn _ _]. by apply NoDup_omap_inj_on. Qed.

(** A query by the columns under the constraint finds the row of that
    key, if there is one. *)
Lemma find_key_Some (p : R → bool) k l r :
  (∀ x, p x = true ↔ unique_key x = Some k) →
  List.find p l = Some r → r ∈ l ∧ unique_key r = Some k.
Proof. intros Hp [Hin Hr]%find_some. split; [by apply list_elem_of_In|by apply Hp]. Qed.

Lemma find_key_None (p : R → bool) k l :
  (∀ x, p x = true ↔ unique_key x = Some k) →
  List.find p l = None ↔ k ∉ keys_of l.
Proof.
  intros Hp. rewrite elem_of_keys_of. split.
  - intros Hf (r & Hr%list_elem_of_In & Hk%Hp). by rewrite (find_none _ _ Hf r Hr) in Hk.
  - intros Hn. destruct (List.find p l) as [r|] eqn:Ef; [|done].
    destruct Hn. exists r. by eapply find_key_Some.
Qed.

(** Deleting a row removes its key and no other. *)
Lemma keys_of_delete l r k :
  rows_wf l → r ∈ l →
  k ∈ keys_of (filter (λ x, row_id x ≠ row_id r) l) ↔ k ∈ keys_of l ∧ unique_key r ≠ Some k.
Proof.
  intros Hwf Hr. rewrite !elem_of_keys_of. setoid_rewrite list_elem_of_filter. split.
  - intros (x & [Hne Hx] & Hk). split; [by exists x|]. intros Hk'.
    destruct Hne. by rewrite (rows_wf_key_inj l x r k).
  - intros [(x & Hx & Hk) Hne]. exists x. split_and!; [|done..].
    intros Hid. destruct Hne. by rewrite <- (rows_wf_id_inj l x r).
Qed.

(** Updating a row in place keeps the primary keys and the keys. *)
Lemma ids_of_update i f l :
  (∀ r, row_id (f r) = row_id r) → row_id <$> (update_row i f <$> l) = row_id <$> l.
Proof.
  intros Hi. rewrite <- list_fmap_compose. apply list_fmap_ext. intros _ r _. simpl.
  unfold update_row. by case_decide.
Qed.

Lemma keys_of_update i f l :
  (∀ r, unique_key (f r) = unique_key r) → keys_of (update_row i f <$> l) = keys_of l.
Proof. intros Hk. apply keys_of_fmap. intros r. unfold update_row. by case_decide. Qed.

Lemma delete_commit_clean i t :
  clean t →
  (session_delete i ;; commit) t = (Ok tt, Table (filter (λ r, row_id r ≠ i) (rows t)) [] []).
Proof.
  destruct t as [c x p]. intros [Ht Hp]; simpl in *; subst.
  unfold session_delete, commit, flush. monad_unfold. simpl. by rewrite filter_nil, app_nil_r.
Qed.

Lemma update_commit_clean i f t :
  clean t →
  (session_update i f ;; commit) t = (Ok tt, Table (update_row i f <$> rows t) [] []).
Proof.
  destruct t as [c x p]. intros [Ht Hp]; simpl in *; subst.
  unfold session_update, commit, flush. monad_unfold. simpl. by rewrite app_nil_r.
Qed.

(** An update that touches neither the primary key nor the columns
    under the constraint keeps the table well formed. *)
Lemma rows_wf_update i f l :
  (∀ r, row_id (f r) = row_id r) → (∀ r, unique_key (f r) = unique_key r) →
  rows_wf l → rows_wf (update_row i f <$> l).
Proof.
  intros Hi Hk [H1 H2 H3].
  split.
  - by rewrite keys_of_update.
  - by rewrite ids_of_update.
  - apply Forall_fmap. eapply Forall_impl; [done|]. simpl. intros r.
    unfold update_row. case_decide; by rewrite ?Hi.
Qed.

Lemma rollback_wf t : table_wf t → table_wf (rollback t).
Proof.
  unfold table_wf, visible; simpl. rewrite app_nil_r. apply rows_wf_app_l.
Qed.

Lemma rollback_clean t : clean (rollback t).
Proof. done. Qed.

(** On a flushed session a query changes nothing. *)
Lemma query_first_clean p t :
  pending t = [] → query_first p t = (Ok (List.find p (visible t)), t).
Proof. intros Hp. unfold query_first. monad_unfold. by rewrite flush_clean. Qed.

Lemma query_count_clean t :
  pending t = [] → query_count t = (Ok (Z.of_nat (length (visible t))), t).
Proof. intros Hp. unfold query_count. monad_unfold. by rewrite flush_clean. Qed.

Lemma query_all_clean t : pending t = [] → query_all t = (Ok (visible t), t).
Proof. intros Hp. unfold query_all. monad_unfold. by rewrite flush_clean. Qed.

(** What a listing returns is what the table shows afterwards, and
    nothing is left waiting. *)
Lemma query_all_inv t l t' :
  query_all t = (Ok l, t') → l = visible t' ∧ pending t' = [] ∧ rows t' = rows t.
Proof.
  unfold query_all. monad_unfold.
  pose proof (flush_pending t) as Hp. pose proof (flush_rows_committed t) as Hr.
  destruct (flush t) as [[[]|e] t1]; simpl in *; [|done]. by intros [= <- <-].
Qed.

(** *** Flushing a session whose rows do not collide *)

Lemma keys_of_with_id_snoc l i r : keys_of (l ++ [with_id i r]) = keys_of (l ++ [r]).
Proof. rewrite !keys_of_app. simpl. by rewrite unique_key_with_id. Qed.

Lemma keys_of_flush_step c ins i r l :
  keys_of (c ++ (ins ++ [with_id i r]) ++ l) = keys_of (c ++ ins ++ r :: l).
Proof.
  rewrite !keys_of_app. simpl. rewrite unique_key_with_id.
  rewrite <- !app_assoc. by destruct (unique_key r).
Qed.

Lemma flush_rows_ok c ins l :
  NoDup (keys_of (c ++ ins ++ l)) →
  ∃ ins', flush_rows c ins l = Ok ins' ∧
          keys_of (c ++ ins') = keys_of (c ++ ins ++ l).
Proof.
  revert ins; induction l as [|r l IH]; intros ins Hnd; simpl.
  { exists ins. by rewrite app_nil_r. }
  rewrite conflicts_with_id.
  assert (conflicts r (c ++ ins) = false) as ->.
  { apply conflicts_false_iff. intros k Hk Hin.
    rewrite app_assoc, keys_of_app in Hnd. simpl in Hnd. rewrite Hk in Hnd.
    apply NoDup_app in Hnd as (_ & Hnd & _). apply (Hnd k Hin). left. }
  rewrite <- keys_of_flush_step with (i := next_id (c ++ ins)) in Hnd |- *.
  by apply IH.
Qed.

(** A session that is [session_ok] flushes without an error, to a state
    with the same keys and nothing pending. *)
Lemma flush_ok t :
  session_ok t →
  ∃ t', flush t = (Ok tt, t') ∧ rows t' = rows t ∧ pending t' = [] ∧
        keys_of (visible t') = keys_of (all_rows t) ∧ session_ok t'.
Proof.
  intros [Hwf Hnd]. unfold all_rows, visible in *. rewrite <- app_assoc in Hnd.
  destruct (flush_rows_ok _ _ _ Hnd) as (ins' & Hf & Hk).
  pose proof (flush_wf t Hwf) as Hwf'. unfold flush in *. rewrite Hf in *.
  eexists. split; [done|]. simpl. split_and!; try done.
  - by rewrite Hk, app_assoc.
  - split; [done|]. unfold all_rows, visible; simpl.
    rewrite app_nil_r, Hk. done.
Qed.

(** A query on a flushable session returns what it finds among all the
    rows of the session, and leaves the session flushed. *)
Lemma query_first_ok p t :
  session_ok t →
  ∃ t', query_first p t = (Ok (List.find p (visible t')), t') ∧
        rows t' = rows t ∧ pending t' = [] ∧
        keys_of (visible t') = keys_of (all_rows t) ∧ session_ok t'.
Proof.
  intros (t' & Hf & Hr)%flush_ok. exists t'. split; [|done].
  unfold query_first. monad_unfold. by rewrite Hf.
Qed.

Lemma all_rows_flushed t : pending t = [] → all_rows t = visible t.
Proof. unfold all_rows. intros ->. apply app_nil_r. Qed.

Lemma keys_of_session_add r t :
  keys_of (all_rows (session_add r t).2) = keys_of (all_rows t) ++ keys_of [r].
Proof. unfold all_rows, visible. simpl. by rewrite app_assoc, keys_of_app. Qed.

Lemma session_ok_clean t : table_wf t → pending t = [] → session_ok t.
Proof.
  intros Hwf Hp. split; [done|]. unfold all_rows. rewrite Hp, app_nil_r.
  apply Hwf.
Qed.

(** Adding a row whose key is new keeps the session flushable. *)
Lemma session_add_ok r t :
  session_ok t → conflicts r (all_rows t) = false →
  session_ok (session_add r t).2.
Proof.
  intros [Hwf Hnd] Hc. split; [done|].
  unfold all_rows, visible in *. simpl. rewrite app_assoc, keys_of_app. simpl.
  destruct (unique_key r) as [k|] eqn:Ek; simpl; [|by rewrite app_nil_r].
  apply NoDup_app. split_and!; [done| |apply NoDup_singleton].
  intros k' Hk' ->%list_elem_of_singleton. by eapply conflicts_false_iff.
Qed.

Lemma commit_ok t :
  session_ok t →
  ∃ t', commit t = (Ok tt, t') ∧ clean t' ∧ table_wf t' ∧
        keys_of (rows t') = keys_of (all_rows t) ∧
        ∃ l, rows t' = rows t ++ l.
Proof.
  intros Hok. destruct (flush_ok t Hok) as (t1 & Hf & Hr & Hp & Hk & [Hwf _]).
  unfold commit. monad_unfold. rewrite Hf. eexists. split; [done|].
  simpl. split_and!; [done| |done|by rewrite Hr; eauto].
  unfold table_wf, visible. simpl. by rewrite app_nil_r.
Qed.
End table.
