(* ===== verification/Accounts.v ===== *)
(** * Accounts: users, passwords and reset links
      ([User], [signup], [login], [logout], [forgot_password],
      [reset_password], [change_password], [edit_profile], [settings])

    A user is a row unique by its e-mail address.  The session cookie
    holds the id of the user who is logged in.  Password hashing and the
    signed, dated token of a reset link are libraries the program only
    calls: [Crypto] is the interface to them, with what they promise.
    The salt of a hash and the instant of a request are parameters of
    the handlers.  The handlers that change the table are the steps of a
    transition system. *)

From Stdlib Require Import ZArith Lia Ascii.
From stdpp Require Import base tactics option list relations strings.
From S2P Require Import Prelude PyStr Json Flask Db.

(** ** The interface to werkzeug.security and itsdangerous *)

Class Crypto : Type := {
  (** [generate_password_hash(pw)] with the salt it draws *)
  generate_password_hash : string → string → string;
  (** [check_password_hash(hash, pw)] *)
  check_password_hash : string → string → bool;
  (** [_reset_serializer().dumps(email)] at an instant, in seconds *)
  sign_email : Z → string → string;
  (** [_reset_serializer().loads(token, max_age=...)] at an instant:
      [None] stands for [SignatureExpired] and [BadSignature] *)
  unsign_email : Z → Z → string → option string;
  (** a password matches the hash generated from it *)
  check_generated salt pw : check_password_hash (generate_password_hash salt pw) pw = true;
  (** a token is accepted until its age exceeds [max_age] *)
  unsign_signed now now' max_age email :
    (0 ≤ now ≤ now')%Z → (now' - now ≤ max_age)%Z →
    unsign_email now' max_age (sign_email now email) = Some email;
}.

(** ** Definitions *)

(** [class User(UserMixin, db.Model)]; a column that is NULL reads as the
    empty string, which every use treats alike. *)
Record User : Type := mkUser {
  user_id : Z;
  user_email : string;
  user_password_hash : string;
  user_name : string;
  user_handle : string;
  user_bio : string;
}.

#[export] Instance User_eq_dec : EqDecision User.
Proof. solve_decision. Defined.

(** [email = db.Column(..., unique=True)] *)
#[export, refine] Instance User_row : Row User string := {|
  row_id := user_id;
  with_id := λ i u, mkUser i (user_email u) (user_password_hash u) (user_name u)
                      (user_handle u) (user_bio u);
  unique_key := λ u, Some (user_email u);
|}.
Proof. all: done. Defined.

(** The table of the users, the id that flask_login keeps in the
    session cookie, and the reset tokens printed on the terminal. *)
Record accounts : Type := Accounts {
  users : table User;
  logged_in : option Z;
  printed : list string;
}.

Definition on_users {A} (c : M (table User) A) : M accounts A :=
  zoom users (λ t s, Accounts t (logged_in s) (printed s)) c.

(** [User.query.filter_by(email=email).first()] *)
Definition by_email (email : string) (u : User) : bool := bool_decide (user_email u = email).

Definition find_user (email : string) : M accounts (option User) :=
  on_users (query_first (by_email email)).

(** [current_user]: [load_user] looks the id of the cookie up. *)
Definition current_user : M accounts (option User) :=
  s ← get;
  match logged_in s with
  | Some i => on_users (query_first (λ u, bool_decide (user_id u = i)))
  | None => mret None
  end.

(** [login_user(user, remember=True)] and [logout_user()] *)
Definition login_user (u : User) : M accounts unit :=
  modify (λ s, Accounts (users s) (Some (user_id u)) (printed s)).

Definition logout_user : M accounts unit :=
  modify (λ s, Accounts (users s) None (printed s)).

(** [redirect(url_for(endpoint))] without a message. *)
Definition goto (endpoint : string) : page := RedirectArgs endpoint [] None.

(** What flask_login answers for a page that needs a user when none is
    logged in. *)
Definition unauthorized : page :=
  RedirectArgs "login" [] (Some ("Please log in to access this page.", "message")).

(** [@login_required] *)
Definition login_required {A} (handler : User → M accounts (page + A))
  : M accounts (page + A) :=
  u ← current_user;
  match u with
  | Some u => handler u
  | None => mret (inl unauthorized)
  end.

(** [user.set_password(pw)] on the row. *)
Definition set_password `{Crypto} (salt pw : string) (u : User) : User :=
  mkUser (user_id u) (user_email u) (generate_password_hash salt pw) (user_name u)
    (user_handle u) (user_bio u).

(** [user.check_password(pw)] *)
Definition check_password `{Crypto} (u : User) (pw : string) : bool :=
  check_password_hash (user_password_hash u) pw.

(** [handle_raw if handle_raw.startswith("@") else f"@{handle_raw}" if handle_raw else ""] *)
Definition with_at (handle_raw : string) : string :=
  if startswith handle_raw "@" then handle_raw
  else if truthy handle_raw then "@" +:+ handle_raw
  else EmptyString.

(** [request.form] of [/signup]. *)
Record signup_form : Type := SignupForm {
  su_email : option string;
  su_password : option string;
  su_name : option string;
  su_handle : option string;
}.

Definition signup_refused : page := Redirect "signup" "Email and password are required." "error".

Definition signup_taken : page :=
  Redirect "login" "This email is already registered. Try logging in." "error".

(** The handler of [/signup]; [None] is a GET. *)
Definition signup `{Crypto} (salt : string) (post : option signup_form) : M accounts page :=
  match post with
  | Some form =>
      let email := lower (arg_text (su_email form)) in
      let password := arg_or (su_password form) EmptyString in
      let name := str_or (arg_text (su_name form)) "New Reader" in
      let handle_raw := arg_text (su_handle form) in
      let handle := with_at handle_raw in
      if negb (truthy email) || negb (truthy password) then mret signup_refused else
      existing ← find_user email;
      if existing is Some _ then mret signup_taken else
      let user := set_password salt password
                    (mkUser 0 email EmptyString name handle EmptyString) in
      on_users (session_add user ;; commit) ;;
      user ← gets (λ s, last (rows (users s)));
      from_option login_user (mret tt) user ;;
      mret (goto "home")
  | None => mret (Render "sign_up.html")
  end.

(** [request.form] of [/login]. *)
Record login_form : Type := LoginForm {
  li_email : option string;
  li_password : option string;
}.

Definition login_invalid : page := Redirect "login" "Invalid email or password." "error".

(** The handler of [/login]. *)
Definition login `{Crypto} (post : option login_form) : M accounts page :=
  match post with
  | Some form =>
      let email := lower (arg_text (li_email form)) in
      let password := arg_or (li_password form) EmptyString in
      user ← find_user email;
      match user with
      | Some u =>
          if negb (check_password u password) then mret login_invalid else
          login_user u ;;
          mret (goto "home")
      | None => mret login_invalid
      end
  | None => mret (Render "sign_in.html")
  end.

(** The handler of [/logout]. *)
Definition logout : M accounts page :=
  logout_user ;; mret (goto "login").

Definition reset_sent : page :=
  Redirect "login" "If that email exists, you’ll receive a password reset link shortly." "ok".

(** The handler of [/forgot-password] at the instant [now]; the link it
    prints is recorded by its token. *)
Definition forgot_password `{Crypto} (now : Z) (email_arg : option (option string))
  : M accounts page :=
  match email_arg with
  | Some email_arg =>
      let email := lower (arg_text email_arg) in
      user ← find_user email;
      match user with
      | Some u =>
          let token := sign_email now (user_email u) in
          modify (λ s, Accounts (users s) (logged_in s) (printed s ++ [token]))
      | None => mret tt
      end ;;
      mret reset_sent
  | None => mret (Render "forgot_password.html")
  end.

Definition reset_invalid : page :=
  Redirect "forgot_password" "That reset link is invalid or has expired. Please try again."
           "error".

(** [request.form] of [/reset-password/<token>]. *)
Record reset_form : Type := ResetForm {
  rs_new_password : option string;
  rs_confirm_password : option string;
}.

Definition reset_again (token message : string) : page :=
  RedirectArgs "reset_password" [("token", token)] (Some (message, "error")).

Definition reset_done : page :=
  Redirect "login" "Password updated. You can sign in now." "ok".

(** The handler of [/reset-password/<token>] at the instant [now]. *)
Definition reset_password `{Crypto} (now : Z) (salt token : string)
    (post : option reset_form) : M accounts page :=
  let email := unsign_email now (60 * 60) token in
  if negb (truthy (default EmptyString email)) then mret reset_invalid else
  user ← find_user (default EmptyString email);
  match user with
  | None => mret reset_invalid
  | Some u =>
      match post with
      | Some form =>
          let new_pw := arg_text (rs_new_password form) in
          let confirm := arg_text (rs_confirm_password form) in
          if negb (truthy new_pw) || (String.length new_pw <? 6)%nat
          then mret (reset_again token "Password must be at least 6 characters.") else
          if negb (bool_decide (new_pw = confirm))
          then mret (reset_again token "Passwords do not match.") else
          on_users (session_update (user_id u) (set_password salt new_pw) ;; commit) ;;
          mret reset_done
      | None => mret (Render "reset_password.html")
      end
  end.

(** [request.form] of [/change-password]. *)
Record password_form : Type := PasswordForm {
  pf_current : option string;
  pf_new : option string;
  pf_confirm : option string;
}.

Definition change_refused (message : string) : page :=
  Redirect "change_password" message "error".

Definition change_done : page := Redirect "settings" "Password updated." "ok".

(** The handler of [/change-password]. *)
Definition change_password `{Crypto} (salt : string) (post : option password_form)
  : M accounts (page + Empty_set) :=
  login_required (λ u,
    match post with
    | Some form =>
        let current := arg_or (pf_current form) EmptyString in
        let new := arg_or (pf_new form) EmptyString in
        let confirm := arg_or (pf_confirm form) EmptyString in
        if negb (check_password u current)
        then mret (inl (change_refused "Current password is incorrect.")) else
        if negb (truthy new) || (String.length new <? 6)%nat
        then mret (inl (change_refused "New password must be at least 6 characters.")) else
        if negb (bool_decide (new = confirm))
        then mret (inl (change_refused "Passwords do not match.")) else
        on_users (session_update (user_id u) (set_password salt new) ;; commit) ;;
        mret (inl change_done)
    | None => mret (inl (Render "change_password.html"))
    end).

(** The text fields of [request.form] of [/edit-profile]. *)
Record profile_form : Type := ProfileForm {
  pr_name : option string;
  pr_handle : option string;
  pr_bio : option string;
}.

(** The assignments of [edit_profile] to the row of the user. *)
Definition edited (form : profile_form) (u : User) : User :=
  let new_name := arg_text (pr_name form) in
  let new_handle := arg_text (pr_handle form) in
  let new_bio := arg_text (pr_bio form) in
  mkUser (user_id u) (user_email u) (user_password_hash u)
    (if truthy new_name then new_name else user_name u)
    (if truthy new_handle
     then (if startswith new_handle "@" then new_handle else "@" +:+ new_handle)
     else user_handle u)
    (str_take 200 new_bio).

(** The dict [user] given to a template; [avatar] is read with
    [getattr(current_user, "avatar", None)]. *)
Record profile_view : Type := ProfileView {
  pv_name : string;
  pv_handle : string;
  pv_bio : string;
  pv_avatar : option string;
}.

Definition profile_updated : page := Redirect "profile_page" "Profile updated." "ok".

(** The handler of [/edit-profile] for a request without a picture; a
    row of [User] has no attribute [avatar], so the template gets
    [None].  [Profile.edit_profile] is the handler with the picture. *)
Definition edit_profile_text (post : option profile_form) : M accounts (page + profile_view) :=
  login_required (λ u,
    match post with
    | Some form =>
        on_users (session_update (user_id u) (edited form) ;; commit) ;;
        mret (inl profile_updated)
    | None =>
        mret (inr (ProfileView (str_or (user_name u) EmptyString)
                     (str_or (user_handle u) EmptyString) (str_or (user_bio u) EmptyString)
                     None))
    end).

(** The handler of [/settings]: name and handle of the user. *)
Definition settings : M accounts (page + (string * string)) :=
  login_required (λ u,
    mret (inr (str_or (user_name u) EmptyString, str_or (user_handle u) EmptyString))).

(** [current_user_name()] and [current_user_handle()] *)
Definition current_user_name : M accounts string :=
  u ← current_user;
  mret (match u with
        | Some u => if truthy (user_name u) then user_name u else EmptyString
        | None => EmptyString
        end).

Definition current_user_handle : M accounts string :=
  u ← current_user;
  mret (match u with
        | Some u => if truthy (user_handle u) then user_handle u else EmptyString
        | None => EmptyString
        end).

(** The handler of [/share-profile]: the dict [user]. *)
Definition share_profile : M accounts (string * string) :=
  name ← current_user_name;
  handle ← current_user_handle;
  mret (name, handle).

(** The handler of [/public/<handle>]: the dict [user]. *)
Definition public_profile (handle : string) : M accounts (string * string) :=
  let shown_handle := if negb (startswith handle "@") then "@" +:+ handle else handle in
  name ← current_user_name;
  mret (name, shown_handle).

(** What [/qr-profile] encodes: the URL given, or the public profile of
    the handle without its [@]s. *)
Inductive qr_target : Type :=
  | GivenUrl (url : string)
  | PublicProfile (handle : string).

Definition qr_profile (url_arg : option string) : M accounts qr_target :=
  let url := default EmptyString url_arg in
  if truthy url then mret (GivenUrl url) else
  handle ← current_user_handle;
  mret (PublicProfile (remove_char "@"%char handle)).

(** The row [signup] inserts, with its primary key. *)
Definition signed_up `{Crypto} (salt : string) (form : signup_form) (i : Z) : User :=
  mkUser i (lower (arg_text (su_email form)))
    (generate_password_hash salt (arg_or (su_password form) EmptyString))
    (str_or (arg_text (su_name form)) "New Reader")
    (with_at (arg_text (su_handle form))) EmptyString.

(** Who a row is: its primary key and its address. *)
Definition identity (u : User) : Z * string := (user_id u, user_email u).

(** The user the cookie names, if the table has it. *)
Definition user_of_cookie (s : accounts) : option User :=
  i ← logged_in s; List.find (λ u, bool_decide (user_id u = i)) (rows (users s)).

(** The state with the row of primary key [i] changed by [f]. *)
Definition with_user (i : Z) (f : User → User) (s : accounts) : accounts :=
  Accounts (Table (update_row i f <$> rows (users s)) [] []) (logged_in s) (printed s).

(** A request that may change the state. *)
Inductive account_request : Type :=
  | Signup (salt : string) (form : signup_form)
  | Login (form : login_form)
  | Logout
  | Forgot (now : Z) (email : option string)
  | Reset (now : Z) (salt token : string) (form : reset_form)
  | ChangePassword (salt : string) (form : password_form)
  | EditProfile (form : profile_form).

Definition serve `{Crypto} (r : account_request) : M accounts unit :=
  match r with
  | Signup salt form => signup salt (Some form) ;; mret tt
  | Login form => login (Some form) ;; mret tt
  | Logout => logout ;; mret tt
  | Forgot now email => forgot_password now (Some email) ;; mret tt
  | Reset now salt token form => reset_password now salt token (Some form) ;; mret tt
  | ChangePassword salt form => change_password salt (Some form) ;; mret tt
  | EditProfile form => edit_profile_text (Some form) ;; mret tt
  end.

(** One request takes the accounts from [s] to [s']. *)
Inductive serves `{Crypto} (s s' : accounts) : Prop :=
  | Serves (r : account_request) (Hrun : (serve r s).2 = s').

(** No user, nobody logged in. *)
Definition nobody : accounts := Accounts empty_table None [].

Definition attainable `{Crypto} : accounts → Prop := rtc serves nobody.

(** What the handlers keep true of every row: the address is not empty,
    in lower case and stripped; the name is not empty; the handle is
    empty or starts with [@]; the bio has at most 200 characters. *)
Record user_ok (u : User) : Prop := {
  ok_email : truthy (user_email u) = true;
  ok_email_lower : lower (user_email u) = user_email u;
  ok_email_trimmed : trimmed (user_email u) = true;
  ok_name : truthy (user_name u) = true;
  ok_handle : user_handle u = EmptyString ∨ startswith (user_handle u) "@" = true;
  ok_bio : String.length (user_bio u) ≤ 200;
}.

(** The table is well formed, nothing waits in the session, every row
    is as above and the cookie names a user of the table. *)
Record accounts_ok (s : accounts) : Prop := {
  ok_table : table_wf (users s);
  ok_clean : clean (users s);
  ok_rows : Forall user_ok (rows (users s));
  ok_cookie : ∀ i, logged_in s = Some i → i ∈ user_id <$> rows (users s);
}.

(** The user of this address is registered. *)
Definition registered (email : string) (s : accounts) : Prop :=
  email ∈ keys_of (rows (users s)).

#[export] Instance registered_dec email s : Decision (registered email s).
Proof. unfold registered. apply _. Defined.

(** *** A library to evaluate the model with

    Passwords are kept in the clear and a token is its instant in unary
    followed by the address: enough to meet the interface, and to run
    the handlers on concrete requests. *)

Fixpoint unary (n : nat) (email : string) : string :=
  match n with
  | O => String ":" email
  | S n => String "x" (unary n email)
  end.

Fixpoint read_unary (token : string) : option (nat * string) :=
  match token with
  | EmptyString => None
  | String c rest =>
      if bool_decide (c = ":"%char) then Some (O, rest)
      else if bool_decide (c = "x"%char) then prod_map S id <$> read_unary rest
      else None
  end.

Definition demo_unsign (now max_age : Z) (token : string) : option string :=
  '(n, email) ← read_unary token;
  if bool_decide (0 ≤ now - Z.of_nat n ≤ max_age)%Z then Some email else None.

#[export, refine] Instance demo_crypto : Crypto := {|
  generate_password_hash := λ _ pw, "plain:" +:+ pw;
  check_password_hash := λ h pw, bool_decide (h = "plain:" +:+ pw);
  sign_email := λ now email, unary (Z.to_nat now) email;
  unsign_email := demo_unsign;
|}.
Proof.
  - intros _ pw. by apply bool_decide_eq_true.
  - intros now now' max_age email Hnow Hage. unfold demo_unsign.
    assert (read_unary (unary (Z.to_nat now) email) = Some (Z.to_nat now, email)) as ->.
    { induction (Z.to_nat now) as [|n IH]; simpl; [done|]. by rewrite IH. }
    simpl. rewrite bool_decide_eq_true_2; [done|]. lia.
Defined.

(** A table with one user, whose password is ["secret1"]. *)
Definition ada : User :=
  mkUser 1 "ada@example.org" "plain:secret1" "Ada" "@ada" EmptyString.

Definition one_user : accounts := Accounts (Table [ada] [] []) None [].

(** The same after a user has signed up as ["Bob@Example.org"]. *)
Definition form_bob : signup_form :=
  SignupForm (Some " Bob@Example.org ") (Some "x") None (Some "bob").

Definition bob : User := mkUser 2 "bob@example.org" "plain:x" "New Reader" "@bob" EmptyString.

Definition two_users : accounts := Accounts (Table [ada; bob] [] []) (Some 2%Z) [].

(** A new password given with white space around it. *)
Definition form_secret2 : reset_form := ResetForm (Some " secret2 ") (Some " secret2 ").

(** ** Lemmas *)

Lemma by_email_iff email u : by_email email u = true ↔ unique_key u = Some email.
Proof. unfold by_email. rewrite bool_decide_eq_true. simpl. naive_solver. Qed.

Lemma with_at_ok handle_raw :
  with_at handle_raw = EmptyString ∨ startswith (with_at handle_raw) "@" = true.
Proof.
  unfold with_at. destruct (startswith handle_raw "@") eqn:E; [by right|].
  destruct (truthy handle_raw); [by right|by left].
Qed.

Section accounts.
Context `{Crypto}.
Implicit Types (s : accounts) (u : User) (email pw salt : string).

Lemma set_password_key salt pw u : unique_key (set_password salt pw u) = unique_key u.
Proof. done. Qed.

Lemma check_set_password salt pw u : check_password (set_password salt pw u) pw = true.
Proof. apply check_generated. Qed.

Lemma user_ok_set_password salt pw u : user_ok u → user_ok (set_password salt pw u).
Proof. by intros []. Qed.

Lemma user_ok_edited form u : user_ok u → user_ok (edited form u).
Proof.
  intros [? ? ? Hn Hh ?].
  split; unfold edited; cbn [user_email user_name user_handle user_bio]; try done.
  - by destruct (truthy (arg_text (pr_name form))) eqn:E.
  - destruct (truthy (arg_text (pr_handle form))); [right|done].
    destruct (startswith (arg_text (pr_handle form)) "@") eqn:E; [exact E|done].
  - rewrite str_take_length. lia.
Qed.

Lemma conflicts_user u l :
  List.find (by_email (user_email u)) l = None → conflicts u l = false.
Proof.
  intros Hf. apply conflicts_false_iff. intros k [= <-].
  by apply (find_key_None (by_email (user_email u))); [intros x; apply by_email_iff|].
Qed.

(** *** Reading the table on a session with nothing pending *)

Section clean.
Context (s : accounts) (Hc : clean (users s)).

Lemma find_user_clean email :
  find_user email s = (Ok (List.find (by_email email) (rows (users s))), s).
Proof.
  unfold find_user, on_users. rewrite zoom_run, query_first_clean, visible_clean by apply Hc.
  by destruct s.
Qed.

Lemma current_user_clean : current_user s = (Ok (user_of_cookie s), s).
Proof.
  unfold current_user, user_of_cookie. unfold mbind at 1, M_bind, get. destruct (logged_in s) as [i|]; [|done].
  unfold on_users. rewrite zoom_run, query_first_clean, visible_clean by apply Hc.
  by destruct s.
Qed.

(** A change of the table followed by the commit. *)
Lemma on_users_commit (c : M (table User) unit) t' :
  (c ;; commit) (users s) = (Ok tt, t') →
  on_users (c ;; commit) s = (Ok tt, Accounts t' (logged_in s) (printed s)).
Proof. intros Hrun. unfold on_users. by rewrite zoom_run, Hrun. Qed.

Lemma login_required_clean {A} (handler : User → M accounts (page + A)) :
  login_required handler s =
    match user_of_cookie s with
    | Some u => handler u s
    | None => (Ok (inl unauthorized), s)
    end.
Proof.
  unfold login_required. rewrite (M_bind_ok _ _ _ _ _ current_user_clean).
  by destruct (user_of_cookie s).
Qed.

Lemma update_user i f :
  (on_users (session_update i f ;; commit)) s = (Ok tt, with_user i f s).
Proof. apply on_users_commit, update_commit_clean, Hc. Qed.

Lemma signup_run salt form :
  let email := lower (arg_text (su_email form)) in
  let password := arg_or (su_password form) EmptyString in
  signup salt (Some form) s =
    if negb (truthy email && truthy password) then (Ok signup_refused, s)
    else if bool_decide (registered email s) then (Ok signup_taken, s)
    else let u := signed_up salt form (next_id (rows (users s))) in
         (Ok (goto "home"),
          Accounts (Table (rows (users s) ++ [u]) [] []) (Some (user_id u)) (printed s)).
Proof.
  intros email password. unfold signup. fold email password. rewrite negb_andb.
  destruct (negb (truthy email) || negb (truthy password)); [done|].
  rewrite (M_bind_ok _ _ _ _ _ (find_user_clean _)). unfold registered.
  destruct (List.find _ _) as [u|] eqn:Ef.
  - apply (find_key_Some _ email) in Ef as [Hin Hk]; [|intros x; apply by_email_iff].
    rewrite bool_decide_eq_true_2; [done|]. apply elem_of_keys_of. by exists u.
  - pose proof Ef as Hn. apply (find_key_None _ email) in Hn; [|intros x; apply by_email_iff].
    rewrite bool_decide_eq_false_2 by done.
    erewrite M_bind_ok; [|apply on_users_commit, insert_commit_clean; [done|]].
    2: { by apply conflicts_user. }
    unfold mbind, M_bind, gets. cbn [users rows fst snd]. by rewrite last_snoc.
Qed.

Lemma login_run form :
  login (Some form) s =
    match List.find (by_email (lower (arg_text (li_email form)))) (rows (users s)) with
    | Some u =>
        if check_password u (arg_or (li_password form) EmptyString)
        then (Ok (goto "home"), Accounts (users s) (Some (user_id u)) (printed s))
        else (Ok login_invalid, s)
    | None => (Ok login_invalid, s)
    end.
Proof.
  unfold login. rewrite (M_bind_ok _ _ _ _ _ (find_user_clean _)).
  destruct (List.find _ _) as [u|]; [|done]. by destruct (check_password _ _).
Qed.

Lemma forgot_run now email_arg :
  forgot_password now (Some email_arg) s =
    (Ok reset_sent,
     match List.find (by_email (lower (arg_text email_arg))) (rows (users s)) with
     | Some u => Accounts (users s) (logged_in s) (printed s ++ [sign_email now (user_email u)])
     | None => s
     end).
Proof.
  unfold forgot_password. rewrite (M_bind_ok _ _ _ _ _ (find_user_clean _)).
  by destruct (List.find _ _).
Qed.

Lemma reset_run now salt token post :
  let email := default EmptyString (unsign_email now 3600 token) in
  reset_password now salt token post s =
    if negb (truthy email) then (Ok reset_invalid, s) else
    match List.find (by_email email) (rows (users s)), post with
    | None, _ => (Ok reset_invalid, s)
    | Some u, None => (Ok (Render "reset_password.html"), s)
    | Some u, Some form =>
        let new_pw := arg_text (rs_new_password form) in
        if negb (truthy new_pw) || (String.length new_pw <? 6)%nat
        then (Ok (reset_again token "Password must be at least 6 characters."), s)
        else if negb (bool_decide (new_pw = arg_text (rs_confirm_password form)))
        then (Ok (reset_again token "Passwords do not match."), s)
        else (Ok reset_done, with_user (user_id u) (set_password salt new_pw) s)
    end.
Proof.
  intros email. unfold reset_password. change (60 * 60)%Z with 3600%Z. fold email.
  destruct (negb (truthy email)); [done|].
  rewrite (M_bind_ok _ _ _ _ _ (find_user_clean _)).
  destruct (List.find _ _) as [u|]; [|done]. destruct post as [form|]; [|done]. cbv zeta.
  destruct (_ || _); [done|]. destruct (negb (bool_decide _)); [done|].
  by rewrite (M_bind_ok _ _ _ _ _ (update_user _ _)).
Qed.

Lemma change_run salt form :
  change_password salt (Some form) s =
    match user_of_cookie s with
    | None => (Ok (inl unauthorized), s)
    | Some u =>
        let new := arg_or (pf_new form) EmptyString in
        if negb (check_password u (arg_or (pf_current form) EmptyString))
        then (Ok (inl (change_refused "Current password is incorrect.")), s)
        else if negb (truthy new) || (String.length new <? 6)%nat
        then (Ok (inl (change_refused "New password must be at least 6 characters.")), s)
        else if negb (bool_decide (new = arg_or (pf_confirm form) EmptyString))
        then (Ok (inl (change_refused "Passwords do not match.")), s)
        else (Ok (inl change_done), with_user (user_id u) (set_password salt new) s)
    end.
Proof.
  unfold change_password. rewrite login_required_clean.
  destruct (user_of_cookie s) as [u|]; [|done]. cbv zeta.
  destruct (negb (check_password _ _)); [done|]. destruct (_ || _); [done|].
  destruct (negb (bool_decide _)); [done|].
  by rewrite (M_bind_ok _ _ _ _ _ (update_user _ _)).
Qed.

Lemma edit_run form :
  edit_profile_text (Some form) s =
    match user_of_cookie s with
    | None => (Ok (inl unauthorized), s)
    | Some u => (Ok (inl profile_updated), with_user (user_id u) (edited form) s)
    end.
Proof.
  unfold edit_profile_text. rewrite login_required_clean.
  destruct (user_of_cookie s) as [u|]; [|done].
  by rewrite (M_bind_ok _ _ _ _ _ (update_user _ _)).
Qed.

End clean.

(** *** The invariant *)

Lemma user_ok_signed_up salt form i :
  truthy (lower (arg_text (su_email form))) = true → user_ok (signed_up salt form i).
Proof.
  intros He. split; unfold signed_up; cbn [user_email user_name user_handle user_bio].
  - done.
  - apply lower_idemp.
  - rewrite trimmed_lower. apply arg_text_trimmed.
  - by apply truthy_str_or.
  - apply with_at_ok.
  - simpl. lia.
Qed.

Lemma nobody_ok : accounts_ok nobody.
Proof. split; simpl; [apply rows_wf_nil|done|done|done]. Qed.

Lemma accounts_ok_rows s : accounts_ok s → rows_wf (rows (users s)).
Proof. intros [Hwf Hc _ _]. unfold table_wf in Hwf. by rewrite visible_clean in Hwf. Qed.

Lemma accounts_ok_with_user i f s :
  (∀ u, row_id (f u) = row_id u) → (∀ u, unique_key (f u) = unique_key u) →
  (∀ u, user_ok u → user_ok (f u)) →
  accounts_ok s → accounts_ok (with_user i f s).
Proof.
  intros Hi Hk Hf Hok. pose proof (accounts_ok_rows s Hok) as Hwf.
  destruct Hok as [_ Hc Hrows Hcookie]. split; unfold with_user; cbn [users logged_in rows].
  - unfold table_wf, visible. cbn [rows txn]. rewrite app_nil_r. by apply rows_wf_update.
  - done.
  - apply Forall_fmap. eapply Forall_impl; [done|]. intros u Hu. simpl.
    unfold update_row. case_decide; auto.
  - intros j (u & -> & Hu)%Hcookie%list_elem_of_fmap. apply list_elem_of_fmap.
    exists (update_row i f u). split; [|by apply list_elem_of_fmap_2].
    unfold update_row. case_decide; [|done]. symmetry. apply Hi.
Qed.

Lemma accounts_ok_cookie s c p :
  (∀ i, c = Some i → i ∈ user_id <$> rows (users s)) →
  accounts_ok s → accounts_ok (Accounts (users s) c p).
Proof. intros Hc [? ? ? ?]. by split. Qed.

Lemma find_id_elem i l u :
  List.find (λ u, bool_decide (user_id u = i)) l = Some u → u ∈ l ∧ user_id u = i.
Proof.
  intros [Hin Hu]%find_some. split; [by apply list_elem_of_In|].
  by apply bool_decide_eq_true in Hu.
Qed.

(** Where ids are distinct, the row found under the id of a row is
    that row. *)
Lemma find_id_of_elem l u :
  NoDup (user_id <$> l) → u ∈ l →
  List.find (λ v, bool_decide (user_id v = user_id u)) l = Some u.
Proof.
  induction l as [|x l IH]; [by intros _ ?%elem_of_nil|].
  rewrite fmap_cons. intros [Hx Hl]%NoDup_cons [->|Hin]%elem_of_cons; cbn [List.find].
  - by rewrite bool_decide_eq_true_2.
  - rewrite bool_decide_eq_false_2; [by apply IH|]. intros Heq. apply Hx. rewrite Heq.
    by apply list_elem_of_fmap_2.
Qed.

Lemma find_identity i e l :
  NoDup (user_id <$> l) → (i, e) ∈ identity <$> l →
  ∃ u, List.find (λ u, bool_decide (user_id u = i)) l = Some u ∧ identity u = (i, e).
Proof.
  intros Hl (u & Heq & Hu)%list_elem_of_fmap. exists u. split; [|done].
  injection Heq as -> _. by apply find_id_of_elem.
Qed.

Lemma signup_keeps_ok salt post s : accounts_ok s → accounts_ok (signup salt post s).2.
Proof.
  intros Hok. destruct post as [form|]; [|done]. pose proof (accounts_ok_rows s Hok) as Hwf.
  destruct Hok as [Ht Hc Hrows Hcookie]. rewrite signup_run by done. cbv zeta.
  destruct (truthy (lower _)) eqn:He; [|by split]. destruct (truthy (arg_or _ _)); [|by split].
  cbn [andb negb]. case_bool_decide as Hreg; [by split|]. cbn [snd].
  split; cbn [users logged_in rows].
  - unfold table_wf, visible. cbn [rows txn]. rewrite app_nil_r.
    apply (rows_wf_insert (rows (users s)) (signed_up salt form 0) Hwf).
    apply conflicts_false_iff. by intros k [= <-].
  - done.
  - apply Forall_app. split; [done|]. constructor; [by apply user_ok_signed_up|done].
  - intros i [= <-]. rewrite fmap_app. apply elem_of_app. right. by left.
Qed.

Lemma login_keeps_ok post s : accounts_ok s → accounts_ok (login post s).2.
Proof.
  intros Hok. destruct post as [form|]; [|done]. rewrite login_run by apply Hok.
  destruct (List.find _ _) as [u|] eqn:Ef; [|done]. destruct (check_password _ _); [|done].
  apply accounts_ok_cookie; [|done]. intros i [= <-].
  apply find_some in Ef as [Hin%list_elem_of_In _]. apply list_elem_of_fmap. by exists u.
Qed.

Lemma serve_keeps_ok r s : accounts_ok s → accounts_ok (serve r s).2.
Proof.
  intros Hok. pose proof Hok as [_ Hc _ Hcookie]. destruct r; unfold serve; rewrite M_then_tt_state.
  - by apply signup_keeps_ok.
  - by apply login_keeps_ok.
  - by apply accounts_ok_cookie.
  - rewrite forgot_run by done. destruct (List.find _ _); [|done]. by apply accounts_ok_cookie.
  - rewrite reset_run by done. cbv zeta. repeat case_match; try done.
    by apply accounts_ok_with_user; [..|apply user_ok_set_password|].
  - rewrite change_run by done. cbv zeta. repeat case_match; try done.
    by apply accounts_ok_with_user; [..|apply user_ok_set_password|].
  - rewrite edit_run by done. case_match; [|done].
    by apply accounts_ok_with_user; [..|apply user_ok_edited|].
Qed.

(** *** What no request does *)

Lemma with_user_ids i f s :
  (∀ u, user_id (f u) = user_id u) →
  user_id <$> rows (users (with_user i f s)) = user_id <$> rows (users s).
Proof. intros Hf. exact (ids_of_update i f (rows (users s)) Hf). Qed.

(** No request removes a user or changes an id. *)
Lemma serve_ids r s i :
  clean (users s) → i ∈ user_id <$> rows (users s) →
  i ∈ user_id <$> rows (users (serve r s).2).
Proof.
  intros Hc Hi. destruct r; unfold serve; rewrite M_then_tt_state.
  - rewrite signup_run by done. cbv zeta. repeat case_match; try done.
    cbn [snd users rows]. rewrite fmap_app. apply elem_of_app. by left.
  - rewrite login_run by done. by repeat case_match.
  - done.
  - rewrite forgot_run by done. by case_match.
  - rewrite reset_run by done. cbv zeta. repeat case_match; try done.
    cbn [snd]. by rewrite with_user_ids.
  - rewrite change_run by done. cbv zeta. repeat case_match; try done.
    cbn [snd]. by rewrite with_user_ids.
  - rewrite edit_run by done. case_match; [|done]. cbn [snd]. by rewrite with_user_ids.
Qed.

Lemma with_user_identities i f s :
  (∀ u, identity (f u) = identity u) →
  identity <$> rows (users (with_user i f s)) = identity <$> rows (users s).
Proof.
  intros Hf. cbn [with_user users rows]. rewrite <- list_fmap_compose.
  apply list_fmap_ext. intros _ u _. simpl. unfold update_row. by case_decide.
Qed.

(** No request changes the id or the address of a user: the rows that
    were there stay who they are, in their order, and a signup adds one
    at the end. *)
Lemma serve_identities r s :
  clean (users s) →
  identity <$> rows (users s) `prefix_of` identity <$> rows (users (serve r s).2).
Proof.
  intros Hc. destruct r; unfold serve; rewrite M_then_tt_state.
  - rewrite signup_run by done. cbv zeta. repeat case_match; try done.
    cbn [snd users rows]. rewrite fmap_app. by apply prefix_app_r.
  - rewrite login_run by done. by repeat case_match.
  - done.
  - rewrite forgot_run by done. by case_match.
  - rewrite reset_run by done. cbv zeta. repeat case_match; try done.
    cbn [snd]. by rewrite with_user_identities.
  - rewrite change_run by done. cbv zeta. repeat case_match; try done.
    cbn [snd]. by rewrite with_user_identities.
  - rewrite edit_run by done. case_match; [|done]. cbn [snd]. by rewrite with_user_identities.
Qed.

(** The cookie changes at a signup that is accepted, at a login with
    the password of the user, and at a logout. *)
Lemma serve_cookie r s :
  clean (users s) →
  match r with
  | Signup salt form =>
      logged_in (serve r s).2 = logged_in s ∨
      logged_in (serve r s).2 = Some (next_id (rows (users s)))
  | Login form =>
      logged_in (serve r s).2 = logged_in s ∨
      ∃ u, u ∈ rows (users s) ∧ user_email u = lower (arg_text (li_email form)) ∧
           check_password u (arg_or (li_password form) EmptyString) = true ∧
           logged_in (serve r s).2 = Some (user_id u)
  | Logout => logged_in (serve r s).2 = None
  | _ => logged_in (serve r s).2 = logged_in s
  end.
Proof.
  intros Hc. destruct r; unfold serve; rewrite M_then_tt_state.
  - rewrite signup_run by done. cbv zeta. repeat case_match; ((by left) || (by right)).
  - rewrite login_run by done. destruct (List.find _ _) as [u|] eqn:Ef; [|by left].
    destruct (check_password _ _) eqn:Ep; [right|by left]. exists u.
    apply find_some in Ef as [Hin Hu%bool_decide_eq_true]. by apply list_elem_of_In in Hin.
  - done.
  - rewrite forgot_run by done. by case_match.
  - rewrite reset_run by done. cbv zeta. by repeat case_match.
  - rewrite change_run by done. cbv zeta. by repeat case_match.
  - rewrite edit_run by done. by case_match.
Qed.

(** A GET, and the pages that only show the user, change nothing. *)
Lemma account_reads s :
  clean (users s) →
  (∀ salt, (signup salt None s).2 = s) ∧ (login None s).2 = s ∧
  (∀ now, (forgot_password now None s).2 = s) ∧
  (∀ now salt token, (reset_password now salt token None s).2 = s) ∧
  (∀ salt, (change_password salt None s).2 = s) ∧ (edit_profile_text None s).2 = s ∧
  (settings s).2 = s ∧ (share_profile s).2 = s ∧
  (∀ handle, (public_profile handle s).2 = s) ∧ (∀ url, (qr_profile url s).2 = s).
Proof.
  intros Hc. pose proof (current_user_clean s Hc) as Hu.
  assert (∃ n, current_user_name s = (Ok n, s)) as [n Hn]
    by (unfold current_user_name; rewrite (M_bind_ok _ _ _ _ _ Hu); by eexists).
  assert (∃ h, current_user_handle s = (Ok h, s)) as [h Hh]
    by (unfold current_user_handle; rewrite (M_bind_ok _ _ _ _ _ Hu); by eexists).
  split_and!; try done; intros.
  - rewrite reset_run by done. cbv zeta. by repeat case_match.
  - unfold change_password. rewrite login_required_clean by done. by case_match.
  - unfold edit_profile_text. rewrite login_required_clean by done. by case_match.
  - unfold settings. rewrite login_required_clean by done. by case_match.
  - unfold share_profile.
    by rewrite (M_bind_ok _ _ _ _ _ Hn), (M_bind_ok _ _ _ _ _ Hh).
  - unfold public_profile. cbv zeta. by rewrite (M_bind_ok _ _ _ _ _ Hn).
  - unfold qr_profile. cbv zeta. case_match; [done|].
    by rewrite (M_bind_ok _ _ _ _ _ Hh).
Qed.

Lemma attainable_ok s : attainable s → accounts_ok s.
Proof.
  unfold attainable. revert s. apply rtc_ind_r; [apply nobody_ok|].
  intros s s' _ [r <-] Hok. by apply serve_keeps_ok.
Qed.

(** *** Looking a registered user up *)

Lemma find_by_email s u :
  accounts_ok s → u ∈ rows (users s) →
  List.find (by_email (user_email u)) (rows (users s)) = Some u.
Proof.
  intros Hok Hu. destruct (List.find _ _) as [u'|] eqn:Ef.
  - apply (find_key_Some _ (user_email u)) in Ef as [Hin Hk]; [|intros x; apply by_email_iff].
    f_equal. by eapply rows_wf_key_inj; [apply accounts_ok_rows| | | |].
  - apply (find_key_None _ (user_email u)) in Ef; [|intros x; apply by_email_iff].
    destruct Ef. apply elem_of_keys_of. by exists u.
Qed.

(** The address of a row, as typed in any case and with white space
    around it, finds the row. *)
Lemma find_registered s u typed :
  accounts_ok s → u ∈ rows (users s) → lower (strip typed) = user_email u →
  List.find (by_email (lower (arg_text (Some typed)))) (rows (users s)) = Some u.
Proof. intros Hok Hu He. rewrite arg_text_Some, He. by apply find_by_email. Qed.

Lemma email_as_stored u : user_ok u → lower (strip (user_email u)) = user_email u.
Proof. intros [_ Hl Ht _ _ _]. by rewrite strip_id. Qed.

(** The address of a row finds the changed row after an update that
    keeps the address. *)
Lemma find_updated s u f :
  accounts_ok s → u ∈ rows (users s) →
  (∀ x, row_id (f x) = row_id x) → (∀ x, unique_key (f x) = unique_key x) →
  List.find (by_email (user_email u)) (rows (users (with_user (user_id u) f s))) = Some (f u).
Proof.
  intros Hok Hu Hi Hk. pose proof (accounts_ok_rows s Hok) as Hwf. unfold with_user.
  cbn [users rows]. destruct (List.find _ _) as [u'|] eqn:Ef.
  - apply (find_key_Some _ (user_email u)) in Ef as [Hin Hkey]; [|intros x; apply by_email_iff].
    apply list_elem_of_fmap in Hin as (u0 & -> & Hu0). f_equal.
    assert (u0 = u) as ->.
    { eapply (rows_wf_key_inj _ u0 u); [done..| |done]. revert Hkey. unfold update_row.
      case_decide; by rewrite ?Hk. }
    unfold update_row. by rewrite decide_True.
  - apply (find_key_None _ (user_email u)) in Ef; [|intros x; apply by_email_iff].
    destruct Ef. rewrite keys_of_update by done. apply elem_of_keys_of. by exists u.
Qed.

(** A token that is accepted sets the password. *)
Lemma reset_accepts now salt token form u s :
  accounts_ok s → u ∈ rows (users s) →
  unsign_email now 3600 token = Some (user_email u) →
  let new_pw := arg_text (rs_new_password form) in
  6 ≤ String.length new_pw → new_pw = arg_text (rs_confirm_password form) →
  reset_password now salt token (Some form) s =
    (Ok reset_done, with_user (user_id u) (set_password salt new_pw) s).
Proof.
  intros Hok Hu Htok new_pw Hlen Hconf. rewrite reset_run by apply Hok. cbv zeta.
  rewrite Htok. change (default EmptyString (Some (user_email u))) with (user_email u).
  pose proof (proj1 (Forall_forall _ _) (ok_rows s Hok) u Hu) as Huok.
  rewrite (ok_email u Huok). cbn [negb].
  rewrite find_by_email by done. fold new_pw. rewrite <- Hconf.
  rewrite bool_decide_eq_true_2 by done. cbn [negb].
  destruct new_pw as [|c rest] eqn:E; [simpl in Hlen; lia|].
  cbn [truthy negb orb]. by rewrite (proj2 (Nat.ltb_ge _ _) Hlen).
Qed.

End accounts.

(** ** Theorems *)

Section account_theorems.
Context `{Crypto}.
Implicit Types (s : accounts) (u : User).

(** C20. A POST of /signup on a session with nothing pending: without an
    address or a password the form is refused; an address that is
    registered, whatever its case, is reported; otherwise one user is
    inserted with the next id, the address in lower case, the hash of
    the password, the name or "New Reader", the handle with its [@], and
    that user is logged in. *)
Theorem signup_spec salt form s :
  clean (users s) →
  let email := lower (arg_text (su_email form)) in
  let password := arg_or (su_password form) EmptyString in
  signup salt (Some form) s =
    if negb (truthy email && truthy password) then (Ok signup_refused, s)
    else if bool_decide (registered email s) then (Ok signup_taken, s)
    else let u := signed_up salt form (next_id (rows (users s))) in
         (Ok (goto "home"),
          Accounts (Table (rows (users s) ++ [u]) [] []) (Some (user_id u)) (printed s)).
Proof. intros Hc. by apply signup_run. Qed.

(** C21. In every state the handlers can reach from an empty table, no two
    users share an address or an id, every address is stored in lower
    case and stripped, every name is non-empty, every handle is empty or
    starts with [@], every bio has at most 200 characters, and the
    cookie names a user of the table. *)
Theorem attainable_accounts_ok s : attainable s → accounts_ok s.
Proof. apply attainable_ok. Qed.

(** A user who signed up can log in again with the same password and
    the address in any case and with white space around it. *)
Theorem signup_then_login salt form typed s s1 :
  accounts_ok s → signup salt (Some form) s = (Ok (goto "home"), s1) →
  lower (strip typed) = lower (arg_text (su_email form)) →
  login (Some (LoginForm (Some typed) (su_password form))) (logout s1).2
    = (Ok (goto "home"), s1).
Proof.
  intros Hok Hs Htyped. pose proof (signup_keeps_ok salt (Some form) s Hok) as Hok1.
  rewrite Hs in Hok1. cbn [snd] in Hok1. revert Hs. rewrite signup_run by apply Hok. cbv zeta.
  destruct (negb _); [done|]. case_bool_decide; [done|]. intros [= <-].
  set (u := signed_up _ _ _) in *. set (s1 := Accounts _ _ _) in *.
  rewrite login_run by apply Hok1. change (rows (users (logout s1).2)) with (rows (users s1)).
  cbn [li_email li_password].
  rewrite (find_registered s1 u typed Hok1); [|apply elem_of_app; right; by left|done].
  unfold check_password, u, signed_up. cbn [user_password_hash li_password].
  by rewrite check_generated.
Qed.

(** The login succeeds exactly for a registered address and a password
    that matches its hash; then the cookie names that user, and nothing
    else changes. *)
Theorem login_spec form s :
  clean (users s) →
  login (Some form) s =
    match List.find (by_email (lower (arg_text (li_email form)))) (rows (users s)) with
    | Some u =>
        if check_password u (arg_or (li_password form) EmptyString)
        then (Ok (goto "home"), Accounts (users s) (Some (user_id u)) (printed s))
        else (Ok login_invalid, s)
    | None => (Ok login_invalid, s)
    end.
Proof. intros Hc. by apply login_run. Qed.

(** /forgot-password gives the same answer for every address and
    changes neither the table nor the cookie; a token is printed exactly
    when the address is registered. *)
Theorem forgot_password_silent now email_arg s :
  clean (users s) →
  let r := forgot_password now (Some email_arg) s in
  r.1 = Ok reset_sent ∧ users r.2 = users s ∧ logged_in r.2 = logged_in s ∧
  (length (printed r.2) = length (printed s) + 1 ↔
   registered (lower (arg_text email_arg)) s).
Proof.
  intros Hc r. subst r. rewrite forgot_run by done. unfold registered. cbn [fst snd].
  destruct (List.find _ _) as [u|] eqn:Ef; cbn [users logged_in printed].
  - apply (find_key_Some _ (lower (arg_text email_arg))) in Ef as [Hin Hk];
      [|intros x; apply by_email_iff].
    split_and!; [done..|]. rewrite length_app. simpl.
    split; [intros _|done]. apply elem_of_keys_of. by exists u.
  - apply (find_key_None _ (lower (arg_text email_arg))) in Ef;
      [|intros x; apply by_email_iff].
    split_and!; [done..|]. split; [lia|done].
Qed.

(** A token that is refused, for its signature or its age, changes
    nothing, whatever the form. *)
Theorem reset_password_bad_token now salt token post s :
  unsign_email now 3600 token = None →
  reset_password now salt token post s = (Ok reset_invalid, s).
Proof.
  intros Hu. unfold reset_password. change (60 * 60)%Z with 3600%Z. by rewrite Hu.
Qed.

(** A token that is accepted for the address of a user, with a new
    password of at least 6 characters given twice, sets the password:
    whether the token was ever printed, or used before, plays no part. *)
Theorem reset_password_accepts now salt token form u s :
  accounts_ok s → u ∈ rows (users s) →
  unsign_email now 3600 token = Some (user_email u) →
  let new_pw := arg_text (rs_new_password form) in
  6 ≤ String.length new_pw → new_pw = arg_text (rs_confirm_password form) →
  reset_password now salt token (Some form) s =
    (Ok reset_done, with_user (user_id u) (set_password salt new_pw) s).
Proof. apply reset_accepts. Qed.

(** C25. The link printed for a registered address is accepted within the
    hour, and the user can then log in with the new password,
    stripped. *)
Theorem reset_then_login now now' salt form u s :
  accounts_ok s → u ∈ rows (users s) → (0 ≤ now ≤ now')%Z → (now' - now ≤ 3600)%Z →
  let new_pw := arg_text (rs_new_password form) in
  6 ≤ String.length new_pw → new_pw = arg_text (rs_confirm_password form) →
  let s1 := (forgot_password now (Some (Some (user_email u))) s).2 in
  let token := sign_email now (user_email u) in
  let s2 := with_user (user_id u) (set_password salt new_pw) s1 in
  printed s1 = printed s ++ [token] ∧
  reset_password now' salt token (Some form) s1 = (Ok reset_done, s2) ∧
  login (Some (LoginForm (Some (user_email u)) (Some new_pw))) s2 =
    (Ok (goto "home"), Accounts (users s2) (Some (user_id u)) (printed s2)).
Proof.
  intros Hok Hu Hnow Hage new_pw Hlen Hconf s1 token s2.
  assert (user_ok u) as Huok by (by eapply Forall_forall; [apply Hok|]).
  assert (s1 = Accounts (users s) (logged_in s) (printed s ++ [token])) as Hs1.
  { subst s1. rewrite forgot_run by apply Hok.
    by rewrite (find_registered s u (user_email u) Hok Hu (email_as_stored u Huok)). }
  assert (accounts_ok s1) as Hok1 by (rewrite Hs1; by apply accounts_ok_cookie; [apply Hok|]).
  assert (u ∈ rows (users s1)) as Hu1 by (by rewrite Hs1).
  split_and!; [by rewrite Hs1| |].
  - apply reset_accepts; try done. by apply unsign_signed.
  - rewrite login_run by done. cbn [li_email li_password]. rewrite arg_text_Some, (email_as_stored u Huok).
    subst s2. rewrite (find_updated s1 u _ Hok1 Hu1) by done.
    cbn [arg_or]. rewrite str_or_empty_r. by rewrite check_set_password.
Qed.

(** /change-password for the user of the cookie: the current password
    must match, the new one must have 6 characters and be given twice;
    then the hash of the row is replaced. *)
Theorem change_password_spec salt form s :
  clean (users s) →
  change_password salt (Some form) s =
    match user_of_cookie s with
    | None => (Ok (inl unauthorized), s)
    | Some u =>
        let new := arg_or (pf_new form) EmptyString in
        if negb (check_password u (arg_or (pf_current form) EmptyString))
        then (Ok (inl (change_refused "Current password is incorrect.")), s)
        else if negb (truthy new) || (String.length new <? 6)%nat
        then (Ok (inl (change_refused "New password must be at least 6 characters.")), s)
        else if negb (bool_decide (new = arg_or (pf_confirm form) EmptyString))
        then (Ok (inl (change_refused "Passwords do not match.")), s)
        else (Ok (inl change_done), with_user (user_id u) (set_password salt new) s)
    end.
Proof. intros Hc. by apply change_run. Qed.

(** /edit-profile for the user of the cookie: a name and a handle that
    are given replace the old ones, the handle with an [@] in front; the
    bio is replaced in every case, cut at 200 characters. *)
Theorem edit_profile_spec form s :
  clean (users s) →
  edit_profile_text (Some form) s =
    match user_of_cookie s with
    | None => (Ok (inl unauthorized), s)
    | Some u => (Ok (inl profile_updated), with_user (user_id u) (edited form) s)
    end.
Proof. intros Hc. by apply edit_run. Qed.

(** Without a cookie the pages that need a user answer with the
    redirect to /login and change nothing. *)
Theorem logged_out_unauthorized salt pw_form pr_form s :
  logged_in s = None →
  change_password salt pw_form s = (Ok (inl unauthorized), s) ∧
  edit_profile_text pr_form s = (Ok (inl unauthorized), s) ∧
  settings s = (Ok (inl unauthorized), s).
Proof.
  intros Hl. unfold change_password, edit_profile_text, settings, login_required, current_user.
  unfold mbind, M_bind, get. by rewrite Hl.
Qed.

End account_theorems.

(** ** Witnesses *)

Lemma one_user_ok : accounts_ok one_user.
Proof.
  split; [|done| |done].
  - split; simpl; [apply (bool_decide_unpack (NoDup _)); reflexivity..|by repeat constructor].
  - repeat constructor; simpl; (done || by right || lia).
Qed.

Lemma two_users_attainable : @attainable demo_crypto (serve (Signup "s" form_bob) nobody).2.
Proof. apply rtc_once. exact (Serves _ _ (Signup "s" form_bob) eq_refl). Qed.

Lemma signup_spec_witness :
  @signup demo_crypto "s" (Some form_bob) one_user = (Ok (goto "home"), two_users).
Proof. by apply (@signup_spec demo_crypto "s" form_bob one_user). Defined.

Lemma attainable_accounts_ok_witness :
  accounts_ok (@serve demo_crypto (Signup "s" form_bob) nobody).2.
Proof. apply (@attainable_accounts_ok demo_crypto _ two_users_attainable). Defined.

Lemma signup_then_login_witness :
  @login demo_crypto (Some (LoginForm (Some "BOB@example.org ") (Some "x"))) (logout two_users).2
    = (Ok (goto "home"), two_users).
Proof.
  by apply (@signup_then_login demo_crypto "s" form_bob "BOB@example.org " one_user two_users
              one_user_ok).
Defined.

Lemma login_spec_witness :
  @login demo_crypto (Some (LoginForm (Some "Ada@Example.org") (Some "secret"))) one_user
    = (Ok login_invalid, one_user).
Proof.
  by apply (@login_spec demo_crypto (LoginForm (Some "Ada@Example.org") (Some "secret"))
              one_user).
Defined.

Lemma forgot_password_silent_witness :
  let r := @forgot_password demo_crypto 5 (Some (Some "nobody@example.org")) one_user in
  r.1 = Ok reset_sent ∧ users r.2 = users one_user ∧ logged_in r.2 = logged_in one_user ∧
  (length (printed r.2) = length (printed one_user) + 1 ↔
   registered (lower (arg_text (Some "nobody@example.org"))) one_user).
Proof.
  by apply (@forgot_password_silent demo_crypto 5 (Some "nobody@example.org") one_user).
Defined.

Lemma reset_password_bad_token_witness :
  @reset_password demo_crypto 4000 "s" "xxxxx:ada@example.org" (Some form_secret2) one_user
    = (Ok reset_invalid, one_user).
Proof.
  by apply (@reset_password_bad_token demo_crypto 4000 "s" "xxxxx:ada@example.org"
              (Some form_secret2) one_user).
Defined.

Lemma reset_password_accepts_witness :
  @reset_password demo_crypto 7 "s" "xxxxx:ada@example.org" (Some form_secret2) one_user
    = (Ok reset_done, with_user 1 (@set_password demo_crypto "s" "secret2") one_user).
Proof.
  apply (@reset_password_accepts demo_crypto 7 "s" "xxxxx:ada@example.org" form_secret2 ada
           one_user one_user_ok); [by left|done|simpl; lia|done].
Defined.

Lemma reset_then_login_witness :
  let s1 := (@forgot_password demo_crypto 5 (Some (Some "ada@example.org")) one_user).2 in
  let s2 := with_user 1 (@set_password demo_crypto "s" "secret2") s1 in
  printed s1 = printed one_user ++ ["xxxxx:ada@example.org"] ∧
  @reset_password demo_crypto 7 "s" "xxxxx:ada@example.org" (Some form_secret2) s1
    = (Ok reset_done, s2) ∧
  @login demo_crypto (Some (LoginForm (Some "ada@example.org") (Some "secret2"))) s2 =
    (Ok (goto "home"), Accounts (users s2) (Some 1%Z) (printed s2)).
Proof.
  apply (@reset_then_login demo_crypto 5 7 "s" form_secret2 ada one_user one_user_ok);
    [by left|lia|lia|simpl; lia|done].
Defined.

Lemma change_password_spec_witness :
  @change_password demo_crypto "s" (Some (PasswordForm (Some "x") (Some "abc") (Some "abc")))
    two_users
    = (Ok (inl (change_refused "New password must be at least 6 characters.")), two_users).
Proof.
  by apply (@change_password_spec demo_crypto "s"
              (PasswordForm (Some "x") (Some "abc") (Some "abc")) two_users).
Defined.

Lemma edit_profile_spec_witness :
  edit_profile_text (Some (ProfileForm (Some " Bob B ") (Some "bobby") None)) two_users =
    (Ok (inl profile_updated),
     Accounts (Table [ada; mkUser 2 "bob@example.org" "plain:x" "Bob B" "@bobby" EmptyString]
                     [] []) (Some 2%Z) []).
Proof.
  by apply (edit_profile_spec (ProfileForm (Some " Bob B ") (Some "bobby") None) two_users).
Defined.

Lemma logged_out_unauthorized_witness :
  @change_password demo_crypto "s" None one_user = (Ok (inl unauthorized), one_user) ∧
  edit_profile_text None one_user = (Ok (inl unauthorized), one_user) ∧
  settings one_user = (Ok (inl unauthorized), one_user).
Proof. by apply (@logged_out_unauthorized demo_crypto "s" None None one_user). Defined.

(** A password of one character is accepted by /signup, while
    /change-password and the reset link ask for six. *)
Example signup_short_password :
  (@signup demo_crypto "s" (Some form_bob) one_user).1 = Ok (goto "home").
Proof. reflexivity. Qed.

(** The reset link strips the new password and the login does not: a
    password typed with white space around it is not the one that was
    set. *)
Example reset_strips_password :
  let s2 := (@reset_password demo_crypto 7 "s" "xxxxx:ada@example.org" (Some form_secret2)
               one_user).2 in
  (@login demo_crypto (Some (LoginForm (Some "ada@example.org") (Some " secret2 "))) s2).1
    = Ok login_invalid ∧
  (@login demo_crypto (Some (LoginForm (Some "ada@example.org") (Some "secret2"))) s2).1
    = Ok (goto "home").
Proof. by vm_compute. Qed.

(** A reset link can be used again within the hour. *)
Example reset_link_reusable :
  let s2 := (@reset_password demo_crypto 7 "s" "xxxxx:ada@example.org" (Some form_secret2)
               one_user).2 in
  (@reset_password demo_crypto 9 "s" "xxxxx:ada@example.org"
     (Some (ResetForm (Some "another3") (Some "another3"))) s2).1 = Ok reset_done.
Proof. by vm_compute. Qed.
