(* ===== verification/Profile.v ===== *)
(** * Profile: the profile form with its picture ([edit_profile])

    [/edit-profile] changes the row of the user and saves the picture
    that came with the form in [static/uploads/avatars], under the name
    the browser sent, made safe by [secure_filename] of werkzeug, which
    the program only calls: [Uploads] is the interface to it.  The state
    is that of the accounts together with the file system.

    The assignments to [current_user] stay in the session until the
    commit at the end of the handler, and no query comes in between:
    the model applies them with the commit.  A save that fails leaves
    the handler before the commit, and the session is discarded when the
    request ends. *)

From Stdlib Require Import ZArith Lia Ascii String.
From stdpp Require Import base tactics option list strings gmap.
From S2P Require Import Prelude PyStr Files Json Flask Db Accounts.

(** What the program relies on of [werkzeug.utils.secure_filename]: the
    name it returns has no separator.  It may be empty. *)
Class Uploads : Type := {
  secure_filename : string → string;
  secure_filename_flat name : contains "/" (secure_filename name) = false;
}.

(** ** Definitions *)

(** [request.files.get("profile_picture")]: the name the browser sent and
    the content. *)
Record picture : Type := Picture {
  pic_filename : string;
  pic_content : string;
}.

(** [os.path.join("static", "uploads", "avatars")] *)
Definition upload_folder : string := path_join (path_join "static" "uploads") "avatars".

(** The block of the picture, for the folder [dir].  Its result is the
    value assigned to [current_user.avatar]; [User] has no such
    column. *)
Definition save_under `{Uploads} (dir : string) (file : option picture)
  : M files (option string) :=
  match file with
  | Some f =>
      if truthy (pic_filename f) then
        let filename := secure_filename (pic_filename f) in
        makedirs (path_of dir) ;;
        let filepath := path_join dir filename in
        file_save filepath (pic_content f) ;;
        mret (Some ("uploads/avatars/" +:+ filename))
      else mret None
  | None => mret None
  end.

Definition save_picture `{Uploads} (file : option picture) : M files (option string) :=
  save_under upload_folder file.

Definition on_accounts {A} (c : M accounts A) : M (accounts * files) A :=
  zoom fst (λ a s, (a, s.2)) c.

Definition on_files {A} (c : M files A) : M (accounts * files) A :=
  zoom snd (λ fs s, (s.1, fs)) c.

(** The handler of [/edit-profile]; [None] is a GET, [Some (form, file)]
    a POST. *)
Definition edit_profile `{Uploads} (post : option (profile_form * option picture))
  : M (accounts * files) (page + profile_view) :=
  match post with
  | Some (form, file) =>
      u ← on_accounts current_user;
      match u with
      | None => mret (inl unauthorized)
      | Some u =>
          _ ← on_files (save_picture file);
          on_accounts (on_users (session_update (user_id u) (edited form) ;; commit)) ;;
          mret (inl profile_updated)
      end
  | None => on_accounts (edit_profile_text None)
  end.

(** The file a picture is saved to. *)
Definition target `{Uploads} (f : picture) : path :=
  path_of upload_folder ++ [secure_filename (pic_filename f)].

(** A picture that is sent and has a name. *)
Definition sent_picture (file : option picture) : option picture :=
  f ← file; if truthy (pic_filename f) then Some f else None.

(** *** Fixtures *)

#[export, refine] Instance demo_uploads : Uploads := {|
  secure_filename := remove_char "/"%char;
|}.
Proof. intros name. apply remove_char_absent. Defined.

Definition me_png : picture := Picture "../me.png" "PNG1".

(** ** Lemmas *)

Lemma upload_folder_path : path_of upload_folder = ["static"; "uploads"; "avatars"].
Proof. reflexivity. Qed.

Lemma upload_folder_ok : truthy upload_folder = true ∧ ends_with_slash upload_folder = false.
Proof. done. Qed.

Lemma sent_picture_Some file f :
  sent_picture file = Some f ↔ file = Some f ∧ truthy (pic_filename f) = true.
Proof.
  destruct file as [f'|]; cbn; [|by split; [|intros []]].
  destruct (truthy (pic_filename f')) eqn:Hn; split; try done.
  - by intros [= ->].
  - by intros [[= ->] _].
  - intros [[= ->] ?]. congruence.
Qed.

(** *** The block of the picture, for any folder *)

Section save_under.
Context `{Uploads} (dir : string).
Context (Hd : truthy dir = true) (He : ends_with_slash dir = false).
Implicit Types (fs : files) (f : picture) (file : option picture).

Notation made fs := (makedirs (path_of dir) fs).
Notation place f := (path_of dir ++ [secure_filename (pic_filename f)]).

Lemma save_under_none file fs : sent_picture file = None → save_under dir file fs = (Ok None, fs).
Proof. destruct file as [f|]; [|done]. simpl. by destruct (truthy (pic_filename f)). Qed.

(** The folder, then the file. *)
Lemma save_under_run file f fs :
  sent_picture file = Some f →
  save_under dir file fs =
    match (made fs).1 with
    | Raise e => (Raise e, (made fs).2)
    | Ok _ =>
        if truthy (secure_filename (pic_filename f))
        then (match (write (place f) (pic_content f) (made fs).2).1 with
              | Ok _ => Ok (Some ("uploads/avatars/" +:+ secure_filename (pic_filename f)))
              | Raise e => Raise e
              end, (write (place f) (pic_content f) (made fs).2).2)
        else (Raise OSError, (made fs).2)
    end.
Proof.
  intros [-> Hn]%sent_picture_Some. unfold save_under. rewrite Hn. cbv zeta.
  rewrite M_bind_run. destruct (made fs).1; [|done].
  rewrite M_bind_run, file_save_flat by (done || apply secure_filename_flat).
  destruct (truthy (secure_filename _)); [|done]. by destruct (write _ _ _).1.
Qed.

Lemma save_under_files_ok file fs : files_ok fs → files_ok (save_under dir file fs).2.
Proof.
  intros Hok. destruct (sent_picture file) as [f|] eqn:Hs; [|by rewrite save_under_none].
  rewrite (save_under_run file f fs Hs).
  destruct (makedirs_ok (path_of dir) fs Hok) as (Hok1 & _).
  destruct (made fs).1; [|done]. destruct (truthy (secure_filename _)); [|done].
  by apply write_files_ok.
Qed.

Lemma save_under_result file fs r :
  (save_under dir file fs).1 = Ok r →
  r = (λ f, "uploads/avatars/" +:+ secure_filename (pic_filename f)) <$> sent_picture file.
Proof.
  destruct (sent_picture file) as [f|] eqn:Hs.
  - rewrite (save_under_run file f fs Hs).
    destruct (made fs).1; [|done]. destruct (truthy (secure_filename _)); [|done]. cbn [fst].
    destruct (write _ _ _).1; [|done]. by intros [= <-].
  - rewrite save_under_none by done. by intros [= <-].
Qed.

Lemma save_under_raises file fs e :
  (save_under dir file fs).1 = Raise e → e = OSError ∧ sent_picture file ≠ None.
Proof.
  destruct (sent_picture file) as [f|] eqn:Hs; [|by rewrite save_under_none].
  rewrite (save_under_run file f fs Hs).
  pose proof (makedirs_raises_OSError (path_of dir) fs) as Hm.
  destruct (made fs).1; [|by cbn; intros [= <-]; split; [apply Hm|]].
  destruct (truthy (secure_filename _)); [|by intros [= <-]]. cbn [fst].
  pose proof (write_raises (place f) (pic_content f) (made fs).2).
  destruct (write _ _ _).1; [done|]. intros [= <-]. eauto.
Qed.

(** A name that [secure_filename] empties. *)
Lemma save_under_empty file f fs :
  sent_picture file = Some f → secure_filename (pic_filename f) = EmptyString →
  (made fs).1 = Ok tt → save_under dir file fs = (Raise OSError, (made fs).2).
Proof. intros Hs Hn Hm. by rewrite (save_under_run file f fs Hs), Hm, Hn. Qed.

(** A picture with a usable name, in a file system where nothing is in
    the way, is saved; nothing but the folder and the file changes. *)
Lemma save_under_saved file f fs :
  files_ok fs → sent_picture file = Some f →
  truthy (secure_filename (pic_filename f)) = true →
  (∀ d c, d ∈ ancestors (path_of dir) → fs !! d ≠ Some (File c)) →
  fs !! place f ≠ Some Dir →
  let r := save_under dir file fs in
  is_Ok r.1 = true ∧ r.2 !! place f = Some (File (pic_content f)) ∧
  ∀ q, q ∉ place f :: ancestors (path_of dir) → r.2 !! q = fs !! q.
Proof.
  intros Hok Hs Ht Hway Hfree. cbv zeta. rewrite (save_under_run file f fs Hs), Ht.
  destruct (makedirs_full (path_of dir) fs Hok) as (_ & _ & _ & Hr & Hdir & Hf).
  assert ((made fs).1 = Ok tt) as Hm.
  { apply Hr. intros (d & c & Hin & Hl). by apply (Hway d c Hin). }
  rewrite Hm. specialize (Hdir Hm). rewrite write_run, removelast_last, Hdir.
  rewrite bool_decide_eq_false_2 by (by destruct (path_of dir)). cbn [orb negb].
  rewrite bool_decide_eq_false_2 by (by rewrite Hf by apply ancestors_below).
  cbn [fst snd is_Ok]. split_and!; [done|apply lookup_insert_eq|].
  intros q [Hq Hq']%not_elem_of_cons. rewrite lookup_insert_ne by done. by apply Hf.
Qed.

End save_under.

(** *** The block of the picture, for the folder of the program *)

Section save_picture.
Context `{Uploads}.
Implicit Types (fs : files) (f : picture) (file : option picture).

Lemma save_picture_none file fs : sent_picture file = None → save_picture file fs = (Ok None, fs).
Proof. apply save_under_none. Qed.

Lemma save_picture_files_ok file fs : files_ok fs → files_ok (save_picture file fs).2.
Proof. by apply save_under_files_ok. Qed.

Lemma save_picture_result file fs r :
  (save_picture file fs).1 = Ok r →
  r = (λ f, "uploads/avatars/" +:+ secure_filename (pic_filename f)) <$> sent_picture file.
Proof. by apply save_under_result. Qed.

Lemma save_picture_raises file fs e :
  (save_picture file fs).1 = Raise e → e = OSError ∧ sent_picture file ≠ None.
Proof. by apply save_under_raises. Qed.

Lemma save_picture_empty file f fs :
  sent_picture file = Some f → secure_filename (pic_filename f) = EmptyString →
  (makedirs (path_of upload_folder) fs).1 = Ok tt →
  save_picture file fs = (Raise OSError, (makedirs (path_of upload_folder) fs).2).
Proof. by apply save_under_empty. Qed.

Lemma save_picture_saved file f fs :
  files_ok fs → sent_picture file = Some f →
  truthy (secure_filename (pic_filename f)) = true →
  (∀ d c, d ∈ ancestors (path_of upload_folder) → fs !! d ≠ Some (File c)) →
  fs !! target f ≠ Some Dir →
  let r := save_picture file fs in
  is_Ok r.1 = true ∧ r.2 !! target f = Some (File (pic_content f)) ∧
  ∀ q, q ∉ target f :: ancestors (path_of upload_folder) → r.2 !! q = fs !! q.
Proof. by apply save_under_saved. Qed.

End save_picture.

Section edit_profile.
Context `{Uploads}.
Implicit Types (a : accounts) (fs : files) (form : profile_form) (file : option picture).

(** A POST on a session with nothing pending, branch by branch. *)
Lemma edit_profile_run form file a fs :
  clean (users a) →
  edit_profile (Some (form, file)) (a, fs) =
    match user_of_cookie a with
    | None => (Ok (inl unauthorized), (a, fs))
    | Some u =>
        match (save_picture file fs).1 with
        | Ok _ => (Ok (inl profile_updated),
                   (with_user (user_id u) (edited form) a, (save_picture file fs).2))
        | Raise e => (Raise e, (a, (save_picture file fs).2))
        end
    end.
Proof.
  intros Hc. unfold edit_profile, on_accounts, on_files.
  rewrite M_bind_run, zoom_run. cbn [fst snd]. rewrite (current_user_clean a Hc). cbn [fst snd].
  destruct (user_of_cookie a) as [u|]; [|done].
  rewrite M_bind_run, zoom_run. cbn [fst snd]. destruct (save_picture file fs).1; [|done].
  rewrite M_bind_run, zoom_run. cbn [fst snd]. by rewrite (update_user a Hc).
Qed.

Lemma edit_profile_get a fs :
  edit_profile None (a, fs) = ((edit_profile_text None a).1, ((edit_profile_text None a).2, fs)).
Proof. unfold edit_profile, on_accounts. by rewrite zoom_run. Qed.

End edit_profile.

(** ** Theorems *)

Section profile_theorems.
Context `{Uploads}.
Implicit Types (a : accounts) (fs : files) (form : profile_form) (file : option picture).

(** The profile form, branch by branch: without a cookie the redirect
    to the login page; with one, the picture is saved first, and only
    when that succeeded are the text fields written to the row and
    committed. *)
Theorem edit_profile_post form file a fs :
  clean (users a) →
  edit_profile (Some (form, file)) (a, fs) =
    match user_of_cookie a with
    | None => (Ok (inl unauthorized), (a, fs))
    | Some u =>
        match (save_picture file fs).1 with
        | Ok _ => (Ok (inl profile_updated),
                   (with_user (user_id u) (edited form) a, (save_picture file fs).2))
        | Raise e => (Raise e, (a, (save_picture file fs).2))
        end
    end.
Proof. apply edit_profile_run. Qed.

(** Whenever [/edit-profile] answers, its answer and the accounts it
    leaves are those of the handler without the picture. *)
Theorem edit_profile_refines post a fs p :
  clean (users a) → (edit_profile post (a, fs)).1 = Ok p →
  edit_profile_text (fst <$> post) a = (Ok p, (edit_profile post (a, fs)).2.1).
Proof.
  intros Hc. destruct post as [[form file]|]; cbn [fmap option_fmap option_map fst].
  - rewrite edit_profile_run, (edit_run a Hc) by done.
    destruct (user_of_cookie a); [destruct (save_picture file fs).1|]; by intros [= <-].
  - rewrite edit_profile_get. cbn [fst snd]. intros <-. by destruct (edit_profile_text None a).
Qed.

(** C37. A picture whose name is usable, sent by a user who is logged in to
    a file system where nothing is in the way, is saved under that name
    in the folder of the pictures; the text fields are stored, the file
    system stays well formed and nothing else in it changes. *)
Theorem upload_saved form file f a fs u :
  clean (users a) → files_ok fs → user_of_cookie a = Some u →
  sent_picture file = Some f → truthy (secure_filename (pic_filename f)) = true →
  (∀ d c, d ∈ ancestors (path_of upload_folder) → fs !! d ≠ Some (File c)) →
  fs !! target f ≠ Some Dir →
  let r := edit_profile (Some (form, file)) (a, fs) in
  r.1 = Ok (inl profile_updated) ∧ r.2.1 = with_user (user_id u) (edited form) a ∧
  r.2.2 !! target f = Some (File (pic_content f)) ∧ files_ok r.2.2 ∧
  ∀ q, q ∉ target f :: ancestors (path_of upload_folder) → r.2.2 !! q = fs !! q.
Proof.
  intros Hc Hok Hu Hs Ht Hway Hfree r. pose proof (save_picture_files_ok file fs Hok) as Hok'.
  destruct (save_picture_saved file f fs Hok Hs Ht Hway Hfree) as (Hr & Hl & Hf).
  subst r. rewrite edit_profile_run, Hu by done.
  destruct (save_picture file fs).1; [|done]. by cbn [fst snd].
Qed.

(** C39. A request that fails, fails in the save of the picture, with
    [OSError], and stores nothing of the form. *)
Theorem upload_failure form file a fs e :
  clean (users a) → (edit_profile (Some (form, file)) (a, fs)).1 = Raise e →
  e = OSError ∧ (edit_profile (Some (form, file)) (a, fs)).2.1 = a ∧
  sent_picture file ≠ None.
Proof.
  intros Hc. rewrite edit_profile_run by done. destruct (user_of_cookie a); [|done].
  pose proof (save_picture_raises file fs) as Hr.
  destruct (save_picture file fs).1 as [|e']; [done|]. intros [= <-].
  by destruct (Hr e' eq_refl).
Qed.

(** A name that [secure_filename] empties fails the request once the
    folder is there. *)
Theorem upload_empty_name form file f a fs u :
  clean (users a) → user_of_cookie a = Some u → sent_picture file = Some f →
  secure_filename (pic_filename f) = EmptyString →
  (makedirs (path_of upload_folder) fs).1 = Ok tt →
  edit_profile (Some (form, file)) (a, fs)
    = (Raise OSError, (a, (makedirs (path_of upload_folder) fs).2)).
Proof.
  intros Hc Hu Hs Hn Hm. rewrite edit_profile_run, Hu by done.
  by rewrite (save_picture_empty file f fs Hs Hn Hm).
Qed.

(** The file system stays well formed. *)
Theorem edit_profile_files_ok post a fs :
  clean (users a) → files_ok fs → files_ok (edit_profile post (a, fs)).2.2.
Proof.
  intros Hc Hok. destruct post as [[form file]|]; [|by rewrite edit_profile_get].
  rewrite edit_profile_run by done. pose proof (save_picture_files_ok file fs Hok).
  destruct (user_of_cookie a); [|done]. by destruct (save_picture file fs).1.
Qed.

(** The form never shows a picture: the row of a user has no
    attribute [avatar]. *)
Theorem avatar_not_shown a fs v : (edit_profile None (a, fs)).1 = Ok (inr v) → pv_avatar v = None.
Proof.
  rewrite edit_profile_get. cbn [fst]. unfold edit_profile_text, login_required.
  rewrite M_bind_run. destruct (current_user a).1 as [[u|]|]; [|done..]. by intros [= <-].
Qed.

End profile_theorems.

(** ** Witnesses *)

Definition form_b : profile_form := ProfileForm (Some "Bob") None None.

Lemma two_users_clean : clean (users two_users).
Proof. done. Qed.

Lemma nothing_in_the_way d c :
  d ∈ ancestors (path_of upload_folder) → (∅ : files) !! d ≠ Some (File c).
Proof. by rewrite lookup_empty. Qed.

Lemma edit_profile_post_witness :
  @edit_profile demo_uploads (Some (form_b, Some me_png)) (two_users, ∅) =
    match user_of_cookie two_users with
    | None => (Ok (inl unauthorized), (two_users, ∅))
    | Some u =>
        match (@save_picture demo_uploads (Some me_png) ∅).1 with
        | Ok _ => (Ok (inl profile_updated),
                   (with_user (user_id u) (edited form_b) two_users,
                    (@save_picture demo_uploads (Some me_png) ∅).2))
        | Raise e => (Raise e, (two_users, (@save_picture demo_uploads (Some me_png) ∅).2))
        end
    end.
Proof. exact (@edit_profile_post demo_uploads form_b (Some me_png) two_users ∅ two_users_clean). Defined.

Lemma edit_profile_refines_witness :
  edit_profile_text (fst <$> Some (form_b, Some me_png)) two_users =
    (Ok (inl profile_updated),
     (@edit_profile demo_uploads (Some (form_b, Some me_png)) (two_users, ∅)).2.1).
Proof.
  by apply (@edit_profile_refines demo_uploads (Some (form_b, Some me_png)) two_users ∅).
Defined.

Lemma upload_saved_witness :
  let r := @edit_profile demo_uploads (Some (form_b, Some me_png)) (two_users, ∅) in
  r.1 = Ok (inl profile_updated) ∧ r.2.1 = with_user (user_id bob) (edited form_b) two_users ∧
  r.2.2 !! @target demo_uploads me_png = Some (File (pic_content me_png)) ∧ files_ok r.2.2 ∧
  ∀ q, q ∉ @target demo_uploads me_png :: ancestors (path_of upload_folder) →
       r.2.2 !! q = (∅ : files) !! q.
Proof.
  apply (@upload_saved demo_uploads form_b (Some me_png) me_png two_users ∅ bob);
    [done|apply map_Forall_empty|done|done|done|apply nothing_in_the_way|done].
Defined.

Lemma upload_failure_witness :
  OSError = OSError ∧
  (@edit_profile demo_uploads (Some (form_b, Some (Picture "/" "x"))) (two_users, ∅)).2.1
    = two_users ∧
  sent_picture (Some (Picture "/" "x")) ≠ None.
Proof.
  by apply (@upload_failure demo_uploads form_b (Some (Picture "/" "x")) two_users ∅ OSError).
Defined.

Lemma upload_empty_name_witness :
  @edit_profile demo_uploads (Some (form_b, Some (Picture "/" "x"))) (two_users, ∅)
    = (Raise OSError, (two_users, (makedirs (path_of upload_folder) ∅).2)).
Proof.
  by apply (@upload_empty_name demo_uploads form_b (Some (Picture "/" "x")) (Picture "/" "x")
              two_users ∅ bob).
Defined.

Lemma edit_profile_files_ok_witness :
  files_ok (@edit_profile demo_uploads (Some (form_b, Some me_png)) (two_users, ∅)).2.2.
Proof.
  apply (@edit_profile_files_ok demo_uploads (Some (form_b, Some me_png)) two_users ∅);
    [done|apply map_Forall_empty].
Defined.

Lemma avatar_not_shown_witness :
  pv_avatar (ProfileView "New Reader" "@bob" EmptyString None) = None.
Proof.
  by apply (@avatar_not_shown demo_uploads two_users ∅
              (ProfileView "New Reader" "@bob" EmptyString None)).
Defined.

(** The picture of one user is replaced by the picture another user
    sends under the same name. *)
Example upload_replaces :
  let s1 := (@edit_profile demo_uploads (Some (form_b, Some (Picture "me.png" "BOB")))
               (two_users, ∅)).2 in
  let ada_in := Accounts (users s1.1) (Some 1%Z) [] in
  let s2 := (@edit_profile demo_uploads (Some (form_b, Some (Picture "me.png" "ADA")))
               (ada_in, s1.2)).2 in
  s1.2 !! ["static"; "uploads"; "avatars"; "me.png"] = Some (File "BOB") ∧
  s2.2 !! ["static"; "uploads"; "avatars"; "me.png"] = Some (File "ADA").
Proof. split; vm_compute; reflexivity. Qed.
