(* ===== verification/Search.v ===== *)
(** * Search: the Open Library search proxy
      ([_ol_search] and the route [/api/openlibrary])

    Both functions send one search request and turn every candidate of
    the response that has a title and a first author into a record of
    seven strings.  [_ol_search] lets every exception through and is
    called by nothing in src/main.py; [api_openlibrary], the handler of
    the route, guards the request, and only the request.  The answer of
    the route is specified by [listed] on the editions a response
    [describes], and [api_openlibrary_lists] proves the handler against
    it. *)

From Stdlib Require Import ZArith Lia.
From stdpp Require Import base tactics option list strings gmap.
From S2P Require Import Prelude PyStr Json Flask Cover Http Fixtures Matcher.

(** ** Definitions *)

(** The dict appended to [results]: its seven keys are fixed. *)
Record hit : Type := Hit {
  hit_title : string;
  hit_author : string;
  hit_year : string;
  hit_cover : string;
  hit_cover_i : string;
  hit_isbn : string;
  hit_olid : string;
}.

#[export] Instance hit_eq_dec : EqDecision hit.
Proof. solve_decision. Defined.

(** [(d["author_name"][0] or "").strip()] when the field is a non-empty
    list, the empty string otherwise. *)
Definition first_author_text (authors : json) : outcome string :=
  if isinstance_list authors && truth authors then
    a0 ← index0 authors; text_field a0
  else Ok EmptyString.

(** The body of the loop over the candidates: the record to append, if
    any. *)
Definition parse_doc `{PyRuntime} (d : json) : outcome (option hit) :=
  t0 ← dict_get "title" d;
  title ← text_field t0;
  authors ← dict_get "author_name" d;
  author ← first_author_text authors;
  y ← dict_get "first_publish_year" d;
  let year := year_of y in
  ci ← dict_get "cover_i" d;
  let cover_i := ident_field ci in
  isbns ← dict_get "isbn" d;
  let isbn := first_ident isbns in
  edition_keys ← dict_get "edition_key" d;
  let olid := first_ident edition_keys in
  let cover := _ol_cover_url cover_i isbn olid in
  Ok (if truthy title && truthy author
      then Some (Hit title author year cover cover_i isbn olid)
      else None).

(** [for d in docs: ... results.append(...)], [results] being the list
    built so far. *)
Fixpoint collect_hits `{PyRuntime} (docs : list json) (results : list hit)
  : outcome (list hit) :=
  match docs with
  | [] => Ok results
  | d :: docs' =>
      h ← parse_doc d;
      collect_hits docs' (results ++ option_list h)
  end.

(** Everything after the response was decoded. *)
Definition search_results `{PyRuntime} (data : json) : outcome (list hit) :=
  docs0 ← dict_get "docs" data;
  items ← py_iter (py_or docs0 (JList []));
  collect_hits items [].

(** [_ol_search(term, limit, page)] *)
Definition _ol_search `{PyRuntime, Network} (term : string) (limit page : Z)
  : M (list request) (list hit) :=
  data ← urlopen_json (Request (search_url term limit page) USER_AGENT 20);
  lift (search_results data).

(** ["https://openlibrary.org/search.json?q={}&limit=10".format(quote(q))] *)
Definition openlibrary_url `{PyRuntime} (q : string) : string :=
  "https://openlibrary.org/search.json?q=" +:+ quote q +:+ "&limit=10".

(** The handler of [GET /api/openlibrary]; the list returned is the JSON
    array of the response, an exception a response with status 500. *)
Definition api_openlibrary `{PyRuntime, Network} (q_arg : option string)
  : M (list request) (list hit) :=
  let q := arg_text q_arg in
  if negb (truthy q) then mret [] else
  r ← try_urlopen_json (Request (openlibrary_url q) USER_AGENT 10);
  match r with
  | None => mret []
  | Some data => lift (search_results data)
  end.

(** The record a candidate contributes, [None] where [parse_doc] raises
    or skips it. *)
Definition hit_of `{PyRuntime} (d : json) : option hit :=
  from_outcome None (parse_doc d).

(** What every record of a result satisfies. *)
Definition hit_wf (h : hit) : Prop :=
  truthy (hit_title h) = true ∧ truthy (hit_author h) = true ∧
  trimmed (hit_title h) = true ∧ trimmed (hit_author h) = true ∧
  trimmed (hit_cover_i h) = true ∧ trimmed (hit_isbn h) = true ∧
  trimmed (hit_olid h) = true ∧
  hit_cover h = _ol_cover_url (hit_cover_i h) (hit_isbn h) (hit_olid h).

(** *** The specification of an answer

    A candidate as Open Library describes it: a title, the names of the
    authors, the year of the first publication, the number of a cover,
    the ISBNs and the keys of the editions.  Any of them may be
    missing. *)
Record edition : Type := Edition {
  ed_title : string;
  ed_authors : list string;
  ed_year : option Z;
  ed_cover : option Z;
  ed_isbns : list string;
  ed_keys : list string;
}.

(** The field [v] holds the text [t]: the string, or nothing when the
    text is empty. *)
Definition text_in (t : string) (v : json) : Prop :=
  v = JStr t ∨ (t = EmptyString ∧ v = JNull).

(** The field [v] holds the strings [l]: the list, or nothing when
    there are none. *)
Definition strings_in (l : list string) (v : json) : Prop :=
  v = JList (JStr <$> l) ∨ (l = [] ∧ v = JNull).

(** The document [d] describes [e], whatever other fields it has and
    whatever the order of its fields. *)
Definition describes (e : edition) (d : json) : Prop :=
  ∃ kvs, d = JDict kvs ∧
    let field k := default JNull (assoc k kvs) in
    text_in (ed_title e) (field "title") ∧
    strings_in (ed_authors e) (field "author_name") ∧
    field "first_publish_year" = from_option JInt JNull (ed_year e) ∧
    field "cover_i" = from_option JInt JNull (ed_cover e) ∧
    strings_in (ed_isbns e) (field "isbn") ∧
    strings_in (ed_keys e) (field "edition_key").

(** The first of the strings, without the white space around it. *)
Definition first_text (l : list string) : string := strip (default EmptyString (head l)).

(** The digits of the number of a cover; Open Library has no cover 0. *)
Definition cover_number (o : option Z) : string :=
  match o with
  | Some z => if decide (z = 0%Z) then EmptyString else str_of_int z
  | None => EmptyString
  end.

(** What the search lists for an edition: nothing unless it has a title
    and a first author; then these two, the year in digits, the first
    ISBN and the first key, and the address of the cover they give. *)
Definition listed (e : edition) : option hit :=
  let title := strip (ed_title e) in
  let author := first_text (ed_authors e) in
  let cover_i := cover_number (ed_cover e) in
  let isbn := first_text (ed_isbns e) in
  let olid := first_text (ed_keys e) in
  if bool_decide (title ≠ EmptyString ∧ author ≠ EmptyString) then
    Some (Hit title author (from_option str_of_int EmptyString (ed_year e))
              (_ol_cover_url cover_i isbn olid) cover_i isbn olid)
  else None.

(** Two records for the examples, and the editions they list. *)
Definition hit_1984 : hit :=
  Hit "1984" "George Orwell" "1949" "https://covers.openlibrary.org/b/id/123-L.jpg"
      "123" "9780141182636" "OL1M".

Definition hit_study_guide : hit :=
  Hit "1984 (Study Guide)" "SparkNotes" "2002"
      "https://covers.openlibrary.org/b/id/77-L.jpg" "77" "9781411469488" "OL9M".

Definition edition_1984 : edition :=
  Edition "1984" ["George Orwell"] (Some 1949%Z) (Some 123%Z) ["9780141182636"] ["OL1M"].

Definition edition_study_guide : edition :=
  Edition "1984 (Study Guide)" ["SparkNotes"] (Some 2002%Z) (Some 77%Z) ["9781411469488"]
          ["OL9M"].

(** ** One candidate *)

Lemma first_author_text_ok x : is_Ok (first_author_text x) = authors_ok x.
Proof.
  unfold first_author_text, authors_ok.
  destruct x as [| | | | |[|y l]|]; simpl; try done.
  pose proof (text_field_ok y) as Hy. unfold text_ok.
  by destruct (text_field y).
Qed.

(** The matcher's first author is this one in lower case. *)
Lemma first_author_of_text x : first_author_of x = lower <$> first_author_text x.
Proof.
  unfold first_author_of, first_author_text.
  destruct (_ && _); [|done]. by destruct (index0 x).
Qed.

Lemma first_author_text_trimmed x s : first_author_text x = Ok s → trimmed s = true.
Proof.
  unfold first_author_text. destruct (_ && _).
  - destruct (index0 x) as [y|]; [|done]. apply text_field_trimmed.
  - by intros [= <-].
Qed.

(** *** A candidate that describes an edition *)

Lemma text_field_in t v : text_in t v → text_field v = Ok (strip t).
Proof. intros [->|[-> ->]]; [apply text_field_str|done]. Qed.

Lemma first_author_text_in l v : strings_in l v → first_author_text v = Ok (first_text l).
Proof.
  intros [->|[-> ->]]; [|done]. destruct l as [|a l]; [done|]. apply text_field_str.
Qed.

Lemma first_ident_in `{PyRuntime} l v : strings_in l v → first_ident v = first_text l.
Proof.
  intros [->|[-> ->]]; [|done]. destruct l as [|a l]; [done|]. apply ident_field_str.
Qed.

Lemma year_of_number `{PyRuntime} o :
  year_of (from_option JInt JNull o) = from_option str_of_int EmptyString o.
Proof. by destruct o. Qed.

Lemma ident_field_number `{PyRuntime} o :
  ident_field (from_option JInt JNull o) = cover_number o.
Proof.
  destruct o as [z|]; [|done]. cbn [from_option cover_number]. case_decide as Hz; [by subst|].
  rewrite ident_field_int by done. apply strip_id, str_of_int_trimmed.
Qed.

Section search.
Context `{PyRuntime}.
Implicit Types (d data : json) (docs : list json) (h : hit) (hs acc : list hit).
Implicit Types (es : list edition).

(** A candidate is parsed exactly when the matcher can score it. *)
Lemma parse_doc_is_Ok d : is_Ok (parse_doc d) = scorable d.
Proof.
  destruct d as [| | | | | |kvs]; try done. unfold parse_doc, scorable.
  rewrite !dict_get_dict. cbn [mbind outcome_bind].
  unfold text_ok. rewrite <- text_field_ok, <- first_author_text_ok.
  destruct (text_field _); [|done]. cbn [mbind outcome_bind].
  by destruct (first_author_text _).
Qed.

Lemma parse_doc_hit_of d : scorable d = true → parse_doc d = Ok (hit_of d).
Proof.
  rewrite <- parse_doc_is_Ok. unfold hit_of. by destruct (parse_doc d).
Qed.

Lemma parse_doc_not_scorable d : scorable d = false → ∃ e, parse_doc d = Raise e.
Proof.
  rewrite <- parse_doc_is_Ok. destruct (parse_doc d); [done|eauto].
Qed.

Lemma parse_doc_wf d h : parse_doc d = Ok (Some h) → hit_wf h.
Proof.
  destruct d as [| | | | | |kvs]; try done. unfold parse_doc.
  rewrite !dict_get_dict. cbn [mbind outcome_bind].
  destruct (text_field _) as [t|] eqn:Ht; [|done]. cbn [mbind outcome_bind].
  destruct (first_author_text _) as [a|] eqn:Ha; [|done]. cbn [mbind outcome_bind].
  destruct (truthy t) eqn:Et, (truthy a) eqn:Ea; intros [= <-].
  unfold hit_wf; simpl.
  split_and!; eauto using text_field_trimmed, first_author_text_trimmed,
    ident_field_trimmed, first_ident_trimmed.
Qed.

Lemma hit_of_wf d h : hit_of d = Some h → hit_wf h.
Proof.
  unfold hit_of. destruct (parse_doc d) as [o|] eqn:E; [|done].
  simpl. intros ->. eauto using parse_doc_wf.
Qed.

(** ** The loop *)

Lemma collect_hits_scorable docs acc :
  forallb scorable docs = true →
  collect_hits docs acc = Ok (acc ++ omap hit_of docs).
Proof.
  revert acc. induction docs as [|d docs IH]; intros acc Hs; simpl.
  { by rewrite app_nil_r. }
  apply andb_prop in Hs as [Hd Hs]. rewrite parse_doc_hit_of by done.
  cbn [mbind outcome_bind]. rewrite IH by done.
  destruct (hit_of d); simpl; by rewrite <- ?app_assoc, ?app_nil_r.
Qed.

Lemma collect_hits_is_Ok docs acc :
  is_Ok (collect_hits docs acc) = forallb scorable docs.
Proof.
  revert acc. induction docs as [|d docs IH]; intros acc; [done|]. simpl.
  destruct (scorable d) eqn:Hd.
  - rewrite parse_doc_hit_of by done. apply IH.
  - by destruct (parse_doc_not_scorable d Hd) as [e ->].
Qed.

Lemma omap_hit_of_wf docs : Forall hit_wf (omap hit_of docs).
Proof.
  induction docs as [|d docs IH]; simpl; [done|].
  destruct (hit_of d) eqn:E; [|done]. constructor; eauto using hit_of_wf.
Qed.

Lemma omap_hit_of_length docs : (length (omap hit_of docs) ≤ length docs)%nat.
Proof. apply omap_length_le. Qed.

(** ** The loop against the specification *)

(** The loop body lists a candidate as the specification does. *)
Lemma parse_doc_describes (e : edition) d : describes e d → parse_doc d = Ok (listed e).
Proof.
  intros (kvs & -> & Ht & Ha & Hy & Hc & Hi & Hk). unfold parse_doc, listed.
  rewrite !dict_get_dict. cbn [mbind outcome_bind].
  rewrite (text_field_in _ _ Ht), (first_author_text_in _ _ Ha). cbn [mbind outcome_bind].
  rewrite Hy, Hc, year_of_number, ident_field_number.
  rewrite (first_ident_in _ _ Hi), (first_ident_in _ _ Hk). do 2 f_equal.
  destruct (strip (ed_title e)), (first_text (ed_authors e)); cbn [truthy andb];
    [rewrite bool_decide_eq_false_2 by (by intros [? ?])..|by rewrite bool_decide_eq_true_2];
    done.
Qed.

Lemma describes_scorable (e : edition) d : describes e d → scorable d = true.
Proof. intros Hd. by rewrite <- parse_doc_is_Ok, (parse_doc_describes e d Hd). Qed.

Lemma hit_of_describes (e : edition) d : describes e d → hit_of d = listed e.
Proof. intros Hd. unfold hit_of. by rewrite (parse_doc_describes e d Hd). Qed.

Lemma omap_hit_of_describes es docs :
  Forall2 describes es docs → forallb scorable docs = true ∧ omap hit_of docs = omap listed es.
Proof.
  induction 1 as [|e d es docs Hd _ [IH1 IH2]]; [done|]. cbn [forallb omap list_omap].
  by rewrite (describes_scorable e d Hd), (hit_of_describes e d Hd), IH1, IH2.
Qed.

(** ** The decoded response *)

Lemma search_results_dict kvs :
  let docs := default JNull (assoc "docs" kvs) in
  search_results (JDict kvs) =
    if truth docs then items ← py_iter docs; collect_hits items [] else Ok [].
Proof.
  intros docs. unfold search_results. rewrite dict_get_dict.
  cbn [mbind outcome_bind]. fold docs. unfold py_or. by destruct (truth docs).
Qed.

Lemma collect_chars_raises s :
  s ≠ EmptyString → is_Ok (collect_hits (chars s) []) = false.
Proof. rewrite collect_hits_is_Ok. by destruct s. Qed.

Lemma collect_keys_raises kvs :
  kvs ≠ [] → is_Ok (collect_hits (keys kvs) []) = false.
Proof. rewrite collect_hits_is_Ok. by destruct kvs. Qed.

Lemma search_results_ok_iff data : is_Ok (search_results data) = wf_response data.
Proof.
  destruct data as [| | | | | |kvs]; try done.
  rewrite search_results_dict. unfold wf_response.
  destruct (default JNull (assoc "docs" kvs)) as [|b|z|f|s|l|kvs'] eqn:E;
    simpl; try done; try (by case_match).
  - destruct (truthy s) eqn:Hs; [|done]. apply collect_chars_raises.
    by intros ->.
  - destruct l; [done|]. apply (collect_hits_is_Ok (_ :: _)).
  - destruct kvs'; [done|]. by apply collect_keys_raises.
Qed.

Lemma search_results_list kvs l :
  assoc "docs" kvs = Some (JList l) → forallb scorable l = true →
  search_results (JDict kvs) = Ok (omap hit_of l).
Proof.
  intros Hd Hs. rewrite search_results_dict, Hd. simpl.
  destruct l; [done|]. by rewrite collect_hits_scorable.
Qed.

Lemma search_results_inv data hs :
  search_results data = Ok hs →
  ∃ l, hs = omap hit_of l ∧ forallb scorable l = true ∧
       (l = [] ∨ dict_get "docs" data = Ok (JList l)).
Proof.
  intros Hr. pose proof (search_results_ok_iff data) as Hw.
  rewrite Hr in Hw. destruct data as [| | | | | |kvs]; try done.
  rewrite search_results_dict in Hr. unfold wf_response in Hw. simpl.
  destruct (truth _) eqn:Ht; [|exists []; naive_solver].
  destruct (default JNull (assoc "docs" kvs)) as [|b|z|f|s|l|kvs'] eqn:E; try done.
  exists l. simpl in Hr, Hw. rewrite collect_hits_scorable in Hr by done.
  naive_solver.
Qed.

End search.

(** ** The two entry points *)

Section entry.
Context `{PyRuntime, Network}.
Implicit Types (log : list request) (hs : list hit).

Lemma ol_search_unfold term limit page log :
  let req := Request (search_url term limit page) USER_AGENT 20 in
  _ol_search term limit page log =
    (data ← respond (length log) req; search_results data, log ++ [req]).
Proof.
  intros req. unfold _ol_search, urlopen_json. monad_unfold. fold req.
  destruct (respond _ _) as [data|e]; [|done]. simpl. by destruct (search_results _).
Qed.

(** _ol_search sends exactly one request, for the term as given, with
    a timeout of 20 seconds; an exception of the network or of the
    parsing of the response is the exception of the call. *)
Theorem ol_search_run term limit page log :
  let req := Request (search_url term limit page) USER_AGENT 20 in
  _ol_search term limit page log =
    (data ← respond (length log) req; search_results data, log ++ [req]).
Proof. exact (ol_search_unfold term limit page log). Qed.

(** Every record _ol_search returns has a non-empty trimmed title and
    author, trimmed identifiers and the cover URL built from them. *)
Theorem ol_search_result_wf term limit page log hs :
  (_ol_search term limit page log).1 = Ok hs → Forall hit_wf hs.
Proof.
  rewrite ol_search_unfold. simpl. destruct (respond _ _) as [data|]; [|done].
  simpl. intros (l & -> & _)%search_results_inv. apply omap_hit_of_wf.
Qed.

(** An exception of the network leaves _ol_search as it is. *)
Theorem ol_search_raises term limit page log e :
  respond (length log) (Request (search_url term limit page) USER_AGENT 20)
    = Raise e →
  _ol_search term limit page log =
    (Raise e, log ++ [Request (search_url term limit page) USER_AGENT 20]).
Proof. intros Hr. rewrite ol_search_unfold. simpl. by rewrite Hr. Qed.

Lemma api_openlibrary_unfold q_arg log :
  let q := arg_text q_arg in
  let req := Request (openlibrary_url q) USER_AGENT 10 in
  api_openlibrary q_arg log =
    if truthy q then
      (match respond (length log) req with
       | Ok data => search_results data
       | Raise _ => Ok []
       end, log ++ [req])
    else (Ok [], log).
Proof.
  intros q req. unfold api_openlibrary. fold q. destruct (truthy q); [|done].
  cbn [negb]. fold req. unfold mbind, M_bind. rewrite try_urlopen_json_run.
  by destruct (respond _ _).
Qed.

(** Whatever it answers, /api/openlibrary sends at most one request. *)
Lemma api_openlibrary_sent q_arg log :
  length (api_openlibrary q_arg log).2 ≤ S (length log).
Proof.
  rewrite api_openlibrary_unfold. cbv zeta. destruct (truthy _); simpl; [|lia].
  rewrite length_app. simpl. lia.
Qed.

(** Without a query, or with a blank one, /api/openlibrary answers
    the empty list and sends no request. *)
Theorem api_openlibrary_blank q_arg log :
  blank (default EmptyString q_arg) = true →
  api_openlibrary q_arg log = (Ok [], log).
Proof.
  intros Hb. rewrite api_openlibrary_unfold. cbv zeta.
  by rewrite truthy_arg_text, Hb.
Qed.

(** With a query, /api/openlibrary sends one request for the
    stripped query; a failed request yields the empty list. *)
Theorem api_openlibrary_soft s log e :
  blank s = false →
  respond (length log) (Request (openlibrary_url (strip s)) USER_AGENT 10) = Raise e →
  api_openlibrary (Some s) log =
    (Ok [], log ++ [Request (openlibrary_url (strip s)) USER_AGENT 10]).
Proof.
  intros Hb Hr. rewrite api_openlibrary_unfold. cbv zeta.
  by rewrite arg_text_Some, truthy_strip, Hb, Hr.
Qed.

(** With a query and a response, /api/openlibrary answers exactly
    when the response is well formed; on any other response the handler
    raises. *)
Theorem api_openlibrary_is_Ok s log data :
  blank s = false →
  respond (length log) (Request (openlibrary_url (strip s)) USER_AGENT 10) = Ok data →
  is_Ok (api_openlibrary (Some s) log).1 = wf_response data.
Proof.
  intros Hb Hr. rewrite api_openlibrary_unfold. cbv zeta.
  rewrite arg_text_Some, truthy_strip, Hb, Hr. apply search_results_ok_iff.
Qed.

(** C29. With a query that is not blank and a response whose candidates
    describe the editions [es], whatever else the response and its
    candidates hold and in whatever order, /api/openlibrary sends one
    request, for the query without the white space around it and with a
    time limit of 10 seconds, and answers what the specification lists
    for [es]: one record for every edition that has a title and a first
    author, in the order of the response. *)
Theorem api_openlibrary_lists s log kvs docs es :
  blank s = false →
  respond (length log) (Request (openlibrary_url (strip s)) USER_AGENT 10) = Ok (JDict kvs) →
  assoc "docs" kvs = Some (JList docs) → Forall2 describes es docs →
  api_openlibrary (Some s) log =
    (Ok (omap listed es), log ++ [Request (openlibrary_url (strip s)) USER_AGENT 10]).
Proof.
  intros Hb Hr Hd [Hs Hl]%omap_hit_of_describes. rewrite api_openlibrary_unfold. cbv zeta.
  rewrite arg_text_Some, truthy_strip, Hb, Hr. cbn [negb]. f_equal.
  by rewrite (search_results_list kvs docs Hd Hs), Hl.
Qed.

(** Every record /api/openlibrary answers is well formed, and there
    are at most as many as candidates in the response. *)
Theorem api_openlibrary_result_wf q_arg log hs :
  (api_openlibrary q_arg log).1 = Ok hs → Forall hit_wf hs.
Proof.
  rewrite api_openlibrary_unfold. simpl.
  destruct (truthy _); [|by intros [= <-]]. simpl.
  destruct (respond _ _) as [data|]; [|by intros [= <-]].
  intros (l & -> & _)%search_results_inv. apply omap_hit_of_wf.
Qed.

(** The two look-ups of this file send under the name of the program,
    with a time limit of 20 and of 10 seconds. *)
Lemma ol_search_polite term limit page : keeps (sent polite) (_ol_search term limit page).
Proof. unfold _ol_search. solve_keeps. Qed.

Lemma api_openlibrary_polite q_arg : keeps (sent polite) (api_openlibrary q_arg).
Proof. unfold api_openlibrary. solve_keeps. Qed.

End entry.

#[export] Hint Resolve ol_search_polite api_openlibrary_polite : keeps.

(** ** Witnesses *)

Lemma ol_search_result_wf_witness : Forall hit_wf [hit_study_guide; hit_1984].
Proof.
  apply (@ol_search_result_wf demo_runtime (always body_1984) "1984" 50 1 []).
  reflexivity.
Defined.

Lemma ol_search_raises_witness :
  @_ol_search demo_runtime offline "1984" 50 1 [] =
    (Raise URLError,
     [] ++ [Request (@search_url demo_runtime "1984" 50 1) USER_AGENT 20]).
Proof. apply (@ol_search_raises demo_runtime offline "1984" 50 1 []). reflexivity. Defined.

Lemma api_openlibrary_blank_witness :
  @api_openlibrary demo_runtime offline (Some "  ") [] = (Ok [], []).
Proof. apply (@api_openlibrary_blank demo_runtime offline (Some "  ")). reflexivity. Defined.

Lemma api_openlibrary_soft_witness :
  @api_openlibrary demo_runtime offline (Some " 1984 ") [] =
    (Ok [], [] ++ [Request (@openlibrary_url demo_runtime (strip " 1984 ")) USER_AGENT 10]).
Proof.
  apply (@api_openlibrary_soft demo_runtime offline " 1984 " [] URLError); reflexivity.
Defined.

Lemma api_openlibrary_is_Ok_witness :
  is_Ok (@api_openlibrary demo_runtime (always (JList [])) (Some "1984") []).1 =
    wf_response (JList []).
Proof.
  apply (@api_openlibrary_is_Ok demo_runtime (always (JList [])) "1984" []); reflexivity.
Defined.

Lemma edition_1984_described : describes edition_1984 doc_1984.
Proof. eexists. split; [done|]. cbn. unfold text_in, strings_in. naive_solver. Qed.

Lemma edition_study_guide_described : describes edition_study_guide doc_1984_study_guide.
Proof. eexists. split; [done|]. cbn. unfold text_in, strings_in. naive_solver. Qed.

Lemma api_openlibrary_lists_witness :
  @api_openlibrary demo_runtime (always body_1984) (Some " 1984 ") [] =
    (Ok (omap listed [edition_study_guide; edition_1984]),
     [] ++ [Request (@openlibrary_url demo_runtime (strip " 1984 ")) USER_AGENT 10]).
Proof.
  apply (@api_openlibrary_lists demo_runtime (always body_1984) " 1984 " [] (items_of body_1984)
           [doc_1984_study_guide; doc_1984]); [reflexivity..|].
  repeat constructor; [apply edition_study_guide_described|apply edition_1984_described].
Defined.

(** The two editions of the examples are listed as the two records. *)
Example listed_1984 :
  omap listed [edition_study_guide; edition_1984] = [hit_study_guide; hit_1984].
Proof. vm_compute. reflexivity. Qed.

Lemma api_openlibrary_result_wf_witness : Forall hit_wf [hit_study_guide; hit_1984].
Proof.
  apply (@api_openlibrary_result_wf demo_runtime (always body_1984) (Some "1984") []).
  reflexivity.
Defined.
