(* ===== verification/Description.v ===== *)
(** * Description: the description shown on a book's page
      ([_ol_description_for])

    A search request, the first candidate of highest score, the key of
    its work, a second request for the work, and the description of the
    work cut to 600 characters.  Both requests are guarded; what is done
    with their responses is not. *)

From Stdlib Require Import ZArith Lia.
From stdpp Require Import base tactics option list strings gmap.
From S2P Require Import Prelude PyStr Json Cover Http Fixtures Matcher.

#[local] Open Scope Z_scope.

(** ** Definitions *)

(** The title part of the score; the query is never empty here and the
    code does not test it. *)
Definition desc_title_points (t_low d_title : string) : Z :=
  if bool_decide (d_title = t_low) then 50
  else if contains t_low d_title then 25
  else 0.

Definition key_points (k : json) : Z := if truth k then 5 else 0.

(** The nested function [score(doc)] of [_ol_description_for]. *)
Definition desc_score (t_low a_low : string) (doc : json) : outcome Z :=
  title ← dict_get "title" doc;
  d_title ← lower <$> text_field title;
  authors ← dict_get "author_name" doc;
  first_author ← first_author_of authors;
  k ← dict_get "key" doc;
  Ok (desc_title_points t_low d_title + author_points a_low first_author
      + key_points k).

(** The key of the work of the winning candidate: the first [work_key],
    else a [key] that starts with [/works/], else the empty string. *)
Definition work_key_of `{PyRuntime} (best : json) : outcome string :=
  work_keys ← dict_get "work_key" best;
  let work_key := first_ident work_keys in
  if negb (truthy work_key) then
    k0 ← dict_get "key" best;
    let k := ident_field k0 in
    Ok (if startswith k "/works/" then k else work_key)
  else Ok work_key.

(** From the decoded search response to the key of the work. *)
Definition select_work `{PyRuntime} (t a : string) (data : json) : outcome string :=
  docs0 ← dict_get "docs" data;
  let docs := py_or docs0 (JList []) in
  if negb (truth docs) then Ok EmptyString else
  items ← py_iter docs;
  best ← py_max_by (desc_score (lower t) (lower a)) items;
  work_key_of best.

Definition ELLIPSIS : string := "…".

(** [desc.strip()], cut at the last space before the 600th character
    when it is longer. *)
Definition tidy (desc : string) : string :=
  let desc := strip desc in
  if (600 <? String.length desc)%nat
  then rstrip (rsplit_head (str_take 600 desc)) +:+ ELLIPSIS
  else desc.

(** From the decoded work to the text. *)
Definition description_of (work : json) : outcome string :=
  desc ← dict_get "description" work;
  desc' ← (if isinstance_dict desc then dict_get "value" desc else Ok desc);
  Ok (match desc' with JStr s => tidy s | _ => EmptyString end).

Definition description_request `{PyRuntime} (t a : string) (timeout : Z) : request :=
  Request (search_url (query_text t a) 5 1) USER_AGENT timeout.

Definition work_request (work_key : string) (timeout : Z) : request :=
  Request ("https://openlibrary.org" +:+ work_key +:+ ".json") USER_AGENT timeout.

(** [_ol_description_for(title, author, timeout)] *)
Definition _ol_description_for `{PyRuntime, Network} (title author : string) (timeout : Z)
  : M (list request) string :=
  let t := strip (str_or title EmptyString) in
  let a := strip (str_or author EmptyString) in
  if negb (truthy t) then mret EmptyString else
  r ← try_urlopen_json (description_request t a timeout);
  match r with
  | None => mret EmptyString
  | Some data =>
      work_key ← lift (select_work t a data);
      if negb (truthy work_key) then mret EmptyString else
      r2 ← try_urlopen_json (work_request work_key timeout);
      match r2 with
      | None => mret EmptyString
      | Some work => lift (description_of work)
      end
  end.

(** The description as a function of the two responses. *)
Definition description_from `{PyRuntime} (t a : string)
    (first : outcome json) (second : string → outcome json) : outcome string :=
  match first with
  | Raise _ => Ok EmptyString
  | Ok data =>
      work_key ← select_work t a data;
      if negb (truthy work_key) then Ok EmptyString else
      match second work_key with
      | Raise _ => Ok EmptyString
      | Ok work => description_of work
      end
  end.

(** The requests the lookup sends, as a function of the first response. *)
Definition description_requests `{PyRuntime} (t a : string) (timeout : Z)
    (first : outcome json) : list request :=
  description_request t a timeout ::
  match first with
  | Ok data =>
      match select_work t a data with
      | Ok (String c k) => [work_request (String c k) timeout]
      | _ => []
      end
  | Raise _ => []
  end.

Definition work_moby : json :=
  JDict [("title", JStr "Moby Dick");
         ("description", JDict [("type", JStr "/type/text");
                                ("value", JStr "  The voyage of the Pequod. ")])].

Definition doc_moby : json :=
  JDict [("title", JStr "Moby Dick"); ("author_name", JList [JStr "Herman Melville"]);
         ("key", JStr "/works/OL102749W")].

(** A network that answers the search with [doc_moby] and the request
    for the work with [work_moby]; another that answers the second
    request with a JSON array. *)
Definition net_moby : Network :=
  script [Ok (JDict [("docs", JList [doc_moby])]); Ok work_moby].

Definition net_moby_list : Network :=
  script [Ok (JDict [("docs", JList [doc_moby])]); Ok (JList [])].

(** A candidate whose work key does not start with a slash, and a
    network that answers the search with it. *)
Definition doc_elsewhere : json :=
  JDict [("title", JStr "Moby Dick"); ("work_key", JList [JStr "@example.org/w"])].

Definition net_elsewhere : Network := always (JDict [("docs", JList [doc_elsewhere])]).

(** ** The score *)

Lemma desc_title_points_range t d : 0 ≤ desc_title_points t d ≤ 50.
Proof. unfold desc_title_points. repeat case_match; lia. Qed.

(** With a query that is not empty the title part is the matcher's. *)
Lemma desc_title_points_matcher t d :
  truthy t = true → desc_title_points t d = title_points t d.
Proof. intros Ht. unfold desc_title_points, title_points. by rewrite Ht. Qed.

Lemma key_points_range k : 0 ≤ key_points k ≤ 5.
Proof. unfold key_points. case_match; lia. Qed.

Lemma desc_score_dict t a kvs :
  let field k := default JNull (assoc k kvs) in
  desc_score t a (JDict kvs) =
    d_title ← lower <$> text_field (field "title");
    first_author ← first_author_of (field "author_name");
    Ok (desc_title_points t d_title + author_points a first_author
        + key_points (field "key")).
Proof. reflexivity. Qed.

Lemma desc_score_is_Ok t a doc : is_Ok (desc_score t a doc) = scorable doc.
Proof.
  destruct doc as [| | | | | |kvs]; try done.
  rewrite desc_score_dict. unfold scorable, text_ok.
  rewrite <- text_field_ok, <- first_author_of_ok.
  destruct (text_field _); simpl; [|done]. by destruct (first_author_of _).
Qed.

Lemma desc_score_range t a doc s : desc_score t a doc = Ok s → 0 ≤ s ≤ 105.
Proof.
  destruct doc as [| | | | | |kvs]; try done. rewrite desc_score_dict. cbv zeta.
  destruct (text_field _) as [dt|]; simpl; [|done].
  destruct (first_author_of _) as [fa|]; simpl; [|done]. intros [= <-].
  pose proof (desc_title_points_range t (lower dt)).
  pose proof (author_points_range a fa).
  pose proof (key_points_range (default JNull (assoc "key" kvs))). lia.
Qed.

(** ** The text *)

Lemma tidy_short s :
  (String.length (strip s) ≤ 600)%nat → tidy s = strip s.
Proof.
  intros Hs. unfold tidy. destruct (Nat.ltb_spec 600 (String.length (strip s))); [lia|done].
Qed.

Lemma tidy_long s :
  (600 < String.length (strip s))%nat →
  tidy s = rstrip (rsplit_head (str_take 600 (strip s))) +:+ ELLIPSIS.
Proof.
  intros Hs. unfold tidy. destruct (Nat.ltb_spec 600 (String.length (strip s))); [done|lia].
Qed.

Lemma cut_length s : (String.length (rstrip (rsplit_head (str_take 600 s))) ≤ 600)%nat.
Proof.
  pose proof (rstrip_length (rsplit_head (str_take 600 s))).
  pose proof (rsplit_head_length (str_take 600 s)).
  pose proof (str_take_length 600 s). lia.
Qed.

Lemma tidy_length_le s : (String.length (tidy s) ≤ 603)%nat.
Proof.
  destruct (Nat.le_gt_cases (String.length (strip s)) 600) as [Hs|Hs].
  - rewrite tidy_short by done. lia.
  - rewrite tidy_long by done. rewrite str_app_length.
    pose proof (cut_length (strip s)). unfold ELLIPSIS. simpl. lia.
Qed.

Lemma description_of_dict kvs :
  description_of (JDict kvs) =
    Ok (match default JNull (assoc "description" kvs) with
        | JStr s => tidy s
        | JDict kvs' => match default JNull (assoc "value" kvs') with
                        | JStr s => tidy s
                        | _ => EmptyString
                        end
        | _ => EmptyString
        end).
Proof.
  unfold description_of. rewrite dict_get_dict. cbn [mbind outcome_bind].
  by destruct (default JNull (assoc "description" kvs)).
Qed.

Lemma description_of_ok_iff work : is_Ok (description_of work) = isinstance_dict work.
Proof. destruct work; try done. by rewrite description_of_dict. Qed.

Lemma description_of_length work s :
  description_of work = Ok s → (String.length s ≤ 603)%nat.
Proof.
  destruct work as [| | | | | |kvs]; try done. rewrite description_of_dict.
  intros [= <-]. repeat case_match; (apply tidy_length_le || (simpl; lia)).
Qed.

(** ** The work *)

Section work.
Context `{PyRuntime}.
Implicit Types (t a k : string) (data best : json).

Lemma work_key_of_dict kvs :
  let field x := default JNull (assoc x kvs) in
  let work_key := first_ident (field "work_key") in
  let k := ident_field (field "key") in
  work_key_of (JDict kvs) =
    Ok (if truthy work_key then work_key
        else if startswith k "/works/" then k else EmptyString).
Proof.
  cbv zeta. unfold work_key_of. rewrite !dict_get_dict.
  cbn [mbind outcome_bind]. by destruct (first_ident _) eqn:E.
Qed.

Lemma work_key_of_is_Ok best : isinstance_dict best = true → is_Ok (work_key_of best) = true.
Proof. destruct best; try done. by rewrite work_key_of_dict. Qed.

Lemma work_key_of_trimmed best k : work_key_of best = Ok k → trimmed k = true.
Proof.
  destruct best as [| | | | | |kvs]; try done. rewrite work_key_of_dict. cbv zeta.
  intros <-%(inj Ok). destruct (truthy (first_ident _)); [apply first_ident_trimmed|].
  destruct (startswith _ _); [apply ident_field_trimmed|done].
Qed.

(** A key that does not come from [work_key] starts with [/works/]. *)
Lemma work_key_of_works kvs k :
  work_key_of (JDict kvs) = Ok k → truthy k = true →
  k = first_ident (default JNull (assoc "work_key" kvs)) ∨
  startswith k "/works/" = true.
Proof.
  rewrite work_key_of_dict. cbv zeta. intros <-%(inj Ok).
  destruct (truthy (first_ident _)) eqn:E1; [auto|].
  destruct (startswith _ _) eqn:E2; [auto|done].
Qed.

Lemma select_work_no_docs t a kvs :
  truth (default JNull (assoc "docs" kvs)) = false →
  select_work t a (JDict kvs) = Ok EmptyString.
Proof.
  intros Hd. unfold select_work. rewrite dict_get_dict.
  cbn [mbind outcome_bind]. by rewrite py_or_false.
Qed.

Lemma select_work_docs t a kvs :
  let docs := default JNull (assoc "docs" kvs) in
  truth docs = true →
  select_work t a (JDict kvs) =
    items ← py_iter docs;
    best ← py_max_by (desc_score (lower t) (lower a)) items;
    work_key_of best.
Proof.
  intros docs Hd. unfold select_work. rewrite dict_get_dict.
  cbn [mbind outcome_bind]. fold docs. by rewrite py_or_truth, Hd.
Qed.

Lemma select_work_ok_iff t a data : is_Ok (select_work t a data) = wf_response data.
Proof.
  destruct data as [| | | | | |kvs]; try done. unfold wf_response.
  destruct (truth (default JNull (assoc "docs" kvs))) eqn:Hd.
  - rewrite select_work_docs by done.
    apply pick_docs_is_Ok; auto using desc_score_is_Ok, work_key_of_is_Ok.
  - by rewrite select_work_no_docs.
Qed.

Lemma select_work_best t a kvs l k :
  default JNull (assoc "docs" kvs) = JList l → l ≠ [] →
  select_work t a (JDict kvs) = Ok k →
  ∃ best, is_first_max (λ d, from_outcome 0 (desc_score (lower t) (lower a) d)) l best ∧
          work_key_of best = Ok k.
Proof.
  intros Hd Hl. rewrite select_work_docs by (rewrite Hd; by destruct l).
  rewrite Hd. simpl. destruct (py_max_by _ l) as [best|] eqn:E; [|done].
  simpl. intros Hk. exists best. split; [|done]. by apply py_max_by_inv in E as [_ ?].
Qed.

Lemma select_work_trimmed t a data k : select_work t a data = Ok k → trimmed k = true.
Proof.
  unfold select_work. destruct (dict_get "docs" data) as [docs0|]; [|done]. simpl.
  destruct (truth _); simpl; [|by intros [= <-]].
  destruct (py_iter _) as [items|]; [|done]. simpl.
  destruct (py_max_by _ items) as [best|]; [|done]. apply work_key_of_trimmed.
Qed.

Lemma description_from_length t a first second s :
  description_from t a first second = Ok s → (String.length s ≤ 603)%nat.
Proof.
  unfold description_from. destruct first as [data|]; [|intros [= <-]; simpl; lia].
  destruct (select_work t a data) as [k|]; [|done]. simpl.
  destruct (truthy k); simpl; [|intros [= <-]; simpl; lia].
  destruct (second k); [apply description_of_length|intros [= <-]; simpl; lia].
Qed.

End work.

(** ** The lookup *)

Section lookup.
Context `{PyRuntime, Network}.
Implicit Types (log : list request).

Lemma description_unfold title author timeout log :
  let t := strip title in
  let a := strip author in
  let first := respond (length log) (description_request t a timeout) in
  _ol_description_for title author timeout log =
    if blank title then (Ok EmptyString, log) else
    (description_from t a first
       (λ k, respond (S (length log)) (work_request k timeout)),
     log ++ description_requests t a timeout first).
Proof.
  intros t a first. unfold _ol_description_for.
  rewrite !str_or_empty_r, truthy_strip. fold t a.
  destruct (blank title); [done|]. cbn [negb].
  unfold mbind at 1, M_bind. rewrite try_urlopen_json_run. fold first.
  unfold description_from, description_requests.
  destruct first as [data|]; [|done]. monad_unfold.
  destruct (select_work t a data) as [[|c k]|]; [done| |done]. cbn [truthy negb].
  rewrite try_urlopen_json_run, length_app, Nat.add_1_r, <- app_assoc. simpl.
  destruct (respond _ _); [|done]. by destruct (description_of _).
Qed.

(** For a blank title the lookup returns the empty string and sends
    no request. *)
Theorem description_blank title author timeout log :
  blank title = true →
  _ol_description_for title author timeout log = (Ok EmptyString, log).
Proof. intros Hb. by rewrite description_unfold, Hb. Qed.

(** C10. For any other title the lookup sends the search request, then the
    request for the work when the search gave a key, and its result is a
    function of the two responses: a failed request gives the empty
    string, a response that cannot be read raises. *)
Theorem description_run title author timeout log :
  blank title = false →
  let t := strip title in
  let a := strip author in
  let first := respond (length log) (description_request t a timeout) in
  _ol_description_for title author timeout log =
    (description_from t a first
       (λ k, respond (S (length log)) (work_request k timeout)),
     log ++ description_requests t a timeout first).
Proof. intros Hb. rewrite description_unfold. by rewrite Hb. Qed.

(** The lookup sends at most two requests. *)
Theorem description_at_most_two_requests title author timeout log :
  (length (_ol_description_for title author timeout log).2 ≤ length log + 2)%nat.
Proof.
  rewrite description_unfold. destruct (blank title); simpl; [lia|].
  rewrite length_app. unfold description_requests. simpl.
  repeat case_match; simpl; lia.
Qed.

(** C31. A description that is returned has at most 600 characters and the
    ellipsis. *)
Theorem description_bounded title author timeout log s :
  (_ol_description_for title author timeout log).1 = Ok s →
  (String.length s ≤ 603)%nat.
Proof.
  rewrite description_unfold. destruct (blank title); simpl.
  - intros [= <-]. simpl. lia.
  - apply description_from_length.
Qed.

(** When the search request fails the result is the empty string and
    no second request is sent. *)
Theorem description_offline title author timeout log e :
  blank title = false →
  respond (length log) (description_request (strip title) (strip author) timeout)
    = Raise e →
  _ol_description_for title author timeout log =
    (Ok EmptyString, log ++ [description_request (strip title) (strip author) timeout]).
Proof.
  intros Hb Hr. rewrite description_unfold, Hb. cbv zeta.
  unfold description_requests. by rewrite Hr.
Qed.

(** When the search gave a key and the second response decodes to
    something that is not an object, the lookup raises AttributeError. *)
Theorem description_work_not_dict title author timeout log data k work :
  blank title = false →
  respond (length log) (description_request (strip title) (strip author) timeout)
    = Ok data →
  select_work (strip title) (strip author) data = Ok k → truthy k = true →
  respond (S (length log)) (work_request k timeout) = Ok work →
  isinstance_dict work = false →
  (_ol_description_for title author timeout log).1 = Raise AttributeError.
Proof.
  intros Hb H1 Hk Ht H2 Hw. rewrite description_unfold, Hb. cbv zeta.
  unfold description_from. rewrite H1, Hk. simpl. rewrite Ht, H2. simpl.
  by destruct work.
Qed.

(** The key of the work is pasted after the host as the response gave
    it: the second request goes to Open Library exactly when the key
    starts with a slash. *)
Theorem work_request_host k timeout :
  to_open_library (work_request k timeout) = startswith k "/".
Proof. destruct k as [|c k]; vm_compute; reflexivity. Qed.

Lemma description_polite title author timeout :
  10 ≤ timeout ≤ 20 → keeps (sent polite) (_ol_description_for title author timeout).
Proof. intros Ht. unfold _ol_description_for. solve_keeps. Qed.

End lookup.

#[export] Hint Resolve description_polite : keeps.

(** The score of a candidate is between 0 and 105. *)
Theorem desc_score_bounds t a doc s : desc_score t a doc = Ok s → 0 ≤ s ≤ 105.
Proof. apply desc_score_range. Qed.

(** The text shown is the stripped description when that has at most
    600 characters; otherwise it is at most 600 characters of it and the
    ellipsis. *)
Theorem tidy_length s :
  (String.length (tidy s) ≤ 603)%nat ∧
  ((String.length (strip s) ≤ 600)%nat → tidy s = strip s).
Proof. split; [apply tidy_length_le|apply tidy_short]. Qed.

(** The key of the work is read exactly from the well-formed
    responses; on every other response select_work raises. *)
Theorem select_work_is_Ok `{PyRuntime} t a data :
  is_Ok (select_work t a data) = wf_response data.
Proof. apply select_work_ok_iff. Qed.

(** The work of a description is the work of the first candidate of
    highest score. *)
Theorem select_work_first_max `{PyRuntime} t a kvs l k :
  default JNull (assoc "docs" kvs) = JList l → l ≠ [] →
  select_work t a (JDict kvs) = Ok k →
  ∃ best, is_first_max (λ d, from_outcome 0 (desc_score (lower t) (lower a) d)) l best ∧
          work_key_of best = Ok k.
Proof. apply select_work_best. Qed.

(** ** Witnesses *)

(** A work key without its slash sends the second request to the host
    the key names. *)
Example description_other_host :
  let log := (@_ol_description_for demo_runtime net_elsewhere "Moby Dick" "" 10 []).2 in
  req_url <$> log =
    ["https://openlibrary.org/search.json?q=Moby%20Dick&limit=5&page=1";
     "https://openlibrary.org@example.org/w.json"] ∧
  to_open_library <$> log = [true; false].
Proof. vm_compute. done. Qed.

Lemma description_blank_witness :
  @_ol_description_for demo_runtime offline "  " "Herman Melville" 10 [] = (Ok EmptyString, []).
Proof. apply (@description_blank demo_runtime offline). reflexivity. Defined.

Lemma description_run_witness :
  @_ol_description_for demo_runtime net_moby "Moby Dick" "" 10 [] =
    (Ok "The voyage of the Pequod.",
     [@description_request demo_runtime "Moby Dick" "" 10;
      work_request "/works/OL102749W" 10]).
Proof.
  apply (@description_run demo_runtime net_moby "Moby Dick" "" 10 []). reflexivity.
Defined.

Lemma description_bounded_witness : (String.length "The voyage of the Pequod." ≤ 603)%nat.
Proof.
  apply (@description_bounded demo_runtime net_moby "Moby Dick" "" 10 []). reflexivity.
Defined.

Lemma description_offline_witness :
  @_ol_description_for demo_runtime offline "Moby Dick" "" 10 [] =
    (Ok EmptyString, [] ++ [@description_request demo_runtime (strip "Moby Dick") (strip "") 10]).
Proof.
  apply (@description_offline demo_runtime offline "Moby Dick" "" 10 [] URLError);
    reflexivity.
Defined.

Lemma description_work_not_dict_witness :
  (@_ol_description_for demo_runtime net_moby_list "Moby Dick" "" 10 []).1 =
    Raise AttributeError.
Proof.
  apply (@description_work_not_dict demo_runtime net_moby_list "Moby Dick" "" 10 []
           (JDict [("docs", JList [doc_moby])]) "/works/OL102749W" (JList []));
    reflexivity.
Defined.

Lemma desc_score_bounds_witness : 0 ≤ 55 ≤ 105.
Proof. apply (desc_score_bounds "moby dick" "" doc_moby 55). reflexivity. Defined.

Lemma select_work_first_max_witness :
  ∃ best, is_first_max (λ d, from_outcome 0 (desc_score (lower "Moby Dick") (lower "") d))
            [doc_moby] best ∧
          @work_key_of demo_runtime best = Ok "/works/OL102749W".
Proof.
  apply (@select_work_first_max demo_runtime "Moby Dick" "" [("docs", JList [doc_moby])]);
    (reflexivity || discriminate).
Defined.
