(* ===== verification/TimeAgo.v ===== *)
(** * TimeAgo: the age shown beside a review ([_time_ago])

    The function divides the elapsed seconds down a chain of units and
    stops at the first unit whose count is small enough.  It is proved
    equal to a table of thresholds in seconds, which makes the range of
    every unit, and the one window where the count is zero, explicit.

    Instants are integers in microseconds, the resolution of [datetime];
    [None] is a missing timestamp. *)

From Stdlib Require Import ZArith Lia.
From stdpp Require Import base tactics option strings.
From S2P Require Import Prelude PyStr.

#[local] Open Scope Z_scope.

(** ** Definitions *)

(** [int((now - dt).total_seconds())]: [int] truncates towards zero. *)
Definition elapsed_seconds (now dt : Z) : Z := Z.quot (now - dt) 1000000.

(** [_time_ago(dt)], [now] being the value of [datetime.utcnow()]. *)
Definition _time_ago (now : Z) (dt : option Z) : string :=
  match dt with
  | None => EmptyString
  | Some dt =>
      let seconds := elapsed_seconds now dt in
      if seconds <? 60 then "just now" else
      let minutes := seconds / 60 in
      if minutes <? 60 then str_of_int minutes +:+ "m ago" else
      let hours := minutes / 60 in
      if hours <? 24 then str_of_int hours +:+ "h ago" else
      let days := hours / 24 in
      if days <? 7 then str_of_int days +:+ "d ago" else
      let weeks := days / 7 in
      if weeks <? 5 then str_of_int weeks +:+ "w ago" else
      let months := days / 30 in
      if months <? 12 then str_of_int months +:+ "mo ago" else
      let years := days / 365 in
      str_of_int years +:+ "y ago"
  end.

(** The reference: an age is a unit and a count. *)
Inductive unit_of_time : Type := Minute | Hour | Day | Week | Month | Year.

#[export] Instance unit_of_time_eq_dec : EqDecision unit_of_time.
Proof. solve_decision. Defined.

Inductive age : Type :=
  | JustNow
  | Ago (n : Z) (u : unit_of_time).

#[export] Instance age_eq_dec : EqDecision age.
Proof. solve_decision. Defined.

Definition DAY : Z := 86400.

(** The age of a number of elapsed seconds, by thresholds. *)
Definition age_of (seconds : Z) : age :=
  if seconds <? 60 then JustNow
  else if seconds <? 3600 then Ago (seconds / 60) Minute
  else if seconds <? DAY then Ago (seconds / 3600) Hour
  else if seconds <? 7 * DAY then Ago (seconds / DAY) Day
  else if seconds <? 35 * DAY then Ago (seconds / (7 * DAY)) Week
  else if seconds <? 360 * DAY then Ago (seconds / (30 * DAY)) Month
  else Ago (seconds / (365 * DAY)) Year.

(** The length of a unit in seconds. *)
Definition unit_seconds (u : unit_of_time) : Z :=
  match u with
  | Minute => 60 | Hour => 3600 | Day => DAY
  | Week => 7 * DAY | Month => 30 * DAY | Year => 365 * DAY
  end.

Definition suffix (u : unit_of_time) : string :=
  match u with
  | Minute => "m ago" | Hour => "h ago" | Day => "d ago"
  | Week => "w ago" | Month => "mo ago" | Year => "y ago"
  end.

Definition render (a : age) : string :=
  match a with
  | JustNow => "just now"
  | Ago n u => str_of_int n +:+ suffix u
  end.

(** The counts a unit is shown with. *)
Definition count_ok (a : age) : Prop :=
  match a with
  | JustNow => True
  | Ago n Minute => 1 ≤ n < 60
  | Ago n Hour => 1 ≤ n < 24
  | Ago n Day => 1 ≤ n < 7
  | Ago n Week => 1 ≤ n < 5
  | Ago n Month => 1 ≤ n < 12
  | Ago n Year => 0 ≤ n
  end.

(** ** Lemmas *)

(** Division by constants is linear arithmetic once quotient and
    remainder are named. *)
Ltac div_lia := Z.to_euclidean_division_equations; lia.

(** One goal per row of the table, the bounds of the row as hypotheses. *)
Ltac age_cases :=
  unfold age_of, DAY in *;
  repeat (let E := fresh "E" in
          case_match eqn:E;
          [apply Z.ltb_lt in E; revert E|apply Z.ltb_ge in E; revert E]);
  intros; simpl.

Lemma div_chain s a b : 0 < a → 0 < b → s / a / b = s / (a * b).
Proof. intros. apply Z.div_div; lia. Qed.

Lemma ltb_div s a k : 0 < a → (s / a <? k) = (s <? k * a).
Proof.
  intros Ha. destruct (Z.ltb_spec (s / a) k), (Z.ltb_spec s (k * a)); try done.
  - pose proof (Z.div_le_lower_bound s a k Ha ltac:(lia)). lia.
  - pose proof (Z.div_lt_upper_bound s a k Ha ltac:(lia)). lia.
Qed.

(** The chain of divisions computes the table. *)
Lemma time_ago_age now dt :
  _time_ago now (Some dt) = render (age_of (elapsed_seconds now dt)).
Proof.
  unfold _time_ago, age_of, DAY. generalize (elapsed_seconds now dt) as s. intros s.
  rewrite !div_chain, !ltb_div by lia. cbv [Z.mul Pos.mul Pos.add Pos.succ].
  repeat (case_match; [done|]). done.
Qed.

(** C9. _time_ago is the rendering of a table of thresholds: under a
    minute just now, then minutes up to an hour, hours up to a day, days
    up to a week, weeks up to 35 days, months of 30 days up to 360 days,
    and years of 365 days beyond. *)
Theorem time_ago_refines now dt :
  _time_ago now dt = from_option (λ d, render (age_of (elapsed_seconds now d))) EmptyString dt.
Proof. destruct dt; [apply time_ago_age|done]. Qed.

(** A missing timestamp is shown as the empty string. *)
Theorem time_ago_none now : _time_ago now None = EmptyString.
Proof. done. Qed.

(** A timestamp less than a minute old, or in the future, is shown as
    just now. *)
Theorem time_ago_just_now now dt :
  now - dt < 60000000 → _time_ago now (Some dt) = "just now".
Proof.
  intros Hlt. rewrite time_ago_age. unfold age_of, elapsed_seconds.
  case_match eqn:E; [done|]. apply Z.ltb_ge in E. exfalso. div_lia.
Qed.

(** Every unit is shown with a count in its range: minutes 1 to 59,
    hours 1 to 23, days 1 to 6, weeks 1 to 4, months 1 to 11. *)
Theorem age_of_count_ok s : count_ok (age_of s).
Proof.
  age_cases; try done; div_lia.
Qed.

(** An age of 360 to 364 days is past the last month and short of the
    first year: it is shown as 0y ago. *)
Theorem time_ago_zero_years now dt :
  360 * DAY ≤ elapsed_seconds now dt < 365 * DAY →
  _time_ago now (Some dt) = "0y ago".
Proof.
  intros [Hlo Hhi]. rewrite time_ago_age. age_cases; try lia.
  assert (elapsed_seconds now dt / (365 * 86400) = 0) as -> by (apply Z.div_small; lia).
  done.
Qed.

(** From 365 days on the count of years is at least one. *)
Theorem age_of_years s :
  365 * DAY ≤ s → ∃ n, age_of s = Ago n Year ∧ 1 ≤ n ∧ n * (365 * DAY) ≤ s.
Proof.
  intros Hs. age_cases; try lia. eexists; split; [done|]. div_lia.
Qed.

(** The age never overstates: the count times the unit is at most the
    elapsed time. *)
Lemma age_of_floor s n u :
  age_of s = Ago n u → n = s / unit_seconds u ∧ n * unit_seconds u ≤ s.
Proof.
  intros Ha. age_cases; simplify_eq; simpl; try unfold DAY;
    (split; [done|rewrite Z.mul_comm; apply Z.mul_div_le; lia]).
Qed.

(** ** Witnesses *)

Lemma time_ago_just_now_witness : _time_ago 1000000000 (Some 999999000) = "just now".
Proof. apply time_ago_just_now. lia. Defined.

Lemma time_ago_zero_years_witness :
  _time_ago (362 * 86400 * 1000000) (Some 0) = "0y ago".
Proof. apply time_ago_zero_years. vm_compute. by split. Defined.

Lemma age_of_years_witness :
  ∃ n, age_of (800 * DAY) = Ago n Year ∧ 1 ≤ n ∧ n * (365 * DAY) ≤ 800 * DAY.
Proof. apply age_of_years. vm_compute. discriminate. Defined.

Example time_ago_examples :
  _time_ago (3 * 3600 * 1000000) (Some 0) = "3h ago" ∧
  _time_ago (20 * 86400 * 1000000) (Some 0) = "2w ago" ∧
  _time_ago (100 * 86400 * 1000000) (Some 0) = "3mo ago" ∧
  _time_ago (800 * 86400 * 1000000) (Some 0) = "2y ago".
Proof. by vm_compute. Qed.
