(* ===== verification/Social.v ===== *)
(** * Social: the lists of people followed and of followers
      ([FOLLOWING], [FOLLOWERS], their pages and their two endpoints)

    The two lists live in the module, one for the whole process.  The
    endpoints are the only code that changes them; together they make a
    transition system whose reachable states are characterised at the
    end of the file. *)

From Stdlib Require Import ZArith Lia Ascii.
From stdpp Require Import base tactics option list relations strings.
From S2P Require Import Prelude PyStr Json Flask Matcher.

(** ** Definitions *)

(** An entry of either list: a dict with the keys [name] and [handle]. *)
Record person : Type := Person {
  person_name : string;
  person_handle : string;
}.

#[export] Instance person_eq_dec : EqDecision person.
Proof. solve_decision. Defined.

Definition FOLLOWING : list person := [
  Person "John Smith" "@johnsmith34";
  Person "Emma Davis" "@emmadavis";
  Person "Sophia Nguyen" "@sophiareads";
  Person "Oliver Brown" "@olibrown";
  Person "Lucas Garcia" "@l_garcia55";
  Person "Lily Gordon" "@lilygordon01"
].

Definition FOLLOWERS : list person := [
  Person "Ava Patel" "@avap_";
  Person "Ben Carter" "@bencarter";
  Person "Chen Wei" "@chenreads";
  Person "Diana Lopez" "@dianalpz";
  Person "Ethan Murphy" "@ethanm";
  Person "Fatima Khan" "@fatimakhan"
].

(** The two module-level lists as they are at some moment. *)
Record social : Type := Social {
  following_list : list person;
  followers_list : list person;
}.

(** The state when the module has been loaded. *)
Definition initial : social := Social FOLLOWING FOLLOWERS.

Definition ok_state (state : string) : response :=
  (JDict [("ok", JBool true); ("state", JStr state)], 200%Z).

(** [data = request.get_json(force=True) or {}] and
    [(data.get("handle") or "").strip()], [body] being what [get_json]
    returned: the call itself, which raises on a body that is not JSON,
    is [Flask.get_json] in [App.handle]. *)
Definition handle_of_body (body : json) : outcome string :=
  let data := py_or body (JDict []) in
  h ← dict_get "handle" data;
  text_field h.

(** [next((i for i, p in enumerate(l) if p["handle"] == handle), None)] *)
Definition index_of (handle : string) (l : list person) : option nat :=
  fst <$> list_find (λ p, person_handle p = handle) l.

(** [handle.lstrip("@").replace("_", " ").title() or "User"] *)
Definition name_guess (handle : string) : string :=
  str_or (title (replace_char "_"%char " "%char (lstrip_char "@"%char handle))) "User".

(** The handler of [POST /api/following/toggle]. *)
Definition api_following_toggle (body : json) : M social response :=
  handle ← lift (handle_of_body body);
  if negb (truthy handle) then mret (error_response "missing handle" 400) else
  s ← get;
  match index_of handle (following_list s) with
  | Some idx =>
      put (Social (delete idx (following_list s)) (followers_list s)) ;;
      mret (ok_state "unfollowed")
  | None =>
      put (Social (following_list s ++ [Person (name_guess handle) handle])
                  (followers_list s)) ;;
      mret (ok_state "followed")
  end.

(** The handler of [POST /api/followers/remove]. *)
Definition api_followers_remove (body : json) : M social response :=
  handle ← lift (handle_of_body body);
  if negb (truthy handle) then mret (error_response "missing handle" 400) else
  s ← get;
  match index_of handle (followers_list s) with
  | None => mret (error_response "not found" 404)
  | Some idx =>
      put (Social (following_list s) (delete idx (followers_list s))) ;;
      mret ok_response
  end.

(** [q in p["name"].lower() or q in p["handle"].lower()] *)
Definition person_matches (q : string) (p : person) : bool :=
  contains q (lower (person_name p)) || contains q (lower (person_handle p)).

(** The people a page shows: the list, filtered when there is a query. *)
Definition people_shown (q_arg : option string) (people : list person) : list person :=
  let q := lower (arg_text q_arg) in
  if truthy q then filter (λ p, person_matches q p = true) people else people.

(** The handler of [GET /following]. *)
Definition following (q_arg : option string) : M social (list person) :=
  people ← gets following_list;
  mret (people_shown q_arg people).

(** The handler of [GET /followers]. *)
Definition followers (q_arg : option string) : M social (list person) :=
  people ← gets followers_list;
  mret (people_shown q_arg people).

(** One request to either endpoint, with any body. *)
Inductive step : relation social :=
  | step_toggle body s : step s (api_following_toggle body s).2
  | step_remove body s : step s (api_followers_remove body s).2.

(** The states the process can be in. *)
Definition reachable (s : social) : Prop := rtc step initial s.

Definition handles (l : list person) : list string := person_handle <$> l.

(** What holds of every reachable state: handles are distinct in both
    lists, nobody is followed under an empty or untrimmed handle, and
    the followers are some of the initial followers, in their order. *)
Record social_wf (s : social) : Prop := {
  wf_following : NoDup (handles (following_list s));
  wf_handles : Forall (λ h, truthy h = true ∧ trimmed h = true) (handles (following_list s));
  wf_followers : followers_list s `sublist_of` FOLLOWERS;
}.

(** The bodies a handler reads without raising. *)
Definition body_ok (body : json) : bool :=
  if truth body then
    match body with
    | JDict kvs =>
        let h := default JNull (assoc "handle" kvs) in
        isinstance_str h || negb (truth h)
    | _ => false
    end
  else true.

(** The body [{"handle": h}]. *)
Definition body_of (h : string) : json := JDict [("handle", JStr h)].

(** ** The request body *)

Lemma handle_of_body_of h : handle_of_body (body_of h) = Ok (strip h).
Proof. unfold handle_of_body, body_of, py_or. simpl. apply text_field_str. Qed.

Lemma handle_of_body_ok_iff body : is_Ok (handle_of_body body) = body_ok body.
Proof.
  unfold handle_of_body, body_ok, py_or. destruct (truth body) eqn:Hb; [|done].
  destruct body; try done. simpl. apply text_field_ok.
Qed.

Lemma handle_of_body_trimmed body h : handle_of_body body = Ok h → trimmed h = true.
Proof.
  unfold handle_of_body. destruct (dict_get _ _) as [x|]; [|done]. apply text_field_trimmed.
Qed.

Lemma handle_of_body_raises body e : handle_of_body body = Raise e → e = AttributeError.
Proof.
  unfold handle_of_body, py_or. destruct (truth body); [|done].
  destruct body; simpl; try by intros [= <-]. apply text_field_raises.
Qed.

(** ** Looking a handle up *)

Lemma index_of_None h l : index_of h l = None ↔ h ∉ handles l.
Proof.
  unfold index_of, handles. rewrite fmap_None, list_find_None, list_elem_of_fmap.
  rewrite list.Forall_forall. naive_solver.
Qed.

Lemma index_of_Some h l i :
  index_of h l = Some i →
  handles l !! i = Some h ∧ ∀ j, j < i → handles l !! j ≠ Some h.
Proof.
  unfold index_of, handles. intros ([i' p] & (Hi & Hp & Hlt)%list_find_Some & ->)%fmap_Some.
  simpl. rewrite list_lookup_fmap, Hi. split; [by rewrite <- Hp|].
  intros j Hj. rewrite list_lookup_fmap. destruct (l !! j) as [q|] eqn:Hq; [|done].
  simpl. intros [= Hh]. by eapply Hlt.
Qed.

Lemma index_of_elem h l i : index_of h l = Some i → h ∈ handles l.
Proof. intros [Hi _]%index_of_Some. by eapply list_elem_of_lookup_2. Qed.

Lemma index_of_is_Some h l : h ∈ handles l → is_Some (index_of h l).
Proof.
  intros Hh. destruct (index_of h l) eqn:E; [done|]. by apply index_of_None in E.
Qed.

Lemma index_of_snoc h n l :
  h ∉ handles l → index_of h (l ++ [Person n h]) = Some (length l).
Proof.
  intros Hh%index_of_None. unfold index_of in *. apply fmap_None in Hh.
  rewrite list_find_app_r by done. simpl. by rewrite decide_True by done.
Qed.

Lemma handles_delete i l : handles (delete i l) = delete i (handles l).
Proof. apply list_fmap_delete. Qed.

Lemma handles_snoc l p : handles (l ++ [p]) = handles l ++ [person_handle p].
Proof. unfold handles. by rewrite fmap_app. Qed.

(** After [pop] the handle is gone, when handles are distinct. *)
Lemma index_of_delete h l i :
  NoDup (handles l) → index_of h l = Some i → h ∉ handles (delete i l).
Proof.
  intros Hnd [Hi _]%index_of_Some. rewrite handles_delete.
  by apply NoDup_delete_lookup.
Qed.

(** ** The guessed name *)

Lemma name_guess_truthy h : truthy (name_guess h) = true.
Proof. by apply truthy_str_or. Qed.

(** ** The endpoints *)

Lemma following_toggle_run body s :
  api_following_toggle body s =
    match handle_of_body body with
    | Raise e => (Raise e, s)
    | Ok handle =>
        if truthy handle then
          match index_of handle (following_list s) with
          | Some idx =>
              (Ok (ok_state "unfollowed"),
               Social (delete idx (following_list s)) (followers_list s))
          | None =>
              (Ok (ok_state "followed"),
               Social (following_list s ++ [Person (name_guess handle) handle])
                      (followers_list s))
          end
        else (Ok (error_response "missing handle" 400), s)
    end.
Proof.
  unfold api_following_toggle. monad_unfold.
  destruct (handle_of_body body) as [h|]; [|done].
  destruct (truthy h); [|done]. simpl. by destruct (index_of _ _).
Qed.

Lemma followers_remove_run body s :
  api_followers_remove body s =
    match handle_of_body body with
    | Raise e => (Raise e, s)
    | Ok handle =>
        if truthy handle then
          match index_of handle (followers_list s) with
          | Some idx =>
              (Ok ok_response, Social (following_list s) (delete idx (followers_list s)))
          | None => (Ok (error_response "not found" 404), s)
          end
        else (Ok (error_response "missing handle" 400), s)
    end.
Proof.
  unfold api_followers_remove. monad_unfold.
  destruct (handle_of_body body) as [h|]; [|done].
  destruct (truthy h); [|done]. simpl. by destruct (index_of _ _).
Qed.

(** POST /api/following/toggle: a handle that is empty after
    stripping is refused with status 400; a handle in the list is
    removed at its first position; any other handle is appended with a
    guessed name.  Nothing else changes. *)
Theorem following_toggle_spec body handle s :
  handle_of_body body = Ok handle →
  api_following_toggle body s =
    if truthy handle then
      match index_of handle (following_list s) with
      | Some idx =>
          (Ok (ok_state "unfollowed"),
           Social (delete idx (following_list s)) (followers_list s))
      | None =>
          (Ok (ok_state "followed"),
           Social (following_list s ++ [Person (name_guess handle) handle])
                  (followers_list s))
      end
    else (Ok (error_response "missing handle" 400), s).
Proof. intros Hb. by rewrite following_toggle_run, Hb. Qed.

(** POST /api/followers/remove: 400 without a handle, 404 for a
    handle that is not a follower, and otherwise the follower is removed
    and nothing else changes. *)
Theorem followers_remove_spec body handle s :
  handle_of_body body = Ok handle →
  api_followers_remove body s =
    if truthy handle then
      match index_of handle (followers_list s) with
      | Some idx =>
          (Ok ok_response, Social (following_list s) (delete idx (followers_list s)))
      | None => (Ok (error_response "not found" 404), s)
      end
    else (Ok (error_response "missing handle" 400), s).
Proof. intros Hb. by rewrite followers_remove_run, Hb. Qed.

(** Both endpoints raise exactly on a body that is true and not an
    object, or whose handle is true and not a string; the state is then
    unchanged. *)
Theorem endpoints_raise_iff body s :
  is_Ok (api_following_toggle body s).1 = body_ok body ∧
  is_Ok (api_followers_remove body s).1 = body_ok body ∧
  (body_ok body = false →
   api_following_toggle body s = (Raise AttributeError, s) ∧
   api_followers_remove body s = (Raise AttributeError, s)).
Proof.
  rewrite following_toggle_run, followers_remove_run, <- handle_of_body_ok_iff.
  destruct (handle_of_body body) as [h|e] eqn:E; simpl.
  - split_and!; [..|done]; (destruct (truthy h); [|done]); by destruct (index_of _ _).
  - apply handle_of_body_raises in E as ->. done.
Qed.

(** With distinct handles, the answer of the toggle tells whether the
    handle is followed afterwards: followed means it was not and now
    is, unfollowed means it was and no longer is. *)
Theorem following_toggle_membership body handle s :
  handle_of_body body = Ok handle → truthy handle = true →
  NoDup (handles (following_list s)) →
  let r := api_following_toggle body s in
  (r.1 = Ok (ok_state "followed") ∧ (handle ∉ handles (following_list s)) ∧
   handle ∈ handles (following_list r.2)) ∨
  (r.1 = Ok (ok_state "unfollowed") ∧ handle ∈ handles (following_list s) ∧
   (handle ∉ handles (following_list r.2))).
Proof.
  intros Hb Ht Hnd. rewrite following_toggle_run, Hb, Ht.
  destruct (index_of handle (following_list s)) as [i|] eqn:E; simpl.
  - right. eauto using index_of_elem, index_of_delete.
  - left. apply index_of_None in E. split_and!; [done..|].
    rewrite handles_snoc. set_solver.
Qed.

(** Following a handle that is not followed and toggling again gives
    back the list as it was. *)
Theorem following_toggle_twice_absent body handle s :
  handle_of_body body = Ok handle → truthy handle = true →
  handle ∉ handles (following_list s) →
  (api_following_toggle body (api_following_toggle body s).2).2 = s.
Proof.
  intros Hb Ht Hh. rewrite !following_toggle_run, Hb, Ht.
  rewrite (proj2 (index_of_None _ _) Hh). simpl.
  rewrite index_of_snoc by done. simpl. rewrite delete_snoc. by destruct s.
Qed.

(** Unfollowing a person and following again does not give the list
    back: the person moves to the end and the name is replaced by the
    name guessed from the handle. *)
Theorem following_toggle_twice_present body handle s idx :
  handle_of_body body = Ok handle → truthy handle = true →
  NoDup (handles (following_list s)) →
  index_of handle (following_list s) = Some idx →
  following_list (api_following_toggle body (api_following_toggle body s).2).2 =
    delete idx (following_list s) ++ [Person (name_guess handle) handle].
Proof.
  intros Hb Ht Hnd Hi. rewrite !following_toggle_run, Hb, Ht, Hi. simpl.
  pose proof (index_of_delete _ _ _ Hnd Hi) as Hd. apply index_of_None in Hd.
  by rewrite Hd.
Qed.

(** ** The transition system *)

Lemma social_wf_initial : social_wf initial.
Proof.
  split; simpl; [|by repeat constructor|done].
  by apply (bool_decide_unpack (NoDup (handles FOLLOWING))).
Qed.

Lemma toggle_wf body s : social_wf s → social_wf (api_following_toggle body s).2.
Proof.
  intros [Hnd Hh Hf]. rewrite following_toggle_run.
  destruct (handle_of_body body) as [h|e] eqn:Hb; [|done].
  destruct (truthy h) eqn:Ht; [|done].
  destruct (index_of h (following_list s)) as [i|] eqn:E; split; simpl; try done.
  - rewrite handles_delete. eapply sublist_NoDup; [done|apply sublist_delete].
  - rewrite handles_delete. eapply Forall_sublist; [apply sublist_delete|done].
  - rewrite handles_snoc. apply NoDup_app. split_and!; [done| |apply NoDup_singleton].
    apply index_of_None in E. set_solver.
  - rewrite handles_snoc. apply Forall_app. split; [done|].
    repeat constructor; eauto using handle_of_body_trimmed.
Qed.

Lemma remove_wf body s : social_wf s → social_wf (api_followers_remove body s).2.
Proof.
  intros [Hnd Hh Hf]. rewrite followers_remove_run.
  destruct (handle_of_body body) as [h|e]; [|done]. destruct (truthy h); [|done].
  destruct (index_of h (followers_list s)) as [i|]; split; simpl; try done.
  etrans; [apply sublist_delete|done].
Qed.

Lemma step_wf s s' : step s s' → social_wf s → social_wf s'.
Proof. destruct 1; auto using toggle_wf, remove_wf. Qed.

Lemma reachable_social_wf s : reachable s → social_wf s.
Proof.
  unfold reachable. revert s. apply rtc_ind_r; eauto using social_wf_initial, step_wf.
Qed.

(** C17. In every state the process can reach, the handles followed are
    distinct, non-empty and trimmed, and the followers are some of the
    six initial followers, in their initial order: followers are only
    ever removed. *)
Theorem reachable_invariant s :
  reachable s →
  NoDup (handles (following_list s)) ∧
  Forall (λ h, truthy h = true ∧ trimmed h = true) (handles (following_list s)) ∧
  followers_list s `sublist_of` FOLLOWERS ∧ length (followers_list s) ≤ 6.
Proof.
  intros [Hnd Hh Hf]%reachable_social_wf. split_and!; try done.
  by apply sublist_length in Hf.
Qed.

(** The people the toggle makes of a list of handles. *)
Lemma toggle_first p l fs :
  truthy (person_handle p) = true → trimmed (person_handle p) = true →
  step (Social (p :: l) fs) (Social l fs).
Proof.
  intros Ht Hs.
  pose proof (step_toggle (body_of (person_handle p)) (Social (p :: l) fs)) as Hstep.
  rewrite following_toggle_run, handle_of_body_of, strip_id, Ht in Hstep by done.
  unfold index_of in Hstep. simpl in Hstep. by rewrite decide_True in Hstep by done.
Qed.

Lemma clear_following l fs :
  Forall (λ h, truthy h = true ∧ trimmed h = true) (handles l) →
  rtc step (Social l fs) (Social [] fs).
Proof.
  induction l as [|p l IH]; [done|]. intros [[Ht Hs] Hl]%Forall_cons.
  eapply rtc_l; [by apply toggle_first|by apply IH].
Qed.

Lemma toggle_new h l fs :
  truthy h = true → trimmed h = true → h ∉ handles l →
  step (Social l fs) (Social (l ++ [Person (name_guess h) h]) fs).
Proof.
  intros Ht Hs Hh. pose proof (step_toggle (body_of h) (Social l fs)) as Hstep.
  rewrite following_toggle_run, handle_of_body_of, strip_id, Ht in Hstep by done.
  simpl in Hstep. by rewrite (proj2 (index_of_None _ _) Hh) in Hstep.
Qed.

Lemma build_following hs l fs :
  NoDup (handles l ++ hs) → Forall (λ h, truthy h = true ∧ trimmed h = true) hs →
  rtc step (Social l fs) (Social (l ++ ((λ h, Person (name_guess h) h) <$> hs)) fs).
Proof.
  revert l. induction hs as [|h hs IH]; intros l Hnd Hhs.
  { simpl. by rewrite app_nil_r. }
  apply Forall_cons in Hhs as [[Ht Hs] Hhs].
  eapply rtc_l; [apply (toggle_new h); [done..|]|].
  - apply NoDup_app in Hnd as (_ & Hd & _). intros Hin. apply (Hd h Hin). by left.
  - rewrite fmap_cons, (cons_middle _ l (_ <$> hs)), app_assoc.
    apply IH; [|done]. by rewrite handles_snoc, <- app_assoc.
Qed.

Lemma reachable_handles hs :
  NoDup hs → Forall (λ h, truthy h = true ∧ trimmed h = true) hs →
  reachable (Social ((λ h, Person (name_guess h) h) <$> hs) FOLLOWERS).
Proof.
  intros Hnd Hhs. unfold reachable, initial. etrans.
  - apply clear_following. by destruct social_wf_initial.
  - by apply (build_following hs []).
Qed.

(** Every list of distinct, non-empty, trimmed handles can be reached
    as the list of handles followed, each under its guessed name: the
    toggle can empty the list and build any other. *)
Theorem reachable_following hs :
  NoDup hs → Forall (λ h, truthy h = true ∧ trimmed h = true) hs →
  ∃ s, reachable s ∧ handles (following_list s) = hs ∧
       person_name <$> following_list s = name_guess <$> hs.
Proof.
  intros Hnd Hhs. eexists. split; [by apply reachable_handles|]. simpl.
  unfold handles. rewrite <- !list_fmap_compose. split; [|done].
  by rewrite list_fmap_id.
Qed.

(** ** The pages *)

Lemma people_shown_sublist q_arg people : people_shown q_arg people `sublist_of` people.
Proof. unfold people_shown. destruct (truthy _); [apply sublist_filter|done]. Qed.

(** The pages /following and /followers show the list, or the people
    of the list whose name or handle contains the query in lower case,
    in the order of the list, and change nothing. *)
Theorem following_page q_arg s :
  let q := lower (arg_text q_arg) in
  ∃ shown, following q_arg s = (Ok shown, s) ∧
    shown `sublist_of` following_list s ∧
    ∀ p, p ∈ shown ↔ p ∈ following_list s ∧ (truthy q = true → person_matches q p = true).
Proof.
  intros q. eexists. split; [done|]. split; [apply people_shown_sublist|].
  intros p. unfold people_shown. fold q. destruct (truthy q).
  - rewrite list_elem_of_filter. naive_solver.
  - naive_solver.
Qed.

(** Whenever one of the two endpoints answers, the answer has the
    fields the scripts of the pages read: [state] for the toggle, [ok]
    alone for the removal; status 200 goes with [ok] true, status 400 or
    404 with [ok] false and a message. *)
Theorem social_answers_typed body s r :
  ((api_following_toggle body s).1 = Ok r → well_typed [("state", TStr)] r) ∧
  ((api_followers_remove body s).1 = Ok r → well_typed [] r).
Proof.
  rewrite following_toggle_run, followers_remove_run.
  destruct (handle_of_body body) as [h|]; [|done].
  destruct (truthy h); [|split; intros [= <-]; by apply error_response_typed].
  split; destruct (index_of _ _); intros [= <-]; try by left.
  by apply error_response_typed.
Qed.

(** ** Witnesses *)

Lemma social_answers_typed_witness :
  ((api_following_toggle (body_of "@zed") initial).1 = Ok (ok_state "followed") →
   well_typed [("state", TStr)] (ok_state "followed")) ∧
  ((api_followers_remove (body_of "@zed") initial).1 = Ok (ok_state "followed") →
   well_typed [] (ok_state "followed")).
Proof. exact (social_answers_typed (body_of "@zed") initial (ok_state "followed")). Defined.

Lemma following_toggle_spec_witness :
  api_following_toggle (body_of " @emmadavis ") initial =
    (Ok (ok_state "unfollowed"), Social (delete 1 FOLLOWING) FOLLOWERS).
Proof. apply (following_toggle_spec (body_of " @emmadavis ") "@emmadavis"). reflexivity. Defined.

Lemma followers_remove_spec_witness :
  api_followers_remove (body_of "@nobody") initial =
    (Ok (error_response "not found" 404), initial).
Proof. apply (followers_remove_spec (body_of "@nobody") "@nobody"). reflexivity. Defined.

Lemma following_toggle_membership_witness :
  let r := api_following_toggle (body_of "@new_reader") initial in
  (r.1 = Ok (ok_state "followed") ∧ ("@new_reader" ∉ handles (following_list initial)) ∧
   "@new_reader" ∈ handles (following_list r.2)) ∨
  (r.1 = Ok (ok_state "unfollowed") ∧ "@new_reader" ∈ handles (following_list initial) ∧
   ("@new_reader" ∉ handles (following_list r.2))).
Proof.
  apply (following_toggle_membership (body_of "@new_reader") "@new_reader" initial);
    [reflexivity..|]. apply social_wf_initial.
Defined.

Lemma following_toggle_twice_absent_witness :
  (api_following_toggle (body_of "@new_reader")
     (api_following_toggle (body_of "@new_reader") initial).2).2 = initial.
Proof.
  apply (following_toggle_twice_absent (body_of "@new_reader") "@new_reader" initial);
    [reflexivity..|]. by apply (bool_decide_unpack ("@new_reader" ∉ handles FOLLOWING)).
Defined.

Lemma following_toggle_twice_present_witness :
  following_list (api_following_toggle (body_of "@johnsmith34")
     (api_following_toggle (body_of "@johnsmith34") initial).2).2 =
    delete 0 FOLLOWING ++ [Person (name_guess "@johnsmith34") "@johnsmith34"].
Proof.
  apply (following_toggle_twice_present (body_of "@johnsmith34") "@johnsmith34" initial 0);
    [reflexivity..| |reflexivity]. apply social_wf_initial.
Defined.

Lemma reachable_invariant_witness :
  let s := (api_following_toggle (body_of "@new_reader") initial).2 in
  NoDup (handles (following_list s)) ∧
  Forall (λ h, truthy h = true ∧ trimmed h = true) (handles (following_list s)) ∧
  followers_list s `sublist_of` FOLLOWERS ∧ length (followers_list s) ≤ 6.
Proof.
  apply reachable_invariant. apply rtc_once, step_toggle.
Defined.

Lemma reachable_following_witness :
  ∃ s, reachable s ∧ handles (following_list s) = ["@ann"; "@bob_3"] ∧
       person_name <$> following_list s = name_guess <$> ["@ann"; "@bob_3"].
Proof.
  apply reachable_following; [|by repeat constructor].
  by apply (bool_decide_unpack (NoDup ["@ann"; "@bob_3"])).
Defined.

(** After unfollowing and following again, John Smith is listed last as
    Johnsmith34. *)
Example refollow_renames :
  name_guess "@johnsmith34" = "Johnsmith34" ∧ name_guess "@l_garcia55" = "L Garcia55" ∧
  name_guess "@@" = "User" ∧
  last (api_following_toggle (body_of "@johnsmith34")
          (api_following_toggle (body_of "@johnsmith34") initial).2).2.(following_list)
    = Some (Person "Johnsmith34" "@johnsmith34").
Proof. by vm_compute. Qed.
