(* ===== verification/Catalog.v ===== *)
(** * Catalog: the [Book] table and [get_or_create_book_row]

    A book is unique by its (title, author) pair.  The catalogue is only
    ever extended: no code path updates or deletes a [Book] row. *)

From Stdlib Require Import ZArith Lia QArith.
From stdpp Require Import base tactics option list strings.
From S2P Require Import Prelude PyStr Cover Db.

#[local] Open Scope Z_scope.

(** ** Definitions *)

(** [class Book(db.Model)]; an [id] of 0 stands for a row not yet
    inserted. *)
Record Book : Type := mkBook {
  book_id : Z;
  book_title : string;
  book_author : string;
  book_genre : string;
  book_year : string;
  book_cover : string;
  book_olid : string;
  book_cover_i : string;
  book_isbn : string;
}.

#[export] Instance Book_eq_dec : EqDecision Book.
Proof. solve_decision. Defined.

Definition book_with_id (i : Z) (b : Book) : Book :=
  mkBook i (book_title b) (book_author b) (book_genre b) (book_year b)
    (book_cover b) (book_olid b) (book_cover_i b) (book_isbn b).

(** [UniqueConstraint("title", "author")] *)
Definition book_key (b : Book) : string * string := (book_title b, book_author b).

#[export, refine] Instance Book_row : Row Book (string * string) := {|
  row_id := book_id;
  with_id := book_with_id;
  unique_key := λ b, Some (book_key b);
|}.
Proof. all: done. Defined.

(** [Book(title=..., author=..., ...)] with the column defaults. *)
Definition new_book (title author genre year cover olid cover_i isbn : string) : Book :=
  mkBook 0 title author genre year cover olid cover_i isbn.

(** The predicate of [filter_by(title=t, author=a)]. *)
Definition by_title_author (t a : string) (b : Book) : bool :=
  bool_decide (book_title b = t) && bool_decide (book_author b = a).

(** [Book.query.filter_by(title=t, author=a).first()] *)
Definition find_book (t a : string) : M (table Book) (option Book) :=
  query_first (by_title_author t a).

(** A book as the templates see it: the dicts built by [all_books_ui]. *)
Record ui_book : Type := mkUiBook {
  ui_title : string;
  ui_author : string;
  ui_genre : string;
  ui_year : string;
  ui_cover : string;
  ui_rating : Q;
}.

(** [get_or_create_book_row(book_dict)] *)
Definition get_or_create_book_row (d : ui_book) : M (table Book) (option Book) :=
  let title := strip (str_or (ui_title d) EmptyString) in
  let author := strip (str_or (ui_author d) EmptyString) in
  if negb (truthy title) || negb (truthy author) then mret None else
  existing ← find_book title author;
  match existing with
  | Some b => mret (Some b)
  | None =>
      let b := new_book title author (str_or (ui_genre d) "Other")
                 (str_or (ui_year d) EmptyString)
                 (str_or (ui_cover d) PLACEHOLDER_COVER)
                 EmptyString EmptyString EmptyString in
      session_add b ;;
      commit ;;
      gets (λ t, last (rows t))
  end.

(** The catalogue has a book of this title and author. *)
Definition has_book (t a : string) (l : list Book) : Prop :=
  (t, a) ∈ keys_of l.

#[export] Instance has_book_dec t a l : Decision (has_book t a l).
Proof. unfold has_book. apply _. Defined.

(** The row [get_or_create_book_row] inserts for [d]. *)
Definition created_row (d : ui_book) (l : list Book) : Book :=
  mkBook (next_id l) (strip (ui_title d)) (strip (ui_author d))
    (str_or (ui_genre d) "Other") (ui_year d)
    (str_or (ui_cover d) PLACEHOLDER_COVER) EmptyString EmptyString EmptyString.

(** What [get_or_create_book_row] returns and the rows it leaves, as a
    function of the rows it finds. *)
Definition ensured (d : ui_book) (l : list Book) : option Book * list Book :=
  let title := strip (ui_title d) in
  let author := strip (ui_author d) in
  if negb (truthy title && truthy author) then (None, l)
  else match List.find (by_title_author title author) l with
       | Some b => (Some b, l)
       | None => (Some (created_row d l), l ++ [created_row d l])
       end.

Definition ui_dracula : ui_book :=
  mkUiBook " Dracula " "Bram Stoker" EmptyString "1897" EmptyString 0.

(** ** Lemmas *)

Lemma keys_of_books (l : list Book) : keys_of l = book_key <$> l.
Proof. unfold keys_of. induction l as [|b l IH]; simpl; by rewrite ?IH. Qed.

Lemma by_title_author_iff t a b :
  by_title_author t a b = true ↔ book_key b = (t, a).
Proof.
  unfold by_title_author, book_key.
  rewrite andb_true_iff, !bool_decide_eq_true. naive_solver.
Qed.

Lemma find_by_title_author_Some t a l b :
  List.find (by_title_author t a) l = Some b → b ∈ l ∧ book_key b = (t, a).
Proof.
  intros [Hin Hb]%find_some. split; [by apply list_elem_of_In|].
  by apply by_title_author_iff.
Qed.

Lemma find_by_title_author_None t a l :
  List.find (by_title_author t a) l = None ↔ ¬ has_book t a l.
Proof.
  unfold has_book. rewrite keys_of_books, list_elem_of_fmap. split.
  - intros Hf (b & Hk & Hb). apply list_elem_of_In in Hb.
    pose proof (find_none _ _ Hf b Hb) as Hn.
    by rewrite (proj2 (by_title_author_iff t a b)) in Hn.
  - intros Hn. destruct (List.find _ l) as [b|] eqn:E; [|done].
    apply find_by_title_author_Some in E as [? ?]. destruct Hn. eauto.
Qed.

Lemma find_by_title_author_is_Some t a l :
  has_book t a l → is_Some (List.find (by_title_author t a) l).
Proof.
  intros Hb. destruct (List.find _ l) eqn:E; [done|].
  by apply find_by_title_author_None in E.
Qed.

Lemma conflicts_book b l :
  conflicts b l = false ↔ ¬ has_book (book_title b) (book_author b) l.
Proof. unfold conflicts, has_book. simpl. apply bool_decide_eq_false. Qed.

Lemma has_book_app t a l1 l2 :
  has_book t a (l1 ++ l2) ↔ has_book t a l1 ∨ has_book t a l2.
Proof. unfold has_book. rewrite keys_of_app. apply elem_of_app. Qed.

Lemma has_book_singleton t a b : has_book t a [b] ↔ book_key b = (t, a).
Proof. unfold has_book. simpl. rewrite list_elem_of_singleton. naive_solver. Qed.

Lemma length_keys_of_books (l : list Book) : length (keys_of l) = length l.
Proof. by rewrite keys_of_books, length_fmap. Qed.

(** *** get_or_create_book_row *)

Section get_or_create.
Implicit Types (d : ui_book) (t : table Book) (b : Book).

Lemma get_or_create_run d t :
  clean t →
  let title := strip (ui_title d) in
  let author := strip (ui_author d) in
  get_or_create_book_row d t =
    if negb (truthy title && truthy author) then (Ok None, t)
    else match List.find (by_title_author title author) (rows t) with
         | Some b => (Ok (Some b), t)
         | None => (Ok (Some (created_row d (rows t))),
                    Table (rows t ++ [created_row d (rows t)]) [] [])
         end.
Proof.
  intros Hc title author. unfold get_or_create_book_row.
  rewrite !str_or_empty_r. fold title author.
  destruct (truthy title), (truthy author); simpl; try done.
  unfold find_book. erewrite M_bind_ok by apply query_first_clean, Hc.
  assert (visible t = rows t) as -> by (unfold visible; destruct Hc as [-> _]; apply app_nil_r).
  destruct (List.find _ _) eqn:Ef; [done|].
  apply find_by_title_author_None in Ef.
  rewrite insert_commit_then by (done || by apply conflicts_book).
  unfold gets. simpl. by rewrite last_snoc.
Qed.

(** On a session with nothing pending the call never raises and leaves
    nothing pending. *)
Lemma get_or_create_ensured d t :
  clean t →
  get_or_create_book_row d t = (Ok (ensured d (rows t)).1, Table (ensured d (rows t)).2 [] []).
Proof.
  intros Hc. rewrite get_or_create_run by done. unfold ensured.
  destruct t as [l x p], Hc as [Hx Hp]; simpl in *; subst.
  destruct (negb _); [done|]. by destruct (List.find _ _).
Qed.

Lemma ensured_has_book d l :
  truthy (strip (ui_title d)) = true → truthy (strip (ui_author d)) = true →
  has_book (strip (ui_title d)) (strip (ui_author d)) (ensured d l).2.
Proof.
  intros Ht Ha. unfold ensured. rewrite Ht, Ha. simpl.
  destruct (List.find _ _) as [b|] eqn:Ef; simpl.
  - apply find_by_title_author_Some in Ef as [Hb Hk].
    unfold has_book. rewrite keys_of_books, list_elem_of_fmap. by exists b.
  - apply has_book_app. right. by apply has_book_singleton.
Qed.

(** The three outcomes of [get_or_create_book_row] on a session with
    nothing pending. *)
Theorem get_or_create_book_row_spec d t :
  clean t →
  let title := strip (ui_title d) in
  let author := strip (ui_author d) in
  get_or_create_book_row d t =
    if negb (truthy title && truthy author) then (Ok None, t)
    else match List.find (by_title_author title author) (rows t) with
         | Some b => (Ok (Some b), t)
         | None => (Ok (Some (created_row d (rows t))),
                    Table (rows t ++ [created_row d (rows t)]) [] [])
         end.
Proof. exact (get_or_create_run d t). Qed.

(** The unique-key invariant survives the call. *)
Theorem get_or_create_book_row_wf d t :
  table_wf t → clean t →
  table_wf (get_or_create_book_row d t).2 ∧ clean (get_or_create_book_row d t).2.
Proof.
  intros Hwf Hc. rewrite get_or_create_run by done.
  destruct (negb _) eqn:Ev; [done|].
  destruct (List.find _ _) eqn:Ef; [done|]. simpl. split; [|done].
  apply find_by_title_author_None in Ef.
  unfold table_wf, visible in *. simpl. destruct Hc as [Ht _].
  rewrite Ht in Hwf. rewrite !app_nil_r in *.
  apply (rows_wf_insert (rows t) (mkBook 0 _ _ _ _ _ _ _ _) Hwf).
  by apply conflicts_book.
Qed.

(** Asking again for the same book returns the row created the first
    time and changes nothing. *)
Theorem get_or_create_book_row_idempotent d t :
  clean t →
  let r := get_or_create_book_row d t in
  get_or_create_book_row d r.2 = r.
Proof.
  intros Hc. simpl. rewrite (get_or_create_run d t Hc).
  destruct (negb _) eqn:Ev; simpl.
  { rewrite get_or_create_run by done. by rewrite Ev. }
  destruct (List.find _ (rows t)) as [b|] eqn:Ef; simpl.
  { rewrite get_or_create_run by done. by rewrite Ev, Ef. }
  rewrite get_or_create_run by done. rewrite Ev. simpl.
  rewrite find_app, Ef. simpl.
  by rewrite (proj2 (by_title_author_iff _ _ (created_row d (rows t)))).
Qed.
End get_or_create.

(** ** Witnesses *)

Lemma empty_table_wf : table_wf (empty_table : table Book).
Proof. apply rows_wf_nil. Defined.

Lemma empty_table_clean : clean (empty_table : table Book).
Proof. split; reflexivity. Defined.

Lemma get_or_create_book_row_spec_witness :
  get_or_create_book_row ui_dracula empty_table =
    (Ok (Some (created_row ui_dracula [])), Table [created_row ui_dracula []] [] []).
Proof. apply (get_or_create_book_row_spec ui_dracula empty_table empty_table_clean). Defined.

Lemma get_or_create_book_row_wf_witness :
  table_wf (get_or_create_book_row ui_dracula empty_table).2 ∧
  clean (get_or_create_book_row ui_dracula empty_table).2.
Proof.
  apply (get_or_create_book_row_wf ui_dracula empty_table empty_table_wf empty_table_clean).
Defined.

Lemma get_or_create_book_row_idempotent_witness :
  get_or_create_book_row ui_dracula (get_or_create_book_row ui_dracula empty_table).2 =
  get_or_create_book_row ui_dracula empty_table.
Proof. apply (get_or_create_book_row_idempotent ui_dracula empty_table empty_table_clean). Defined.
