(* ===== verification/Listing.v ===== *)
(** * Listing: the list of books every page is built from
      ([BOOKS], [_DEMO_COVER_CACHE], [all_books_ui]) and the views that
      filter and order it ([home], [browse], [top_rated],
      [api_search_books])

    [all_books_ui] resolves a cover for each demo book, once per process,
    through the matcher and a cache; then it lists the rows of the [Book]
    table with their average rating.  A rating is a rational number
    here: the decimal of the source or the exact average.  The cache is
    a finite map of the state; the listing stores under the keys of the
    demo books and nowhere else ([books_ui_keys]). *)

From Stdlib Require Import ZArith Lia QArith.
From stdpp Require Import base tactics option list sorting strings gmap.
From S2P Require Import Prelude PyStr Json Flask Cover Http Fixtures Matcher Db Catalog.

(** ** Definitions *)

(** [class Review(db.Model)]; [created] in microseconds. *)
Record Review : Type := mkReview {
  review_id : Z;
  review_user_id : Z;
  review_book_title : string;
  review_book_author : string;
  review_book_cover : string;
  review_rating : Z;
  review_text : string;
  review_created : Z;
}.

(** An entry of [BOOKS]: every entry has these five keys and no year. *)
Record demo_book : Type := Demo {
  demo_title : string;
  demo_author : string;
  demo_genre : string;
  demo_rating : Q;
  demo_cover : string;
}.

Definition BOOKS : list demo_book := [
  Demo "The Great Gatsby" "F. Scott Fitzgerald" "Classics" (440 # 100)
       "https://covers.openlibrary.org/b/id/7222246-L.jpg";
  Demo "Jane Eyre" "Charlotte Brontë" "Romance" (430 # 100)
       "https://covers.openlibrary.org/b/id/8226098-L.jpg";
  Demo "1984" "George Orwell" "Dystopian" (460 # 100)
       "https://covers.openlibrary.org/b/id/7222246-L.jpg";
  Demo "Frankenstein" "Mary Shelley" "Horror" (420 # 100)
       "https://covers.openlibrary.org/b/id/8378631-L.jpg";
  Demo "Crime and Punishment" "Fyodor Dostoevsky" "Classics" (470 # 100)
       "https://covers.openlibrary.org/b/id/8100933-L.jpg";
  Demo "The Bell Jar" "Sylvia Plath" "Literary" (410 # 100)
       "https://covers.openlibrary.org/b/id/8231856-L.jpg";
  Demo "The Picture of Dorian Gray" "Oscar Wilde" "Gothic" (430 # 100)
       "https://covers.openlibrary.org/b/id/8229216-L.jpg";
  Demo "Moby-Dick" "Herman Melville" "Adventure" (390 # 100)
       "https://covers.openlibrary.org/b/id/7222276-L.jpg";
  Demo "The Handmaid's Tale" "Margaret Atwood" "Dystopian" (450 # 100)
       "https://covers.openlibrary.org/b/id/8235116-L.jpg"
].

Definition GENRES : list string := [
  "Romance"; "Fantasy"; "Horror"; "Mystery"; "Non-fiction";
  "Sci-Fi"; "Classics"; "Dystopian"; "Gothic"; "Literary"; "Adventure"
].

(** What [all_books_ui] reads and writes: the network, the module-level
    cache, the session on the [Book] table and the reviews. *)
Record site : Type := Site {
  site_net : list request;
  site_cache : gmap (string * string) (gmap string string);
  site_books : table Book;
  site_reviews : list Review;
}.

Definition on_net {A} (c : M (list request) A) : M site A :=
  zoom site_net (λ n s, Site n (site_cache s) (site_books s) (site_reviews s)) c.

Definition on_books {A} (c : M (table Book) A) : M site A :=
  zoom site_books (λ b s, Site (site_net s) (site_cache s) b (site_reviews s)) c.

(** [_DEMO_COVER_CACHE[key] = value] *)
Definition cache_store (key : string * string) (value : gmap string string) : M site unit :=
  modify (λ s, Site (site_net s) (<[key := value]> (site_cache s))
                    (site_books s) (site_reviews s)).

Definition demo_key (b : demo_book) : string * string := (demo_title b, demo_author b).

(** [meta if meta.get("cover") else {"cover": cover}] *)
Definition cache_entry (meta : gmap string string) (cover : string) : gmap string string :=
  if truthy (meta_get meta "cover") then meta else {[ "cover" := cover ]}.

(** [(_DEMO_COVER_CACHE.get(key) or {}).get("cover") or cover] *)
Definition cached_cover (cache : gmap (string * string) (gmap string string))
    (key : string * string) (cover : string) : string :=
  str_or (meta_get (default ∅ (cache !! key)) "cover") cover.

(** The dict appended to [demo], given the cache. *)
Definition demo_entry (cache : gmap (string * string) (gmap string string))
    (b : demo_book) : ui_book :=
  let cover := str_or (demo_cover b) EmptyString in
  let best_cover := cached_cover cache (demo_key b) cover in
  mkUiBook (demo_title b) (demo_author b) (demo_genre b) EmptyString
    (str_or best_cover PLACEHOLDER_COVER) (demo_rating b).

(** The body of the loop over [BOOKS]. *)
Definition resolve_demo `{PyRuntime, Network} (b : demo_book) : M site ui_book :=
  let cover := str_or (demo_cover b) EmptyString in
  cache ← gets site_cache;
  (if cache !! demo_key b is Some _ then mret tt else
     meta ← on_net (_ol_best_match (demo_title b) (demo_author b) 15);
     cache_store (demo_key b) (cache_entry meta cover)) ;;
  cache ← gets site_cache;
  mret (demo_entry cache b).

(** [func.avg(Review.rating)] over the reviews of a title: [None] when
    there is none. *)
Definition avg_rating (title : string) (reviews : list Review) : option Q :=
  match filter (λ r, review_book_title r = title) reviews with
  | [] => None
  | rs => Some (inject_Z (foldr Z.add 0%Z (review_rating <$> rs))
                / inject_Z (Z.of_nat (length rs)))%Q
  end.

(** The dict appended to [db_list]. *)
Definition ui_of_row (reviews : list Review) (bk : Book) : ui_book :=
  let avg := avg_rating (book_title bk) reviews in
  let built := _ol_cover_url (str_or (book_cover_i bk) EmptyString)
                 (str_or (book_isbn bk) EmptyString) (str_or (book_olid bk) EmptyString) in
  let final_cover :=
    str_or (str_or built (str_or (book_cover bk) EmptyString)) PLACEHOLDER_COVER in
  mkUiBook (book_title bk) (book_author bk) (str_or (book_genre bk) "Other")
    (str_or (book_year bk) EmptyString) final_cover (default 0%Q avg).

(** [all_books_ui()] over any list of demo books. *)
Definition books_ui `{PyRuntime, Network} (demo_books : list demo_book)
  : M site (list ui_book) :=
  demo ← mapM resolve_demo demo_books;
  db_books ← on_books query_all;
  reviews ← gets site_reviews;
  mret (demo ++ (ui_of_row reviews <$> db_books)).

(** [all_books_ui()] *)
Definition all_books_ui `{PyRuntime, Network} : M site (list ui_book) := books_ui BOOKS.

(** [q in (b.get("title") or "").lower() or q in (b.get("author") or "").lower()] *)
Definition matches (q : string) (b : ui_book) : bool :=
  contains q (lower (str_or (ui_title b) EmptyString)) ||
  contains q (lower (str_or (ui_author b) EmptyString)).

(** The same test as the route [/top-rated] writes it, without [or ""]. *)
Definition matches_plain (q : string) (b : ui_book) : bool :=
  contains q (lower (ui_title b)) || contains q (lower (ui_author b)).

(** An entry of [BOOKS] as it is, where a template is given one. *)
Definition raw_entry (b : demo_book) : ui_book :=
  mkUiBook (demo_title b) (demo_author b) (demo_genre b) EmptyString
    (demo_cover b) (demo_rating b).

(** [b.get("rating", 0.0)] of one book against another. *)
Definition rating_leb (c b : ui_book) : bool := Qle_bool (ui_rating c) (ui_rating b).

(** [sorted(books, key=lambda b: b.get("rating", 0.0), reverse=True)]:
    highest rating first, equal ratings in their order in [books]. *)
Definition sort_by_rating (books : list ui_book) : list ui_book :=
  sort_desc rating_leb books.

(** The dicts of [/api/search]. *)
Record suggestion : Type := Suggestion {
  sg_title : string;
  sg_author : string;
  sg_cover : string;
  sg_rating : Q;
  sg_genre : string;
}.

Definition suggestion_of (b : ui_book) : suggestion :=
  Suggestion (ui_title b) (ui_author b) (ui_cover b) (ui_rating b) (ui_genre b).

(** The handler of [GET /api/search]. *)
Definition api_search_books `{PyRuntime, Network} (q_arg : option string)
  : M site (list suggestion) :=
  let q := lower (arg_text q_arg) in
  if negb (truthy q) then mret [] else
  books ← all_books_ui;
  mret (take 8 (suggestion_of <$> filter (λ b, matches q b = true) books)).

(** The handler of [GET /top-rated]: the books given to the template. *)
Definition top_rated `{PyRuntime, Network} (q_arg : option string)
  : M site (list ui_book) :=
  let q := lower (arg_text q_arg) in
  all ← all_books_ui;
  let books := sort_by_rating all in
  mret (if truthy q then filter (λ b, matches_plain q b = true) books else books).

(** The handler of [GET /browse]: the books and the selected genre given
    to the template. *)
Definition browse `{PyRuntime, Network} (genre_arg q_arg : option string)
  : M site (list ui_book * string) :=
  let genre := arg_text genre_arg in
  let q := lower (arg_text q_arg) in
  books ← all_books_ui;
  let books :=
    if truthy genre
    then filter (λ b, lower (str_or (ui_genre b) EmptyString) = lower genre) books
    else books in
  let books := if truthy q then filter (λ b, matches q b = true) books else books in
  mret (books, genre).

(** The handler of [GET /genre/<name>]: a redirect to /browse with the
    genre as its argument. *)
Definition genre_page (name : string) : page :=
  RedirectArgs "browse" [("genre", name)] None.

(** What every template receives besides its own arguments. *)
Definition inject_globals : list (string * string) :=
  [("PLACEHOLDER_COVER", PLACEHOLDER_COVER)].

(** The handler of [GET /]: the featured book, if any, and the six best
    rated. *)
Definition home `{PyRuntime, Network} : M site (option ui_book * list ui_book) :=
  books ← all_books_ui;
  let featured :=
    match books with
    | b :: _ => Some b
    | [] => match BOOKS with b :: _ => Some (raw_entry b) | [] => None end
    end in
  mret (featured, take 6 (sort_by_rating books)).

(** [a] is rated at least as high as [b]. *)
Definition rated_ge (a b : ui_book) : Prop := (ui_rating b <= ui_rating a)%Q.

(** The books of one rating. *)
Definition rated (r : Q) (u : ui_book) : Prop := Qeq_bool (ui_rating u) r = true.

Definition ui_gatsby : ui_book :=
  mkUiBook "The Great Gatsby" "F. Scott Fitzgerald" "Classics" ""
    "https://covers.openlibrary.org/b/id/7222246-L.jpg" (440 # 100).

Definition ui_dune (rating : Q) : ui_book :=
  mkUiBook "Dune" "Frank Herbert" "Sci-Fi" "1965"
    "https://covers.openlibrary.org/b/id/1-L.jpg" rating.

(** A state in which every demo book is cached with its own cover. *)
Definition warm_site : site :=
  Site [] (list_to_map ((λ b, (demo_key b, {[ "cover" := demo_cover b ]})) <$> BOOKS))
       empty_table [].

(** The state of a process that has just started on an empty database. *)
Definition cold_site : site := Site [] ∅ empty_table [].

(** The outcome and the state of the first listing of such a process
    when the network is down. *)
Definition first_listing : outcome (list ui_book) * site :=
  @all_books_ui demo_runtime offline cold_site.

(** Every demo book of [l] has its entry in the cache. *)
Definition all_cached (l : list demo_book) (s : site) : Prop :=
  ∀ b, b ∈ l → is_Some (site_cache s !! demo_key b).

(** The books of a listing: the demo books as the cache resolves them,
    then the rows of the table. *)
Definition listing_of (l : list demo_book) (s : site) : list ui_book :=
  (demo_entry (site_cache s) <$> l) ++
  (ui_of_row (site_reviews s) <$> visible (site_books s)).

(** The keys under which the listing of [l] stores in the cache. *)
Definition keys_of (l : list demo_book) : gset (string * string) :=
  list_to_set (demo_key <$> l).

(** The cache of [s'] holds what the one of [s] held and entries of
    books of [l], nothing else. *)
Definition cached_within (l : list demo_book) (s s' : site) : Prop :=
  dom (site_cache s') ⊆ dom (site_cache s) ∪ keys_of l.

(** A step of the listing only adds: to the log, to the cache, and
    nothing to the tables. *)
Record extends (s s' : site) : Prop := {
  ext_net : site_net s `prefix_of` site_net s';
  ext_cache : site_cache s ⊆ site_cache s';
  ext_books : site_books s' = site_books s;
  ext_reviews : site_reviews s' = site_reviews s;
}.

(** ** The demo books *)

#[export] Instance extends_refl : Reflexive extends.
Proof. by intros s; split. Qed.

#[export] Instance extends_trans : Transitive extends.
Proof.
  intros s1 s2 s3 [] []; split; try congruence; by etrans.
Qed.

Lemma demo_entry_cover_truthy cache b : truthy (ui_cover (demo_entry cache b)) = true.
Proof. by apply truthy_str_or. Qed.

Lemma ui_of_row_cover_truthy reviews bk : truthy (ui_cover (ui_of_row reviews bk)) = true.
Proof. by apply truthy_str_or. Qed.

(** The entry of a book depends on the cache through its own key only. *)
Lemma demo_entry_lookup c1 c2 b :
  c1 !! demo_key b = c2 !! demo_key b → demo_entry c1 b = demo_entry c2 b.
Proof. intros Hk. unfold demo_entry, cached_cover. by rewrite Hk. Qed.

Lemma demo_entry_mono c1 c2 b :
  c1 ⊆ c2 → is_Some (c1 !! demo_key b) → demo_entry c1 b = demo_entry c2 b.
Proof.
  intros Hsub [m Hm]. apply demo_entry_lookup. rewrite Hm. symmetry.
  by eapply lookup_weaken.
Qed.

(** A look-up run on the log of the process keeps whatever it keeps on
    the log; the session of the database does not touch the log. *)
Lemma on_net_keeps {A} P (c : M (list request) A) :
  keeps (sent P) c → keeps (via site_net (sent P)) (on_net c).
Proof. intros Hc. by apply (keeps_zoom _ (sent P)). Qed.

Lemma on_books_keeps {A} P (c : M (table Book) A) : keeps (via site_net (sent P)) (on_books c).
Proof. apply keeps_zoom_frame. intros s t. unfold via. simpl. reflexivity. Qed.

#[export] Hint Resolve on_net_keeps on_books_keeps : keeps.

Section listing.
Context `{PyRuntime, Network}.
Implicit Types (b : demo_book) (l : list demo_book) (s : site) (bs : list ui_book).

Lemma resolve_demo_hit b s :
  is_Some (site_cache s !! demo_key b) →
  resolve_demo b s = (Ok (demo_entry (site_cache s) b), s).
Proof. intros [m Hm]. unfold resolve_demo. monad_unfold. by rewrite Hm. Qed.

Lemma resolve_demo_miss b s :
  site_cache s !! demo_key b = None →
  resolve_demo b s =
    let r := _ol_best_match (demo_title b) (demo_author b) 15 (site_net s) in
    match r.1 with
    | Ok meta =>
        let cache := <[demo_key b := cache_entry meta (str_or (demo_cover b) EmptyString)]>
                       (site_cache s) in
        (Ok (demo_entry cache b), Site r.2 cache (site_books s) (site_reviews s))
    | Raise e => (Raise e, Site r.2 (site_cache s) (site_books s) (site_reviews s))
    end.
Proof.
  intros Hm. unfold resolve_demo, on_net, cache_store. monad_unfold. rewrite Hm.
  by destruct (_ol_best_match _ _ _ _) as [[meta|e] log].
Qed.

Lemma resolve_demo_extends b s : extends s (resolve_demo b s).2.
Proof.
  destruct (site_cache s !! demo_key b) as [m|] eqn:Hm.
  - by rewrite resolve_demo_hit.
  - rewrite resolve_demo_miss by done. cbv zeta.
    pose proof (best_match_prefix (demo_title b) (demo_author b) 15 (site_net s)).
    destruct (_ol_best_match _ _ _ _) as [[meta|e] log]; simpl in *;
      split; simpl; try done. by apply insert_subseteq.
Qed.

(** A step that returns leaves the book cached and returns its entry
    under the new cache. *)
Lemma resolve_demo_ok b s y s' :
  resolve_demo b s = (Ok y, s') →
  is_Some (site_cache s' !! demo_key b) ∧ y = demo_entry (site_cache s') b.
Proof.
  destruct (site_cache s !! demo_key b) as [m|] eqn:Hm.
  - rewrite resolve_demo_hit by done. intros [= <- <-]. by rewrite Hm.
  - rewrite resolve_demo_miss by done. cbv zeta.
    destruct (_ol_best_match _ _ _ _) as [[meta|e] log]; simpl; [|done].
    intros [= <- <-]. simpl. by rewrite lookup_insert_eq.
Qed.

(** The only key a step stores under is the one of its book. *)
Lemma resolve_demo_keys b s :
  dom (site_cache (resolve_demo b s).2) ⊆ dom (site_cache s) ∪ {[demo_key b]}.
Proof.
  destruct (site_cache s !! demo_key b) as [m|] eqn:Hm.
  - rewrite resolve_demo_hit by done. apply union_subseteq_l.
  - rewrite resolve_demo_miss by done. cbv zeta.
    destruct (_ol_best_match _ _ _ _) as [[meta|e] log]; simpl; [|apply union_subseteq_l].
    by rewrite dom_insert_L, (comm_L (∪)).
Qed.

Lemma resolve_demo_requests b s :
  length (site_net (resolve_demo b s).2) ≤ S (length (site_net s)).
Proof.
  destruct (site_cache s !! demo_key b) as [m|] eqn:Hm.
  - rewrite resolve_demo_hit by done. simpl. lia.
  - rewrite resolve_demo_miss by done. cbv zeta.
    pose proof (best_match_length (demo_title b) (demo_author b) 15 (site_net s)).
    by destruct (_ol_best_match _ _ _ _) as [[meta|e] log].
Qed.

Lemma resolve_demo_polite b : keeps (via site_net (sent polite)) (resolve_demo b).
Proof. unfold resolve_demo, cache_store. solve_keeps. Qed.

End listing.

#[export] Hint Resolve resolve_demo_polite : keeps.

(** ** The loop over the demo books *)

Section demo_loop.
Context `{PyRuntime, Network}.
Implicit Types (b : demo_book) (l : list demo_book) (s : site) (bs : list ui_book).

Lemma mapM_resolve_extends l s : extends s (mapM resolve_demo l s).2.
Proof.
  apply (mapM_invariant (extends s)); [|done].
  intros b s1 _ Hs1. etrans; [done|apply resolve_demo_extends].
Qed.

Lemma mapM_resolve_ok l s ys s' :
  mapM resolve_demo l s = (Ok ys, s') →
  all_cached l s' ∧ ys = demo_entry (site_cache s') <$> l.
Proof.
  revert s ys. induction l as [|b l IH]; intros s ys.
  { intros [= <- <-]. split; [by intros b ?%elem_of_nil|done]. }
  rewrite mapM_cons. destruct (resolve_demo b s) as [[y|e] s1] eqn:E1; [|done].
  pose proof (mapM_resolve_extends l s1) as Hext.
  destruct (mapM resolve_demo l s1) as [[zs|e] s2] eqn:E2; [|done].
  intros [= <- <-]. destruct (IH _ _ E2) as [Hc ->].
  destruct (resolve_demo_ok _ _ _ _ E1) as [Hb ->]. destruct Hext as [_ Hsub _ _].
  split.
  - intros b' [->|?]%elem_of_cons; [|by apply Hc].
    destruct Hb as [m Hm]. exists m. by eapply lookup_weaken.
  - simpl. f_equal. by apply demo_entry_mono.
Qed.

Lemma mapM_resolve_cached l s :
  all_cached l s → mapM resolve_demo l s = (Ok (demo_entry (site_cache s) <$> l), s).
Proof. intros Hc. apply mapM_pure. intros b Hb. by apply resolve_demo_hit, Hc. Qed.

Lemma mapM_resolve_keys l s : cached_within l s (mapM resolve_demo l s).2.
Proof.
  apply (mapM_invariant (cached_within l s)); [|apply union_subseteq_l].
  intros b s1 Hb Hs1. unfold cached_within. etrans; [apply resolve_demo_keys|].
  apply union_least; [done|].
  by apply singleton_subseteq_l, elem_of_union_r, elem_of_list_to_set, list_elem_of_fmap_2.
Qed.

Lemma mapM_resolve_requests l s :
  length (site_net (mapM resolve_demo l s).2) ≤ length (site_net s) + length l.
Proof.
  revert s. induction l as [|b l IH]; intros s; [simpl; lia|]. rewrite mapM_cons.
  pose proof (resolve_demo_requests b s) as Hb.
  destruct (resolve_demo b s) as [[y|e] s1]; simpl in *; [|lia].
  pose proof (IH s1). destruct (mapM resolve_demo l s1) as [[zs|e] s2]; simpl in *; lia.
Qed.

(** An exception of the loop is an exception of the matcher: some
    response decoded to something the matcher cannot read. *)
Lemma mapM_resolve_raises l s e :
  (mapM resolve_demo l s).1 = Raise e →
  ∃ b n data, b ∈ l ∧
    respond n (best_match_request (strip (demo_title b)) (strip (demo_author b)) 15)
      = Ok data ∧ wf_response data = false.
Proof.
  revert s. induction l as [|b l IH]; intros s; [done|]. rewrite mapM_cons.
  destruct (resolve_demo b s) as [[y|e1] s1] eqn:E1.
  - destruct (mapM resolve_demo l s1) as [[zs|e2] s2] eqn:E2; [done|].
    simpl. intros [= <-]. destruct (IH s1) as (b' & n & data & ? & ?); [by rewrite E2|].
    exists b', n, data. split; [set_solver|done].
  - intros _. destruct (site_cache s !! demo_key b) as [m|] eqn:Hm.
    { by rewrite resolve_demo_hit in E1. }
    rewrite resolve_demo_miss in E1 by done. cbv zeta in E1.
    destruct (_ol_best_match _ _ _ _) as [[meta|e'] log] eqn:Em; [done|].
    destruct (best_match_raises (demo_title b) (demo_author b) 15 (site_net s) e')
      as (data & ? & ?); [by rewrite Em|].
    exists b, (length (site_net s)), data. split; [set_solver|done].
Qed.

End demo_loop.

(** ** The listing *)

Section books_ui.
Context `{PyRuntime, Network}.
Implicit Types (b : demo_book) (l : list demo_book) (s : site) (bs : list ui_book).

Lemma books_ui_unfold l s :
  books_ui l s =
    match mapM resolve_demo l s with
    | (Ok demo, s1) =>
        match query_all (site_books s1) with
        | (Ok db_books, t) =>
            (Ok (demo ++ (ui_of_row (site_reviews s1) <$> db_books)),
             Site (site_net s1) (site_cache s1) t (site_reviews s1))
        | (Raise e, t) => (Raise e, Site (site_net s1) (site_cache s1) t (site_reviews s1))
        end
    | (Raise e, s1) => (Raise e, s1)
    end.
Proof.
  unfold books_ui, on_books. monad_unfold.
  destruct (mapM resolve_demo l s) as [[demo|e] s1]; [|done].
  by destruct (query_all (site_books s1)) as [[db_books|e] t].
Qed.

(** With every demo book cached and nothing waiting in the session the
    listing is a pure function of the state. *)
Lemma books_ui_cached l s :
  all_cached l s → pending (site_books s) = [] →
  books_ui l s = (Ok (listing_of l s), s).
Proof.
  intros Hc Hp. rewrite books_ui_unfold, mapM_resolve_cached by done.
  rewrite query_all_clean by done. by destruct s.
Qed.

Lemma books_ui_ok l s bs s' :
  books_ui l s = (Ok bs, s') →
  bs = listing_of l s' ∧ all_cached l s' ∧ pending (site_books s') = [] ∧
  site_net s `prefix_of` site_net s' ∧ site_cache s ⊆ site_cache s' ∧
  rows (site_books s') = rows (site_books s) ∧ site_reviews s' = site_reviews s.
Proof.
  rewrite books_ui_unfold. pose proof (mapM_resolve_extends l s) as Hext.
  destruct (mapM resolve_demo l s) as [[demo|e] s1] eqn:E1; [|done].
  destruct (mapM_resolve_ok _ _ _ _ E1) as [Hc ->]. destruct Hext as [? ? Hb ?].
  destruct (query_all (site_books s1)) as [[db_books|e] t] eqn:E2; [|done].
  apply query_all_inv in E2 as (-> & ? & ?). intros [= <- <-]. simpl in *.
  split_and!; try done. congruence.
Qed.

Lemma books_ui_again l s bs s' : books_ui l s = (Ok bs, s') → books_ui l s' = (Ok bs, s').
Proof.
  intros (-> & Hc & Hp & _)%books_ui_ok. by apply books_ui_cached.
Qed.

(** On a session with nothing waiting the listing leaves the tables as
    they are. *)
Lemma books_ui_clean l s bs s' :
  clean (site_books s) → books_ui l s = (Ok bs, s') →
  site_books s' = site_books s ∧ site_reviews s' = site_reviews s.
Proof.
  intros [Hx Hp]. rewrite books_ui_unfold.
  pose proof (mapM_resolve_extends l s) as [_ _ Hb Hr].
  destruct (mapM resolve_demo l s) as [[demo|e] s1]; [|done]. simpl in Hb, Hr.
  rewrite query_all_clean by (by rewrite Hb). by intros [= _ <-].
Qed.

(** The listing never touches the reviews, whatever its outcome. *)
Lemma books_ui_reviews l s : site_reviews (books_ui l s).2 = site_reviews s.
Proof.
  rewrite books_ui_unfold. pose proof (mapM_resolve_extends l s) as [_ _ _ Hr].
  destruct (mapM resolve_demo l s) as [[demo|e] s1]; [|done].
  by destruct (query_all _) as [[|]].
Qed.

(** Nor the table, when nothing waits in the session. *)
Lemma books_ui_books l s : clean (site_books s) → site_books (books_ui l s).2 = site_books s.
Proof.
  intros [Hx Hp]. rewrite books_ui_unfold. pose proof (mapM_resolve_extends l s) as [_ _ Hb _].
  destruct (mapM resolve_demo l s) as [[demo|e] s1]; [|done]. simpl in Hb.
  by rewrite query_all_clean by (by rewrite Hb).
Qed.

(** [func.avg] is an aggregate: the average of a title does not depend
    on the order of the rows of the reviews, and so neither do the
    entries of the listing. *)
#[export] Instance avg_rating_proper title : Proper ((≡ₚ) ==> (=)) (avg_rating title).
Proof.
  intros rs rs' Hrs. unfold avg_rating.
  pose proof (filter_Permutation (λ r, review_book_title r = title) _ _ Hrs) as Hf.
  destruct (filter _ rs) as [|r l], (filter _ rs') as [|r' l'];
    [done|by apply Permutation_nil_cons in Hf
    |by symmetry in Hf; apply Permutation_nil_cons in Hf|].
  by rewrite Hf.
Qed.

#[export] Instance ui_of_row_proper : Proper ((≡ₚ) ==> (=) ==> (=)) ui_of_row.
Proof. intros rs rs' Hrs bk ? <-. unfold ui_of_row. by rewrite Hrs. Qed.

Lemma listing_of_reviews_order l s reviews :
  site_reviews s ≡ₚ reviews →
  listing_of l (Site (site_net s) (site_cache s) (site_books s) reviews) = listing_of l s.
Proof.
  intros Hrs. unfold listing_of. cbn [site_cache site_books site_reviews]. f_equal.
  apply list_fmap_ext. intros i bk _. by rewrite Hrs.
Qed.

(** The titles of the listing do not depend on the reviews. *)
Lemma listing_of_titles l s reviews :
  ui_title <$> listing_of l (Site (site_net s) (site_cache s) (site_books s) reviews) =
  ui_title <$> listing_of l s.
Proof. unfold listing_of. rewrite !fmap_app, <- !list_fmap_compose. done. Qed.

(** A row appended to the table is an entry appended to the listing. *)
Lemma listing_of_snoc l s s' x :
  site_cache s' = site_cache s → site_reviews s' = site_reviews s →
  visible (site_books s') = visible (site_books s) ++ [x] →
  listing_of l s' = listing_of l s ++ [ui_of_row (site_reviews s) x].
Proof. unfold listing_of. intros -> -> ->. by rewrite fmap_app, app_assoc. Qed.

Lemma all_cached_cache l s s' :
  site_cache s' = site_cache s → all_cached l s → all_cached l s'.
Proof. unfold all_cached. by intros ->. Qed.

Lemma listing_of_covers l s : Forall (λ u, truthy (ui_cover u) = true) (listing_of l s).
Proof.
  apply Forall_app. split; apply Forall_fmap, Forall_true; intros x;
    [apply demo_entry_cover_truthy|apply ui_of_row_cover_truthy].
Qed.

(** Whatever its outcome, the listing sends under the name of the
    program and waits 15 seconds at most for an answer. *)
Lemma books_ui_polite l : keeps (via site_net (sent polite)) (books_ui l).
Proof. unfold books_ui. solve_keeps. Qed.

(** Whatever its outcome, the listing stores under keys of its demo
    books only. *)
Lemma books_ui_keys l s : cached_within l s (books_ui l s).2.
Proof.
  rewrite books_ui_unfold. pose proof (mapM_resolve_keys l s).
  destruct (mapM resolve_demo l s) as [[demo|e] s1]; simpl in *; [|done].
  by destruct (query_all _) as [[]].
Qed.

(** A cache that holds demo books only has at most one entry for each. *)
Lemma size_list_to_set_le `{Countable K} (ks : list K) :
  size (list_to_set (C := gset K) ks) ≤ length ks.
Proof.
  induction ks as [|k ks IH]; [by rewrite list_to_set_nil, size_empty|].
  rewrite list_to_set_cons, size_union_alt, size_singleton. cbn [length].
  pose proof (subseteq_size (C := gset K) (list_to_set ks ∖ {[k]}) (list_to_set ks)
                (subseteq_difference_l _ _ _ (reflexivity _))). lia.
Qed.

Lemma keys_of_size l (c : gmap (string * string) (gmap string string)) :
  dom c ⊆ keys_of l → size c ≤ length l.
Proof.
  intros Hsub. rewrite <- size_dom, <- (length_fmap demo_key l).
  etrans; [by apply subseteq_size|apply size_list_to_set_le].
Qed.

Lemma books_ui_net_length l s :
  length (site_net (books_ui l s).2) ≤ length (site_net s) + length l.
Proof.
  rewrite books_ui_unfold. pose proof (mapM_resolve_requests l s).
  destruct (mapM resolve_demo l s) as [[demo|e] s1]; simpl in *; [|done].
  by destruct (query_all _) as [[]].
Qed.

(** C6. A listing that is returned is the demo books, each with the cover
    the cache resolves it to, followed by the rows of the table in
    insertion order; afterwards every demo book is cached and nothing
    waits in the session, the committed rows and the reviews are as
    before, and log and cache have only grown. *)
Theorem books_ui_spec l s bs s' :
  books_ui l s = (Ok bs, s') →
  bs = listing_of l s' ∧ all_cached l s' ∧ pending (site_books s') = [] ∧
  site_net s `prefix_of` site_net s' ∧ site_cache s ⊆ site_cache s' ∧
  rows (site_books s') = rows (site_books s) ∧ site_reviews s' = site_reviews s.
Proof. apply books_ui_ok. Qed.

(** C7. After a listing has been returned, listing again returns the same
    books, sends no request and changes nothing: the covers of the demo
    books are looked up once per process. *)
Theorem books_ui_idempotent l s bs s' :
  books_ui l s = (Ok bs, s') → books_ui l s' = (Ok bs, s').
Proof. apply books_ui_again. Qed.

(** Every book of a listing has a cover that is not empty. *)
Theorem books_ui_covers l s bs s' :
  books_ui l s = (Ok bs, s') → Forall (λ u, truthy (ui_cover u) = true) bs.
Proof. intros (-> & _)%books_ui_ok. apply listing_of_covers. Qed.

(** A listing sends at most one request per demo book. *)
Theorem books_ui_requests l s :
  length (site_net (books_ui l s).2) ≤ length (site_net s) + length l.
Proof. apply books_ui_net_length. Qed.

(** The listing of the application has the nine demo books first. *)
Theorem all_books_ui_length s bs s' :
  all_books_ui s = (Ok bs, s') →
  length bs = 9 + length (visible (site_books s')) ∧
  ui_title <$> take 9 bs = demo_title <$> BOOKS.
Proof.
  intros (-> & _)%books_ui_ok. unfold listing_of.
  rewrite length_app, !length_fmap. split; [done|].
  rewrite take_app_length' by (by rewrite length_fmap).
  by rewrite <- list_fmap_compose.
Qed.

(** C38. With nothing waiting in the session, a listing raises only when a
    search response decoded to something the matcher cannot read. *)
Theorem books_ui_raises l s e :
  pending (site_books s) = [] → (books_ui l s).1 = Raise e →
  ∃ b n data, b ∈ l ∧
    respond n (best_match_request (strip (demo_title b)) (strip (demo_author b)) 15)
      = Ok data ∧ wf_response data = false.
Proof.
  intros Hp. rewrite books_ui_unfold. pose proof (mapM_resolve_extends l s) as Hext.
  destruct (mapM resolve_demo l s) as [[demo|e1] s1] eqn:E1.
  - destruct Hext as [_ _ Hb _]. simpl in Hb. by rewrite query_all_clean by (by rewrite Hb).
  - simpl. intros _. apply (mapM_resolve_raises l s e1). by rewrite E1.
Qed.

End books_ui.

#[export] Hint Resolve books_ui_polite : keeps.

(** ** Ordering by rating *)

#[export] Instance rated_ge_trans : Transitive rated_ge.
Proof. intros a b c Hab Hbc. unfold rated_ge in *. by eapply Qle_trans. Qed.

#[export] Instance rated_dec r u : Decision (rated r u).
Proof. unfold rated. apply _. Defined.

Lemma rating_leb_total a b : rating_leb a b = false → rating_leb b a = true.
Proof.
  unfold rating_leb. intros Hf. apply Qle_bool_iff, Qlt_le_weak, Qnot_le_lt.
  intros Hle%Qle_bool_iff. congruence.
Qed.

Lemma rating_leb_trans a b c :
  rating_leb a b = true → rating_leb b c = true → rating_leb a c = true.
Proof. unfold rating_leb. rewrite !Qle_bool_iff. apply Qle_trans. Qed.

Lemma rated_ge_leb a b : rated_ge a b ↔ rating_leb b a = true.
Proof. unfold rated_ge, rating_leb. by rewrite Qle_bool_iff. Qed.

Lemma sort_by_rating_perm l : sort_by_rating l ≡ₚ l.
Proof. apply sort_desc_perm. Qed.

Lemma sort_by_rating_strongly_sorted l : StronglySorted rated_ge (sort_by_rating l).
Proof.
  eapply StronglySorted_impl; [|apply (sort_desc_sorted rating_leb);
    eauto using rating_leb_total, rating_leb_trans].
  intros a b. by rewrite <- rated_ge_leb.
Qed.

Lemma sort_by_rating_rated r l :
  filter (rated r) (sort_by_rating l) = filter (rated r) l.
Proof.
  apply sort_desc_filter. unfold rated, rating_leb.
  intros x y Hx%Qeq_bool_iff Hy%Qeq_bool_iff. apply Qle_bool_iff.
  rewrite Hx, Hy. apply Qle_refl.
Qed.

(** sorted(books, key=rating, reverse=True) loses and adds no book,
    puts a higher rating before a lower one, and keeps books of equal
    rating in the order of the listing. *)
Theorem sort_by_rating_spec l :
  sort_by_rating l ≡ₚ l ∧ StronglySorted rated_ge (sort_by_rating l) ∧
  ∀ r, filter (rated r) (sort_by_rating l) = filter (rated r) l.
Proof.
  split_and!; [apply sort_by_rating_perm|apply sort_by_rating_strongly_sorted|].
  intros r. apply sort_by_rating_rated.
Qed.

Lemma matches_plain_eq q u : matches_plain q u = matches q u.
Proof. unfold matches, matches_plain. by rewrite !str_or_empty_r. Qed.

(** ** The views *)

Section views.
Context `{PyRuntime, Network}.
Implicit Types (s : site) (bs : list ui_book) (q_arg genre_arg : option string).

Lemma bind_all_books_ui {A} (k : list ui_book → M site A) s :
  (all_books_ui ≫= k) s =
    match all_books_ui s with
    | (Ok bs, s') => k bs s'
    | (Raise e, s') => (Raise e, s')
    end.
Proof. reflexivity. Qed.

(** Without a query /api/search answers the empty list and does not
    build the listing: no request, no change of state. *)
Theorem api_search_books_blank q_arg s :
  blank (default EmptyString q_arg) = true → api_search_books q_arg s = (Ok [], s).
Proof.
  intros Hb. unfold api_search_books, arg_text.
  assert (strip (arg_or q_arg EmptyString) = EmptyString) as ->; [|done].
  destruct q_arg as [x|]; simpl in *; [|done].
  apply strip_empty_iff. by rewrite str_or_empty_r.
Qed.

(** /api/search answers at most eight suggestions, each of a book of
    the listing whose title or author contains the query in lower
    case, in the order of the listing. *)
Theorem api_search_books_results q_arg s bs s' :
  blank (default EmptyString q_arg) = false →
  all_books_ui s = (Ok bs, s') →
  ∃ found, api_search_books q_arg s = (Ok (suggestion_of <$> found), s') ∧
    length found ≤ 8 ∧ found `sublist_of` bs ∧
    Forall (λ u, matches (lower (arg_text q_arg)) u = true) found.
Proof.
  intros Hb Hbs. unfold api_search_books.
  set (q := lower (arg_text q_arg)).
  assert (truthy q = true) as ->.
  { unfold q, arg_text. rewrite truthy_lower, truthy_strip.
    destruct q_arg as [x|]; simpl in *; [|done]. by rewrite str_or_empty_r, Hb. }
  cbn [negb]. rewrite bind_all_books_ui, Hbs.
  exists (take 8 (filter (λ u, matches q u = true) bs)). split_and!.
  - by rewrite fmap_take.
  - rewrite length_take. lia.
  - etrans; [apply sublist_take|apply sublist_filter].
  - apply Forall_take. by apply list.Forall_forall; intros u [? _]%list_elem_of_filter.
Qed.

(** /browse shows the books of the listing, in its order, whose genre
    is the selected one when a genre is given and which match the query
    when a query is given. *)
Theorem browse_filters genre_arg q_arg s bs s' :
  all_books_ui s = (Ok bs, s') →
  let genre := arg_text genre_arg in
  let q := lower (arg_text q_arg) in
  ∃ shown, browse genre_arg q_arg s = (Ok (shown, genre), s') ∧
    shown `sublist_of` bs ∧
    ∀ u, u ∈ shown ↔
      u ∈ bs ∧ (truthy genre = true → lower (ui_genre u) = lower genre) ∧
      (truthy q = true → matches q u = true).
Proof.
  intros Hbs genre q. unfold browse. rewrite bind_all_books_ui, Hbs.
  fold genre q. eexists. split; [done|].
  destruct (truthy genre), (truthy q); (split; [|intros u]).
  all: rewrite ?list_elem_of_filter, ?str_or_empty_r;
    try (by repeat (etrans; [apply sublist_filter|])); naive_solver.
Qed.

(** /top-rated shows the books of the listing that match the query,
    highest rating first. *)
Theorem top_rated_sorted q_arg s bs s' :
  all_books_ui s = (Ok bs, s') →
  ∃ shown, top_rated q_arg s = (Ok shown, s') ∧
    StronglySorted rated_ge shown ∧
    ∀ u, u ∈ shown ↔
      u ∈ bs ∧ (truthy (lower (arg_text q_arg)) = true →
                matches (lower (arg_text q_arg)) u = true).
Proof.
  intros Hbs. unfold top_rated. rewrite bind_all_books_ui, Hbs.
  eexists. split; [done|]. pose proof (sort_by_rating_strongly_sorted bs) as Hs.
  pose proof (sort_by_rating_perm bs) as Hp.
  destruct (truthy _); (split; [|intros u]).
  - by apply StronglySorted_filter.
  - rewrite list_elem_of_filter, matches_plain_eq, Hp. naive_solver.
  - done.
  - rewrite Hp. naive_solver.
Qed.

(** The home page features the first book of the listing and shows
    the six books of highest rating. *)
Theorem home_top_rated s bs s' :
  all_books_ui s = (Ok bs, s') →
  ∃ featured top, home s = (Ok (Some featured, top), s') ∧
    head bs = Some featured ∧ ui_title featured = "The Great Gatsby" ∧
    length top = 6 ∧ StronglySorted rated_ge top ∧
    top = take 6 (sort_by_rating bs).
Proof.
  intros Hbs. unfold home. rewrite bind_all_books_ui, Hbs.
  destruct (all_books_ui_length _ _ _ Hbs) as [Hlen Ht].
  destruct bs as [|b bs]; [done|]. exists b, (take 6 (sort_by_rating (b :: bs))).
  split_and!; try done.
  - by injection Ht.
  - rewrite length_take, sort_by_rating_perm. lia.
  - apply StronglySorted_take, sort_by_rating_strongly_sorted.
Qed.

(** The views change the state as the listing does, or not at all. *)
Lemma views_state s :
  (home s).2 = (all_books_ui s).2 ∧
  (∀ genre_arg q_arg, (browse genre_arg q_arg s).2 = (all_books_ui s).2) ∧
  (∀ q_arg, (top_rated q_arg s).2 = (all_books_ui s).2) ∧
  (∀ q_arg, (api_search_books q_arg s).2 = s ∨
            (api_search_books q_arg s).2 = (all_books_ui s).2).
Proof.
  unfold home, browse, top_rated, api_search_books. split_and!; intros;
    try (destruct (negb _); [by left|right]); monad_unfold;
    by destruct (all_books_ui s) as [[bs|e] s1].
Qed.

End views.

(** ** Witnesses *)

Lemma first_listing_eq : @all_books_ui demo_runtime offline cold_site = first_listing.
Proof. reflexivity. Qed.

Lemma first_listing_Ok :
  first_listing = (Ok (from_outcome [] first_listing.1), first_listing.2).
Proof. apply pair_eq_fst. vm_compute. reflexivity. Qed.

Lemma books_ui_spec_witness :
  let bs := from_outcome [] first_listing.1 in
  let s' := first_listing.2 in
  bs = listing_of BOOKS s' ∧ all_cached BOOKS s' ∧ pending (site_books s') = [] ∧
  site_net cold_site `prefix_of` site_net s' ∧ site_cache cold_site ⊆ site_cache s' ∧
  rows (site_books s') = rows (site_books cold_site) ∧
  site_reviews s' = site_reviews cold_site.
Proof.
  apply (@books_ui_spec demo_runtime offline BOOKS cold_site).
  etrans; [apply first_listing_eq|apply first_listing_Ok].
Defined.

Lemma books_ui_idempotent_witness :
  @books_ui demo_runtime offline BOOKS first_listing.2 =
    (Ok (from_outcome [] first_listing.1), first_listing.2).
Proof.
  apply (@books_ui_idempotent demo_runtime offline BOOKS cold_site).
  etrans; [apply first_listing_eq|apply first_listing_Ok].
Defined.

Lemma books_ui_covers_witness :
  Forall (λ u, truthy (ui_cover u) = true) (from_outcome [] first_listing.1).
Proof.
  apply (@books_ui_covers demo_runtime offline BOOKS cold_site _ first_listing.2).
  etrans; [apply first_listing_eq|apply first_listing_Ok].
Defined.

Lemma all_books_ui_length_witness :
  length (from_outcome [] first_listing.1) = 9 + length (visible (site_books first_listing.2)) ∧
  ui_title <$> take 9 (from_outcome [] first_listing.1) = demo_title <$> BOOKS.
Proof.
  apply (@all_books_ui_length demo_runtime offline cold_site).
  etrans; [apply first_listing_eq|apply first_listing_Ok].
Defined.

Lemma books_ui_raises_witness :
  ∃ b n data, b ∈ take 1 BOOKS ∧
    @respond (always (JList [])) n
      (@best_match_request demo_runtime (strip (demo_title b)) (strip (demo_author b)) 15)
      = Ok data ∧ wf_response data = false.
Proof.
  apply (@books_ui_raises demo_runtime (always (JList [])) (take 1 BOOKS) cold_site
           AttributeError); reflexivity.
Defined.

Lemma api_search_books_blank_witness :
  @api_search_books demo_runtime offline (Some "  ") cold_site = (Ok [], cold_site).
Proof. apply (@api_search_books_blank demo_runtime offline (Some "  ")). reflexivity. Defined.

Lemma api_search_books_results_witness :
  ∃ found, @api_search_books demo_runtime offline (Some "Orwell") cold_site =
             (Ok (suggestion_of <$> found), first_listing.2) ∧
    length found ≤ 8 ∧ found `sublist_of` from_outcome [] first_listing.1 ∧
    Forall (λ u, matches (lower (arg_text (Some "Orwell"))) u = true) found.
Proof.
  apply (@api_search_books_results demo_runtime offline (Some "Orwell") cold_site);
    [reflexivity|]. etrans; [apply first_listing_eq|apply first_listing_Ok].
Defined.

Lemma browse_filters_witness :
  let genre := arg_text (Some "classics") in
  let q := lower (arg_text None) in
  ∃ shown, @browse demo_runtime offline (Some "classics") None cold_site =
             (Ok (shown, genre), first_listing.2) ∧
    shown `sublist_of` from_outcome [] first_listing.1 ∧
    ∀ u, u ∈ shown ↔
      u ∈ from_outcome [] first_listing.1 ∧
      (truthy genre = true → lower (ui_genre u) = lower genre) ∧
      (truthy q = true → matches q u = true).
Proof.
  apply (@browse_filters demo_runtime offline (Some "classics") None cold_site).
  etrans; [apply first_listing_eq|apply first_listing_Ok].
Defined.

Lemma top_rated_sorted_witness :
  ∃ shown, @top_rated demo_runtime offline None cold_site = (Ok shown, first_listing.2) ∧
    StronglySorted rated_ge shown ∧
    ∀ u, u ∈ shown ↔
      u ∈ from_outcome [] first_listing.1 ∧
      (truthy (lower (arg_text None)) = true → matches (lower (arg_text None)) u = true).
Proof.
  apply (@top_rated_sorted demo_runtime offline None cold_site).
  etrans; [apply first_listing_eq|apply first_listing_Ok].
Defined.

Lemma home_top_rated_witness :
  ∃ featured top, @home demo_runtime offline cold_site =
                    (Ok (Some featured, top), first_listing.2) ∧
    head (from_outcome [] first_listing.1) = Some featured ∧
    ui_title featured = "The Great Gatsby" ∧
    length top = 6 ∧ StronglySorted rated_ge top ∧
    top = take 6 (sort_by_rating (from_outcome [] first_listing.1)).
Proof.
  apply (@home_top_rated demo_runtime offline cold_site).
  etrans; [apply first_listing_eq|apply first_listing_Ok].
Defined.

(** The first listing of a process without network: nine requests, nine
    cache entries, the covers of the source. *)
Example first_listing_offline :
  length (site_net first_listing.2) = 9 ∧
  size (site_cache first_listing.2) = 9 ∧
  head (from_outcome [] first_listing.1) = Some ui_gatsby.
Proof. by vm_compute. Qed.

Example sort_by_rating_example :
  ui_title <$> sort_by_rating [ui_dune (3 # 1); ui_gatsby; ui_dune (44 # 10); ui_dune (5 # 1)]
    = ["Dune"; "The Great Gatsby"; "Dune"; "Dune"] ∧
  ui_rating <$> sort_by_rating [ui_dune (3 # 1); ui_gatsby; ui_dune (44 # 10); ui_dune (5 # 1)]
    = [5 # 1; 440 # 100; 44 # 10; 3 # 1].
Proof. by vm_compute. Qed.
