(* ===== verification/Reviews.v ===== *)
(** * Reviews: the page of a book, its reviews and the form that adds one
      ([book_details], [book_reviews], [add_review], [my_reviews],
      [profile_page])

    The handlers look a book up by its title in the listing, read the
    [Review] rows of that title newest first, and name the author of each
    review.  [book_details] also makes sure the book has a row in the
    [Book] table, asks for a description and lists the best rated books;
    [add_review] appends a row.  The rows of the [User] table
    ([Accounts.User]) are only read here, so they are a parameter; the clock is read once per
    request.  Where two reviews carry the same instant the database is
    free to order them; the model keeps them in insertion order. *)

From Stdlib Require Import ZArith Lia QArith Ascii.
From stdpp Require Import base tactics option list sorting strings gmap.
From S2P Require Import Prelude PyStr Json Flask Cover Http Fixtures Matcher Db Accounts.
From S2P Require Import Catalog Description TimeAgo Listing.

(** ** Definitions *)

(** The primary key of [Review]; no column is under a constraint. *)
#[export, refine] Instance Review_row : Row Review () := {|
  row_id := review_id;
  with_id := λ i r, mkReview i (review_user_id r) (review_book_title r)
                      (review_book_author r) (review_book_cover r) (review_rating r)
                      (review_text r) (review_created r);
  unique_key := λ _, None;
|}.
Proof. all: done. Defined.

(** [r.user]: the relationship loads the row of [r.user_id], if any. *)
Definition user_of (users : list User) (r : Review) : option User :=
  List.find (λ u, bool_decide (user_id u = review_user_id r)) users.

(** The name shown beside a review: the handle, else the name, else the
    local part of the e-mail address, else ["reader"]. *)
Definition display_user (u : option User) : string :=
  let display_user :=
    match u with
    | Some u =>
        strip (str_or (str_or (user_handle u) (user_name u))
                 (if truthy (user_email u) then split_head "@"%char (user_email u)
                  else EmptyString))
    | None => EmptyString
    end in
  if negb (truthy display_user) then "reader" else display_user.

(** A review as the templates get it; the last field is its age on the
    page of the book and its instant on the page of the reviews. *)
Record review_card (T : Type) : Type := Card {
  card_user : string;
  card_rating : Z;
  card_text : string;
  card_when : T;
}.
Arguments Card {T} _ _ _ _.
Arguments card_user {T} _.
Arguments card_rating {T} _.
Arguments card_text {T} _.
Arguments card_when {T} _.

(** The body of the loop that builds the dicts. *)
Definition card_of {T} (users : list User) (when : Review → T) (r : Review)
  : review_card T :=
  Card (display_user (user_of users r)) (review_rating r) (strip (review_text r)) (when r).

(** The key of [order_by(Review.created.desc())]. *)
Definition created_leb (a b : Review) : bool := (review_created a <=? review_created b)%Z.

(** [Review.query.filter(p).order_by(Review.created.desc()).all()] *)
Definition newest_first (p : Review → Prop) `{∀ r, Decision (p r)}
    (reviews : list Review) : list Review :=
  sort_desc created_leb (filter p reviews).

(** The reviews of a title and the reviews of a user. *)
Definition of_title (title : string) (r : Review) : Prop := review_book_title r = title.
Definition of_user (uid : Z) (r : Review) : Prop := review_user_id r = uid.

#[export] Instance of_title_dec title r : Decision (of_title title r).
Proof. unfold of_title. apply _. Defined.

#[export] Instance of_user_dec uid r : Decision (of_user uid r).
Proof. unfold of_user. apply _. Defined.

(** [next((b for b in books if (b.get("title") or "").lower() == key), None)] *)
Definition find_title (key : string) (books : list ui_book) : option ui_book :=
  List.find (λ b, bool_decide (lower (str_or (ui_title b) EmptyString) = key)) books.

Definition DEFAULT_DESCRIPTION : string :=
  "A gripping, imaginative novel that explores power, control, and identity. " +:+
  "This edition features a modern cover while preserving the timeless themes.".

(** [book = dict(book); book["rating"] = avg_rating] *)
Definition with_rating (b : ui_book) (rating : Q) : ui_book :=
  mkUiBook (ui_title b) (ui_author b) (ui_genre b) (ui_year b) (ui_cover b) rating.

(** What [book_details] gives to its template. *)
Record details : Type := Details {
  det_book : ui_book;
  det_book_id : option Z;
  det_description : string;
  det_reviews : list (review_card string);
  det_top_rated : list ui_book;
}.

Definition not_found : page := Redirect "browse" "Book not found." "error".

(** The handler of [GET /book-details/<title>]. *)
Definition book_details `{PyRuntime, Network} (users : list User) (now : Z)
    (title : string) : M site (page + details) :=
  books ← all_books_ui;
  match find_title (lower (str_or title EmptyString)) books with
  | None => mret (inl not_found)
  | Some book =>
      reviews ← gets site_reviews;
      let real_reviews := take 25 (newest_first (of_title (ui_title book)) reviews) in
      bk_row ← on_books (get_or_create_book_row book);
      let book_id := Catalog.book_id <$> bk_row in
      let avg := avg_rating (ui_title book) reviews in
      let book := with_rating book (default 0%Q avg) in
      let reviews_for_template :=
        card_of users (λ r, _time_ago now (Some (review_created r))) <$> real_reviews in
      text ← on_net (_ol_description_for (ui_title book) (ui_author book) 10);
      let description := str_or text DEFAULT_DESCRIPTION in
      all ← all_books_ui;
      let top_rated := take 8 (sort_by_rating all) in
      mret (inr (Details book book_id description reviews_for_template top_rated))
  end.

(** What [book_reviews] gives to its template. *)
Record reviews_page : Type := ReviewsPage {
  rp_book : ui_book;
  rp_reviews : list (review_card Z);
  rp_avg_rating : Q;
  rp_review_count : nat;
}.

(** The handler of [GET /book/<title>/reviews]. *)
Definition book_reviews `{PyRuntime, Network} (users : list User) (title : string)
  : M site (page + reviews_page) :=
  books ← all_books_ui;
  match find_title (lower (str_or title EmptyString)) books with
  | None => mret (inl not_found)
  | Some book =>
      reviews ← gets site_reviews;
      let rows := newest_first (of_title (ui_title book)) reviews in
      let avg := avg_rating (ui_title book) reviews in
      mret (inr (ReviewsPage book (card_of users review_created <$> rows)
                   (default 0%Q avg) (length rows)))
  end.

(** [request.form] of [/add-review]. *)
Record review_form : Type := ReviewForm {
  rf_book_title : option string;
  rf_review : option string;
  rf_rating : option string;
}.

(** [Review(user_id=..., book_title=bk["title"], ...)], inserted at [now]. *)
Definition new_review (uid now : Z) (bk : ui_book) (rating : Z) (text : string) : Review :=
  mkReview 0 uid (ui_title bk) (ui_author bk) (ui_cover bk) rating text now.

(** The row as it is inserted: with the next primary key. *)
Definition stored (reviews : list Review) (r : Review) : Review :=
  with_id (next_id reviews) r.

(** The state once the row is inserted. *)
Definition saved (s : site) (r : Review) : site :=
  Site (site_net s) (site_cache s) (site_books s)
       (site_reviews s ++ [stored (site_reviews s) r]).

(** [db.session.add(review); db.session.commit()] *)
Definition save_review (r : Review) : M site unit :=
  modify (λ s, saved s r) ;; on_books commit.

Definition no_review : page :=
  Redirect "add_review" "Pick a book and write a review first." "error".

Definition thanks : page := Redirect "profile_page" "Thanks for your review!" "ok".

(** The handler of [/add-review] for the user [uid]; [None] is a GET,
    which renders the form with the listing. *)
Definition add_review `{PyRuntime, Network} (uid now : Z) (post : option review_form)
  : M site (page + list ui_book) :=
  match post with
  | Some form =>
      let book_title := arg_text (rf_book_title form) in
      let review_text := arg_text (rf_review form) in
      rating ← lift (S := site) (arg_int (rf_rating form));
      books ← all_books_ui;
      match find_title (lower book_title) books with
      | Some bk =>
          if negb (truthy review_text) then mret (inl no_review) else
          save_review (new_review uid now bk rating review_text) ;;
          mret (inl thanks)
      | None => mret (inl no_review)
      end
  | None => books ← all_books_ui; mret (inr books)
  end.

(** The handler of [GET /my-reviews]. *)
Definition my_reviews (uid : Z) : M site (list Review) :=
  gets (λ s, newest_first (of_user uid) (site_reviews s)).

(** What [profile_page] gives to its template: name, handle and bio of
    the user, and the six latest reviews. *)
Definition profile_page (user : User) : M site (string * string * string * list Review) :=
  let name := str_or (user_name user) EmptyString in
  let handle := str_or (user_handle user) EmptyString in
  let bio := str_or (user_bio user) EmptyString in
  recent ← gets (λ s, take 6 (newest_first (of_user (user_id user)) (site_reviews s)));
  mret (name, handle, bio, recent).

(** The states a review form of the user [uid] can leave. *)
Definition left_by `{PyRuntime, Network} (uid : Z) (s s' : site) : Prop :=
  s' = s ∨ s' = (all_books_ui s).2 ∨
  ∃ r, review_user_id r = uid ∧ s' = saved (all_books_ui s).2 r.

(** [a] was written no earlier than [b]. *)
Definition newer (a b : Review) : Prop := (review_created b ≤ review_created a)%Z.

(** Primary keys of the reviews are distinct and positive. *)
Definition reviews_wf (reviews : list Review) : Prop :=
  NoDup (review_id <$> reviews) ∧ Forall (λ r, (0 < review_id r)%Z) reviews.

(** Three users: one with a handle, one with a name only, one with an
    e-mail address only. *)
Definition users_demo : list User := [
  mkUser 1 "ada@example.org" "" "Ada" " @ada " "";
  mkUser 2 "bob@example.org" "" "Bob" "" "";
  mkUser 3 "cy@example.org" "" "" "" ""
].

(** Reviews of one book by these users and by a user without a row. *)
Definition reviews_demo : list Review := [
  mkReview 1 1 "The Great Gatsby" "F. Scott Fitzgerald" "" 5 " Superb. " 1000;
  mkReview 2 2 "The Great Gatsby" "F. Scott Fitzgerald" "" 3 "Fine." 3000;
  mkReview 3 3 "Moby-Dick" "Herman Melville" "" 4 "Long." 2000;
  mkReview 4 9 "The Great Gatsby" "F. Scott Fitzgerald" "" 4 "Good." 2000
].

(** A process that has listed its books once, with these reviews. *)
Definition reviewed_site : site :=
  Site (site_net warm_site) (site_cache warm_site) (site_books warm_site) reviews_demo.

(** The page of The Great Gatsby two hours after the last review, with
    the network down. *)
Definition gatsby_page : outcome (page + details) * site :=
  @book_details demo_runtime offline users_demo 7200003000 "the great gatsby" reviewed_site.

Definition gatsby_details : details :=
  Eval vm_compute in
    match gatsby_page.1 with
    | Ok (inr d) => d
    | _ => Details ui_gatsby None EmptyString [] []
    end.

(** A review of 1984 by the second user, and the state it leaves. *)
Definition form_1984 (rating : string) : review_form :=
  ReviewForm (Some " 1984 ") (Some " A warning. ") (Some rating).

Definition site_1984 : site :=
  (@add_review demo_runtime offline 2 7200003000 (Some (form_1984 "5")) reviewed_site).2.

(** A process whose listing needs no request and no flush: every demo
    book is cached and nothing waits in the session. *)
Definition ready (s : site) : Prop := all_cached BOOKS s ∧ clean (site_books s).

(** The page of the book [b] as a function of the state [s1] in which
    the listing leaves the process. *)
Definition details_of `{PyRuntime, Network} (users : list User) (now : Z) (b : ui_book)
    (s1 : site) : outcome (page + details) * site :=
  let reviews := site_reviews s1 in
  let row := ensured b (rows (site_books s1)) in
  let text := _ol_description_for (ui_title b) (ui_author b) 10 (site_net s1) in
  let s3 := Site text.2 (site_cache s1) (Table row.2 [] []) reviews in
  match text.1 with
  | Ok d =>
      (Ok (inr (Details (with_rating b (default 0%Q (avg_rating (ui_title b) reviews)))
                  (Catalog.book_id <$> row.1) (str_or d DEFAULT_DESCRIPTION)
                  (card_of users (λ r, _time_ago now (Some (review_created r))) <$>
                     take 25 (newest_first (of_title (ui_title b)) reviews))
                  (take 8 (sort_by_rating (listing_of BOOKS s3))))), s3)
  | Raise e => (Raise e, s3)
  end.

(** ** Lemmas *)

(** *** The order of the reviews *)

Lemma created_leb_total a b : created_leb a b = false → created_leb b a = true.
Proof. unfold created_leb. lia. Qed.

Lemma created_leb_trans a b c :
  created_leb a b = true → created_leb b c = true → created_leb a c = true.
Proof. unfold created_leb. lia. Qed.

Section newest_first.
Context (p : Review → Prop) `{∀ r, Decision (p r)}.
Implicit Types (r : Review) (l : list Review).

Lemma newest_first_perm l : newest_first p l ≡ₚ filter p l.
Proof. apply sort_desc_perm. Qed.

Lemma newest_first_elem_of r l : r ∈ newest_first p l ↔ p r ∧ r ∈ l.
Proof. by rewrite newest_first_perm, list_elem_of_filter. Qed.

Lemma newest_first_length l : length (newest_first p l) ≤ length l.
Proof. rewrite newest_first_perm. apply length_filter. Qed.

Lemma newest_first_sorted l : StronglySorted newer (newest_first p l).
Proof.
  eapply StronglySorted_impl; [|apply (sort_desc_sorted created_leb);
    eauto using created_leb_total, created_leb_trans].
  unfold newer, created_leb. intros a b. lia.
Qed.

(** A review that is the last to be written and later than all others
    is listed first. *)
Lemma newest_first_snoc r l :
  p r → Forall (λ a, (review_created a < review_created r)%Z) l →
  newest_first p (l ++ [r]) = r :: newest_first p l.
Proof.
  intros Hr Hl. unfold newest_first. rewrite filter_app, filter_cons_True, filter_nil by done.
  apply sort_desc_snoc_max, Forall_sublist with l; [apply sublist_filter|].
  eapply Forall_impl; [exact Hl|]. unfold created_leb. simpl. lia.
Qed.

End newest_first.

(** *** The name beside a review *)

Lemma or_reader_truthy d : truthy (if negb (truthy d) then "reader" else d) = true.
Proof. by destruct d. Qed.

Lemma or_reader_trimmed d :
  trimmed d = true → trimmed (if negb (truthy d) then "reader" else d) = true.
Proof. by destruct d. Qed.

Lemma display_user_truthy u : truthy (display_user u) = true.
Proof. apply or_reader_truthy. Qed.

Lemma display_user_trimmed u : trimmed (display_user u) = true.
Proof. apply or_reader_trimmed. destruct u; [apply strip_trimmed|done]. Qed.

Lemma display_user_none : display_user None = "reader".
Proof. done. Qed.

(** A handle that is not blank is shown, stripped. *)
Lemma display_user_handle x :
  blank (user_handle x) = false → display_user (Some x) = strip (user_handle x).
Proof.
  intros Hb. unfold display_user.
  rewrite !(str_or_truthy (user_handle x)) by (by apply truthy_iff, blank_empty_or_not).
  by rewrite truthy_strip, Hb.
Qed.

(** A handle of white space hides the name and the address. *)
Lemma display_user_blank_handle x :
  truthy (user_handle x) = true → blank (user_handle x) = true →
  display_user (Some x) = "reader".
Proof.
  intros Ht Hb. unfold display_user. rewrite !(str_or_truthy (user_handle x)) by done.
  by rewrite truthy_strip, Hb.
Qed.

Lemma card_of_user {T} users (when : Review → T) r :
  truthy (card_user (card_of users when r)) = true ∧
  trimmed (card_user (card_of users when r)) = true ∧
  trimmed (card_text (card_of users when r)) = true.
Proof.
  split_and!; [apply display_user_truthy|apply display_user_trimmed|apply strip_trimmed].
Qed.

(** *** Looking a book up by its title *)

Lemma find_title_Some key bs b :
  find_title key bs = Some b → b ∈ bs ∧ lower (ui_title b) = key.
Proof.
  intros [Hin Hb]%find_some. split; [by apply list_elem_of_In|].
  apply bool_decide_eq_true in Hb. by rewrite str_or_empty_r in Hb.
Qed.

Lemma find_title_None key bs :
  find_title key bs = None ↔ Forall (λ b, lower (ui_title b) ≠ key) bs.
Proof.
  unfold find_title. rewrite Forall_forall. split.
  - intros Hf b Hb%list_elem_of_In. pose proof (find_none _ _ Hf b Hb) as Hn.
    apply bool_decide_eq_false in Hn. by rewrite str_or_empty_r in Hn.
  - intros Hall. destruct (List.find _ bs) as [b|] eqn:Ef; [|done].
    apply find_some in Ef as [Hin%list_elem_of_In Hb%bool_decide_eq_true].
    rewrite str_or_empty_r in Hb. by destruct (Hall b Hin).
Qed.

(** The primary keys stay distinct when a review is saved. *)
Lemma reviews_wf_snoc l r :
  reviews_wf l → reviews_wf (l ++ [with_id (next_id l) r]).
Proof.
  intros [Hn Hp]. split.
  - rewrite fmap_app. apply NoDup_app. split_and!; [done| |apply NoDup_singleton].
    intros i Hi ->%list_elem_of_singleton. by apply (next_id_fresh l).
  - apply Forall_app. split; [done|]. constructor; [|done]. apply (next_id_pos l).
Qed.

(** A lookup by title is decided by the titles alone. *)
Lemma find_title_titles key bs bs' b :
  ui_title <$> bs' = ui_title <$> bs → find_title key bs = Some b →
  ∃ b', find_title key bs' = Some b' ∧ ui_title b' = ui_title b.
Proof.
  revert bs'. induction bs as [|x bs IH]; intros [|x' bs']; try done.
  intros [= Hx Hbs]. unfold find_title. simpl. rewrite Hx.
  case_bool_decide; [|by apply IH]. intros [= <-]. by exists x'.
Qed.

(** *** The handlers *)

Section handlers.
Context `{PyRuntime, Network}.
Implicit Types (s : site) (bs : list ui_book) (users : list User) (b : ui_book).

Lemma all_books_ui_ready s : ready s → all_books_ui s = (Ok (listing_of BOOKS s), s).
Proof. intros [Hc [_ Hp]]. by apply books_ui_cached. Qed.

Lemma all_books_ui_leaves_ready s bs s' :
  clean (site_books s) → all_books_ui s = (Ok bs, s') →
  ready s' ∧ bs = listing_of BOOKS s' ∧
  site_books s' = site_books s ∧ site_reviews s' = site_reviews s.
Proof.
  intros Hc Hall. destruct (books_ui_clean _ _ _ _ Hc Hall) as [Hb Hr].
  apply books_ui_ok in Hall as (-> & Ha & _). unfold ready. by rewrite Hb.
Qed.

Lemma book_reviews_run users title s bs s' :
  all_books_ui s = (Ok bs, s') →
  book_reviews users title s =
    (Ok match find_title (lower title) bs with
        | None => inl not_found
        | Some b =>
            let rows := newest_first (of_title (ui_title b)) (site_reviews s) in
            inr (ReviewsPage b (card_of users review_created <$> rows)
                   (default 0%Q (avg_rating (ui_title b) (site_reviews s))) (length rows))
        end, s').
Proof.
  intros Hall. unfold book_reviews. rewrite bind_all_books_ui, Hall, str_or_empty_r.
  apply books_ui_ok in Hall as (_ & _ & _ & _ & _ & _ & Hr).
  destruct (find_title _ _); [|done]. monad_unfold. by rewrite Hr.
Qed.

Lemma book_details_run users now title s bs s1 :
  clean (site_books s) → all_books_ui s = (Ok bs, s1) →
  book_details users now title s =
    match find_title (lower title) bs with
    | None => (Ok (inl not_found), s1)
    | Some b => details_of users now b s1
    end.
Proof.
  intros Hc Hall. unfold book_details. rewrite bind_all_books_ui, Hall, str_or_empty_r.
  destruct (all_books_ui_leaves_ready _ _ _ Hc Hall) as ([Hca Hc1] & _ & Hb & Hr).
  destruct (find_title _ _) as [b|]; [|done].
  unfold details_of, on_books, on_net, zoom, gets. unfold mbind at 1 2, M_bind.
  rewrite get_or_create_ensured by done. cbn [fst snd site_books site_net site_cache].
  unfold mbind at 1, M_bind.
  destruct (_ol_description_for _ _ _ _) as [[d|e] log]; [|done]. cbn [fst snd].
  rewrite bind_all_books_ui, all_books_ui_ready; [done|]. by split.
Qed.

Lemma details_of_inv users now b s1 d s' :
  details_of users now b s1 = (Ok (inr d), s') →
  det_book d = with_rating b (default 0%Q (avg_rating (ui_title b) (site_reviews s1))) ∧
  det_book_id d = Catalog.book_id <$> (ensured b (rows (site_books s1))).1 ∧
  det_reviews d =
    (card_of users (λ r, _time_ago now (Some (review_created r))) <$>
       take 25 (newest_first (of_title (ui_title b)) (site_reviews s1))) ∧
  det_top_rated d = take 8 (sort_by_rating (listing_of BOOKS s')) ∧
  site_books s' = Table (ensured b (rows (site_books s1))).2 [] [] ∧
  site_cache s' = site_cache s1 ∧ site_reviews s' = site_reviews s1 ∧
  site_net s' = (_ol_description_for (ui_title b) (ui_author b) 10 (site_net s1)).2.
Proof.
  unfold details_of. destruct (_ol_description_for _ _ _ _) as [[t|e] log]; [|done].
  cbn [fst snd]. intros [Hd <-]%pair_equal_spec. apply (inj Ok), (inj inr) in Hd.
  subst d. split_and!; reflexivity.
Qed.

Lemma book_details_inv users now title s d s' :
  clean (site_books s) → book_details users now title s = (Ok (inr d), s') →
  ∃ bs s1 b, all_books_ui s = (Ok bs, s1) ∧ find_title (lower title) bs = Some b ∧
             details_of users now b s1 = (Ok (inr d), s').
Proof.
  intros Hc. destruct (all_books_ui s) as [[bs|e] s1] eqn:Hall.
  - rewrite (book_details_run _ _ _ _ _ _ Hc Hall).
    destruct (find_title _ _) as [b|] eqn:Hf; [|done]. intros Hd. by exists bs, s1, b.
  - unfold book_details. by rewrite bind_all_books_ui, Hall.
Qed.

Lemma save_review_clean r s : clean (site_books s) → save_review r s = (Ok tt, saved s r).
Proof.
  intros Hc. unfold save_review, on_books, zoom, modify. unfold mbind, M_bind.
  simpl. by rewrite commit_clean.
Qed.

Lemma saved_ready s r : ready s → ready (saved s r).
Proof. by intros [Ha Hc]. Qed.

Lemma save_review_reviews r s :
  site_reviews (save_review r s).2 = site_reviews s ++ [stored (site_reviews s) r].
Proof.
  unfold save_review, on_books, zoom, modify. unfold mbind, M_bind. simpl.
  by destruct (commit _) as [[|]].
Qed.

(** The POST on a session with nothing pending, branch by branch. *)
Lemma add_review_post uid now form s bs s' :
  clean (site_books s) → all_books_ui s = (Ok bs, s') →
  add_review uid now (Some form) s =
    match arg_int (rf_rating form) with
    | Raise e => (Raise e, s)
    | Ok rating =>
        match find_title (lower (arg_text (rf_book_title form))) bs with
        | Some bk =>
            if truthy (arg_text (rf_review form))
            then (Ok (inl thanks),
                  saved s' (new_review uid now bk rating (arg_text (rf_review form))))
            else (Ok (inl no_review), s')
        | None => (Ok (inl no_review), s')
        end
    end.
Proof.
  intros Hc Hall. unfold add_review. unfold mbind at 1, M_bind, lift.
  destruct (arg_int _) as [rating|e]; [|done]. rewrite bind_all_books_ui, Hall.
  destruct (all_books_ui_leaves_ready _ _ _ Hc Hall) as ([_ Hc'] & _).
  destruct (find_title _ _) as [bk|]; [|done]. destruct (truthy _); [|done]. simpl.
  unfold mbind, M_bind. by rewrite save_review_clean.
Qed.

(** *** What a handler leaves in the tables, whatever its outcome *)

Lemma book_reviews_state users title s :
  (book_reviews users title s).2 = (all_books_ui s).2.
Proof.
  unfold book_reviews. rewrite bind_all_books_ui.
  destruct (all_books_ui s) as [[bs|e] s1]; [|done]. by destruct (find_title _ _).
Qed.

(** The page of a book keeps the table well formed and the reviews as
    they are. *)
Lemma book_details_state users now title s :
  table_wf (site_books s) → clean (site_books s) →
  let s' := (book_details users now title s).2 in
  table_wf (site_books s') ∧ clean (site_books s') ∧ site_reviews s' = site_reviews s.
Proof.
  intros Hwf Hc. pose proof (books_ui_books BOOKS s Hc) as Hb.
  pose proof (books_ui_reviews BOOKS s) as Hr. fold all_books_ui in Hb, Hr.
  destruct (all_books_ui s) as [[bs|e] s1] eqn:Hall; simpl in Hb, Hr.
  2: { unfold book_details. rewrite bind_all_books_ui, Hall. simpl. by rewrite Hb, Hr. }
  rewrite (book_details_run _ _ _ _ _ _ Hc Hall).
  destruct (find_title _ _) as [b|]; simpl; [|by rewrite Hb, Hr].
  assert ((details_of users now b s1).2 =
          Site (_ol_description_for (ui_title b) (ui_author b) 10 (site_net s1)).2
               (site_cache s1) (Table (ensured b (rows (site_books s1))).2 [] [])
               (site_reviews s1)) as ->.
  { unfold details_of. by destruct (_ol_description_for _ _ _ _).1. }
  cbn [site_books site_reviews]. rewrite Hb, Hr.
  pose proof (get_or_create_book_row_wf b (site_books s) Hwf Hc) as Hg.
  rewrite get_or_create_ensured in Hg by done. by destruct Hg.
Qed.

(** The page of a book sends under the name of the program and waits
    15 seconds at most for each cover, 10 for the description. *)
Lemma book_details_polite users now title :
  keeps (via site_net (sent polite)) (book_details users now title).
Proof.
  unfold book_details, all_books_ui. solve_keeps.
Qed.

(** The page of a book stores in the cache what its listing stores. *)
Lemma book_details_keys users now title s :
  clean (site_books s) → cached_within BOOKS s (book_details users now title s).2.
Proof.
  intros Hc. pose proof (books_ui_keys BOOKS s) as Hk. fold all_books_ui in Hk.
  destruct (all_books_ui s) as [[bs|e] s1] eqn:Hall.
  - rewrite (book_details_run _ _ _ _ _ _ Hc Hall).
    destruct (find_title _ _) as [b|]; [|done]. unfold details_of.
    by destruct (_ol_description_for _ _ _ _) as [[t|e] log].
  - unfold book_details. by rewrite bind_all_books_ui, Hall.
Qed.

(** The state a review form leaves: the one it found, the one the
    listing leaves, or that one with a review of the user who posts. *)
Lemma add_review_shape uid now post s :
  clean (site_books s) → left_by uid s (add_review uid now post s).2.
Proof.
  intros Hc. pose proof (books_ui_books BOOKS s Hc) as Hb. fold all_books_ui in Hb.
  destruct post as [form|]; unfold add_review.
  2: { rewrite bind_all_books_ui. right; left. by destruct (all_books_ui s) as [[bs|e] s1]. }
  unfold mbind at 1, M_bind, lift. destruct (arg_int _); [|by left]. rewrite bind_all_books_ui.
  destruct (all_books_ui s) as [[bs|e] s1] eqn:Hall; simpl in Hb;
    [|right; left; by rewrite Hall].
  destruct (find_title _ _) as [bk|]; [|right; left; by rewrite Hall].
  destruct (truthy _); [|right; left; by rewrite Hall]. cbn [negb]. unfold mbind, M_bind.
  rewrite save_review_clean by (by rewrite Hb). right; right. rewrite Hall. eexists. split; [|reflexivity]. done.
Qed.

(** A review form leaves the [Book] table as it is and adds at most one
    review, of the user who posts it. *)
Lemma add_review_state uid now post s :
  clean (site_books s) →
  let s' := (add_review uid now post s).2 in
  site_books s' = site_books s ∧
  (site_reviews s' = site_reviews s ∨
   ∃ r, review_user_id r = uid ∧ site_reviews s' = site_reviews s ++ [stored (site_reviews s) r]).
Proof.
  intros Hc s'. pose proof (books_ui_books BOOKS s Hc) as Hb.
  pose proof (books_ui_reviews BOOKS s) as Hr. fold all_books_ui in Hb, Hr.
  destruct (add_review_shape uid now post s Hc) as [E | [E | (r & Hu & E)]];
    fold s' in E; rewrite E; [(split; [done|by left])..|].
  cbn [saved site_books site_reviews]. rewrite Hb, Hr. split; [done|]. right. by exists r.
Qed.

End handlers.

(** ** Theorems *)

(** The reviews a query returns are the reviews that satisfy its filter,
    each once, the newest first, and those of one instant in the order in
    which they were written. *)
Theorem newest_first_spec (p : Review → Prop) `{∀ r, Decision (p r)} l :
  newest_first p l ≡ₚ filter p l ∧
  StronglySorted newer (newest_first p l) ∧
  ∀ t, filter (λ r, review_created r = t) (newest_first p l) =
       filter (λ r, review_created r = t) (filter p l).
Proof.
  split_and!; [apply newest_first_perm|apply newest_first_sorted|].
  intros t. apply sort_desc_filter. unfold created_leb. intros x y -> ->. lia.
Qed.

(** The name beside a review is never empty and carries no white space
    around it, whoever wrote the review; the text is stripped. *)
Theorem review_author_shown {T} users (when : Review → T) r :
  truthy (card_user (card_of users when r)) = true ∧
  trimmed (card_user (card_of users when r)) = true ∧
  trimmed (card_text (card_of users when r)) = true.
Proof. apply card_of_user. Qed.

(** A handle that consists of white space hides the name and the
    address of the user: the review is signed "reader". *)
Theorem review_author_blank_handle x :
  truthy (user_handle x) = true → blank (user_handle x) = true →
  display_user (Some x) = "reader".
Proof. apply display_user_blank_handle. Qed.

Section pages.
Context `{PyRuntime, Network}.
Implicit Types (s : site) (bs : list ui_book) (users : list User) (b : ui_book).

(** C19. The page of a book, on a session with nothing pending: a title that
    no book of the listing has, letter case apart, is answered with the
    redirect to /browse; otherwise the first such book is shown with the
    average of its reviews as its rating, its row in the table (created
    if there was none), its 25 latest reviews, the description or the
    default text, and the eight best rated books of a second listing,
    which sends no request. *)
Theorem book_details_spec users now title s bs s1 :
  clean (site_books s) → all_books_ui s = (Ok bs, s1) →
  book_details users now title s =
    match find_title (lower title) bs with
    | None => (Ok (inl not_found), s1)
    | Some b => details_of users now b s1
    end.
Proof. apply book_details_run. Qed.

(** The reviews on the page of a book are at most 25 reviews of that
    title, the newest first. *)
Theorem book_details_reviews users now title s d s' :
  clean (site_books s) → book_details users now title s = (Ok (inr d), s') →
  ∃ rs, det_reviews d =
          (card_of users (λ r, _time_ago now (Some (review_created r))) <$> rs) ∧
        length rs ≤ 25 ∧ StronglySorted newer rs ∧
        Forall (λ r, review_book_title r = ui_title (det_book d) ∧ r ∈ site_reviews s) rs.
Proof.
  intros Hc (bs & s1 & b & Hall & Hf & Hd)%book_details_inv; [|done].
  apply details_of_inv in Hd as (-> & _ & -> & _).
  destruct (books_ui_clean _ _ _ _ Hc Hall) as [_ ->].
  eexists. split_and!; [done|rewrite length_take; lia| |].
  - apply StronglySorted_take, newest_first_sorted.
  - apply Forall_take, Forall_forall. intros r Hr. by apply newest_first_elem_of in Hr.
Qed.

(** Showing the page of a book stores the book: afterwards the table has
    a row of its stripped title and author. *)
Theorem book_details_stores_book users now title s d s' :
  clean (site_books s) → book_details users now title s = (Ok (inr d), s') →
  blank (ui_title (det_book d)) = false → blank (ui_author (det_book d)) = false →
  has_book (strip (ui_title (det_book d))) (strip (ui_author (det_book d)))
    (rows (site_books s')) ∧ clean (site_books s').
Proof.
  intros Hc (bs & s1 & b & Hall & Hf & Hd)%book_details_inv; [|done].
  apply details_of_inv in Hd as (-> & _ & _ & _ & -> & _). simpl. intros Ht Ha.
  split; [|done]. apply ensured_has_book; by rewrite truthy_strip, ?Ht, ?Ha.
Qed.

(** C35. When the table had no row for the book, the listing has one more
    entry after the page was shown: the book is listed a second time,
    under its stripped title. *)
Theorem book_details_lists_twice users now title s d s' :
  clean (site_books s) → book_details users now title s = (Ok (inr d), s') →
  let b := det_book d in
  blank (ui_title b) = false → blank (ui_author b) = false →
  ¬ has_book (strip (ui_title b)) (strip (ui_author b)) (rows (site_books s)) →
  ∃ bs s1 b0,
    all_books_ui s = (Ok bs, s1) ∧ b0 ∈ bs ∧ ui_title b0 = ui_title b ∧
    listing_of BOOKS s' =
      bs ++ [ui_of_row (site_reviews s) (created_row b0 (rows (site_books s)))].
Proof.
  intros Hc (bs & s1 & b0 & Hall & Hf & Hd)%book_details_inv; [|done].
  apply details_of_inv in Hd as (-> & _ & _ & _ & Hb & Hca & Hr & _). simpl.
  intros Ht Ha Hn. exists bs, s1, b0.
  destruct (all_books_ui_leaves_ready _ _ _ Hc Hall) as ([_ [Hx _]] & -> & Hb1 & Hr1).
  apply find_title_Some in Hf as [Hin _]. split_and!; [done..|].
  rewrite <- Hr1. apply listing_of_snoc; [done..|].
  unfold visible. rewrite Hb, Hx, Hb1. cbn [rows txn]. unfold ensured.
  rewrite !truthy_strip, Ht, Ha. cbn [negb andb].
  apply find_by_title_author_None in Hn. rewrite Hn. cbn [snd].
  by rewrite !app_nil_r.
Qed.

(** The page of a book costs at most one listing and the two requests
    of the description. *)
Theorem book_details_requests users now title s :
  clean (site_books s) →
  length (site_net (book_details users now title s).2) ≤
    length (site_net s) + length BOOKS + 2.
Proof.
  intros Hc. pose proof (books_ui_net_length BOOKS s) as Hl. fold all_books_ui in Hl.
  destruct (all_books_ui s) as [[bs|e] s1] eqn:Hall.
  - rewrite (book_details_run _ _ _ _ _ _ Hc Hall). simpl in Hl.
    destruct (find_title _ _) as [b|]; [|simpl; lia]. unfold details_of.
    pose proof (description_at_most_two_requests (ui_title b) (ui_author b) 10 (site_net s1)).
    destruct (_ol_description_for _ _ _ _) as [[t|e] log]; simpl in *; lia.
  - unfold book_details. rewrite bind_all_books_ui, Hall. simpl in *. lia.
Qed.

(** The page of the reviews of a book: the redirect when no book has the
    title, else every review of the title, the newest first, their
    number and their average; the state is the one the listing leaves. *)
Theorem book_reviews_spec users title s bs s' :
  all_books_ui s = (Ok bs, s') →
  book_reviews users title s =
    (Ok match find_title (lower title) bs with
        | None => inl not_found
        | Some b =>
            let rows := newest_first (of_title (ui_title b)) (site_reviews s) in
            inr (ReviewsPage b (card_of users review_created <$> rows)
                   (default 0%Q (avg_rating (ui_title b) (site_reviews s))) (length rows))
        end, s').
Proof. apply book_reviews_run. Qed.

(** C23. A POST of /add-review on a session with nothing pending: a rating
    that is not a number raises before anything else is done; a title
    that no book has, letter case apart, or an empty review is refused;
    otherwise one review of the first such book is stored, with the next
    id, the user, the stripped text, the rating as given and the instant
    of the request. *)
Theorem add_review_spec uid now form s bs s' :
  clean (site_books s) → all_books_ui s = (Ok bs, s') →
  add_review uid now (Some form) s =
    match arg_int (rf_rating form) with
    | Raise e => (Raise e, s)
    | Ok rating =>
        match find_title (lower (arg_text (rf_book_title form))) bs with
        | Some bk =>
            if truthy (arg_text (rf_review form))
            then (Ok (inl thanks),
                  saved s' (new_review uid now bk rating (arg_text (rf_review form))))
            else (Ok (inl no_review), s')
        | None => (Ok (inl no_review), s')
        end
    end.
Proof. apply add_review_post. Qed.

(** A rating that [int] refuses makes the request fail, whatever the
    other fields say, and nothing is sent or stored. *)
Theorem add_review_bad_rating uid now form s e :
  arg_int (rf_rating form) = Raise e →
  add_review uid now (Some form) s = (Raise e, s).
Proof. intros He. unfold add_review. unfold mbind at 1, M_bind, lift. by rewrite He. Qed.

(** /add-review keeps the primary keys of the reviews distinct and
    positive, whatever the form, the network and the session. *)
Theorem add_review_wf uid now post s :
  reviews_wf (site_reviews s) → reviews_wf (site_reviews (add_review uid now post s).2).
Proof.
  intros Hwf. pose proof (books_ui_reviews BOOKS s) as Hr. fold all_books_ui in Hr.
  destruct post as [form|]; unfold add_review.
  2: { rewrite bind_all_books_ui. destruct (all_books_ui s) as [[bs|e] s1]; simpl in *;
       by rewrite Hr. }
  unfold mbind at 1, M_bind, lift. destruct (arg_int _); [|done]. rewrite bind_all_books_ui.
  destruct (all_books_ui s) as [[bs|e] s1]; simpl in Hr; [|by simpl; rewrite Hr].
  destruct (find_title _ _) as [bk|]; [|by simpl; rewrite Hr].
  destruct (truthy _); [|by simpl; rewrite Hr]. cbn [negb]. unfold mbind, M_bind.
  match goal with |- context [save_review ?r s1] => pose proof (save_review_reviews r s1) as Hs;
    destruct (save_review r s1) as [[[]|e] s2] end;
    simpl in *; rewrite Hs, Hr; by apply reviews_wf_snoc.
Qed.

(** A review that was accepted heads the page of the reviews of its
    book, followed by the reviews the page showed before, when it is
    later than all of them. *)
Theorem add_review_listed users uid now form s s2 :
  clean (site_books s) →
  Forall (λ r, (review_created r < now)%Z) (site_reviews s) →
  add_review uid now (Some form) s = (Ok (inl thanks), s2) →
  ∃ rp r,
    book_reviews users (arg_text (rf_book_title form)) s2 = (Ok (inr rp), s2) ∧
    last (site_reviews s2) = Some r ∧
    review_user_id r = uid ∧ review_text r = arg_text (rf_review form) ∧
    review_created r = now ∧ arg_int (rf_rating form) = Ok (review_rating r) ∧
    rp_reviews rp =
      card_of users review_created r ::
      (card_of users review_created <$>
         newest_first (of_title (review_book_title r)) (site_reviews s)).
Proof.
  intros Hc Hnow. destruct (all_books_ui s) as [[bs|e] s1] eqn:Hall.
  2: { unfold add_review. unfold mbind at 1, M_bind, lift. destruct (arg_int _); [|done].
       by rewrite bind_all_books_ui, Hall. }
  rewrite (add_review_post _ _ _ _ _ _ Hc Hall).
  destruct (all_books_ui_leaves_ready _ _ _ Hc Hall) as (Hready & -> & _ & Hr).
  destruct (arg_int _) as [rating|]; [|done].
  destruct (find_title _ _) as [bk|] eqn:Hf; [|done]. destruct (truthy _); [|done].
  intros [= <-]. set (r0 := new_review _ _ _ _ _).
  eapply find_title_titles in Hf as (b' & Hf' & Hb'); [|apply (listing_of_titles BOOKS s1)].
  rewrite (book_reviews_run users _ _ _ _ (all_books_ui_ready _ (saved_ready s1 r0 Hready))).
  unfold saved at 1. rewrite Hf'. cbn [saved site_reviews]. rewrite Hb', Hr.
  eexists _, (stored (site_reviews s) r0). split_and!; [reflexivity|apply last_snoc|reflexivity..|]. simpl.
  by rewrite (newest_first_snoc (of_title (ui_title bk))).
Qed.

(** The reviews of a user, on /my-reviews and on the profile: the
    user's own, the newest first, at most six on the profile; neither
    page changes the state. *)
Theorem my_reviews_spec user s :
  my_reviews (user_id user) s =
    (Ok (newest_first (of_user (user_id user)) (site_reviews s)), s) ∧
  ∃ recent, profile_page user s =
              (Ok (user_name user, user_handle user, user_bio user, recent), s) ∧
            recent = take 6 (newest_first (of_user (user_id user)) (site_reviews s)) ∧
            length recent ≤ 6 ∧ StronglySorted newer recent ∧
            Forall (λ r, review_user_id r = user_id user) recent.
Proof.
  split; [done|]. eexists. unfold profile_page. rewrite !str_or_empty_r.
  split_and!; [done..|rewrite length_take; lia| |].
  - apply StronglySorted_take, newest_first_sorted.
  - apply Forall_take, Forall_forall. intros r Hr.
    by apply newest_first_elem_of in Hr as [Hu _].
Qed.

End pages.

(** ** Witnesses *)

Lemma reviewed_clean : clean (site_books reviewed_site).
Proof. done. Qed.

Lemma reviewed_ready : ready reviewed_site.
Proof.
  split; [|done]. unfold all_cached. apply Forall_forall, (bool_decide_unpack (Forall _ _)).
  vm_compute. exact I.
Qed.

Lemma reviewed_listing :
  @all_books_ui demo_runtime offline reviewed_site
    = (Ok (listing_of BOOKS reviewed_site), reviewed_site).
Proof. apply all_books_ui_ready, reviewed_ready. Qed.

Lemma gatsby_page_eq :
  @book_details demo_runtime offline users_demo 7200003000 "the great gatsby" reviewed_site
    = (Ok (inr gatsby_details), gatsby_page.2).
Proof. apply pair_eq_fst. vm_compute. reflexivity. Qed.

Lemma site_1984_eq :
  @add_review demo_runtime offline 2 7200003000 (Some (form_1984 "5")) reviewed_site
    = (Ok (inl thanks), site_1984).
Proof. apply pair_eq_fst. vm_compute. reflexivity. Qed.

Lemma review_author_blank_handle_witness :
  display_user (Some (mkUser 7 "eve@example.org" "" "Eve" "  " "")) = "reader".
Proof. by apply (review_author_blank_handle (mkUser 7 "eve@example.org" "" "Eve" "  " "")). Defined.

Lemma book_details_spec_witness :
  @book_details demo_runtime offline users_demo 7200003000 "the great gatsby" reviewed_site
    = @details_of demo_runtime offline users_demo 7200003000 ui_gatsby reviewed_site.
Proof.
  apply (@book_details_spec demo_runtime offline users_demo 7200003000 "the great gatsby"
           reviewed_site _ reviewed_site reviewed_clean reviewed_listing).
Defined.

Lemma book_details_reviews_witness :
  ∃ rs, det_reviews gatsby_details =
          (card_of users_demo (λ r, _time_ago 7200003000 (Some (review_created r))) <$> rs) ∧
        length rs ≤ 25 ∧ StronglySorted newer rs ∧
        Forall (λ r, review_book_title r = ui_title (det_book gatsby_details) ∧
                     r ∈ site_reviews reviewed_site) rs.
Proof.
  apply (@book_details_reviews demo_runtime offline users_demo 7200003000 "the great gatsby"
           reviewed_site gatsby_details gatsby_page.2 reviewed_clean gatsby_page_eq).
Defined.

Lemma book_details_stores_book_witness :
  has_book "The Great Gatsby" "F. Scott Fitzgerald" (rows (site_books gatsby_page.2)) ∧
  clean (site_books gatsby_page.2).
Proof.
  by apply (@book_details_stores_book demo_runtime offline users_demo 7200003000
              "the great gatsby" reviewed_site gatsby_details gatsby_page.2 reviewed_clean
              gatsby_page_eq).
Defined.

Lemma book_details_lists_twice_witness :
  ∃ bs s1 b0,
    @all_books_ui demo_runtime offline reviewed_site = (Ok bs, s1) ∧ b0 ∈ bs ∧
    ui_title b0 = "The Great Gatsby" ∧
    listing_of BOOKS gatsby_page.2 =
      bs ++ [ui_of_row reviews_demo (created_row b0 [])].
Proof.
  apply (@book_details_lists_twice demo_runtime offline users_demo 7200003000
           "the great gatsby" reviewed_site gatsby_details gatsby_page.2 reviewed_clean
           gatsby_page_eq); [done..|].
  apply not_elem_of_nil.
Defined.

Lemma book_details_requests_witness :
  length (site_net (@book_details demo_runtime offline users_demo 7200003000
                      "the great gatsby" reviewed_site).2) ≤
    length (site_net reviewed_site) + length BOOKS + 2.
Proof.
  apply (@book_details_requests demo_runtime offline users_demo 7200003000
           "the great gatsby" reviewed_site reviewed_clean).
Defined.

Lemma book_reviews_spec_witness :
  @book_reviews demo_runtime offline users_demo "MOBY-DICK" reviewed_site =
    (Ok (inr (ReviewsPage
                (mkUiBook "Moby-Dick" "Herman Melville" "Adventure" ""
                   "https://covers.openlibrary.org/b/id/7222276-L.jpg" (390 # 100))
                [Card "cy" 4 "Long." 2000%Z] (4 # 1) 1)), reviewed_site).
Proof.
  apply (@book_reviews_spec demo_runtime offline users_demo "MOBY-DICK" reviewed_site _
           reviewed_site reviewed_listing).
Defined.

Lemma add_review_spec_witness :
  @add_review demo_runtime offline 2 7200003000 (Some (form_1984 "5")) reviewed_site =
    (Ok (inl thanks),
     saved reviewed_site
       (new_review 2 7200003000
          (mkUiBook "1984" "George Orwell" "Dystopian" ""
             "https://covers.openlibrary.org/b/id/7222246-L.jpg" (460 # 100))
          5 "A warning.")).
Proof.
  apply (@add_review_spec demo_runtime offline 2 7200003000 (form_1984 "5") reviewed_site _
           reviewed_site reviewed_clean reviewed_listing).
Defined.

Lemma add_review_bad_rating_witness :
  @add_review demo_runtime offline 2 7200003000 (Some (form_1984 "five")) reviewed_site =
    (Raise ValueError, reviewed_site).
Proof.
  by apply (@add_review_bad_rating demo_runtime offline 2 7200003000 (form_1984 "five")
              reviewed_site ValueError).
Defined.

Lemma add_review_wf_witness :
  reviews_wf (site_reviews (@add_review demo_runtime offline 2 7200003000
                              (Some (form_1984 "5")) reviewed_site).2).
Proof.
  apply (@add_review_wf demo_runtime offline 2 7200003000 (Some (form_1984 "5"))
           reviewed_site).
  split; [apply (bool_decide_unpack (NoDup _)); reflexivity|by repeat constructor].
Defined.

Lemma add_review_listed_witness :
  ∃ rp r,
    @book_reviews demo_runtime offline users_demo (arg_text (Some " 1984 ")) site_1984
      = (Ok (inr rp), site_1984) ∧
    last (site_reviews site_1984) = Some r ∧
    review_user_id r = 2%Z ∧ review_text r = "A warning." ∧
    review_created r = 7200003000%Z ∧ arg_int (Some "5") = Ok (review_rating r) ∧
    rp_reviews rp =
      card_of users_demo review_created r ::
      (card_of users_demo review_created <$>
         newest_first (of_title (review_book_title r)) reviews_demo).
Proof.
  apply (@add_review_listed demo_runtime offline users_demo 2 7200003000 (form_1984 "5")
           reviewed_site site_1984 reviewed_clean); [by repeat constructor|].
  apply site_1984_eq.
Defined.

(** The page of The Great Gatsby: three reviews, the newest first, one
    of them by a user that has no row. *)
Example gatsby_page_reviews :
  det_reviews gatsby_details =
    [Card "Bob" 3 "Fine." "2h ago"; Card "reader" 4 "Good." "2h ago";
     Card "@ada" 5 "Superb." "2h ago"] ∧
  det_book_id gatsby_details = Some 1%Z ∧
  det_description gatsby_details = DEFAULT_DESCRIPTION ∧
  length (filter (λ u, ui_title u = "The Great Gatsby") (listing_of BOOKS gatsby_page.2)) = 2.
Proof. vm_compute. done. Qed.

(** Any integer is taken as a rating. *)
Example add_review_rating_unchecked :
  review_rating <$>
    last (site_reviews (@add_review demo_runtime offline 2 7200003000
                          (Some (form_1984 " -7 ")) reviewed_site).2) = Some (-7)%Z.
Proof. vm_compute. reflexivity. Qed.
