(* ===== verification/Shelf.v ===== *)
(** * Shelf: favourites and reading history
      ([favourites], [api_favourites_toggle], [api_favourites_list],
      [history], [api_history_add])

    A favourite and an entry of the history are rows that join a user to
    a book, unique by that pair.  The endpoints toggle a favourite and
    insert or refresh an entry of the history; the pages join the rows
    of the user with the [Book] table, the latest first.  The rows of
    the [Book] table are only read here and are a parameter, as are the
    user who is logged in and the instant of the request.  The endpoints
    are the steps of a transition system over the two tables. *)

From Stdlib Require Import ZArith Lia QArith Floats.
From stdpp Require Import base tactics option list sorting relations strings.
From S2P Require Import Prelude PyStr Json Flask Cover Db Catalog.

#[local] Open Scope Z_scope.

(** ** Definitions *)

(** [class Favourite(db.Model)]; [created_at] in microseconds. *)
Record Favourite : Type := mkFavourite {
  fav_id : Z;
  fav_user_id : Z;
  fav_book_id : Z;
  fav_created_at : Z;
}.

(** [class History(db.Model)] *)
Record History : Type := mkHistory {
  his_id : Z;
  his_user_id : Z;
  his_book_id : Z;
  his_viewed_at : Z;
}.

#[export] Instance Favourite_eq_dec : EqDecision Favourite.
Proof. solve_decision. Defined.

#[export] Instance History_eq_dec : EqDecision History.
Proof. solve_decision. Defined.

(** [UniqueConstraint("user_id", "book_id")] of [Favourite]. *)
#[export, refine] Instance Favourite_row : Row Favourite (Z * Z) := {|
  row_id := fav_id;
  with_id := λ i f, mkFavourite i (fav_user_id f) (fav_book_id f) (fav_created_at f);
  unique_key := λ f, Some (fav_user_id f, fav_book_id f);
|}.
Proof. all: done. Defined.

(** [UniqueConstraint("user_id", "book_id")] of [History]. *)
#[export, refine] Instance History_row : Row History (Z * Z) := {|
  row_id := his_id;
  with_id := λ i h, mkHistory i (his_user_id h) (his_book_id h) (his_viewed_at h);
  unique_key := λ h, Some (his_user_id h, his_book_id h);
|}.
Proof. all: done. Defined.

(** The two tables, as the session shows them. *)
Record shelves : Type := Shelves {
  favs : table Favourite;
  hist : table History;
}.

Definition on_favs {A} (c : M (table Favourite) A) : M shelves A :=
  zoom favs (λ t s, Shelves t (hist s)) c.

Definition on_hist {A} (c : M (table History) A) : M shelves A :=
  zoom hist (λ t s, Shelves (favs s) t) c.

(** [db.session.commit()]: the session holds both tables. *)
Definition commit_all : M shelves unit := on_favs commit ;; on_hist commit.

(** [filter_by(user_id=uid, book_id=book_id)] *)
Definition fav_of (uid book_id : Z) (f : Favourite) : bool :=
  bool_decide (fav_user_id f = uid) && bool_decide (fav_book_id f = book_id).

Definition his_of (uid book_id : Z) (h : History) : bool :=
  bool_decide (his_user_id h = uid) && bool_decide (his_book_id h = book_id).

(** [int(data.get("book_id") or 0)] with [data = request.get_json(force=True) or {}],
    [body] being what [get_json] returned: the call itself, which raises
    on a body that is not JSON, is [Flask.get_json] in [App.handle]. *)
Definition book_id_of_body (body : json) : outcome Z :=
  let data := py_or body (JDict []) in
  x ← dict_get "book_id" data;
  id_field x.

Definition missing_book_id : response := error_response "missing book_id" 400.

(** [jsonify({"ok": True, "favourited": b})] *)
Definition favourited (b : bool) : response :=
  (JDict [("ok", JBool true); ("favourited", JBool b)], 200).

(** The handler of [POST /api/favourites/toggle] for the user [uid]. *)
Definition api_favourites_toggle (uid now : Z) (body : json) : M shelves response :=
  book_id ← lift (book_id_of_body body);
  if book_id =? 0 then mret missing_book_id else
  fav ← on_favs (query_first (fav_of uid book_id));
  match fav with
  | Some f =>
      on_favs (session_delete (fav_id f)) ;;
      commit_all ;;
      mret (favourited false)
  | None =>
      on_favs (session_add (mkFavourite 0 uid book_id now)) ;;
      commit_all ;;
      mret (favourited true)
  end.

(** The handler of [GET /api/favourites]. *)
Definition api_favourites_list (uid : Z) : M shelves response :=
  rows ← on_favs query_all;
  let ids := fav_book_id <$> filter (λ f, fav_user_id f = uid) rows in
  mret (JDict [("ok", JBool true); ("book_ids", JList (JInt <$> ids))], 200).

(** [row.viewed_at = datetime.utcnow()] *)
Definition viewed (now : Z) (h : History) : History :=
  mkHistory (his_id h) (his_user_id h) (his_book_id h) now.

(** The handler of [POST /api/history/add]. *)
Definition api_history_add (uid now : Z) (body : json) : M shelves response :=
  book_id ← lift (book_id_of_body body);
  if book_id =? 0 then mret missing_book_id else
  row ← on_hist (query_first (his_of uid book_id));
  match row with
  | Some h => on_hist (session_update (his_id h) (viewed now))
  | None => on_hist (session_add (mkHistory 0 uid book_id now))
  end ;;
  commit_all ;;
  mret ok_response.

(** The row of [Book] a favourite or an entry of the history joins. *)
Definition book_of (books : list Book) (i : Z) : option Book :=
  List.find (λ b, bool_decide (book_id b = i)) books.

(** The keys of [order_by(Favourite.created_at.desc())] and
    [order_by(History.viewed_at.desc())]. *)
Definition created_at_leb (a b : Favourite) : bool := fav_created_at a <=? fav_created_at b.
Definition viewed_at_leb (a b : History) : bool := his_viewed_at a <=? his_viewed_at b.

(** [db.session.query(Book).join(Favourite, ...).filter(...).order_by(...).all()] *)
Definition favourite_books (books : list Book) (uid : Z) (rows : list Favourite)
  : list Book :=
  omap (λ f, book_of books (fav_book_id f))
       (sort_desc created_at_leb (filter (λ f, fav_user_id f = uid) rows)).

(** [db.session.query(Book, History.viewed_at).join(...)...limit(100).all()] *)
Definition history_books (books : list Book) (uid : Z) (rows : list History)
  : list (Book * Z) :=
  take 100
    (omap (λ h, (λ b, (b, his_viewed_at h)) <$> book_of books (his_book_id h))
          (sort_desc viewed_at_leb (filter (λ h, his_user_id h = uid) rows))).

(** The test that skips a book: [q and (q not in title) and (q not in author)]. *)
Definition skipped (q : string) (b : Book) : bool :=
  truthy q && negb (contains q (lower (str_or (book_title b) EmptyString)))
           && negb (contains q (lower (str_or (book_author b) EmptyString))).

(** The dict of a book on the two pages. *)
Record shelf_book : Type := ShelfBook {
  sb_title : string;
  sb_author : string;
  sb_cover : string;
  sb_rating : Q;
}.

Definition shelf_book_of (b : Book) : shelf_book :=
  ShelfBook (book_title b) (book_author b) (str_or (book_cover b) PLACEHOLDER_COVER) 0%Q.

(** The handler of [GET /favourites]: the books and the query given to
    the template. *)
Definition favourites (books : list Book) (uid : Z) (q_arg : option string)
  : M shelves (list shelf_book * string) :=
  let q := lower (arg_text q_arg) in
  rows ← on_favs query_all;
  let rows := favourite_books books uid rows in
  mret (shelf_book_of <$> filter (λ b, skipped q b = false) rows, q).

(** The handler of [GET /history]: each book with [viewed_at]. *)
Definition history (books : list Book) (uid : Z) (q_arg : option string)
  : M shelves (list (shelf_book * Z) * string) :=
  let q := lower (arg_text q_arg) in
  rows ← on_hist query_all;
  let rows := history_books books uid rows in
  mret (prod_map shelf_book_of id <$> filter (λ r, skipped q r.1 = false) rows, q).

(** A request to one of the two endpoints. *)
Inductive call : Type :=
  | ToggleFavourite (uid now : Z) (body : json)
  | AddHistory (uid now : Z) (body : json).

Definition run_call (c : call) : M shelves response :=
  match c with
  | ToggleFavourite uid now body => api_favourites_toggle uid now body
  | AddHistory uid now body => api_history_add uid now body
  end.

(** The user who sends the request. *)
Definition caller (c : call) : Z :=
  match c with
  | ToggleFavourite uid _ _ | AddHistory uid _ _ => uid
  end.

(** The rows of the user [i] in the two tables. *)
Definition rows_of (i : Z) (s : shelves) : list Favourite * list History :=
  (filter (λ f, fav_user_id f = i) (rows (favs s)),
   filter (λ h, his_user_id h = i) (rows (hist s))).

(** One request takes the tables from [s] to [s']. *)
Inductive shelf_step (s s' : shelves) : Prop :=
  | ShelfStep (c : call) (Hrun : (run_call c s).2 = s').

Definition start : shelves := Shelves empty_table empty_table.

Definition shelf_reachable : shelves → Prop := rtc shelf_step start.

(** Both tables are well formed and nothing waits in the session. *)
Definition shelves_wf (s : shelves) : Prop :=
  (table_wf (favs s) ∧ clean (favs s)) ∧ (table_wf (hist s) ∧ clean (hist s)).

(** The user has the book among the favourites, or in the history. *)
Definition is_favourite (uid i : Z) (s : shelves) : Prop :=
  (uid, i) ∈ keys_of (rows (favs s)).

Definition in_history (uid i : Z) (s : shelves) : Prop :=
  (uid, i) ∈ keys_of (rows (hist s)).

#[export] Instance is_favourite_dec uid i s : Decision (is_favourite uid i s).
Proof. unfold is_favourite. apply _. Defined.

#[export] Instance in_history_dec uid i s : Decision (in_history uid i s).
Proof. unfold in_history. apply _. Defined.

(** The body [{"book_id": i}]. *)
Definition book_body (i : Z) : json := JDict [("book_id", JInt i)].

(** Two books, and a user with one favourite of a book that has no row. *)
Definition books_demo : list Book := [
  mkBook 1 "Dune" "Frank Herbert" "Sci-Fi" "1965" "" "" "" "";
  mkBook 2 "Emma" "Jane Austen" "Classics" "1815" "https://example.org/emma.jpg" "" "" ""
].

Definition shelves_demo : shelves :=
  Shelves (Table [mkFavourite 1 7 2 1000; mkFavourite 2 7 9 2000; mkFavourite 3 8 1 3000]
                 [] [])
          (Table [mkHistory 1 7 1 1000; mkHistory 2 7 2 2000] [] []).

(** The state after the first request of a run: user 7 marks book 2. *)
Definition first_toggle : shelves := (api_favourites_toggle 7 1000 (book_body 2) start).2.

(** ** Lemmas *)

(** *** The body of a request *)

Lemma book_id_of_body_dict kvs :
  book_id_of_body (JDict kvs) = id_field (default JNull (assoc "book_id" kvs)).
Proof. by destruct kvs. Qed.

Lemma book_id_of_body_false body : truth body = false → book_id_of_body body = Ok 0.
Proof. intros Hb. unfold book_id_of_body. by rewrite py_or_false. Qed.

Lemma book_id_of_body_not_dict body :
  truth body = true → isinstance_dict body = false →
  book_id_of_body body = Raise AttributeError.
Proof.
  intros Ht Hd. unfold book_id_of_body. rewrite py_or_truth by done.
  by rewrite dict_get_raise.
Qed.

Lemma book_id_of_body_of i : book_id_of_body (book_body i) = Ok i.
Proof. unfold book_body. rewrite book_id_of_body_dict. apply id_field_int. Qed.

(** What a bad body raises. *)
Lemma book_id_of_body_raise body e :
  book_id_of_body body = Raise e →
  e = AttributeError ∨ e = TypeError ∨ e = ValueError ∨ e = OverflowError.
Proof.
  unfold book_id_of_body, id_field. destruct (dict_get _ _) as [x|e'] eqn:Ed; simpl.
  - intros ?%int_of_raise_inv. tauto.
  - apply dict_get_raise_inv in Ed as ->. intros [= <-]. tauto.
Qed.

(** *** Queries by user and book *)

Lemma fav_of_iff uid i f : fav_of uid i f = true ↔ unique_key f = Some (uid, i).
Proof.
  unfold fav_of. rewrite andb_true_iff, !bool_decide_eq_true. simpl. naive_solver.
Qed.

Lemma his_of_iff uid i h : his_of uid i h = true ↔ unique_key h = Some (uid, i).
Proof.
  unfold his_of. rewrite andb_true_iff, !bool_decide_eq_true. simpl. naive_solver.
Qed.

Lemma conflicts_fav uid i now l :
  List.find (fav_of uid i) l = None → conflicts (mkFavourite 0 uid i now) l = false.
Proof.
  intros Hf. apply conflicts_false_iff. intros k [= <-].
  by apply (find_key_None (fav_of uid i)); [apply fav_of_iff|].
Qed.

Lemma conflicts_his uid i now l :
  List.find (his_of uid i) l = None → conflicts (mkHistory 0 uid i now) l = false.
Proof.
  intros Hf. apply conflicts_false_iff. intros k [= <-].
  by apply (find_key_None (his_of uid i)); [apply his_of_iff|].
Qed.

(** *** The endpoints on a session with nothing pending *)

Section clean.
Context (s : shelves) (Hf : clean (favs s)) (Hh : clean (hist s)).

Lemma commit_all_clean : commit_all s = (Ok tt, s).
Proof.
  unfold commit_all, on_favs, on_hist. unfold mbind, M_bind.
  rewrite zoom_run, commit_clean by done. cbn [fst snd]. rewrite zoom_run. cbn [hist favs].
  rewrite commit_clean by done. by destruct s.
Qed.

Lemma find_favourite p : on_favs (query_first p) s = (Ok (List.find p (rows (favs s))), s).
Proof.
  unfold on_favs. rewrite zoom_run, query_first_clean, visible_clean by apply Hf.
  by destruct s.
Qed.

Lemma find_history p : on_hist (query_first p) s = (Ok (List.find p (rows (hist s))), s).
Proof.
  unfold on_hist. rewrite zoom_run, query_first_clean, visible_clean by apply Hh.
  by destruct s.
Qed.

Lemma all_favourites : on_favs query_all s = (Ok (rows (favs s)), s).
Proof.
  unfold on_favs. rewrite zoom_run, query_all_clean, visible_clean by apply Hf. by destruct s.
Qed.

Lemma all_history : on_hist query_all s = (Ok (rows (hist s)), s).
Proof.
  unfold on_hist. rewrite zoom_run, query_all_clean, visible_clean by apply Hh. by destruct s.
Qed.

(** A change of one table followed by the commit of the session. *)
Lemma on_favs_then_commit (c : M (table Favourite) unit) t' :
  (c ;; commit) (favs s) = (Ok tt, t') →
  (on_favs c ;; commit_all) s = (Ok tt, Shelves t' (hist s)).
Proof.
  unfold commit_all, on_favs, on_hist, zoom. unfold mbind, M_bind.
  destruct (c (favs s)) as [[[]|e] t1]; [|done]. cbn [favs hist].
  destruct (commit t1) as [[[]|e] t2]; [|done]. intros [= ->]. cbn [favs hist].
  by rewrite (commit_clean _ Hh).
Qed.

Lemma on_hist_then_commit (c : M (table History) unit) t' :
  (c ;; commit) (hist s) = (Ok tt, t') →
  (on_hist c ;; commit_all) s = (Ok tt, Shelves (favs s) t').
Proof.
  unfold commit_all, on_favs, on_hist, zoom. unfold mbind, M_bind.
  destruct (c (hist s)) as [[[]|e] t1]; [|done]. cbn [favs hist].
  rewrite (commit_clean _ Hf). cbn [favs hist].
  destruct (commit t1) as [[[]|e] t2]; [|done]. by intros [= ->].
Qed.

Lemma favourites_toggle_run uid now body :
  api_favourites_toggle uid now body s =
    match book_id_of_body body with
    | Raise e => (Raise e, s)
    | Ok i =>
        if i =? 0 then (Ok missing_book_id, s) else
        match List.find (fav_of uid i) (rows (favs s)) with
        | Some f =>
            (Ok (favourited false),
             Shelves (Table (filter (λ r, fav_id r ≠ fav_id f) (rows (favs s))) [] [])
                     (hist s))
        | None =>
            (Ok (favourited true),
             Shelves (Table (rows (favs s) ++ [mkFavourite (next_id (rows (favs s))) uid i now])
                            [] []) (hist s))
        end
    end.
Proof.
  unfold api_favourites_toggle. unfold mbind at 1, M_bind, lift.
  destruct (book_id_of_body body) as [i|]; [|done]. destruct (i =? 0); [done|].
  rewrite (M_bind_ok _ _ _ _ _ (find_favourite _)).
  destruct (List.find _ _) as [f|] eqn:Ef.
  - by rewrite (M_seq_ok _ _ _ _ _ (on_favs_then_commit _ _ (delete_commit_clean _ _ Hf))).
  - by rewrite (M_seq_ok _ _ _ _ _ (on_favs_then_commit _ _
      (insert_commit_clean _ _ Hf (conflicts_fav _ _ now _ Ef)))).
Qed.

Lemma history_add_run uid now body :
  api_history_add uid now body s =
    match book_id_of_body body with
    | Raise e => (Raise e, s)
    | Ok i =>
        if i =? 0 then (Ok missing_book_id, s) else
        (Ok ok_response,
         Shelves (favs s)
           match List.find (his_of uid i) (rows (hist s)) with
           | Some h => Table (update_row (his_id h) (viewed now) <$> rows (hist s)) [] []
           | None => Table (rows (hist s) ++ [mkHistory (next_id (rows (hist s))) uid i now])
                           [] []
           end)
    end.
Proof.
  unfold api_history_add. unfold mbind at 1, M_bind, lift.
  destruct (book_id_of_body body) as [i|]; [|done]. destruct (i =? 0); [done|].
  rewrite (M_bind_ok _ _ _ _ _ (find_history _)).
  destruct (List.find _ _) as [h|] eqn:Ef.
  - by rewrite (M_seq_ok _ _ _ _ _ (on_hist_then_commit _ _ (update_commit_clean _ _ _ Hh))).
  - by rewrite (M_seq_ok _ _ _ _ _ (on_hist_then_commit _ _
      (insert_commit_clean _ _ Hh (conflicts_his _ _ now _ Ef)))).
Qed.

End clean.

(** *** The invariant *)

Lemma viewed_key now h : unique_key (viewed now h) = unique_key h.
Proof. done. Qed.

Lemma favourites_toggle_keeps_wf uid now body s :
  shelves_wf s → shelves_wf (api_favourites_toggle uid now body s).2.
Proof.
  intros [[Hwf Hc] [Hwh Hch]]. rewrite favourites_toggle_run by done.
  destruct (book_id_of_body body) as [i|]; [|done]. destruct (i =? 0); [done|].
  unfold table_wf in Hwf. rewrite visible_clean in Hwf by done.
  destruct (List.find _ _) as [f|] eqn:Ef; (split; [split; [|done]|done]);
    unfold table_wf, visible; cbn [snd favs rows txn]; rewrite app_nil_r.
  - eapply rows_wf_sublist; [apply sublist_filter|done].
  - by apply (rows_wf_insert (rows (favs s)) (mkFavourite 0 uid i now) Hwf), conflicts_fav.
Qed.

Lemma history_add_keeps_wf uid now body s :
  shelves_wf s → shelves_wf (api_history_add uid now body s).2.
Proof.
  intros [[Hwf Hc] [Hwh Hch]]. rewrite history_add_run by done.
  destruct (book_id_of_body body) as [i|]; [|done]. destruct (i =? 0); [done|].
  unfold table_wf in Hwh. rewrite visible_clean in Hwh by done.
  split; [done|]. destruct (List.find _ _) as [h|] eqn:Ef; (split; [|done]);
    unfold table_wf, visible; cbn [snd hist rows txn]; rewrite app_nil_r.
  - by apply rows_wf_update.
  - by apply (rows_wf_insert (rows (hist s)) (mkHistory 0 uid i now) Hwh), conflicts_his.
Qed.

Lemma start_wf : shelves_wf start.
Proof. repeat split; simpl; constructor. Qed.

Lemma shelf_step_wf s s' : shelf_step s s' → shelves_wf s → shelves_wf s'.
Proof.
  intros [[uid now body|uid now body] <-];
    [apply favourites_toggle_keeps_wf|apply history_add_keeps_wf].
Qed.

(** The pages and the list only read. *)
Lemma shelf_reads books uid q_arg s :
  clean (favs s) → clean (hist s) →
  (api_favourites_list uid s).2 = s ∧ (favourites books uid q_arg s).2 = s ∧
  (history books uid q_arg s).2 = s.
Proof.
  intros Hf Hh. unfold api_favourites_list, favourites, history. cbv zeta.
  by rewrite !(M_bind_ok _ _ _ _ _ (all_favourites s Hf Hh)),
             !(M_bind_ok _ _ _ _ _ (all_history s Hf Hh)).
Qed.

(** A request changes rows of its sender only. *)
Lemma toggle_others uid now body s i :
  shelves_wf s → i ≠ uid → rows_of i (api_favourites_toggle uid now body s).2 = rows_of i s.
Proof.
  intros [[Hwf Hc] [_ Hch]] Hi. rewrite favourites_toggle_run by done.
  destruct (book_id_of_body body) as [k|]; [|done]. destruct (k =? 0); [done|].
  unfold table_wf in Hwf. rewrite visible_clean in Hwf by done. unfold rows_of.
  destruct (List.find _ _) as [f|] eqn:Ef; cbn [snd favs hist rows]; f_equal.
  - apply (find_key_Some _ (uid, k)) in Ef as [Hin [= Hu _]]; [|apply fav_of_iff].
    apply filter_filter_implied. intros x Hx Hxi Heq.
    assert (x = f) as -> by by apply (rows_wf_id_inj _ _ _ Hwf Hx Hin). congruence.
  - by apply filter_snoc_not.
Qed.

Lemma history_add_others uid now body s i :
  shelves_wf s → i ≠ uid → rows_of i (api_history_add uid now body s).2 = rows_of i s.
Proof.
  intros [[_ Hc] [Hwf Hch]] Hi. rewrite history_add_run by done.
  destruct (book_id_of_body body) as [k|]; [|done]. destruct (k =? 0); [done|].
  unfold table_wf in Hwf. rewrite visible_clean in Hwf by done. unfold rows_of.
  destruct (List.find _ _) as [h|] eqn:Ef; cbn [snd favs hist rows]; f_equal.
  - apply (find_key_Some _ (uid, k)) in Ef as [Hin [= Hu _]]; [|apply his_of_iff].
    apply filter_fmap_fixed. intros x Hx Hxi. unfold update_row in *.
    case_decide as Hid; [|done].
    assert (x = h) as -> by by apply (rows_wf_id_inj _ _ _ Hwf Hx Hin).
    simpl in Hxi. destruct Hxi; congruence.
  - by apply filter_snoc_not.
Qed.

Lemma run_call_others c s i :
  shelves_wf s → i ≠ caller c → rows_of i (run_call c s).2 = rows_of i s.
Proof. destruct c; [apply toggle_others|apply history_add_others]. Qed.

(** So every row of the tables was there or is the sender's. *)
Lemma run_call_owner c s :
  shelves_wf s →
  (∀ f, f ∈ rows (favs (run_call c s).2) → f ∈ rows (favs s) ∨ fav_user_id f = caller c) ∧
  (∀ h, h ∈ rows (hist (run_call c s).2) → h ∈ rows (hist s) ∨ his_user_id h = caller c).
Proof.
  intros Hwf. split.
  - intros f Hf. destruct (decide (fav_user_id f = caller c)) as [|Hne]; [by right|left].
    pose proof (run_call_others c s _ Hwf Hne) as [= Hr _].
    assert (f ∈ filter (λ x, fav_user_id x = fav_user_id f) (rows (favs s))) as Hin
      by (rewrite <- Hr; by apply list_elem_of_filter).
    by apply list_elem_of_filter in Hin as [_ ?].
  - intros h Hh. destruct (decide (his_user_id h = caller c)) as [|Hne]; [by right|left].
    pose proof (run_call_others c s _ Hwf Hne) as [= _ Hr].
    assert (h ∈ filter (λ x, his_user_id x = his_user_id h) (rows (hist s))) as Hin
      by (rewrite <- Hr; by apply list_elem_of_filter).
    by apply list_elem_of_filter in Hin as [_ ?].
Qed.

Lemma reachable_wf s : shelf_reachable s → shelves_wf s.
Proof.
  unfold shelf_reachable. revert s. apply rtc_ind_r; [apply start_wf|].
  intros s s' _ Hstep Hwf. by eapply shelf_step_wf.
Qed.

(** *** Who has which favourite *)

(** A toggle flips the key of its user and book and leaves the other
    keys as they are. *)
Lemma favourites_toggle_keys uid now body i s k :
  shelves_wf s → book_id_of_body body = Ok i → i ≠ 0 →
  k ∈ keys_of (rows (favs (api_favourites_toggle uid now body s).2)) ↔
    if decide (k = (uid, i)) then ¬ is_favourite uid i s else k ∈ keys_of (rows (favs s)).
Proof.
  intros [[Hwf Hc] [_ Hch]] Hb Hi. rewrite favourites_toggle_run, Hb by done.
  apply Z.eqb_neq in Hi as ->. unfold is_favourite, table_wf in *.
  rewrite visible_clean in Hwf by done.
  destruct (List.find _ _) as [f|] eqn:Ef; cbn [snd favs rows].
  - apply (find_key_Some _ (uid, i)) in Ef as [Hin Hk]; [|apply fav_of_iff].
    rewrite (keys_of_delete _ f k Hwf Hin), Hk. case_decide as Hkk; subst.
    + split; [naive_solver|]. intros []. apply elem_of_keys_of. by exists f.
    + naive_solver.
  - apply (find_key_None _ (uid, i)) in Ef; [|apply fav_of_iff].
    rewrite keys_of_app, elem_of_app. simpl. rewrite list_elem_of_singleton.
    case_decide; subst; naive_solver.
Qed.

Lemma favourites_toggle_answer uid now body i s :
  shelves_wf s → book_id_of_body body = Ok i → i ≠ 0 →
  (api_favourites_toggle uid now body s).1 =
    Ok (favourited (negb (bool_decide (is_favourite uid i s)))).
Proof.
  intros [[Hwf Hc] [_ Hch]] Hb Hi. rewrite favourites_toggle_run, Hb by done.
  apply Z.eqb_neq in Hi as ->. unfold is_favourite.
  destruct (List.find _ _) as [f|] eqn:Ef; cbn [fst].
  - apply (find_key_Some _ (uid, i)) in Ef as [Hin Hk]; [|apply fav_of_iff].
    rewrite bool_decide_eq_true_2; [done|]. apply elem_of_keys_of. by exists f.
  - apply (find_key_None _ (uid, i)) in Ef; [|apply fav_of_iff].
    by rewrite bool_decide_eq_false_2.
Qed.

(** *** The history *)

(** After a view was recorded the table has a row of the user, the book
    and the instant, and every other row is a row that was there. *)
Lemma history_add_rows uid now body i s :
  shelves_wf s → book_id_of_body body = Ok i → i ≠ 0 →
  let l' := rows (hist (api_history_add uid now body s).2) in
  ∃ h, h ∈ l' ∧ his_user_id h = uid ∧ his_book_id h = i ∧ his_viewed_at h = now ∧
       ∀ a, a ∈ l' → a = h ∨ a ∈ rows (hist s).
Proof.
  intros [[_ Hcf] [Hwf Hc]] Hb Hi. rewrite history_add_run, Hb by done.
  apply Z.eqb_neq in Hi as ->. cbn [snd hist].
  unfold table_wf in Hwf. rewrite visible_clean in Hwf by done.
  destruct (List.find _ _) as [h|] eqn:Ef; cbn [rows].
  - apply (find_key_Some _ (uid, i)) in Ef as [Hin [= Hu Hk]]; [|apply his_of_iff].
    exists (viewed now h). split_and!; [|done..|].
    + apply list_elem_of_fmap. exists h. split; [|done]. unfold update_row. by case_decide.
    + intros a (h0 & -> & Hh0)%list_elem_of_fmap. unfold update_row. case_decide as Hid; [|by right].
      left. by rewrite (rows_wf_id_inj _ h0 h Hwf).
  - eexists. split_and!; [apply elem_of_app; right; by left|done..|].
    intros a [Ha | ->%list_elem_of_singleton]%elem_of_app; [by right|by left].
Qed.

Lemma viewed_at_leb_total a b : viewed_at_leb a b = false → viewed_at_leb b a = true.
Proof. unfold viewed_at_leb. lia. Qed.

Lemma viewed_at_leb_trans a b c :
  viewed_at_leb a b = true → viewed_at_leb b c = true → viewed_at_leb a c = true.
Proof. unfold viewed_at_leb. lia. Qed.

(** *** The pages *)

Lemma book_of_Some books i b : book_of books i = Some b → b ∈ books ∧ book_id b = i.
Proof.
  intros [Hin Hb]%find_some. split; [by apply list_elem_of_In|].
  by apply bool_decide_eq_true in Hb.
Qed.

Lemma favourite_books_elem books uid l b :
  b ∈ favourite_books books uid l → b ∈ books ∧ (uid, book_id b) ∈ keys_of l.
Proof.
  unfold favourite_books. rewrite list_elem_of_omap.
  intros (f & [Hu Hf]%sort_desc_elem_of%list_elem_of_filter & [Hb Hi]%book_of_Some).
  split; [done|]. apply elem_of_keys_of. exists f. split; [done|]. simpl. congruence.
Qed.

Lemma history_books_elem books uid l b t :
  (b, t) ∈ history_books books uid l → b ∈ books ∧ (uid, book_id b) ∈ keys_of l.
Proof.
  unfold history_books. intros Hin. eapply elem_of_sublist in Hin; [|apply sublist_take].
  revert Hin. rewrite list_elem_of_omap.
  intros (h & [Hu Hh]%sort_desc_elem_of%list_elem_of_filter & Hb).
  destruct (book_of books (his_book_id h)) as [b'|] eqn:Eb; simplify_eq/=.
  apply book_of_Some in Eb as [Hb Hi]. split; [done|].
  apply elem_of_keys_of. exists h. split; [done|]. simpl. congruence.
Qed.

Lemma skipped_false q b :
  skipped q b = false ↔
    (truthy q = true →
     contains q (lower (book_title b)) = true ∨ contains q (lower (book_author b)) = true).
Proof.
  unfold skipped. rewrite !str_or_empty_r. destruct (truthy q); simpl; [|naive_solver].
  destruct (contains q (lower (book_title b))), (contains q (lower (book_author b)));
    naive_solver.
Qed.

(** ** Theorems *)

(** C22. A toggle on a session with nothing pending: a body that cannot be
    read raises; a book id that is missing or 0 is answered with status
    400; a favourite of the user and the book is deleted; otherwise one
    is inserted, with the next id and the instant of the request. *)
Theorem favourites_toggle_spec uid now body s :
  clean (favs s) → clean (hist s) →
  api_favourites_toggle uid now body s =
    match book_id_of_body body with
    | Raise e => (Raise e, s)
    | Ok i =>
        if i =? 0 then (Ok missing_book_id, s) else
        match List.find (fav_of uid i) (rows (favs s)) with
        | Some f =>
            (Ok (favourited false),
             Shelves (Table (filter (λ r, fav_id r ≠ fav_id f) (rows (favs s))) [] [])
                     (hist s))
        | None =>
            (Ok (favourited true),
             Shelves (Table (rows (favs s) ++ [mkFavourite (next_id (rows (favs s))) uid i now])
                            [] []) (hist s))
        end
    end.
Proof. intros Hf Hh. by apply favourites_toggle_run. Qed.

(** Recording a view on a session with nothing pending: the entry of
    the user and the book gets the instant of the request, or a new
    entry is inserted; the favourites are not touched. *)
Theorem history_add_spec uid now body s :
  clean (favs s) → clean (hist s) →
  api_history_add uid now body s =
    match book_id_of_body body with
    | Raise e => (Raise e, s)
    | Ok i =>
        if i =? 0 then (Ok missing_book_id, s) else
        (Ok ok_response,
         Shelves (favs s)
           match List.find (his_of uid i) (rows (hist s)) with
           | Some h => Table (update_row (his_id h) (viewed now) <$> rows (hist s)) [] []
           | None => Table (rows (hist s) ++ [mkHistory (next_id (rows (hist s))) uid i now])
                           [] []
           end)
    end.
Proof. intros Hf Hh. by apply history_add_run. Qed.

(** C24. In every state the two endpoints can reach from empty tables, no
    user has a book twice among the favourites or in the history,
    primary keys are distinct and positive, and nothing waits in the
    session. *)
Theorem reachable_shelves_wf s : shelf_reachable s → shelves_wf s.
Proof. apply reachable_wf. Qed.

(** C36. In such a state a request fails only for its body, with one of four
    exceptions, never for the constraint, and it changes nothing. *)
Theorem reachable_failures s c e :
  shelf_reachable s → (run_call c s).1 = Raise e →
  (e = AttributeError ∨ e = TypeError ∨ e = ValueError ∨ e = OverflowError) ∧
  (run_call c s).2 = s.
Proof.
  intros [[_ Hf] [_ Hh]]%reachable_wf.
  destruct c as [uid now body|uid now body]; simpl;
    rewrite ?favourites_toggle_run, ?history_add_run by done;
    destruct (book_id_of_body body) as [i|e'] eqn:Eb;
    try (intros [= <-]; split; [by eapply book_id_of_body_raise|done]);
    destruct (i =? 0); try done; by destruct (List.find _ _).
Qed.

(** Two toggles of the same book by the same user leave every user with
    the favourites they had, and give opposite answers. *)
Theorem favourites_toggle_twice uid now now' body i s :
  shelves_wf s → book_id_of_body body = Ok i → i ≠ 0 →
  let r1 := api_favourites_toggle uid now body s in
  let r2 := api_favourites_toggle uid now' body r1.2 in
  (∀ k, k ∈ keys_of (rows (favs r2.2)) ↔ k ∈ keys_of (rows (favs s))) ∧
  r1.1 = Ok (favourited (negb (bool_decide (is_favourite uid i s)))) ∧
  r2.1 = Ok (favourited (bool_decide (is_favourite uid i s))).
Proof.
  intros Hwf Hb Hi r1 r2. pose proof (favourites_toggle_keeps_wf uid now body s Hwf) as Hwf1.
  assert (is_favourite uid i r1.2 ↔ ¬ is_favourite uid i s) as H1.
  { unfold is_favourite at 1. subst r1. rewrite favourites_toggle_keys by done.
    by rewrite decide_True. }
  split_and!.
  - intros k. subst r2. rewrite favourites_toggle_keys by done. case_decide as Hk.
    + subst k. rewrite H1. split; [apply dec_stable|by intros ? []].
    + subst r1. rewrite favourites_toggle_keys by done. by rewrite decide_False.
  - by apply favourites_toggle_answer.
  - subst r2. rewrite (favourites_toggle_answer uid now' body i) by done. do 2 f_equal.
    by rewrite (bool_decide_ext _ _ H1), bool_decide_not, negb_involutive.
Qed.

(** The list of favourites of a user holds the ids of the books the
    user has among the favourites, and asking changes nothing. *)
Theorem favourites_list_spec uid s :
  clean (favs s) → clean (hist s) →
  ∃ ids,
    api_favourites_list uid s =
      (Ok (JDict [("ok", JBool true); ("book_ids", JList (JInt <$> ids))], 200), s) ∧
    ∀ i, i ∈ ids ↔ is_favourite uid i s.
Proof.
  intros Hf Hh. eexists. unfold api_favourites_list.
  rewrite (M_bind_ok _ _ _ _ _ (all_favourites s Hf Hh)). split; [done|].
  intros i. unfold is_favourite. rewrite list_elem_of_fmap, elem_of_keys_of.
  setoid_rewrite list_elem_of_filter. simpl. naive_solver.
Qed.

(** The page of the favourites shows books of the table that the user
    has among the favourites and that match the query, in the order of
    the join. *)
Theorem favourites_spec books uid q_arg s :
  clean (favs s) → clean (hist s) →
  ∃ shown,
    favourites books uid q_arg s = (Ok (shelf_book_of <$> shown, lower (arg_text q_arg)), s) ∧
    shown `sublist_of` favourite_books books uid (rows (favs s)) ∧
    ∀ b, b ∈ shown ↔
      b ∈ favourite_books books uid (rows (favs s)) ∧ skipped (lower (arg_text q_arg)) b = false.
Proof.
  intros Hf Hh. eexists. unfold favourites. cbv zeta.
  rewrite (M_bind_ok _ _ _ _ _ (all_favourites s Hf Hh)).
  split_and!; [done|apply sublist_filter|]. intros b. rewrite list_elem_of_filter. tauto.
Qed.

(** The page of the history shows at most 100 books, each a book of the
    table that is in the history of the user. *)
Theorem history_spec books uid q_arg s :
  clean (favs s) → clean (hist s) →
  ∃ shown,
    history books uid q_arg s =
      (Ok (prod_map shelf_book_of id <$> shown, lower (arg_text q_arg)), s) ∧
    (length shown ≤ 100)%nat ∧
    Forall (λ r, r.1 ∈ books ∧ in_history uid (book_id r.1) s ∧
                 skipped (lower (arg_text q_arg)) r.1 = false) shown.
Proof.
  intros Hf Hh. eexists. unfold history. cbv zeta.
  rewrite (M_bind_ok _ _ _ _ _ (all_history s Hf Hh)). split_and!; [done| |].
  - etrans; [apply length_filter|]. unfold history_books. rewrite length_take. lia.
  - apply Forall_forall. intros [b t] [Hs Hin]%list_elem_of_filter.
    apply history_books_elem in Hin as [? ?]. by split_and!.
Qed.

(** A book that was just viewed heads the history of the user, with the
    instant of the request, when it has a row in the [Book] table. *)
Theorem history_add_front books uid now body i b s :
  shelves_wf s → book_id_of_body body = Ok i → i ≠ 0 → book_of books i = Some b →
  Forall (λ h, his_viewed_at h < now) (rows (hist s)) →
  head (history_books books uid (rows (hist (api_history_add uid now body s).2)))
    = Some (b, now).
Proof.
  intros Hwf Hb Hi Hbook Hall.
  destruct (history_add_rows uid now body i s Hwf Hb Hi) as (h & Hin & Hu & Hk & Hv & Hrest).
  unfold history_books.
  match goal with |- context [sort_desc ?leb ?l] =>
    assert (head (sort_desc leb l) = Some h) as Hhead end.
  { apply sort_desc_head_max;
      [apply viewed_at_leb_total|apply viewed_at_leb_trans|by apply list_elem_of_filter|].
    intros a [_ Ha]%list_elem_of_filter Hle. destruct (Hrest a Ha) as [->|Hold]; [done|].
    rewrite Forall_forall in Hall. specialize (Hall a Hold). unfold viewed_at_leb in Hle. lia. }
  destruct (sort_desc _ _) as [|h1 t]; [done|]. injection Hhead as ->.
  rewrite omap_cons, Hk, Hbook. simpl. by rewrite Hv.
Qed.

(** A body that is neither an object nor a false value makes both
    endpoints raise [AttributeError]. *)
Theorem endpoints_bad_body uid now body s :
  truth body = true → isinstance_dict body = false →
  api_favourites_toggle uid now body s = (Raise AttributeError, s) ∧
  api_history_add uid now body s = (Raise AttributeError, s).
Proof.
  intros Ht Hd. pose proof (book_id_of_body_not_dict body Ht Hd) as Hb.
  unfold api_favourites_toggle, api_history_add. unfold mbind at 1 4, M_bind, lift.
  by rewrite Hb.
Qed.

(** Whenever one of the three endpoints answers, the answer has the
    fields the scripts of the pages read: [favourited] for the toggle,
    the list of integers [book_ids] for the list, [ok] alone for the
    history; status 200 goes with [ok] true, status 400 with [ok] false
    and a message. *)
Theorem shelf_answers_typed uid now body s r :
  clean (favs s) → clean (hist s) →
  ((api_favourites_toggle uid now body s).1 = Ok r → well_typed [("favourited", TBool)] r) ∧
  ((api_favourites_list uid s).1 = Ok r → well_typed [("book_ids", TList TInt)] r) ∧
  ((api_history_add uid now body s).1 = Ok r → well_typed [] r).
Proof.
  intros Hf Hh. split_and!.
  - rewrite favourites_toggle_run by done. destruct (book_id_of_body body) as [i|]; [|done].
    destruct (i =? 0); [intros [= <-]; by apply error_response_typed|].
    destruct (List.find _ _); intros [= <-]; by left.
  - unfold api_favourites_list. rewrite (M_bind_ok _ _ _ _ _ (all_favourites s Hf Hh)).
    intros [= <-]. left. split; [done|]. split; [|done]. cbn [fst answer].
    by apply answer_with_ints.
  - rewrite history_add_run by done. destruct (book_id_of_body body) as [i|]; [|done].
    destruct (i =? 0); intros [= <-]; [by apply error_response_typed|by left].
Qed.

(** ** Witnesses *)

Lemma shelf_answers_typed_witness :
  ((api_favourites_toggle 7 5000 (book_body 2) shelves_demo).1 = Ok (favourited false) →
   well_typed [("favourited", TBool)] (favourited false)) ∧
  ((api_favourites_list 7 shelves_demo).1 = Ok (favourited false) →
   well_typed [("book_ids", TList TInt)] (favourited false)) ∧
  ((api_history_add 7 5000 (book_body 2) shelves_demo).1 = Ok (favourited false) →
   well_typed [] (favourited false)).
Proof. by apply (shelf_answers_typed 7 5000 (book_body 2) shelves_demo (favourited false)). Defined.

Lemma shelves_demo_wf : shelves_wf shelves_demo.
Proof.
  repeat split; simpl; try (apply (bool_decide_unpack (NoDup _)); reflexivity);
    by repeat constructor.
Qed.

Lemma first_toggle_reachable : shelf_reachable first_toggle.
Proof. apply rtc_once. exact (ShelfStep _ _ (ToggleFavourite 7 1000 (book_body 2)) eq_refl). Qed.

Lemma favourites_toggle_spec_witness :
  api_favourites_toggle 7 5000 (book_body 2) shelves_demo =
    (Ok (favourited false),
     Shelves (Table [mkFavourite 2 7 9 2000; mkFavourite 3 8 1 3000] [] [])
             (hist shelves_demo)).
Proof. by apply (favourites_toggle_spec 7 5000 (book_body 2) shelves_demo). Defined.

Lemma history_add_spec_witness :
  api_history_add 7 5000 (book_body 1) shelves_demo =
    (Ok ok_response,
     Shelves (favs shelves_demo)
             (Table [mkHistory 1 7 1 5000; mkHistory 2 7 2 2000] [] [])).
Proof. by apply (history_add_spec 7 5000 (book_body 1) shelves_demo). Defined.

Lemma reachable_shelves_wf_witness : shelves_wf first_toggle.
Proof. apply (reachable_shelves_wf first_toggle first_toggle_reachable). Defined.

Lemma reachable_failures_witness :
  (TypeError = AttributeError ∨ TypeError = TypeError ∨ TypeError = ValueError ∨
   TypeError = OverflowError) ∧
  (run_call (AddHistory 7 2000 (JDict [("book_id", JList [JInt 2])])) first_toggle).2
    = first_toggle.
Proof.
  by apply (reachable_failures first_toggle
              (AddHistory 7 2000 (JDict [("book_id", JList [JInt 2])])) TypeError
              first_toggle_reachable).
Defined.

Lemma favourites_toggle_twice_witness :
  let r1 := api_favourites_toggle 7 5000 (book_body 2) shelves_demo in
  let r2 := api_favourites_toggle 7 6000 (book_body 2) r1.2 in
  (∀ k, k ∈ keys_of (rows (favs r2.2)) ↔ k ∈ keys_of (rows (favs shelves_demo))) ∧
  r1.1 = Ok (favourited (negb (bool_decide (is_favourite 7 2 shelves_demo)))) ∧
  r2.1 = Ok (favourited (bool_decide (is_favourite 7 2 shelves_demo))).
Proof.
  by apply (favourites_toggle_twice 7 5000 6000 (book_body 2) 2 shelves_demo shelves_demo_wf).
Defined.

Lemma favourites_list_spec_witness :
  ∃ ids,
    api_favourites_list 7 shelves_demo =
      (Ok (JDict [("ok", JBool true); ("book_ids", JList (JInt <$> ids))], 200),
       shelves_demo) ∧
    ∀ i, i ∈ ids ↔ is_favourite 7 i shelves_demo.
Proof. by apply (favourites_list_spec 7 shelves_demo). Defined.

Lemma favourites_spec_witness :
  ∃ shown,
    favourites books_demo 7 None shelves_demo =
      (Ok (shelf_book_of <$> shown, lower (arg_text None)), shelves_demo) ∧
    shown `sublist_of` favourite_books books_demo 7 (rows (favs shelves_demo)) ∧
    ∀ b, b ∈ shown ↔
      b ∈ favourite_books books_demo 7 (rows (favs shelves_demo)) ∧
      skipped (lower (arg_text None)) b = false.
Proof. by apply (favourites_spec books_demo 7 None shelves_demo). Defined.

Lemma history_spec_witness :
  ∃ shown,
    history books_demo 7 (Some "AUST") shelves_demo =
      (Ok (prod_map shelf_book_of id <$> shown, lower (arg_text (Some "AUST"))),
       shelves_demo) ∧
    (length shown ≤ 100)%nat ∧
    Forall (λ r, r.1 ∈ books_demo ∧ in_history 7 (book_id r.1) shelves_demo ∧
                 skipped (lower (arg_text (Some "AUST"))) r.1 = false) shown.
Proof. by apply (history_spec books_demo 7 (Some "AUST") shelves_demo). Defined.

Lemma history_add_front_witness :
  head (history_books books_demo 7
          (rows (hist (api_history_add 7 5000 (book_body 1) shelves_demo).2)))
    = Some (mkBook 1 "Dune" "Frank Herbert" "Sci-Fi" "1965" "" "" "" "", 5000).
Proof.
  apply (history_add_front books_demo 7 5000 (book_body 1) 1 _ shelves_demo shelves_demo_wf);
    [done..|]. by repeat constructor.
Defined.

Lemma endpoints_bad_body_witness :
  api_favourites_toggle 7 5000 (JList [JInt 2]) shelves_demo
    = (Raise AttributeError, shelves_demo) ∧
  api_history_add 7 5000 (JList [JInt 2]) shelves_demo = (Raise AttributeError, shelves_demo).
Proof. by apply (endpoints_bad_body 7 5000 (JList [JInt 2]) shelves_demo). Defined.

(** A favourite of a book that has no row is stored and listed by the
    API, and the page leaves it out. *)
Example favourite_without_book :
  let s := (api_favourites_toggle 7 5000 (book_body 99) start).2 in
  (api_favourites_list 7 s).1 =
    Ok (JDict [("ok", JBool true); ("book_ids", JList [JInt 99])], 200) ∧
  (favourites books_demo 7 None s).1 = Ok ([], EmptyString).
Proof. by vm_compute. Qed.

(** [int] accepts more than a positive integer: a fraction is cut, a
    boolean counts as 1, a negative number is taken as it is. *)
Example book_id_conversions :
  book_id_of_body (JDict [("book_id", JFloat 2.5%float)]) = Ok 2 ∧
  book_id_of_body (JDict [("book_id", JBool true)]) = Ok 1 ∧
  book_id_of_body (JDict [("book_id", JStr " -3 ")]) = Ok (-3) ∧
  book_id_of_body (JDict [("book_id", JStr "two")]) = Raise ValueError ∧
  book_id_of_body (JDict []) = Ok 0 ∧ book_id_of_body JNull = Ok 0.
Proof. by vm_compute. Qed.
