(* ===== verification/Settings.v ===== *)
(** * Settings: the preferences kept in the browser session

    [get_pref] and [set_pref] of src/main.py and the four pages that use
    them: /privacy, /notifications, /theme and /language.  The Flask
    session is a dictionary from names to JSON values, here a [gmap]; a
    page is a handler in the monad [M session] that takes the posted
    form, or [None] for a GET, and answers with a redirect or with the
    arguments of its template.  The requests form a transition system on
    the session; its invariant says that every stored preference is in
    the range its page offers, so what a page shows is always one of its
    choices. *)

From Stdlib Require Import ZArith.
From stdpp Require Import base tactics option list strings gmap relations.
From S2P Require Import Prelude PyStr Json Flask.

(** ** Definitions *)

(** [flask.session] *)
Notation session := (gmap string json).

Definition LANGS : list string :=
  ["English"; "Español"; "Français"; "Deutsch"; "Italiano"].

Definition get_pref (key : string) (default_value : json) : M session json :=
  gets (λ s, default default_value (s !! key)).

Definition set_pref (key : string) (value : json) : M session unit :=
  modify (<[key := value]>).

(** [bool(request.form.get(name))]: true for every text but the empty
    one. *)
Definition checked (x : option string) : bool := truthy (default EmptyString x).

(** What a settings page answers: a redirect to itself after a POST, the
    keyword arguments of its template after a GET. *)
Definition settings_answer : Type := page + list (string * json).

Definition privacy_settings (post : option (option string * option string))
  : M session settings_answer :=
  match post with
  | Some (profile_private, show_activity) =>
      set_pref "profile_private" (JBool (checked profile_private));;
      set_pref "show_activity" (JBool (checked show_activity));;
      mret (inl (Redirect "privacy_settings" "Privacy settings saved." "ok"))
  | None =>
      profile_private ← get_pref "profile_private" (JBool false);
      show_activity ← get_pref "show_activity" (JBool true);
      mret (inr [("profile_private", profile_private); ("show_activity", show_activity)])
  end.

Definition notifications_settings (post : option (option string))
  : M session settings_answer :=
  match post with
  | Some enabled =>
      set_pref "notifications_enabled" (JBool (checked enabled));;
      mret (inl (Redirect "notifications_settings" "Notifications preference updated." "ok"))
  | None =>
      enabled ← get_pref "notifications_enabled" (JBool true);
      mret (inr [("enabled", enabled)])
  end.

(** The theme a POST to /theme stores. *)
Definition chosen_theme (x : option string) : string :=
  let theme := lower (arg_or x "light") in
  if bool_decide (theme ∈ ["light"; "dark"]) then theme else "light".

Definition theme_settings (post : option (option string)) : M session settings_answer :=
  match post with
  | Some x =>
      set_pref "theme" (JStr (chosen_theme x));;
      mret (inl (Redirect "theme_settings" "Theme updated." "ok"))
  | None =>
      theme ← get_pref "theme" (JStr "light");
      mret (inr [("theme", theme)])
  end.

(** The language a POST to /language stores. *)
Definition chosen_lang (x : option string) : string :=
  let lang := arg_or x "English" in
  if bool_decide (lang ∈ LANGS) then lang else "English".

Definition language_settings (post : option (option string)) : M session settings_answer :=
  match post with
  | Some x =>
      let lang := chosen_lang x in
      set_pref "lang" (JStr lang);;
      mret (inl (Redirect "language_settings" ("Language set to " +:+ lang) "ok"))
  | None =>
      current ← get_pref "lang" (JStr "English");
      mret (inr [("langs", JList (JStr <$> LANGS)); ("current", current)])
  end.

(** *** The settings pages as a transition system *)

Inductive pref_request : Type :=
  | Privacy (post : option (option string * option string))
  | Notifications (post : option (option string))
  | Theme (post : option (option string))
  | Language (post : option (option string)).

Definition submit (r : pref_request) : M session settings_answer :=
  match r with
  | Privacy post => privacy_settings post
  | Notifications post => notifications_settings post
  | Theme post => theme_settings post
  | Language post => language_settings post
  end.

Inductive submits (s : session) : session → Prop :=
  | Submits r : submits s (submit r s).2.

(** The sessions a browser can hold: those the pages produce from the
    empty one. *)
Definition held (s : session) : Prop := rtc submits ∅ s.

(** The names a request writes. *)
Definition written (r : pref_request) : list string :=
  match r with
  | Privacy (Some _) => ["profile_private"; "show_activity"]
  | Notifications (Some _) => ["notifications_enabled"]
  | Theme (Some _) => ["theme"]
  | Language (Some _) => ["lang"]
  | _ => []
  end.

(** The values a preference may hold. *)
Definition in_range (key : string) (v : json) : Prop :=
  if decide (key = "theme") then v = JStr "light" ∨ v = JStr "dark"
  else if decide (key = "lang") then ∃ l, v = JStr l ∧ l ∈ LANGS
  else ∃ b, v = JBool b.

Definition session_wf (s : session) : Prop := map_Forall in_range s.

(** What a page shows for a name of its template. *)
Definition shown (name : string) (a : outcome settings_answer) : option json :=
  match a with
  | Ok (inr kw) => assoc name kw
  | _ => None
  end.

(** ** Lemmas *)

Lemma chosen_theme_range x : chosen_theme x = "light" ∨ chosen_theme x = "dark".
Proof.
  unfold chosen_theme. case_bool_decide as Hin; [|by left].
  by apply list_elem_of_In in Hin as [<- | [<- | []]]; [left|right].
Qed.

Lemma chosen_lang_range x : chosen_lang x ∈ LANGS.
Proof.
  unfold chosen_lang. case_bool_decide as Hin; [done|]. by left.
Qed.

Lemma chosen_lang_member l : l ∈ LANGS → chosen_lang (Some l) = l.
Proof.
  intros Hl. unfold chosen_lang.
  assert (truthy l = true) as Ht
    by (apply list_elem_of_In in Hl; simpl in Hl; by intuition subst).
  cbn [arg_or]. unfold str_or. rewrite Ht. by rewrite bool_decide_true.
Qed.

Lemma in_range_theme x : in_range "theme" (JStr (chosen_theme x)).
Proof. unfold in_range. simpl. destruct (chosen_theme_range x) as [-> | ->]; eauto. Qed.

Lemma in_range_lang x : in_range "lang" (JStr (chosen_lang x)).
Proof. unfold in_range. simpl. eexists. split; [done|apply chosen_lang_range]. Qed.

Lemma session_wf_insert k v s : in_range k v → session_wf s → session_wf (<[k := v]> s).
Proof. intros. by apply map_Forall_insert_2. Qed.

(** The session after a request. *)
Lemma submit_state r s :
  (submit r s).2 =
    match r with
    | Privacy (Some (p, a)) =>
        <["show_activity" := JBool (checked a)]> (<["profile_private" := JBool (checked p)]> s)
    | Notifications (Some e) => <["notifications_enabled" := JBool (checked e)]> s
    | Theme (Some x) => <["theme" := JStr (chosen_theme x)]> s
    | Language (Some x) => <["lang" := JStr (chosen_lang x)]> s
    | _ => s
    end.
Proof. by destruct r as [[[p a]|]|[e|]|[x|]|[x|]]. Qed.

(** A request leaves a well-formed session well formed. *)
Lemma submit_wf r s : session_wf s → session_wf (submit r s).2.
Proof.
  intros Hs. rewrite submit_state. destruct r as [[[p a]|]|[e|]|[x|]|[x|]]; try done.
  - apply session_wf_insert; [by eexists|]. apply session_wf_insert; [by eexists|done].
  - apply session_wf_insert; [by eexists|done].
  - apply session_wf_insert; [apply in_range_theme|done].
  - apply session_wf_insert; [apply in_range_lang|done].
Qed.

Lemma held_wf s : held s → session_wf s.
Proof.
  unfold held. revert s. apply rtc_ind_r; [apply map_Forall_empty|].
  intros s s' _ [r] IH. by apply submit_wf.
Qed.

(** A request changes the names it writes and no other. *)
Lemma submit_frame r s k : k ∉ written r → (submit r s).2 !! k = s !! k.
Proof.
  intros Hk. rewrite submit_state.
  destruct r as [[[p a]|]|[e|]|[x|]|[x|]]; try done; cbn [written] in Hk;
    repeat (apply not_elem_of_cons in Hk as [? Hk]);
    repeat (rewrite lookup_insert_ne by done); done.
Qed.

Lemma pref_range k d s : session_wf s → in_range k d → in_range k (default d (s !! k)).
Proof. intros Hs Hd. destruct (s !! k) as [v|] eqn:Hv; [exact (Hs k v Hv)|done]. Qed.

Lemma theme_range s :
  session_wf s → ∃ t, default (JStr "light") (s !! "theme") = JStr t ∧ t ∈ ["light"; "dark"].
Proof.
  intros Hs. destruct (pref_range "theme" (JStr "light") s Hs) as [-> | ->]; [by left|..];
    eexists; (split; [done|]); [by left|by right; left].
Qed.

Lemma lang_range s :
  session_wf s → ∃ l, default (JStr "English") (s !! "lang") = JStr l ∧ l ∈ LANGS.
Proof.
  intros Hs. apply (pref_range "lang" (JStr "English") s Hs).
  eexists. split; [done|by left].
Qed.

Lemma flag_range k d s :
  k ≠ "theme" → k ≠ "lang" → session_wf s → ∃ b, default (JBool d) (s !! k) = JBool b.
Proof.
  intros Ht Hl Hs. pose proof (pref_range k (JBool d) s Hs) as Hr.
  unfold in_range in Hr. rewrite !decide_False in Hr by done. apply Hr. by eexists.
Qed.

(** What a GET shows is the stored preference or the default of the
    page. *)
Lemma shown_pref s :
  shown "theme" (theme_settings None s).1 = Some (default (JStr "light") (s !! "theme")) ∧
  shown "current" (language_settings None s).1 = Some (default (JStr "English") (s !! "lang")) ∧
  shown "enabled" (notifications_settings None s).1
    = Some (default (JBool true) (s !! "notifications_enabled")) ∧
  shown "profile_private" (privacy_settings None s).1
    = Some (default (JBool false) (s !! "profile_private")) ∧
  shown "show_activity" (privacy_settings None s).1
    = Some (default (JBool true) (s !! "show_activity")).
Proof. done. Qed.

(** ** Theorems *)

(** In every session the settings pages can produce, each page shows
    one of its choices: /theme shows "light" or "dark", /language a
    language of [LANGS], and /privacy and /notifications show
    booleans. *)
Theorem held_shows_choices s :
  held s →
  (∃ t, shown "theme" (theme_settings None s).1 = Some (JStr t) ∧ t ∈ ["light"; "dark"]) ∧
  (∃ l, shown "current" (language_settings None s).1 = Some (JStr l) ∧ l ∈ LANGS) ∧
  (∃ b, shown "enabled" (notifications_settings None s).1 = Some (JBool b)) ∧
  (∃ p a, shown "profile_private" (privacy_settings None s).1 = Some (JBool p) ∧
          shown "show_activity" (privacy_settings None s).1 = Some (JBool a)).
Proof.
  intros Hs%held_wf. destruct (shown_pref s) as (-> & -> & -> & -> & ->).
  destruct (theme_range s Hs) as (t & -> & Ht), (lang_range s Hs) as (l & -> & Hl).
  destruct (flag_range "notifications_enabled" true s) as [b ->]; [done..|].
  destruct (flag_range "profile_private" false s) as [p ->]; [done..|].
  destruct (flag_range "show_activity" true s) as [a ->]; [done..|].
  split_and!; eauto.
Qed.

(** A POST to /theme stores the posted theme in lower case when that is
    "light" or "dark" and "light" otherwise, changes no other preference
    and redirects to the page, which then shows the stored theme. *)
Theorem theme_settings_spec x s :
  theme_settings (Some x) s
    = (Ok (inl (Redirect "theme_settings" "Theme updated." "ok")),
       <["theme" := JStr (chosen_theme x)]> s) ∧
  chosen_theme x ∈ ["light"; "dark"] ∧
  (lower (arg_or x "light") ∈ ["light"; "dark"] → chosen_theme x = lower (arg_or x "light")) ∧
  shown "theme" (theme_settings None (theme_settings (Some x) s).2).1
    = Some (JStr (chosen_theme x)).
Proof.
  split; [done|]. split; [destruct (chosen_theme_range x) as [-> | ->]; set_solver|].
  split; [intros Hin; unfold chosen_theme; by rewrite bool_decide_true|].
  destruct (shown_pref (theme_settings (Some x) s).2) as (-> & _).
  change (theme_settings (Some x) s).2 with (<["theme" := JStr (chosen_theme x)]> s).
  by rewrite lookup_insert_eq.
Qed.

(** A language of [LANGS] posted to /language is the one the page shows
    afterwards, and the flashed message names it. *)
Theorem language_settings_roundtrip l s :
  l ∈ LANGS →
  (language_settings (Some (Some l)) s).1
    = Ok (inl (Redirect "language_settings" ("Language set to " +:+ l) "ok")) ∧
  shown "current" (language_settings None (language_settings (Some (Some l)) s).2).1
    = Some (JStr l).
Proof.
  intros Hl. destruct (shown_pref (language_settings (Some (Some l)) s).2) as (_ & -> & _).
  change (language_settings (Some (Some l)) s)
    with (Ok (inl (Redirect "language_settings" ("Language set to " +:+ chosen_lang (Some l))
                     "ok")) : outcome settings_answer,
          <["lang" := JStr (chosen_lang (Some l))]> s).
  rewrite (chosen_lang_member l Hl). cbn [fst snd]. by rewrite lookup_insert_eq.
Qed.

(** A request to a settings page changes the preferences that page
    writes and no other; a GET changes none. *)
Theorem submit_frame_spec r s k :
  k ∉ written r → (submit r s).2 !! k = s !! k.
Proof. apply submit_frame. Qed.

(** A POST to /privacy stores for each box whether its field came with
    a text that is not empty, whatever the text says. *)
Theorem privacy_settings_spec p a s :
  let s' := (privacy_settings (Some (p, a)) s).2 in
  (privacy_settings (Some (p, a)) s).1
    = Ok (inl (Redirect "privacy_settings" "Privacy settings saved." "ok")) ∧
  s' !! "profile_private" = Some (JBool (checked p)) ∧
  s' !! "show_activity" = Some (JBool (checked a)) ∧
  (checked p = true ↔ ∃ t, p = Some t ∧ t ≠ EmptyString).
Proof.
  intros s'. pose proof (submit_state (Privacy (Some (p, a))) s) as Hs'.
  change (submit _ s).2 with s' in Hs'. rewrite Hs'. split_and!; [done|..].
  - by rewrite lookup_insert_ne, lookup_insert_eq.
  - by rewrite lookup_insert_eq.
  - split; [|by intros ([|c t] & -> & Ht)].
    destruct p as [[|c t]|]; [done| |done]. intros _. by eexists.
Qed.

(** ** Witnesses *)

(** The session after choosing the dark theme and Italian. *)
Lemma dark_italian_held :
  held (submit (Language (Some (Some "Italiano"))) (submit (Theme (Some (Some "DARK"))) ∅).2).2.
Proof. eapply rtc_r; [apply rtc_once|]; constructor. Qed.

Lemma held_shows_choices_witness :
  let s := (submit (Language (Some (Some "Italiano"))) (submit (Theme (Some (Some "DARK"))) ∅).2).2 in
  (∃ t, shown "theme" (theme_settings None s).1 = Some (JStr t) ∧ t ∈ ["light"; "dark"]) ∧
  (∃ l, shown "current" (language_settings None s).1 = Some (JStr l) ∧ l ∈ LANGS) ∧
  (∃ b, shown "enabled" (notifications_settings None s).1 = Some (JBool b)) ∧
  (∃ p a, shown "profile_private" (privacy_settings None s).1 = Some (JBool p) ∧
          shown "show_activity" (privacy_settings None s).1 = Some (JBool a)).
Proof. exact (held_shows_choices _ dark_italian_held). Defined.

Lemma language_settings_roundtrip_witness :
  (language_settings (Some (Some "Deutsch")) ∅).1
    = Ok (inl (Redirect "language_settings" "Language set to Deutsch" "ok")) ∧
  shown "current" (language_settings None (language_settings (Some (Some "Deutsch")) ∅).2).1
    = Some (JStr "Deutsch").
Proof.
  apply (language_settings_roundtrip "Deutsch" ∅).
  apply (bool_decide_unpack (_ ∈ _)). reflexivity.
Defined.

Lemma submit_frame_spec_witness :
  (submit (Theme (Some (Some "dark"))) {["lang" := JStr "Deutsch"]}).2 !! "lang"
    = ({["lang" := JStr "Deutsch"]} : session) !! "lang".
Proof.
  apply (submit_frame_spec (Theme (Some (Some "dark")))).
  apply (bool_decide_unpack (_ ∉ _)). reflexivity.
Defined.

(** A box posted with the text "false" is stored as ticked. *)
Example privacy_false_is_true :
  (privacy_settings (Some (Some "false", None)) ∅).2 !! "profile_private" = Some (JBool true).
Proof. reflexivity. Qed.

(** A theme is not stripped before it is compared, and a language is
    compared as typed: both fall back to the default. *)
Example settings_compare_as_typed :
  chosen_theme (Some "Dark") = "dark" ∧ chosen_theme (Some " dark") = "light" ∧
  chosen_lang (Some "deutsch") = "English".
Proof. done. Qed.
