(* ===== verification/Migrate.v ===== *)
(** * Migrate: the tables created and altered when the module is loaded

    [db.create_all()] and the two blocks that follow it in src/main.py,
    which add the columns that older database files lack.  The state is
    the schema of the database file: a finite map from the name of a
    table to the names of its columns, in the order of [PRAGMA
    table_info].  SQLite compares the names of columns without regard to
    case, the guards of the program compare them as written. *)

From stdpp Require Import base tactics option list strings gmap.
From S2P Require Import Prelude PyStr.

(** ** Definitions *)

Notation schema := (gmap string (list string)).

(** The tables of the five models and their columns. *)
Definition MODELS : list (string * list string) :=
  [("user", ["id"; "email"; "password_hash"; "name"; "handle"; "bio"]);
   ("review", ["id"; "user_id"; "book_title"; "book_author"; "book_cover"; "rating"; "text";
               "created"]);
   ("book", ["id"; "title"; "author"; "genre"; "year"; "cover"; "olid"; "cover_i"; "isbn"]);
   ("favourite", ["id"; "user_id"; "book_id"; "created_at"]);
   ("history", ["id"; "user_id"; "book_id"; "viewed_at"])].

(** [CREATE TABLE] for a model whose table does not exist. *)
Definition create_table (s : schema) (model : string * list string) : schema :=
  if s !! model.1 is Some _ then s else <[model.1 := model.2]> s.

(** [db.create_all()] *)
Definition create_all : M schema unit :=
  for_each MODELS (λ model, modify (λ s, create_table s model)).

(** [[row[1] for row in db.session.execute(text("PRAGMA table_info(t)")).fetchall()]]:
    no row for a table that does not exist. *)
Definition table_info (t : string) : M schema (list string) :=
  gets (λ s, default [] (s !! t)).

(** SQLite's test for a column of that name. *)
Definition has_column (cols : list string) (c : string) : bool :=
  bool_decide (lower c ∈ lower <$> cols).

(** [ALTER TABLE t ADD COLUMN c TEXT DEFAULT '']: refused when the table
    does not exist or has a column of that name. *)
Definition add_column (t c : string) : M schema unit :=
  s ← get;
  match s !! t with
  | Some cols =>
      if has_column cols c then raise OperationalError else put (<[t := cols ++ [c]]> s)
  | None => raise OperationalError
  end.

(** [if c not in cols: db.session.execute(text("ALTER TABLE ..."))] *)
Definition ensure_column (cols : list string) (t c : string) : M schema unit :=
  if bool_decide (c ∉ cols) then add_column t c else mret tt.

(** The two blocks after [db.create_all()]; a commit does not change
    the schema. *)
Definition migrate : M schema unit :=
  cols_user ← table_info "user";
  ensure_column cols_user "user" "bio" ;;
  cols_book ← table_info "book";
  ensure_column cols_book "book" "olid" ;;
  ensure_column cols_book "book" "cover_i" ;;
  ensure_column cols_book "book" "isbn".

(** What runs under [with app.app_context():] when the module is loaded. *)
Definition setup : M schema unit := create_all ;; migrate.

(** *** The specification *)

(** The columns the migration adds to a table. *)
Definition ADDED (t : string) : list string :=
  if decide (t = "user") then ["bio"]
  else if decide (t = "book") then ["olid"; "cover_i"; "isbn"]
  else [].

Definition with_column (cols : list string) (c : string) : list string :=
  if bool_decide (c ∈ cols) then cols else cols ++ [c].

(** The columns of a table after the migration. *)
Definition upgraded (t : string) (old : list string) : list string :=
  foldl with_column old (ADDED t).

Definition models : schema := list_to_map MODELS.

(** No upper-case letter in the name of a column. *)
Definition lowercase (s : schema) : Prop :=
  map_Forall (λ _ cols, Forall (λ c, lower c = c) cols) s.

(** A database file of a version that lacks at most the columns the
    migration adds. *)
Definition known (s : schema) : Prop :=
  ∀ t cols old c, (t, cols) ∈ MODELS → s !! t = Some old → c ∈ cols → c ∈ old ∨ c ∈ ADDED t.

(** ** Lemmas *)

Lemma elem_of_with_column cols c x : x ∈ with_column cols c ↔ x ∈ cols ∨ x = c.
Proof.
  unfold with_column. case_bool_decide; [|rewrite elem_of_app, list_elem_of_singleton; tauto].
  split; [tauto|]. by intros [? | ->].
Qed.

Lemma with_column_prefix cols c : cols `prefix_of` with_column cols c.
Proof. unfold with_column. case_bool_decide; [done|]. by apply prefix_app_r. Qed.

Lemma with_column_lower cols c :
  Forall (λ x, lower x = x) cols → lower c = c → Forall (λ x, lower x = x) (with_column cols c).
Proof.
  intros Hl Hc. unfold with_column. case_bool_decide; [done|].
  apply Forall_app. by repeat constructor.
Qed.

Lemma with_column_id cols c : c ∈ cols → with_column cols c = cols.
Proof. intros Hc. unfold with_column. by rewrite bool_decide_true. Qed.

Lemma upgraded_prefix t old : old `prefix_of` upgraded t old.
Proof.
  unfold upgraded. generalize (ADDED t). intros l. revert old.
  induction l as [|c l IH]; intros old; [done|]. simpl.
  etrans; [apply (with_column_prefix old c)|apply IH].
Qed.

Lemma foldl_with_column_id l cols : l ⊆ cols → foldl with_column cols l = cols.
Proof.
  induction l as [|c l IH]; intros Hl; [done|]. simpl.
  rewrite with_column_id by set_solver. apply IH. set_solver.
Qed.

Lemma elem_of_foldl_with_column l cols x :
  x ∈ foldl with_column cols l ↔ x ∈ cols ∨ x ∈ l.
Proof.
  revert cols. induction l as [|c l IH]; intros cols; simpl; [set_solver|].
  rewrite IH, elem_of_with_column. set_solver.
Qed.

Lemma elem_of_upgraded t old x : x ∈ upgraded t old ↔ x ∈ old ∨ x ∈ ADDED t.
Proof. apply elem_of_foldl_with_column. Qed.

Lemma upgraded_idemp t old : upgraded t (upgraded t old) = upgraded t old.
Proof.
  unfold upgraded at 1. apply foldl_with_column_id.
  intros x Hx. apply elem_of_upgraded. by right.
Qed.

(** On names in lower case SQLite and Python agree. *)
Lemma has_column_lower cols c :
  Forall (λ x, lower x = x) cols → lower c = c → has_column cols c = bool_decide (c ∈ cols).
Proof.
  intros Hl Hc. unfold has_column. rewrite Hc.
  replace (lower <$> cols) with cols; [done|].
  induction Hl as [|x l Hx _ IH]; [done|]. by rewrite fmap_cons, Hx, <- IH.
Qed.

Lemma create_all_run s : create_all s = (Ok tt, foldl create_table s MODELS).
Proof. done. Qed.

Lemma lookup_create l s t :
  foldl create_table s l !! t = (s ∪ list_to_map l) !! t.
Proof.
  revert s. induction l as [|[t' cols] l IH]; intros s; simpl.
  { by rewrite (right_id_L ∅ (∪)). }
  rewrite IH, !lookup_union. unfold create_table; simpl.
  destruct (decide (t' = t)) as [-> | Hne].
  - rewrite lookup_insert_eq. destruct (s !! t) as [old|] eqn:Hs; rewrite ?Hs.
    + by destruct (list_to_map l !! t).
    + rewrite lookup_insert_eq. by destruct (list_to_map l !! t).
  - rewrite (lookup_insert_ne _ t') by done.
    destruct (s !! t'); [done|]. by rewrite lookup_insert_ne.
Qed.

Lemma lowercase_models : lowercase models.
Proof.
  apply map_Forall_to_list, Forall_forall. intros [t cols] Hin%elem_of_map_to_list.
  apply (elem_of_list_to_map_2 MODELS) in Hin.
  apply list_elem_of_In in Hin; simpl in Hin.
  repeat (destruct Hin as [[= <- <-] | Hin]; [by repeat constructor|]). done.
Qed.

Lemma lowercase_create s : lowercase s → lowercase (foldl create_table s MODELS).
Proof.
  intros Hs t cols Ht. rewrite lookup_create in Ht.
  apply lookup_union_Some_raw in Ht as [Ht | [_ Ht]]; [by apply (Hs t)|].
  by apply (lowercase_models t).
Qed.

(** One guarded ALTER TABLE, when the list the guard reads agrees with
    the table on the column. *)
Lemma ensure_column_run s t c stale cols :
  s !! t = Some cols → Forall (λ x, lower x = x) cols → lower c = c →
  (c ∈ stale ↔ c ∈ cols) →
  ensure_column stale t c s = (Ok tt, <[t := with_column cols c]> s).
Proof.
  intros Ht Hl Hc Hiff. unfold ensure_column, with_column.
  rewrite (bool_decide_ext _ _ (not_iff_compat Hiff)), bool_decide_not.
  destruct (bool_decide (c ∈ cols)) eqn:Hin; simpl; [by rewrite insert_id|].
  unfold add_column, mbind, M_bind, get. simpl. rewrite Ht.
  by rewrite (has_column_lower cols c Hl Hc), Hin.
Qed.

Lemma migrate_run s cu cb :
  s !! "user" = Some cu → s !! "book" = Some cb → lowercase s →
  migrate s = (Ok tt, <["book" := upgraded "book" cb]> (<["user" := upgraded "user" cu]> s)).
Proof.
  intros Hu Hb Hs. pose proof (Hs _ _ Hu) as Hlu. pose proof (Hs _ _ Hb) as Hlb.
  cbn beta in Hlu, Hlb.
  unfold migrate. rewrite (M_bind_ok _ _ s cu s) by (unfold table_info, gets; by rewrite Hu).
  set (s1 := <["user" := with_column cu "bio"]> s).
  rewrite (M_bind_ok _ _ s tt s1) by by apply ensure_column_run.
  assert (s1 !! "book" = Some cb) as Hb1 by by (unfold s1; rewrite lookup_insert_ne).
  rewrite (M_bind_ok _ _ s1 cb s1) by (unfold table_info, gets; by rewrite Hb1).
  set (c1 := with_column cb "olid"). set (c2 := with_column c1 "cover_i").
  assert (Forall (λ x, lower x = x) c1) as Hl1 by by apply with_column_lower.
  assert (Forall (λ x, lower x = x) c2) as Hl2 by by apply with_column_lower.
  rewrite (M_bind_ok _ _ s1 tt (<["book" := c1]> s1)) by by apply ensure_column_run.
  rewrite (M_bind_ok _ _ _ tt (<["book" := c2]> s1)).
  - rewrite (ensure_column_run _ "book" "isbn" cb c2 (lookup_insert_eq _ _ _) Hl2 eq_refl).
    + by rewrite insert_insert_eq.
    + unfold c2, c1. rewrite !elem_of_with_column. naive_solver.
  - rewrite (ensure_column_run _ "book" "cover_i" cb c1 (lookup_insert_eq _ _ _) Hl1 eq_refl).
    + by rewrite insert_insert_eq.
    + unfold c1. rewrite elem_of_with_column. naive_solver.
Qed.

(** The tables after [setup]. *)
Lemma setup_run s :
  lowercase s →
  ∃ s', setup s = (Ok tt, s') ∧ ∀ t, s' !! t = upgraded t <$> (s ∪ models) !! t.
Proof.
  intros Hs. set (s1 := foldl create_table s MODELS).
  assert (∀ t, s1 !! t = (s ∪ models) !! t) as H1 by (intros t; apply lookup_create).
  assert (∃ cu, s1 !! "user" = Some cu) as [cu Hu].
  { rewrite H1, lookup_union. destruct (s !! "user"); by eexists. }
  assert (∃ cb, s1 !! "book" = Some cb) as [cb Hb].
  { rewrite H1, lookup_union. destruct (s !! "book"); by eexists. }
  eexists. split.
  { unfold setup. rewrite (M_bind_ok _ _ s tt s1) by apply create_all_run.
    apply (migrate_run s1 cu cb Hu Hb), lowercase_create, Hs. }
  intros t. rewrite <- H1. destruct (decide (t = "book")) as [-> | Hnb].
  { by rewrite lookup_insert_eq, Hb. }
  rewrite lookup_insert_ne by done. destruct (decide (t = "user")) as [-> | Hnu].
  { by rewrite lookup_insert_eq, Hu. }
  rewrite lookup_insert_ne by done. destruct (s1 !! t) as [cols|]; [simpl|done].
  unfold upgraded, ADDED. by rewrite !decide_False.
Qed.

Lemma setup_lookup s t : lowercase s → (setup s).2 !! t = upgraded t <$> (s ∪ models) !! t.
Proof. intros (s' & -> & Hs')%setup_run. apply Hs'. Qed.

(** ** Theorems *)

(** C33. On a database file whose column names are in lower case, the
    set-up never fails: it creates the tables that are missing with all
    the columns of their models, and appends to the tables [user] and
    [book] that exist the columns of [ADDED] they lack, in that order;
    every other table is left as it is. *)
Theorem setup_spec s :
  lowercase s →
  (setup s).1 = Ok tt ∧ ∀ t, (setup s).2 !! t = upgraded t <$> (s ∪ models) !! t.
Proof. intros (s' & -> & Hs')%setup_run. done. Qed.

(** Running the set-up again, as every start of the application does,
    changes nothing. *)
Theorem setup_idempotent s :
  lowercase s → setup (setup s).2 = (Ok tt, (setup s).2).
Proof.
  intros Hs. destruct (setup_run s Hs) as (s1 & E1 & H1). rewrite E1. cbn [snd].
  assert (lowercase s1) as Hs1.
  { intros t cols Ht. rewrite H1 in Ht. apply fmap_Some in Ht as (old & Ht & ->).
    assert (Forall (λ c, lower c = c) old) as Hold.
    { apply lookup_union_Some_raw in Ht as [Ht | [_ Ht]];
        [by apply (Hs t)|by apply (lowercase_models t)]. }
    apply Forall_forall. intros c [Hc | Hc]%elem_of_upgraded.
    - by apply (proj1 (Forall_forall _ _) Hold).
    - unfold ADDED in Hc. repeat case_decide; set_solver. }
  destruct (setup_run s1 Hs1) as (s2 & E2 & H2). rewrite E2. f_equal.
  apply map_eq. intros t. rewrite H2, lookup_union, H1.
  destruct ((s ∪ models) !! t) as [old|] eqn:Hold; simpl.
  - destruct (models !! t); cbn; by rewrite upgraded_idemp.
  - apply lookup_union_None in Hold as [_ ->]. done.
Qed.

(** The set-up keeps every table and every column of the file, in
    their order: the columns of a table that existed are a prefix of
    its columns afterwards. *)
Theorem setup_keeps s t old :
  lowercase s → s !! t = Some old →
  ∃ new, (setup s).2 !! t = Some new ∧ old `prefix_of` new.
Proof.
  intros Hs Ht. rewrite setup_lookup by done.
  rewrite (lookup_union_Some_l s models t old Ht). simpl.
  eexists. split; [done|apply upgraded_prefix].
Qed.

(** On a file of a version that lacks at most the columns of [ADDED],
    every table has every column of its model after the set-up. *)
Theorem setup_complete s t cols c :
  lowercase s → known s → (t, cols) ∈ MODELS → c ∈ cols →
  ∃ have, (setup s).2 !! t = Some have ∧ c ∈ have.
Proof.
  intros Hs Hk Ht Hc. rewrite setup_lookup by done. rewrite lookup_union.
  assert (models !! t = Some cols) as ->.
  { apply elem_of_list_to_map_1; [|done]. apply (bool_decide_unpack (NoDup _)). reflexivity. }
  destruct (s !! t) as [old|] eqn:Hold; simpl; eexists; (split; [done|]);
    apply elem_of_upgraded; [|by left].
  by apply (Hk t cols old c).
Qed.

(** ** Witnesses *)

(** A file made before [bio] and the Open Library columns existed. *)
Definition old_file : schema :=
  {[ "user" := ["id"; "email"; "password_hash"; "name"; "handle"];
     "book" := ["id"; "title"; "author"; "genre"; "year"; "cover"; "cover_i"] ]}.

Lemma old_file_lowercase : lowercase old_file.
Proof.
  apply map_Forall_to_list, (bool_decide_unpack (Forall _ _)). vm_compute. reflexivity.
Qed.

Lemma setup_spec_witness :
  (setup old_file).1 = Ok tt ∧
  ∀ t, (setup old_file).2 !! t = upgraded t <$> (old_file ∪ models) !! t.
Proof. exact (setup_spec old_file old_file_lowercase). Defined.

Lemma setup_idempotent_witness :
  setup (setup old_file).2 = (Ok tt, (setup old_file).2).
Proof. exact (setup_idempotent old_file old_file_lowercase). Defined.

Lemma setup_keeps_witness :
  ∃ new, (setup old_file).2 !! "book" = Some new ∧
         ["id"; "title"; "author"; "genre"; "year"; "cover"; "cover_i"] `prefix_of` new.
Proof. by apply (setup_keeps old_file "book" _ old_file_lowercase). Defined.

Lemma old_file_known : known old_file.
Proof.
  intros t cols old c Ht Hold Hc. apply list_elem_of_In in Ht; simpl in Ht.
  repeat (destruct Ht as [[= <- <-] | Ht]); try done; vm_compute in Hold;
    try discriminate; injection Hold as <-; apply list_elem_of_In in Hc; simpl in Hc;
    repeat (destruct Hc as [<- | Hc]; [(by left; repeat constructor) || (by right; repeat constructor)|]);
    done.
Qed.

Lemma setup_complete_witness :
  ∃ have, (setup old_file).2 !! "book" = Some have ∧ "olid" ∈ have.
Proof.
  apply (setup_complete old_file "book"
           ["id"; "title"; "author"; "genre"; "year"; "cover"; "olid"; "cover_i"; "isbn"] "olid"
           old_file_lowercase old_file_known);
    apply (bool_decide_unpack (_ ∈ _)); reflexivity.
Defined.

(** The columns of [book] in an old file after the set-up: the two that
    were missing come last. *)
Example setup_old_file :
  (setup old_file).2 !! "book"
    = Some ["id"; "title"; "author"; "genre"; "year"; "cover"; "cover_i"; "olid"; "isbn"].
Proof. vm_compute. reflexivity. Qed.

(** A column that differs from [bio] by its case passes the guard of the
    program and is refused by SQLite: the application does not start. *)
Example setup_case_clash :
  (setup {[ "user" := ["id"; "email"; "password_hash"; "name"; "handle"; "Bio"] ]}).1
    = Raise OperationalError.
Proof. vm_compute. reflexivity. Qed.

(** A column the migration does not know stays missing: a [review] table
    without [book_cover] is left as it is. *)
Example setup_review_not_upgraded :
  (setup {[ "review" := ["id"; "user_id"; "book_title"; "rating"; "text"; "created"] ]}).2
    !! "review" = Some ["id"; "user_id"; "book_title"; "rating"; "text"; "created"].
Proof. vm_compute. reflexivity. Qed.
