(* ===== verification/Seeder.v ===== *)
(** * Seeder: the curated shelves and [_ensure_seeded_curated]

    One pass over the curated list: an item already in the catalogue is
    skipped, any other costs one external lookup and adds one row; all
    rows are committed together at the end. *)

From Stdlib Require Import ZArith Lia.
From stdpp Require Import base tactics option list strings gmap.
From S2P Require Import Prelude PyStr Json Cover Http Fixtures Matcher Db Catalog.

#[local] Open Scope Z_scope.

(** ** Definitions *)

(** [CURATED_SHELVES]: the shelves in the order the dict lists them,
    each with its (title, author, genre) triples. *)
Definition CURATED_SHELVES : list (string * list (string * string * string)) :=
  [("Classics",
    [("Pride and Prejudice", "Jane Austen", "Classics");
     ("Wuthering Heights", "Emily Brontë", "Classics");
     ("Jane Eyre", "Charlotte Brontë", "Classics");
     ("Great Expectations", "Charles Dickens", "Classics");
     ("The Great Gatsby", "F. Scott Fitzgerald", "Classics");
     ("Crime and Punishment", "Fyodor Dostoevsky", "Classics");
     ("Frankenstein", "Mary Shelley", "Classics");
     ("Dracula", "Bram Stoker", "Classics");
     ("The Picture of Dorian Gray", "Oscar Wilde", "Classics");
     ("1984", "George Orwell", "Classics");
     ("Brave New World", "Aldous Huxley", "Classics")]);
   ("Cult favourites",
    [("The Secret History", "Donna Tartt", "Literary");
     ("Fight Club", "Chuck Palahniuk", "Literary");
     ("American Psycho", "Bret Easton Ellis", "Literary");
     ("The Handmaid's Tale", "Margaret Atwood", "Dystopian");
     ("The Bell Jar", "Sylvia Plath", "Literary");
     ("The Road", "Cormac McCarthy", "Literary");
     ("Gone Girl", "Gillian Flynn", "Mystery");
     ("The Shining", "Stephen King", "Horror")]);
   ("Trending",
    [("Fourth Wing", "Rebecca Yarros", "Fantasy");
     ("Iron Flame", "Rebecca Yarros", "Fantasy");
     ("The Seven Husbands of Evelyn Hugo", "Taylor Jenkins Reid", "Romance");
     ("The Song of Achilles", "Madeline Miller", "Fantasy");
     ("It Ends with Us", "Colleen Hoover", "Romance");
     ("The Silent Patient", "Alex Michaelides", "Mystery")])].

(** The state the seeder works on: the requests sent so far and the
    [Book] table. *)
Record world : Type := World {
  net : list request;
  books : table Book;
}.

Definition with_net {A} (c : M (list request) A) : M world A :=
  zoom net (λ n w, World n (books w)) c.

Definition with_books {A} (c : M (table Book) A) : M world A :=
  zoom books (λ b w, World (net w) b) c.

(** The row built from the metadata of the match. *)
Definition seeded_book (title author genre : string) (meta : gmap string string) : Book :=
  let cover := str_or (strip (meta_get meta "cover")) PLACEHOLDER_COVER in
  new_book title author genre (strip (meta_get meta "year")) cover
    (strip (meta_get meta "olid")) (strip (meta_get meta "cover_i"))
    (strip (meta_get meta "isbn")).

(** The body of the inner [for] loop. *)
Definition seed_item `{PyRuntime, Network} (item : string * string * string)
  : M world unit :=
  let '(title, author, genre) := item in
  let title := strip (str_or title EmptyString) in
  let author := strip (str_or author EmptyString) in
  let genre := strip (str_or genre "Other") in
  if negb (truthy title) || negb (truthy author) then mret tt else
  existing ← with_books (find_book title author);
  if existing is Some _ then mret tt else
  meta ← with_net (_ol_best_match title author 15);
  with_books (session_add (seeded_book title author genre meta)).

(** [_ensure_seeded_curated] over any curated list. *)
Definition ensure_seeded `{PyRuntime, Network}
    (shelves : list (string * list (string * string * string))) (min_books : Z)
  : M world unit :=
  current_count ← with_books query_count;
  if bool_decide (current_count >= min_books) then mret tt else
  for_each shelves (λ shelf, for_each shelf.2 seed_item) ;;
  with_books commit.

(** [_ensure_seeded_curated(min_books)] *)
Definition _ensure_seeded_curated `{PyRuntime, Network} (min_books : Z) : M world unit :=
  ensure_seeded CURATED_SHELVES min_books.

(** The block run when the module is loaded. *)
Definition startup `{PyRuntime, Network} : M world unit :=
  _ensure_seeded_curated 250.

(** What is in the database file whatever happens to the process next:
    the committed rows. *)
Definition persisted (w : world) : list Book := rows (books w).

(** The items of the curated list, flattened in iteration order. *)
Definition curated_items (shelves : list (string * list (string * string * string)))
  : list (string * string * string) :=
  shelves ≫= snd.

(** The (title, author) an item is stored under, when it is stored. *)
Definition item_key (item : string * string * string) : option (string * string) :=
  let '(title, author, _) := item in
  let title := strip title in
  let author := strip author in
  if truthy title && truthy author then Some (title, author) else None.

Definition empty_world : world := World [] empty_table.

(** *** The pass, abstractly

    What a pass does to the set of (title, author) pairs in the
    catalogue: the pairs it adds, in order, each costing one request. *)

Fixpoint missing (present : list (string * string))
    (items : list (string * string * string)) : list (string * string) :=
  match items with
  | [] => []
  | item :: rest =>
      match item_key item with
      | Some k =>
          if decide (k ∈ present) then missing present rest
          else k :: missing (present ++ [k]) rest
      | None => missing present rest
      end
  end.

(** The (title, author) pairs of every row of the session. *)
Definition catalog_keys (w : world) : list (string * string) :=
  keys_of (all_rows (books w)).

Definition request_for `{PyRuntime} (k : string * string) : request :=
  best_match_request k.1 k.2 15.

(** The genre stored for an item. *)
Definition item_genre (item : string * string * string) : string :=
  strip (str_or item.2 "Other").

(** Every storable item of the list is in the catalogue. *)
Definition all_present (items : list (string * string * string)) (w : world) : Prop :=
  ∀ item k, item ∈ items → item_key item = Some k → k ∈ keys_of (persisted w).

(** The pairs a pass adds to a catalogue that holds [ks]. *)
Definition pass_adds (shelves : list (string * list (string * string * string)))
    (m : Z) (w : world) : list (string * string) :=
  if decide (m ≤ Z.of_nat (length (persisted w))) then []
  else missing (keys_of (persisted w)) (curated_items shelves).

(** The scenario of the specification: one curated item. *)
Definition shelf_1984 : list (string * list (string * string * string)) :=
  [("Classics", [("1984", "George Orwell", "Classics")])].

Definition book_1984 (cover olid cover_i isbn year : string) : Book :=
  mkBook 1 "1984" "George Orwell" "Classics" year cover olid cover_i isbn.

Definition request_1984 : request := Request url_1984 USER_AGENT 15.

Definition net_1984 : Network := table_net [(url_1984, body_1984)].

(** ** Lemmas *)

(** A look-up run on the log keeps whatever it keeps on the log; the
    session of the database does not touch the log. *)
Lemma with_net_keeps {A} P (c : M (list request) A) :
  keeps (sent P) c → keeps (via net (sent P)) (with_net c).
Proof. intros Hc. by apply (keeps_zoom _ (sent P)). Qed.

Lemma with_books_keeps {A} P (c : M (table Book) A) : keeps (via net (sent P)) (with_books c).
Proof. apply keeps_zoom_frame. intros s t. unfold via. simpl. reflexivity. Qed.

#[export] Hint Resolve with_net_keeps with_books_keeps : keeps.

Section seed_item.
Context `{PyRuntime, Network}.
Implicit Types (w : world) (item : string * string * string).

(** One iteration, as a function of what the lookup and the match
    return. *)
Lemma seed_item_eq title author genre w :
  seed_item (title, author, genre) w =
    match item_key (title, author, genre) with
    | None => (Ok tt, w)
    | Some (t, a) =>
        match find_book t a (books w) with
        | (Raise e, b1) => (Raise e, World (net w) b1)
        | (Ok (Some _), b1) => (Ok tt, World (net w) b1)
        | (Ok None, b1) =>
            match _ol_best_match t a 15 (net w) with
            | (Ok meta, n1) =>
                (Ok tt, World n1 (session_add
                   (seeded_book t a (item_genre (title, author, genre)) meta) b1).2)
            | (Raise e, n1) => (Raise e, World n1 b1)
            end
        end
    end.
Proof.
  unfold seed_item, item_key. rewrite !str_or_empty_r.
  destruct (truthy (strip title)), (truthy (strip author)); simpl; try done.
  unfold with_books, with_net. monad_unfold.
  destruct (find_book _ _ _) as [[[b|]|e] b1]; simpl; try done.
  by destruct (_ol_best_match _ _ _ _) as [[meta|e] n1].
Qed.

Lemma item_key_Some title author genre t a :
  item_key (title, author, genre) = Some (t, a) →
  t = strip title ∧ a = strip author ∧ blank title = false ∧ blank author = false.
Proof.
  unfold item_key. rewrite !truthy_strip.
  destruct (blank title), (blank author); naive_solver.
Qed.

Lemma item_key_None title author genre :
  item_key (title, author, genre) = None ↔ blank title = true ∨ blank author = true.
Proof.
  unfold item_key. rewrite !truthy_strip.
  destruct (blank title), (blank author); naive_solver.
Qed.

Lemma seed_item_skip_blank item w :
  item_key item = None → seed_item item w = (Ok tt, w).
Proof. destruct item as [[t a] g]. rewrite seed_item_eq. by intros ->. Qed.

(** What one iteration does to a flushable session. *)
Lemma seed_item_step item k w :
  item_key item = Some k → session_ok (books w) →
  let r := seed_item item w in
  session_ok (books r.2) ∧ rows (books r.2) = rows (books w) ∧
  if decide (k ∈ catalog_keys w) then
    r.1 = Ok tt ∧ net r.2 = net w ∧ catalog_keys r.2 = catalog_keys w
  else
    net r.2 = net w ++ [request_for k] ∧
    catalog_keys r.2 = catalog_keys w ++ (if is_Ok r.1 then [k] else []).
Proof.
  destruct item as [[title author] genre], k as [t a]. intros Hk Hok.
  rewrite seed_item_eq, Hk.
  destruct (query_first_ok (by_title_author t a) _ Hok)
    as (b1 & Hf & Hr & Hp & Hks & Hok1).
  unfold find_book. rewrite Hf. unfold catalog_keys. rewrite <- Hks.
  destruct (List.find _ _) as [b|] eqn:Efind.
  - apply find_by_title_author_Some in Efind as [Hb Hkb].
    rewrite decide_True; [by rewrite all_rows_flushed|].
    rewrite keys_of_books, <- Hkb. by apply list_elem_of_fmap_2.
  - apply find_by_title_author_None in Efind. rewrite decide_False by done.
    apply item_key_Some in Hk as (-> & -> & Hbt & Hba).
    pose proof (best_match_log (strip title) (strip author) 15 (net w)) as Hlog.
    rewrite blank_strip, Hbt, !strip_idemp in Hlog.
    destruct (_ol_best_match _ _ _ _) as [[meta|e] n1]; simpl in *; subst n1.
    + split_and!; [|done..|].
      * apply session_add_ok; [done|]. apply conflicts_book; simpl.
        rewrite all_rows_flushed by done. exact Efind.
      * etrans; [apply (keys_of_session_add _ b1)|].
        by rewrite all_rows_flushed.
    + split_and!; try done. by rewrite all_rows_flushed, app_nil_r.
Qed.
End seed_item.

(** *** The abstract pass *)

Section missing.
Implicit Types (ks : list (string * string)) (k : string * string).
Implicit Types (items : list (string * string * string)).

Lemma missing_fresh ks items k : k ∈ missing ks items → k ∉ ks.
Proof.
  revert ks; induction items as [|item items IH]; intros ks; simpl.
  { by intros ?%elem_of_nil. }
  destruct (item_key item) as [k'|]; [|by apply IH].
  case_decide as Hk'; [by apply IH|].
  intros [->|Hin%IH]%elem_of_cons; [done|]. set_solver.
Qed.

Lemma missing_NoDup ks items : NoDup (missing ks items).
Proof.
  revert ks; induction items as [|item items IH]; intros ks; simpl.
  { constructor. }
  destruct (item_key item) as [k'|]; [|by apply IH].
  case_decide; [by apply IH|]. constructor; [|by apply IH].
  intros Hin%missing_fresh. set_solver.
Qed.

Lemma missing_from_items ks items k :
  k ∈ missing ks items → ∃ item, item ∈ items ∧ item_key item = Some k.
Proof.
  revert ks; induction items as [|item items IH]; intros ks; simpl.
  { by intros ?%elem_of_nil. }
  destruct (item_key item) as [k'|] eqn:Ek.
  - case_decide.
    + intros (it & ? & ?)%IH. exists it. set_solver.
    + intros [->|(it & ? & ?)%IH]%elem_of_cons; [exists item|exists it]; set_solver.
  - intros (it & ? & ?)%IH. exists it. set_solver.
Qed.

(** Every storable item is in the catalogue after the pass. *)
Lemma missing_complete ks items item k :
  item ∈ items → item_key item = Some k → k ∈ ks ++ missing ks items.
Proof.
  revert ks; induction items as [|it items IH]; intros ks; simpl.
  { by intros ?%elem_of_nil. }
  intros [->|Hin]%elem_of_cons Hk.
  - rewrite Hk. case_decide; set_solver.
  - destruct (item_key it) as [k'|]; [|by apply IH].
    case_decide; [by apply IH|].
    specialize (IH (ks ++ [k']) Hin Hk). set_solver.
Qed.

Lemma missing_nil ks items :
  (∀ item k, item ∈ items → item_key item = Some k → k ∈ ks) →
  missing ks items = [].
Proof.
  induction items as [|it items IH]; intros Hall; simpl; [done|].
  assert (missing ks items = []) as -> by (apply IH; set_solver).
  destruct (item_key it) as [k'|] eqn:Ek; [|done].
  rewrite decide_True; [done|]. eapply Hall; [|done]. set_solver.
Qed.

(** A second pass finds nothing to add. *)
Lemma missing_idem ks items : missing (ks ++ missing ks items) items = [].
Proof. apply missing_nil. intros item k. apply missing_complete. Qed.

Lemma missing_present ks items item k :
  item_key item = Some k → k ∈ ks → k ∉ missing ks items.
Proof. intros _ Hk Hin%missing_fresh. done. Qed.
End missing.

(** *** The loop *)

Section seed_loop.
Context `{PyRuntime, Network}.
Implicit Types (w : world) (items : list (string * string * string)).

(** The loop refines the abstract pass: as long as it has not raised,
    the catalogue holds the pairs it had and the missing ones, and one
    request was sent for each.  Committed rows are never touched. *)
Lemma seed_loop items w :
  session_ok (books w) →
  let r := for_each items seed_item w in
  session_ok (books r.2) ∧ rows (books r.2) = rows (books w) ∧
  (is_Ok r.1 →
   catalog_keys r.2 = catalog_keys w ++ missing (catalog_keys w) items ∧
   net r.2 = net w ++ (request_for <$> missing (catalog_keys w) items)).
Proof.
  revert w; induction items as [|item items IH]; intros w Hok; simpl.
  { by rewrite !app_nil_r. }
  monad_unfold. destruct (item_key item) as [k|] eqn:Ek.
  2:{ rewrite seed_item_skip_blank by done. by apply IH. }
  destruct (seed_item_step item k w Ek Hok) as (Hok1 & Hr1 & Hstep).
  destruct (seed_item item w) as [[[]|e] w1]; simpl in *; [|by case_decide].
  destruct (IH w1 Hok1) as (Hok2 & Hr2 & Hrest).
  split_and!; [done|congruence|]. intros Hres.
  destruct (Hrest Hres) as [Hks Hnet]. rewrite Hks, Hnet.
  case_decide; destruct Hstep as [Hn Hk]; [destruct Hk as [-> ->]; done|].
  rewrite Hn, Hk. simpl. by rewrite <- !app_assoc.
Qed.
End seed_loop.

(** *** The pass *)

Section ensure_seeded.
Context `{PyRuntime, Network}.
Implicit Types (w : world) (m : Z).
Implicit Types (shelves : list (string * list (string * string * string))).

Lemma count_clean w :
  clean (books w) →
  with_books query_count w = (Ok (Z.of_nat (length (persisted w))), w).
Proof.
  intros [Ht Hp]. unfold with_books, zoom. rewrite query_count_clean by done.
  unfold visible, persisted. rewrite Ht, app_nil_r. by destruct w.
Qed.

Lemma ensure_seeded_enough_run shelves m w :
  clean (books w) → m ≤ Z.of_nat (length (persisted w)) →
  ensure_seeded shelves m w = (Ok tt, w).
Proof.
  intros Hc Hm. unfold ensure_seeded. unfold mbind at 1, M_bind.
  rewrite count_clean by done. by rewrite bool_decide_eq_true_2 by lia.
Qed.

(** Enough books already: nothing is read or written. *)
Theorem ensure_seeded_enough shelves m w :
  clean (books w) → m ≤ Z.of_nat (length (persisted w)) →
  ensure_seeded shelves m w = (Ok tt, w).
Proof. exact (ensure_seeded_enough_run shelves m w). Qed.

(** Otherwise: the loop over the flattened list, then the commit. *)
Lemma ensure_seeded_pass shelves m w :
  clean (books w) → Z.of_nat (length (persisted w)) < m →
  ensure_seeded shelves m w =
    (for_each (curated_items shelves) seed_item ;; with_books commit) w.
Proof.
  intros Hc Hm. unfold ensure_seeded. unfold mbind at 1, M_bind.
  rewrite count_clean by done. rewrite bool_decide_eq_false_2 by lia.
  unfold mbind, M_bind. by rewrite for_each_bind.
Qed.

Lemma clean_catalog_keys w :
  clean (books w) → catalog_keys w = keys_of (persisted w).
Proof.
  intros [Ht Hp]. unfold catalog_keys, all_rows, visible, persisted.
  by rewrite Ht, Hp, !app_nil_r.
Qed.

Lemma ensure_seeded_pass_spec shelves m w :
  table_wf (books w) → clean (books w) →
  let r := ensure_seeded shelves m w in
  let added := pass_adds shelves m w in
  match r.1 with
  | Ok _ =>
      table_wf (books r.2) ∧ clean (books r.2) ∧
      keys_of (persisted r.2) = keys_of (persisted w) ++ added ∧
      net r.2 = net w ++ (request_for <$> added) ∧
      ∃ l, persisted r.2 = persisted w ++ l
  | Raise _ => persisted r.2 = persisted w
  end.
Proof.
  intros Hwf Hc. unfold pass_adds. case_decide as Hm; simpl.
  { rewrite ensure_seeded_enough_run by done. simpl. rewrite !app_nil_r.
    split_and!; try done. by exists []; rewrite app_nil_r. }
  rewrite ensure_seeded_pass by (done || lia). monad_unfold.
  destruct (seed_loop (curated_items shelves) w) as (Hok & Hr & Hloop).
  { apply session_ok_clean; [done|apply Hc]. }
  destruct (for_each _ _ w) as [[[]|e] w1]; simpl in *; [|exact Hr].
  destruct (Hloop I) as [Hks Hnet]. rewrite (clean_catalog_keys w Hc) in Hks, Hnet.
  destruct (commit_ok _ Hok) as (t' & Hcm & Hclean & Hwf' & Hk' & l & Hl).
  unfold with_books, zoom. rewrite Hcm. simpl. unfold persisted in *; simpl.
  split_and!; [done|done|by rewrite Hk'|done|exists l; congruence].
Qed.

(** C1. The pass implements its abstract description. *)
Theorem ensure_seeded_spec shelves m w :
  table_wf (books w) → clean (books w) →
  let r := ensure_seeded shelves m w in
  let added := pass_adds shelves m w in
  match r.1 with
  | Ok _ =>
      table_wf (books r.2) ∧ clean (books r.2) ∧
      keys_of (persisted r.2) = keys_of (persisted w) ++ added ∧
      net r.2 = net w ++ (request_for <$> added) ∧
      ∃ l, persisted r.2 = persisted w ++ l
  | Raise _ => persisted r.2 = persisted w
  end.
Proof. exact (ensure_seeded_pass_spec shelves m w). Qed.
(** Whatever its outcome, the pass sends under the name of the program
    and waits 15 seconds at most for each answer. *)
Lemma ensure_seeded_polite shelves m : keeps (via net (sent polite)) (ensure_seeded shelves m).
Proof. unfold ensure_seeded, seed_item. solve_keeps. Qed.

End ensure_seeded.

#[export] Hint Resolve ensure_seeded_polite : keeps.

(** *** A pass with nothing to add *)

Section idle.
Context `{PyRuntime, Network}.
Implicit Types (w : world) (m : Z) (items : list (string * string * string)).
Implicit Types (shelves : list (string * list (string * string * string))).

Lemma seed_item_present item k w :
  item_key item = Some k → clean (books w) → k ∈ keys_of (persisted w) →
  seed_item item w = (Ok tt, w).
Proof.
  destruct item as [[title author] genre], k as [t a]. intros Hk [Ht Hp] Hin.
  unfold persisted in Hin. rewrite seed_item_eq, Hk. unfold find_book.
  rewrite query_first_clean by done. unfold visible. rewrite Ht, app_nil_r.
  destruct (find_by_title_author_is_Some t a _ Hin) as [b ->]. by destruct w.
Qed.

Lemma seed_loop_idle items w :
  clean (books w) → all_present items w → for_each items seed_item w = (Ok tt, w).
Proof.
  intros Hc. induction items as [|item items IH]; intros Hall; [done|].
  simpl; monad_unfold. destruct (item_key item) as [k|] eqn:Ek.
  - rewrite (seed_item_present item k w Ek Hc); [|eapply Hall; [left|done]].
    apply IH. intros it k' Hit. apply Hall. by right.
  - rewrite seed_item_skip_blank by done.
    apply IH. intros it k' Hit. apply Hall. by right.
Qed.

Lemma ensure_seeded_idle shelves m w :
  clean (books w) → all_present (curated_items shelves) w →
  ensure_seeded shelves m w = (Ok tt, w).
Proof.
  intros Hc Hall.
  destruct (decide (m ≤ Z.of_nat (length (persisted w)))) as [Hm|Hm].
  { by apply ensure_seeded_enough_run. }
  rewrite ensure_seeded_pass by (done || lia). monad_unfold.
  rewrite seed_loop_idle by done. unfold with_books, zoom.
  rewrite commit_clean by done. by destruct w.
Qed.

(** After a pass that went through the list, everything is present. *)
Lemma ensure_seeded_all_present shelves m w :
  table_wf (books w) → clean (books w) →
  Z.of_nat (length (persisted w)) < m →
  (ensure_seeded shelves m w).1 = Ok tt →
  all_present (curated_items shelves) (ensure_seeded shelves m w).2.
Proof.
  intros Hwf Hc Hm Hr. pose proof (ensure_seeded_pass_spec shelves m w Hwf Hc) as Hs.
  simpl in Hs. rewrite Hr in Hs. destruct Hs as (_ & _ & Hk & _).
  unfold pass_adds in Hk. rewrite decide_False in Hk by lia.
  intros item k Hin Hkey. rewrite Hk. by eapply missing_complete.
Qed.
End idle.

(** *** Consequences *)

Section consequences.
Context `{PyRuntime, Network}.
Implicit Types (w : world) (m : Z).
Implicit Types (shelves : list (string * list (string * string * string))).

(** C2. Running the pass on its own result changes nothing and sends
    nothing. *)
Theorem ensure_seeded_idempotent shelves m w :
  table_wf (books w) → clean (books w) →
  (ensure_seeded shelves m w).1 = Ok tt →
  ensure_seeded shelves m (ensure_seeded shelves m w).2 =
    (Ok tt, (ensure_seeded shelves m w).2).
Proof.
  intros Hwf Hc Hr.
  destruct (decide (m ≤ Z.of_nat (length (persisted w)))) as [Hm|Hm].
  { rewrite (ensure_seeded_enough_run shelves m w Hc Hm). by apply ensure_seeded_enough_run. }
  pose proof (ensure_seeded_pass_spec shelves m w Hwf Hc) as Hs.
  simpl in Hs. rewrite Hr in Hs. destruct Hs as (_ & Hc1 & _).
  apply ensure_seeded_idle; [done|]. apply ensure_seeded_all_present; (done || lia).
Qed.

(** A pass that raises leaves the database as it was. *)
Theorem ensure_seeded_atomic shelves m w e :
  table_wf (books w) → clean (books w) →
  (ensure_seeded shelves m w).1 = Raise e →
  persisted (ensure_seeded shelves m w).2 = persisted w.
Proof.
  intros Hwf Hc Hr. pose proof (ensure_seeded_pass_spec shelves m w Hwf Hc) as Hs.
  simpl in Hs. by rewrite Hr in Hs.
Qed.

(** A pass only appends: the rows that were there are still there, in
    the same order, unchanged. *)
Theorem ensure_seeded_extends shelves m w :
  table_wf (books w) → clean (books w) →
  persisted w `prefix_of` persisted (ensure_seeded shelves m w).2.
Proof.
  intros Hwf Hc. pose proof (ensure_seeded_pass_spec shelves m w Hwf Hc) as Hs.
  simpl in Hs. destruct (ensure_seeded shelves m w).1.
  - destruct Hs as (_ & _ & _ & _ & l & ->). by exists l.
  - by rewrite Hs.
Qed.

(** An item already in the catalogue costs no request. *)
Theorem ensure_seeded_skips_existing shelves m w k :
  table_wf (books w) → clean (books w) →
  (ensure_seeded shelves m w).1 = Ok tt →
  k ∈ keys_of (persisted w) →
  ∃ added, net (ensure_seeded shelves m w).2 = net w ++ (request_for <$> added) ∧
           k ∉ added.
Proof.
  intros Hwf Hc Hr Hk. pose proof (ensure_seeded_pass_spec shelves m w Hwf Hc) as Hs.
  simpl in Hs. rewrite Hr in Hs. destruct Hs as (_ & _ & _ & Hn & _).
  eexists. split; [done|]. unfold pass_adds. case_decide; [set_solver|].
  by intros ?%missing_fresh.
Qed.

(** One request per row added, no more. *)
Theorem ensure_seeded_one_request_per_row shelves m w :
  table_wf (books w) → clean (books w) →
  (ensure_seeded shelves m w).1 = Ok tt →
  (length (net (ensure_seeded shelves m w).2) - length (net w) =
   length (persisted (ensure_seeded shelves m w).2) - length (persisted w))%nat.
Proof.
  intros Hwf Hc Hr. pose proof (ensure_seeded_pass_spec shelves m w Hwf Hc) as Hs.
  simpl in Hs. rewrite Hr in Hs. destruct Hs as (_ & _ & Hk & Hn & _).
  apply (f_equal length) in Hk.
  rewrite length_app, !keys_of_books, !length_fmap in Hk.
  rewrite Hn, length_app, length_fmap. lia.
Qed.
End consequences.

(** *** The size of a pass *)

Lemma missing_length ks items : (length (missing ks items) ≤ length items)%nat.
Proof.
  revert ks; induction items as [|item items IH]; intros ks; simpl; [done|].
  pose proof (IH ks). destruct (item_key item) as [k|]; [|lia].
  case_decide; simpl; [lia|]. specialize (IH (ks ++ [k])). lia.
Qed.

Section size.
Context `{PyRuntime, Network}.
Implicit Types (w : world) (m : Z).

(** A pass adds at most one row per curated item. *)
Theorem ensure_seeded_bounded shelves m w :
  table_wf (books w) → clean (books w) →
  (length (persisted (ensure_seeded shelves m w).2) ≤
   length (persisted w) + length (curated_items shelves))%nat.
Proof.
  intros Hwf Hc. pose proof (ensure_seeded_pass_spec shelves m w Hwf Hc) as Hs.
  simpl in Hs. destruct (ensure_seeded shelves m w).1.
  - destruct Hs as (_ & _ & Hk & _). apply (f_equal length) in Hk.
    rewrite length_app, !length_keys_of_books in Hk. rewrite Hk.
    unfold pass_adds. case_decide; simpl; [lia|].
    pose proof (missing_length (keys_of (persisted w)) (curated_items shelves)). lia.
  - rewrite Hs. lia.
Qed.

Lemma curated_count : length (curated_items CURATED_SHELVES) = 25%nat.
Proof. reflexivity. Qed.

(** C28. The curated list is too short for the threshold of the start-up
    call: the pass adds at most its 25 books, so a catalogue of fewer
    than 225 books is still below 250 after the pass, whatever the
    network answered, and the next start runs the pass again. *)
Theorem startup_below_minimum w :
  table_wf (books w) → clean (books w) →
  (length (persisted w) < 225)%nat →
  (length (persisted (startup w).2) < 250)%nat.
Proof.
  intros Hwf Hc Hlen. unfold startup, _ensure_seeded_curated.
  pose proof (ensure_seeded_bounded CURATED_SHELVES 250 w Hwf Hc) as Hb.
  rewrite curated_count in Hb. lia.
Qed.
End size.

(** *** The row of an item *)

Lemma seeded_book_key title author genre meta :
  book_key (seeded_book title author genre meta) = (title, author).
Proof. done. Qed.

(** A seeded book always has a cover to show: the resolved URL, or the
    placeholder. *)
Lemma seeded_book_cover title author genre meta :
  book_cover (seeded_book title author genre meta) =
    if truthy (strip (meta_get meta "cover")) then strip (meta_get meta "cover")
    else PLACEHOLDER_COVER.
Proof. done. Qed.

Lemma seeded_book_cover_truthy title author genre meta :
  truthy (book_cover (seeded_book title author genre meta)) = true.
Proof.
  rewrite seeded_book_cover.
  by destruct (truthy (strip (meta_get meta "cover"))) eqn:E.
Qed.

Lemma seeded_book_no_match title author genre :
  seeded_book title author genre ∅ =
    new_book title author genre EmptyString PLACEHOLDER_COVER
      EmptyString EmptyString EmptyString.
Proof. done. Qed.

(** A genre of white space only is stored as the empty string, not as
    the default. *)
Lemma item_genre_blank title author genre :
  truthy genre = true → blank genre = true →
  item_genre (title, author, genre) = EmptyString.
Proof.
  intros Ht Hb. unfold item_genre. simpl. rewrite str_or_truthy by done.
  by apply strip_blank.
Qed.

Lemma item_genre_default title author :
  item_genre (title, author, EmptyString) = "Other".
Proof. done. Qed.

(** *** The scenario of the specification *)

(** One curated item, an empty store, a response with a cover id: one
    request, one row, the cover-id URL. *)
Example seed_1984_with_cover :
  @ensure_seeded demo_runtime (table_net [(url_1984, body_1984)]) shelf_1984 1
    empty_world =
  (Ok tt,
   World [request_1984]
     (Table [book_1984 "https://covers.openlibrary.org/b/id/123-L.jpg"
               "OL1M" "123" "9780141182636" "1949"] [] [])).
Proof. vm_compute. reflexivity. Qed.

(** The same with no connectivity: one request, one row, the
    placeholder. *)
Example seed_1984_offline :
  @ensure_seeded demo_runtime offline shelf_1984 1 empty_world =
  (Ok tt,
   World [request_1984]
     (Table [book_1984 PLACEHOLDER_COVER EmptyString EmptyString EmptyString
               EmptyString] [] [])).
Proof. vm_compute. reflexivity. Qed.

(** ** Witnesses *)

Lemma empty_world_wf : table_wf (books empty_world).
Proof. apply empty_table_wf. Defined.

Lemma empty_world_clean : clean (books empty_world).
Proof. apply empty_table_clean. Defined.

Lemma ensure_seeded_spec_witness :
  let r := @ensure_seeded demo_runtime net_1984 shelf_1984 5 empty_world in
  let added := pass_adds shelf_1984 5 empty_world in
  match r.1 with
  | Ok _ =>
      table_wf (books r.2) ∧ clean (books r.2) ∧
      keys_of (persisted r.2) = keys_of (persisted empty_world) ++ added ∧
      net r.2 = net empty_world ++ (@request_for demo_runtime <$> added) ∧
      ∃ l, persisted r.2 = persisted empty_world ++ l
  | Raise _ => persisted r.2 = persisted empty_world
  end.
Proof.
  apply (@ensure_seeded_spec demo_runtime net_1984 shelf_1984 5 empty_world
           empty_world_wf empty_world_clean).
Defined.

Lemma ensure_seeded_idempotent_witness :
  let w1 := (@ensure_seeded demo_runtime net_1984 shelf_1984 5 empty_world).2 in
  @ensure_seeded demo_runtime net_1984 shelf_1984 1 w1 = (Ok tt, w1).
Proof.
  apply (@ensure_seeded_idempotent demo_runtime net_1984 shelf_1984 5 empty_world
           empty_world_wf empty_world_clean). reflexivity.
Defined.

Lemma ensure_seeded_atomic_witness :
  persisted (@ensure_seeded demo_runtime (always (JList [])) shelf_1984 1 empty_world).2
  = persisted empty_world.
Proof.
  apply (@ensure_seeded_atomic demo_runtime (always (JList [])) shelf_1984 1
           empty_world AttributeError empty_world_wf empty_world_clean). reflexivity.
Defined.

Lemma ensure_seeded_enough_witness :
  @ensure_seeded demo_runtime offline CURATED_SHELVES 0 empty_world = (Ok tt, empty_world).
Proof.
  apply (@ensure_seeded_enough demo_runtime offline CURATED_SHELVES 0 empty_world
           empty_world_clean). reflexivity.
Defined.

Lemma ensure_seeded_extends_witness :
  persisted empty_world `prefix_of`
  persisted (@ensure_seeded demo_runtime net_1984 shelf_1984 1 empty_world).2.
Proof.
  apply (@ensure_seeded_extends demo_runtime net_1984 shelf_1984 1 empty_world
           empty_world_wf empty_world_clean).
Defined.

Lemma ensure_seeded_one_request_per_row_witness :
  let w1 := (@ensure_seeded demo_runtime net_1984 shelf_1984 1 empty_world).2 in
  (length (net w1) - length (net empty_world) =
   length (persisted w1) - length (persisted empty_world))%nat.
Proof.
  apply (@ensure_seeded_one_request_per_row demo_runtime net_1984 shelf_1984 1
           empty_world empty_world_wf empty_world_clean). reflexivity.
Defined.

Lemma startup_below_minimum_witness :
  (length (persisted (@startup demo_runtime offline empty_world).2) < 250)%nat.
Proof.
  apply (@startup_below_minimum demo_runtime offline empty_world
           empty_world_wf empty_world_clean). simpl. lia.
Defined.

Lemma ensure_seeded_bounded_witness :
  (length (persisted (@ensure_seeded demo_runtime offline CURATED_SHELVES 250 empty_world).2)
   ≤ length (persisted empty_world) + length (curated_items CURATED_SHELVES))%nat.
Proof.
  apply (@ensure_seeded_bounded demo_runtime offline CURATED_SHELVES 250 empty_world
           empty_world_wf empty_world_clean).
Defined.
