(* ===== verification/AddBook.v ===== *)
(** * AddBook: the form that adds a book to the catalogue ([add_book])

    The handler validates the form, refuses a (title, author) pair that
    is already in the table, asks the matcher for a cover and the
    identifiers, and commits one row.  Its state is the state of the
    seeding pass: the log of requests and the [Book] table. *)

From Stdlib Require Import ZArith Lia.
From stdpp Require Import base tactics option list strings gmap.
From S2P Require Import Prelude PyStr Json Flask Cover Http Fixtures Matcher Db Catalog Seeder.

#[local] Open Scope Z_scope.

(** ** Definitions *)

(** [request.form] of the POST: a field may be absent. *)
Record book_form : Type := BookForm {
  form_title : option string;
  form_author : option string;
  form_genre : option string;
  form_year : option string;
  form_cover : option string;
}.

(** The row built from the form and the metadata of the match. *)
Definition added_book (title author genre year cover : string)
    (meta : gmap string string) : Book :=
  let best_cover := str_or (str_or (meta_get meta "cover") cover) PLACEHOLDER_COVER in
  new_book title author genre
    (str_or (str_or year (meta_get meta "year")) EmptyString)
    best_cover
    (str_or (meta_get meta "olid") EmptyString)
    (str_or (meta_get meta "cover_i") EmptyString)
    (str_or (meta_get meta "isbn") EmptyString).

(** The handler of [/add-book]; [None] is a GET, [Some form] a POST. *)
Definition add_book `{PyRuntime, Network} (post : option book_form) : M world page :=
  match post with
  | None => mret (Render "add_book.html")
  | Some form =>
      let title := arg_text (form_title form) in
      let author := arg_text (form_author form) in
      let genre := str_or (arg_text (form_genre form)) "Other" in
      let year := arg_text (form_year form) in
      let cover := arg_text (form_cover form) in
      if negb (truthy title) || negb (truthy author)
      then mret (Redirect "add_book" "Title and author are required." "error") else
      existing ← with_books (find_book title author);
      if existing is Some _
      then mret (Redirect "add_review" "That book already exists." "error") else
      meta ← with_net (_ol_best_match title author 15);
      with_books (session_add (added_book title author genre year cover meta) ;; commit) ;;
      mret (Redirect "add_review" "Book added!" "ok")
  end.

(** The three answers of a POST. *)
Definition refused : page := Redirect "add_book" "Title and author are required." "error".
Definition duplicate : page := Redirect "add_review" "That book already exists." "error".
Definition added : page := Redirect "add_review" "Book added!" "ok".

(** A form with a title, an author and nothing else. *)
Definition form_of (title author : string) : book_form :=
  BookForm (Some title) (Some author) None None None.

(** ** Lemmas *)

Lemma added_book_key title author genre year cover meta :
  book_key (added_book title author genre year cover meta) = (title, author).
Proof. done. Qed.

Lemma added_book_cover_truthy title author genre year cover meta :
  truthy (book_cover (added_book title author genre year cover meta)) = true.
Proof. by apply truthy_str_or. Qed.

Section add_book.
Context `{PyRuntime, Network}.
Implicit Types (w : world) (form : book_form).

(** The POST on a session with nothing pending, branch by branch. *)
Lemma add_book_post form w :
  clean (books w) →
  let title := arg_text (form_title form) in
  let author := arg_text (form_author form) in
  let genre := str_or (arg_text (form_genre form)) "Other" in
  let r := _ol_best_match title author 15 (net w) in
  add_book (Some form) w =
    if negb (truthy title && truthy author) then (Ok refused, w)
    else if bool_decide (has_book title author (rows (books w))) then (Ok duplicate, w)
    else match r.1 with
         | Raise e => (Raise e, World r.2 (books w))
         | Ok meta =>
             let b := added_book title author genre (arg_text (form_year form))
                        (arg_text (form_cover form)) meta in
             (Ok added,
              World r.2 (Table (rows (books w) ++ [book_with_id (next_id (rows (books w))) b])
                               [] []))
         end.
Proof.
  intros Hc title author genre r. unfold add_book. fold title author genre.
  rewrite negb_andb. destruct (negb (truthy title) || negb (truthy author)); [done|].
  unfold with_books, with_net, zoom, find_book. monad_unfold.
  rewrite query_first_clean by apply Hc. cbn [fst snd].
  assert (visible (books w) = rows (books w)) as ->
    by (unfold visible; destruct Hc as [-> _]; apply app_nil_r).
  destruct w as [n t]. simpl in *. case_bool_decide as Hb.
  - by apply find_by_title_author_is_Some in Hb as [b ->].
  - apply find_by_title_author_None in Hb. rewrite Hb. subst r. simpl.
    destruct (_ol_best_match title author 15 n) as [[meta|e] n1]; [|done].
    simpl. pose proof (insert_commit_clean
      (added_book title author genre (arg_text (form_year form)) (arg_text (form_cover form)) meta)
      t Hc) as Hi.
    unfold session_add, modify, mbind, M_bind in Hi. simpl in Hi. rewrite Hi; [done|].
    apply conflicts_book. simpl. by apply find_by_title_author_None.
Qed.

(** C18. A POST of /add-book on a session with nothing pending: without a
    title or an author the form is refused; a (title, author) pair that
    is in the table is reported and nothing is sent or stored; otherwise
    one request is sent and one row is committed, with the next id, the
    stripped fields of the form, and the cover of the match, of the
    form or the placeholder, in this order. *)
Theorem add_book_spec form w :
  clean (books w) →
  let title := arg_text (form_title form) in
  let author := arg_text (form_author form) in
  let genre := str_or (arg_text (form_genre form)) "Other" in
  let r := _ol_best_match title author 15 (net w) in
  add_book (Some form) w =
    if negb (truthy title && truthy author) then (Ok refused, w)
    else if bool_decide (has_book title author (rows (books w))) then (Ok duplicate, w)
    else match r.1 with
         | Raise e => (Raise e, World r.2 (books w))
         | Ok meta =>
             let b := added_book title author genre (arg_text (form_year form))
                        (arg_text (form_cover form)) meta in
             (Ok added,
              World r.2 (Table (rows (books w) ++ [book_with_id (next_id (rows (books w))) b])
                               [] []))
         end.
Proof. apply add_book_post. Qed.

(** /add-book keeps the table well formed: no two books share a
    (title, author) pair or an id, whatever the form and the network. *)
Theorem add_book_wf post w :
  table_wf (books w) → clean (books w) →
  table_wf (books (add_book post w).2) ∧ clean (books (add_book post w).2).
Proof.
  intros Hwf Hc. destruct post as [form|]; [|done]. rewrite add_book_post by done.
  cbv zeta. destruct (negb _); [done|]. case_bool_decide as Hb; [done|].
  destruct (_ol_best_match _ _ _ _) as [[meta|e] n1]; [|done]. simpl. split; [|done].
  unfold table_wf, visible in *. simpl. destruct Hc as [Ht _].
  rewrite Ht in Hwf. rewrite !app_nil_r in *.
  apply (rows_wf_insert (rows (books w)) (added_book _ _ _ _ _ meta) Hwf).
  by apply conflicts_book.
Qed.

(** Posting again the form of a book that was added is answered with
    the duplicate message: no request is sent and nothing is stored. *)
Theorem add_book_twice form w :
  clean (books w) → (add_book (Some form) w).1 = Ok added →
  let w1 := (add_book (Some form) w).2 in
  add_book (Some form) w1 = (Ok duplicate, w1).
Proof.
  intros Hc. rewrite (add_book_post form w Hc). cbv zeta.
  destruct (negb _) eqn:Ev; [done|]. case_bool_decide as Hb; [done|].
  destruct (_ol_best_match _ _ _ _) as [[meta|e] n1]; [|done]. cbn [fst snd]. intros _.
  rewrite add_book_post by done. cbv zeta. rewrite Ev. cbn [books rows].
  rewrite bool_decide_eq_true_2; [done|].
  apply has_book_app. right. by apply has_book_singleton.
Qed.

(** Whatever it answers, /add-book sends at most one request. *)
Lemma add_book_sent post w :
  clean (books w) → (length (net (add_book post w).2) ≤ S (length (net w)))%nat.
Proof.
  intros Hc. destruct post as [form|]; [|simpl; lia]. rewrite add_book_post by done. cbv zeta.
  pose proof (best_match_length (arg_text (form_title form)) (arg_text (form_author form))
                15 (net w)).
  repeat case_match; simpl; lia.
Qed.

(** /add-book sends one request when it adds a book and none when it
    refuses the form. *)
Theorem add_book_requests form w p :
  clean (books w) → (add_book (Some form) w).1 = Ok p →
  net (add_book (Some form) w).2 =
    if bool_decide (p = added)
    then net w ++ [best_match_request (arg_text (form_title form))
                     (arg_text (form_author form)) 15]
    else net w.
Proof.
  intros Hc. rewrite (add_book_post form w Hc). cbv zeta.
  destruct (truthy (arg_text (form_title form))) eqn:Et; [|by intros [= <-]].
  destruct (truthy (arg_text (form_author form))); [|by intros [= <-]]. simpl.
  case_bool_decide; [by intros [= <-]|].
  pose proof (best_match_log (arg_text (form_title form)) (arg_text (form_author form)) 15 (net w))
    as Hlog.
  destruct (_ol_best_match _ _ _ _) as [[meta|e] n1]; [|done]. simpl in *. intros [= <-].
  rewrite bool_decide_eq_true_2 by done.
  by rewrite Hlog, arg_text_blank, Et, !arg_text_strip.
Qed.

Lemma add_book_polite post : keeps (via net (sent polite)) (add_book post).
Proof. unfold add_book. solve_keeps. Qed.

End add_book.

#[export] Hint Resolve add_book_polite : keeps.

(** ** Witnesses *)

Lemma add_book_spec_witness :
  @add_book demo_runtime net_1984 (Some (form_of " 1984 " "George Orwell")) empty_world =
    (Ok added,
     World [request_1984]
           (Table [mkBook 1 "1984" "George Orwell" "Other" "1949"
                     "https://covers.openlibrary.org/b/id/123-L.jpg" "OL1M" "123"
                     "9780141182636"] [] [])).
Proof.
  apply (@add_book_spec demo_runtime net_1984 (form_of " 1984 " "George Orwell") empty_world).
  apply empty_world_clean.
Defined.

Lemma add_book_wf_witness :
  let w := (@add_book demo_runtime net_1984 (Some (form_of "1984" "George Orwell"))
              empty_world).2 in
  table_wf (books w) ∧ clean (books w).
Proof.
  apply (@add_book_wf demo_runtime net_1984 (Some (form_of "1984" "George Orwell"))
           empty_world empty_world_wf empty_world_clean).
Defined.

Lemma add_book_twice_witness :
  let w1 := (@add_book demo_runtime net_1984 (Some (form_of "1984" "George Orwell"))
               empty_world).2 in
  @add_book demo_runtime net_1984 (Some (form_of "1984" "George Orwell")) w1 =
    (Ok duplicate, w1).
Proof.
  apply (@add_book_twice demo_runtime net_1984 (form_of "1984" "George Orwell") empty_world
           empty_world_clean). reflexivity.
Defined.

Lemma add_book_requests_witness :
  net (@add_book demo_runtime net_1984 (Some (form_of "1984" "George Orwell"))
         empty_world).2 =
    if bool_decide (added = added)
    then net empty_world ++
           [@best_match_request demo_runtime (arg_text (Some "1984"))
              (arg_text (Some "George Orwell")) 15]
    else net empty_world.
Proof.
  apply (@add_book_requests demo_runtime net_1984 (form_of "1984" "George Orwell")
           empty_world added empty_world_clean). reflexivity.
Defined.

(** A form without an author is refused before anything is looked up. *)
Example add_book_refused :
  @add_book demo_runtime net_1984 (Some (BookForm (Some "1984") None None None None))
    empty_world = (Ok refused, empty_world).
Proof. reflexivity. Qed.
