(* ===== verification/App.v ===== *)
(** * App: the application as a whole

    The route table of src/main.py: every [@app.route] with its
    [@login_required], over one state.  What the process holds (the
    database, the cover cache, the lists of the social pages, the log of
    requests sent, the terminal) is separate from what each browser
    holds (the cookie of flask_login and the preferences of the Flask
    session).  A request comes from a browser, runs the handler of its
    route on the state of the process and of that browser, and ends with
    the removal of the database session, which rolls back what was not
    committed.  The process can also be started again: the module is
    loaded ([Config.configure], then the seeding pass), the database
    file and the folders stay, the memory of the process does not.

    The components keep their own state types; the handlers are run
    through lenses ([in_site], [in_accounts], ...), so that each theorem
    of a component applies to the part of the state it is about. *)

From Stdlib Require Import ZArith Lia QArith.
From stdpp Require Import base tactics option list strings gmap relations.
From S2P Require Import Prelude PyStr Files Config Json Flask Http Fixtures Db Accounts Profile.
From S2P Require Import Search Social.
From S2P Require Import Catalog Listing Reviews Shelf Settings Migrate Seeder AddBook.

(** ** Definitions *)

(** What the process and its database file hold. *)
Record server : Type := Server {
  the_site : site;            (* requests sent, cover cache, [Book], [Review] *)
  the_users : table User;
  the_printed : list string;  (* reset links on the terminal *)
  the_shelves : shelves;      (* [Favourite], [History] *)
  the_social : social;        (* [FOLLOWING], [FOLLOWERS] *)
  the_files : files;          (* the folder of the pictures *)
  the_schema : schema;        (* the tables and columns of the database file *)
}.

(** What a browser holds: the id flask_login keeps in its cookie and the
    preferences of the Flask session. *)
Record browser : Type := Browser {
  cookie : option Z;
  prefs : session;
}.

(** A request in flight sees the process and the browser it came from. *)
Definition conn : Type := server * browser.

Definition with_site (t : site) (k : conn) : conn :=
  (Server t (the_users k.1) (the_printed k.1) (the_shelves k.1) (the_social k.1)
          (the_files k.1) (the_schema k.1), k.2).

Definition with_shelves (t : shelves) (k : conn) : conn :=
  (Server (the_site k.1) (the_users k.1) (the_printed k.1) t (the_social k.1)
          (the_files k.1) (the_schema k.1), k.2).

Definition with_social (t : social) (k : conn) : conn :=
  (Server (the_site k.1) (the_users k.1) (the_printed k.1) (the_shelves k.1) t
          (the_files k.1) (the_schema k.1), k.2).

Definition with_accounts (a : accounts) (k : conn) : conn :=
  (Server (the_site k.1) (users a) (printed a) (the_shelves k.1) (the_social k.1)
          (the_files k.1) (the_schema k.1),
   Browser (logged_in a) (prefs k.2)).

Definition with_files (fs : files) (k : conn) : conn :=
  (Server (the_site k.1) (the_users k.1) (the_printed k.1) (the_shelves k.1) (the_social k.1)
          fs (the_schema k.1), k.2).

Definition with_prefs (p : session) (k : conn) : conn := (k.1, Browser (cookie k.2) p).

Definition in_site {A} (c : M site A) : M conn A := zoom (λ k, the_site k.1) with_site c.

(** [add_book] and the seeding pass see the log and the [Book] table. *)
Definition as_world {A} (c : M world A) : M site A :=
  zoom (λ s, World (site_net s) (site_books s))
       (λ w s, Site (net w) (site_cache s) (books w) (site_reviews s)) c.

Definition accounts_of (k : conn) : accounts :=
  Accounts (the_users k.1) (cookie k.2) (the_printed k.1).

Definition in_accounts {A} (c : M accounts A) : M conn A := zoom accounts_of with_accounts c.

Definition in_shelves {A} (c : M shelves A) : M conn A :=
  zoom (λ k, the_shelves k.1) with_shelves c.

Definition in_social {A} (c : M social A) : M conn A :=
  zoom (λ k, the_social k.1) with_social c.

(** The profile form sees the accounts and the files. *)
Definition in_profile {A} (c : M (accounts * files) A) : M conn A :=
  zoom (λ k, (accounts_of k, the_files k.1)) (λ p k, with_files p.2 (with_accounts p.1 k)) c.

Definition in_prefs {A} (c : M session A) : M conn A := zoom (λ k, prefs k.2) with_prefs c.

(** A handler that always renders its template and one that always
    redirects. *)
Definition render {S A} (c : M S A) : M S (page + A) := a ← c; mret (inr a).

Definition redirects {S A} (c : M S page) : M S (page + A) := p ← c; mret (inl p).

(** [@login_required] on a handler that uses other tables than [User]. *)
Definition with_login {A} (handler : User → M conn (page + A)) : M conn (page + A) :=
  u ← in_accounts current_user;
  match u with
  | Some u => handler u
  | None => mret (inl unauthorized)
  end.

(** The rows a handler reads from the committed tables. *)
Definition all_users : M conn (list User) := gets (λ k, rows (the_users k.1)).

Definition all_books : M conn (list Book) := gets (λ k, rows (site_books (the_site k.1))).

(** The routes, with what the request carries.  The body of a request
    to a JSON endpoint is the document it decodes to, [None] when it is
    not one. *)
Inductive route : Type :=
  | AtHome
  | AtBrowse (genre q : option string)
  | AtBookDetails (title : string)
  | AtBookReviews (title : string)
  | AtAddReview (post : option review_form)
  | AtAddBook (post : option book_form)
  | AtFavourites (q : option string)
  | AtApiFavouritesToggle (body : option json)
  | AtApiFavouritesList
  | AtHistory (q : option string)
  | AtApiHistoryAdd (body : option json)
  | AtTopRated (q : option string)
  | AtFollowing (q : option string)
  | AtFollowers (q : option string)
  | AtApiFollowingToggle (body : option json)
  | AtApiFollowersRemove (body : option json)
  | AtGenre (name : string)
  | AtApiOpenlibrary (q : option string)
  | AtProfile
  | AtMyReviews
  | AtEditProfile (post : option (profile_form * option picture))
  | AtShareProfile
  | AtQrProfile (url : option string)
  | AtPublicProfile (handle : string)
  | AtSettings
  | AtChangePassword (post : option password_form)
  | AtPrivacy (post : option (option string * option string))
  | AtNotifications (post : option (option string))
  | AtTheme (post : option (option string))
  | AtLanguage (post : option (option string))
  | AtApiSearch (q : option string)
  | AtSignup (post : option signup_form)
  | AtLogin (post : option login_form)
  | AtLogout
  | AtForgotPassword (post : option (option string))
  | AtResetPassword (token : string) (post : option reset_form).

(** What the handler of a route gives to its template or to [jsonify]. *)
Definition view (r : route) : Type :=
  match r with
  | AtHome => option ui_book * list ui_book
  | AtBrowse _ _ => list ui_book * string
  | AtBookDetails _ => details
  | AtBookReviews _ => reviews_page
  | AtAddReview _ | AtTopRated _ => list ui_book
  | AtFavourites _ => list shelf_book * string
  | AtHistory _ => list (shelf_book * Z) * string
  | AtApiFavouritesToggle _ | AtApiFavouritesList | AtApiHistoryAdd _
  | AtApiFollowingToggle _ | AtApiFollowersRemove _ => response
  | AtFollowing _ | AtFollowers _ => list person
  | AtApiOpenlibrary _ => list hit
  | AtProfile => string * string * string * list Review
  | AtMyReviews => list Review
  | AtEditProfile _ => profile_view
  | AtShareProfile | AtPublicProfile _ | AtSettings => string * string
  | AtQrProfile _ => qr_target
  | AtPrivacy _ | AtNotifications _ | AtTheme _ | AtLanguage _ => list (string * json)
  | AtApiSearch _ => list suggestion
  | AtGenre _ | AtAddBook _ | AtChangePassword _ | AtSignup _ | AtLogin _ | AtLogout
  | AtForgotPassword _ | AtResetPassword _ _ => Empty_set
  end.

(** [itsdangerous] reads the clock in seconds, [datetime.utcnow()] in
    microseconds. *)
Definition seconds (now : Z) : Z := (now / 1000000)%Z.

(** The handler of a route as the decorators of src/main.py compose it,
    at the instant [now] and with the salt the request draws. *)
Definition handle `{PyRuntime, Network, Crypto, Uploads} (now : Z) (salt : string) (r : route)
  : M conn (page + view r) :=
  match r as r0 return M conn (page + view r0) with
  | AtHome => in_site (render home)
  | AtBrowse genre q => in_site (render (browse genre q))
  | AtBookDetails title => users ← all_users; in_site (book_details users now title)
  | AtBookReviews title => users ← all_users; in_site (book_reviews users title)
  | AtAddReview post => with_login (λ u, in_site (add_review (user_id u) now post))
  | AtAddBook post => in_site (as_world (redirects (add_book post)))
  | AtFavourites q =>
      with_login (λ u, books ← all_books; in_shelves (render (favourites books (user_id u) q)))
  | AtApiFavouritesToggle body =>
      with_login (λ u, data ← get_json body;
                       in_shelves (render (api_favourites_toggle (user_id u) now data)))
  | AtApiFavouritesList =>
      with_login (λ u, in_shelves (render (api_favourites_list (user_id u))))
  | AtHistory q =>
      with_login (λ u, books ← all_books; in_shelves (render (history books (user_id u) q)))
  | AtApiHistoryAdd body =>
      with_login (λ u, data ← get_json body;
                       in_shelves (render (api_history_add (user_id u) now data)))
  | AtTopRated q => in_site (render (top_rated q))
  | AtFollowing q => in_social (render (following q))
  | AtFollowers q => in_social (render (followers q))
  | AtApiFollowingToggle body =>
      data ← get_json body; in_social (render (api_following_toggle data))
  | AtApiFollowersRemove body =>
      data ← get_json body; in_social (render (api_followers_remove data))
  | AtGenre name => mret (inl (genre_page name))
  | AtApiOpenlibrary q => in_site (on_net (render (api_openlibrary q)))
  | AtProfile => with_login (λ u, in_site (render (profile_page u)))
  | AtMyReviews => with_login (λ u, in_site (render (my_reviews (user_id u))))
  | AtEditProfile post => in_profile (edit_profile post)
  | AtShareProfile => in_accounts (render share_profile)
  | AtQrProfile url => in_accounts (render (qr_profile url))
  | AtPublicProfile h => in_accounts (render (public_profile h))
  | AtSettings => in_accounts settings
  | AtChangePassword post => in_accounts (change_password salt post)
  | AtPrivacy post => in_prefs (privacy_settings post)
  | AtNotifications post => in_prefs (notifications_settings post)
  | AtTheme post => in_prefs (theme_settings post)
  | AtLanguage post => in_prefs (language_settings post)
  | AtApiSearch q => in_site (render (api_search_books q))
  | AtSignup post => in_accounts (redirects (signup salt post))
  | AtLogin post => in_accounts (redirects (login post))
  | AtLogout => in_accounts (redirects logout)
  | AtForgotPassword post => in_accounts (redirects (forgot_password (seconds now) post))
  | AtResetPassword token post =>
      in_accounts (redirects (reset_password (seconds now) salt token post))
  end.

(** The routes under [@login_required]. *)
Definition protected (r : route) : bool :=
  match r with
  | AtAddReview _ | AtFavourites _ | AtApiFavouritesToggle _ | AtApiFavouritesList
  | AtHistory _ | AtApiHistoryAdd _ | AtProfile | AtMyReviews | AtEditProfile _
  | AtSettings | AtChangePassword _ => true
  | _ => false
  end.

(** The request to the accounts that a route carries, if any. *)
Definition account_request_of (now : Z) (salt : string) (r : route) : option account_request :=
  match r with
  | AtSignup (Some form) => Some (Signup salt form)
  | AtLogin (Some form) => Some (Login form)
  | AtLogout => Some Logout
  | AtForgotPassword (Some email) => Some (Forgot (seconds now) email)
  | AtResetPassword token (Some form) => Some (Reset (seconds now) salt token form)
  | AtChangePassword (Some form) => Some (ChangePassword salt form)
  | AtEditProfile (Some (form, _)) => Some (EditProfile form)
  | _ => None
  end.

(** *** The process and its browsers *)

Record app : Type := App {
  process : server;
  browsers : gmap nat browser;
}.

(** A browser that has not been seen holds nothing. *)
Definition browser_of (c : nat) (a : app) : browser :=
  default (Browser None ∅) (browsers a !! c).

(** [db.session.remove()] when the request ends: what was not committed
    is rolled back. *)
Definition teardown (s : server) : server :=
  Server (Site (site_net (the_site s)) (site_cache (the_site s))
               (rollback (site_books (the_site s))) (site_reviews (the_site s)))
         (rollback (the_users s)) (the_printed s)
         (Shelves (rollback (favs (the_shelves s))) (rollback (hist (the_shelves s))))
         (the_social s) (the_files s) (the_schema s).

(** One request of the browser [c]. *)
Definition respond `{PyRuntime, Network, Crypto, Uploads} (c : nat) (now : Z) (salt : string)
    (r : route) (a : app) : outcome (page + view r) * app :=
  let out := handle now salt r (process a, browser_of c a) in
  (out.1, App (teardown out.2.1) (<[c := out.2.2]> (browsers a))).

(** The process after a start that left the files [fs], set the
    database up with the schema [sch] and seeded the catalogue, leaving
    [w]: the database file is kept, the lists of the
    social pages and the cache are those of the module, the log starts
    again. *)
Definition started (w : world) (fs : files) (sch : schema) (a : app) : app :=
  App (Server (Site (net w) ∅ (books w) (site_reviews (the_site (process a))))
              (the_users (process a)) (the_printed (process a))
              (the_shelves (process a)) initial fs sch)
      (browsers a).

(** The database file a start finds. *)
Definition file_of (a : app) : world := World [] (site_books (the_site (process a))).

(** Where the program is installed: the environment it is started in
    and the instance folder of Flask.  Neither changes from one start to
    the next: the key of the environment signs the cookies the browsers
    hold, and the folder is where the database file is. *)
Record machine : Type := Machine {
  environment : environ;
  instance_folder : string;
}.

Inductive app_step `{PyRuntime, Network, Crypto, Uploads} (m : machine) (a : app)
  : app → Prop :=
  | Responds c now salt r : app_step m a (respond c now salt r a).2
  | Starts cfg fs sch w :
      configure (environment m) (instance_folder m) (the_files (process a)) = (Ok cfg, fs) →
      setup (the_schema (process a)) = (Ok tt, sch) →
      startup (file_of a) = (Ok tt, w) → app_step m a (started w fs sch a).

(** An empty database file and no browser. *)
Definition installed : app :=
  App (Server (Site [] ∅ empty_table []) empty_table [] start initial ∅ ∅) ∅.

(** The states of a process that was started on an empty file. *)
Definition live `{PyRuntime, Network, Crypto, Uploads} (a : app) : Prop :=
  ∃ m cfg fs sch w,
    configure (environment m) (instance_folder m) ∅ = (Ok cfg, fs) ∧
    setup ∅ = (Ok tt, sch) ∧ startup (file_of installed) = (Ok tt, w) ∧
    rtc (app_step m) (started w fs sch installed) a.

(** The states of a process of the machine [m] that was started on
    what [old] left: its database file, its folders and the cookies of
    the browsers.  [live] is the case of [installed]. *)
Definition started_on `{PyRuntime, Network, Crypto, Uploads} (m : machine) (old a : app)
  : Prop :=
  ∃ cfg fs sch w,
    configure (environment m) (instance_folder m) (the_files (process old)) = (Ok cfg, fs) ∧
    setup (the_schema (process old)) = (Ok tt, sch) ∧ startup (file_of old) = (Ok tt, w) ∧
    rtc (app_step m) (started w fs sch old) a.

(** *** The invariant *)

Definition user_ids (s : server) : list Z := user_id <$> rows (the_users s).

(** Every row that names a user names one of the table. *)
Record owners_ok (s : server) : Prop := {
  own_reviews : Forall (λ r, review_user_id r ∈ user_ids s) (site_reviews (the_site s));
  own_favs : Forall (λ f, fav_user_id f ∈ user_ids s) (rows (favs (the_shelves s)));
  own_hist : Forall (λ h, his_user_id h ∈ user_ids s) (rows (hist (the_shelves s)));
}.

(** The tables are well formed with nothing waiting in the session, the
    rows of the users are as [signup] and [edit_profile] leave them, the
    social lists are as their endpoints leave them. *)
Record server_ok (s : server) : Prop := {
  ok_books : table_wf (site_books (the_site s)) ∧ clean (site_books (the_site s));
  ok_reviews : reviews_wf (site_reviews (the_site s));
  ok_users : table_wf (the_users s) ∧ clean (the_users s) ∧
             Forall user_ok (rows (the_users s));
  ok_shelves : shelves_wf (the_shelves s);
  ok_social : social_wf (the_social s);
  ok_owners : owners_ok s;
  ok_files : files_ok (the_files s);
}.

(** The cookie names a user and the preferences are in their ranges. *)
Record browser_ok (s : server) (b : browser) : Prop := {
  ok_cookie_user : ∀ i, cookie b = Some i → i ∈ user_ids s;
  ok_prefs : session_wf (prefs b);
}.

Definition conn_ok (k : conn) : Prop := server_ok k.1 ∧ browser_ok k.1 k.2.

Record app_ok (a : app) : Prop := {
  ok_process : server_ok (process a);
  ok_browsers : map_Forall (λ _ b, browser_ok (process a) b) (browsers a);
}.

(** What belongs to the user [i]: the reviews, the favourites and the
    history. *)
Definition owned (i : Z) (s : server) : list Review * (list Favourite * list History) :=
  (filter (λ r, review_user_id r = i) (site_reviews (the_site s)), rows_of i (the_shelves s)).

(** What a page may add to the memory of the process: to the log one
    request per demo book for the listing and two for a description,
    each under the name of the program and with its time limit; to the
    cache entries of demo books. *)
Definition within (t0 t : site) : Prop :=
  length (site_net t) ≤ length (site_net t0) + (length BOOKS + 2) ∧
  cached_within BOOKS t0 t ∧
  sent polite (site_net t0) (site_net t).

(** The cache holds entries of demo books only. *)
Definition demo_cache (t : site) : Prop := dom (site_cache t) ⊆ keys_of BOOKS.

(** *** One request as a step of one component

    What a request may do to the state it sees: change the catalogue
    and the log, add a review of the user of the cookie, run one request
    of that user on the shelves, one request on the social lists, one on
    the accounts, one on the preferences, or nothing.  The profile form
    is a request on the accounts together with the save of its picture,
    or what a save that failed left of the folder. *)
Inductive change `{Crypto} (k : conn) : conn → Prop :=
  | change_none : change k k
  | change_catalogue t :
      table_wf (site_books t) ∧ clean (site_books t) →
      site_reviews t = site_reviews (the_site k.1) →
      within (the_site k.1) t →
      change k (with_site t k)
  | change_review u r t :
      user_of_cookie (accounts_of k) = Some u → review_user_id r = user_id u →
      site_books t = site_books (the_site k.1) →
      site_reviews t = site_reviews (the_site k.1) ++ [stored (site_reviews (the_site k.1)) r] →
      within (the_site k.1) t →
      change k (with_site t k)
  | change_shelves u c :
      user_of_cookie (accounts_of k) = Some u → caller c = user_id u →
      change k (with_shelves (run_call c (the_shelves k.1)).2 k)
  | change_social t :
      step (the_social k.1) t → change k (with_social t k)
  | change_accounts q :
      change k (with_accounts (serve q (accounts_of k)).2 k)
  | change_upload form fs :
      files_ok fs →
      change k (with_files fs (with_accounts (serve (EditProfile form) (accounts_of k)).2 k))
  | change_files fs :
      files_ok fs → change k (with_files fs k)
  | change_prefs q :
      change k (with_prefs (submit q (prefs k.2)).2 k).

(** The schema a start leaves: what the set-up makes of a file of a
    known version. *)
Definition settled (sch : schema) : Prop :=
  ∃ s0, lowercase s0 ∧ known s0 ∧ sch = (setup s0).2.

(** *** The JSON answers *)

(** The routes that answer with an object made by [jsonify], and the
    fields of their answers beside [ok]. *)
Definition answer_fields (r : route) : option (list (string * ty)) :=
  match r with
  | AtApiFavouritesToggle _ => Some [("favourited", TBool)]
  | AtApiFavouritesList => Some [("book_ids", TList TInt)]
  | AtApiFollowingToggle _ => Some [("state", TStr)]
  | AtApiHistoryAdd _ | AtApiFollowersRemove _ => Some []
  | _ => None
  end.

(** What such a route answers, as a body and a status. *)
Definition as_response (r : route) : view r → option response :=
  match r as r0 return view r0 → option response with
  | AtApiFavouritesToggle _ | AtApiFavouritesList | AtApiHistoryAdd _
  | AtApiFollowingToggle _ | AtApiFollowersRemove _ => Some
  | _ => λ _, None
  end.

(** *** Fixtures *)

(** What an earlier version of the program left: a database file made
    before [bio] and the Open Library columns existed, with no row. *)
Definition old_install : app :=
  App (Server (Site [] ∅ empty_table []) empty_table [] start initial ∅ old_file) ∅.

(** The process of this version after its first start on that file. *)
Definition upgraded_start : app :=
  started (@startup demo_runtime offline (file_of old_install)).2
          (configure ∅ "/srv/instance" ∅).2 (setup old_file).2 old_install.

(** The process after its first start, without network. *)
Definition first_start : app :=
  started (@startup demo_runtime offline (file_of installed)).2
          (configure ∅ "/srv/instance" ∅).2 (setup ∅).2 installed.

Definition form_cy : signup_form :=
  SignupForm (Some "cy@example.org") (Some "pw") (Some "Cy") (Some "cy").

Definition form_di : signup_form :=
  SignupForm (Some "di@example.org") (Some "pw") (Some "Di") (Some "di").

(** Two users, each logged in from a browser of their own. *)
Definition two_signed_up : app :=
  (@respond demo_runtime offline demo_crypto demo_uploads 1 0 "s" (AtSignup (Some form_di))
     (@respond demo_runtime offline demo_crypto demo_uploads 0 0 "s" (AtSignup (Some form_cy))
        installed).2).2.

(** The process after its first start and one visit of the home page. *)
Definition first_page : app :=
  (@respond demo_runtime offline demo_crypto demo_uploads 0 0 "s" AtHome first_start).2.

(** The profile form with a picture and nothing else. *)
Definition picture_form (name content : string) : route :=
  AtEditProfile (Some (ProfileForm None None None, Some (Picture name content))).

(** ** Lemmas *)

Lemma render_run {S A} (c : M S A) s : render c s = (inr <$> (c s).1, (c s).2).
Proof. unfold render. monad_unfold. by destruct (c s) as [[a|e] s']. Qed.

Lemma redirects_run {S A} (c : M S page) s :
  redirects (A := A) c s = (inl <$> (c s).1, (c s).2).
Proof. unfold redirects. monad_unfold. by destruct (c s) as [[a|e] s']. Qed.

Lemma with_accounts_same k : with_accounts (accounts_of k) k = k.
Proof. by destruct k as [[] []]. Qed.

Lemma with_files_same k : with_files (the_files k.1) k = k.
Proof. by destruct k as [[] []]. Qed.

Lemma with_site_same k : with_site (the_site k.1) k = k.
Proof. by destruct k as [[] []]. Qed.

Lemma with_shelves_same k : with_shelves (the_shelves k.1) k = k.
Proof. by destruct k as [[] []]. Qed.

Lemma with_social_same k : with_social (the_social k.1) k = k.
Proof. by destruct k as [[] []]. Qed.

Lemma with_prefs_same k : with_prefs (prefs k.2) k = k.
Proof. by destruct k as [[] []]. Qed.

Lemma rollback_same {R} (t : table R) : clean t → rollback t = t.
Proof. destruct t as [l x p]. intros [Hx Hp]; simpl in *. by subst. Qed.

(** On a well-formed process the removal of the session does nothing. *)
Lemma teardown_ok s : server_ok s → teardown s = s.
Proof.
  intros [[_ Hb] _ (_ & Hu & _) [[_ Hf] [_ Hh]] _ _ _]. unfold teardown.
  rewrite !rollback_same by done. by destruct s as [[] ? ? [] ? ? ?].
Qed.

Lemma accounts_ok_of k : conn_ok k → accounts_ok (accounts_of k).
Proof. intros [[_ _ (Hwf & Hc & Hr) _ _ _] [Hcookie _]]. by split. Qed.

Lemma user_of_cookie_id a u :
  user_of_cookie a = Some u → user_id u ∈ user_id <$> rows (users a).
Proof.
  unfold user_of_cookie. destruct (logged_in a) as [i|]; [|done]. simpl.
  intros [Hin _]%find_id_elem. by apply list_elem_of_fmap_2.
Qed.

(** *** Every change keeps the invariant *)

Section change.
Context `{Crypto}.
Implicit Types (k : conn) (s : server).

(** The cookie is judged by the user table alone. *)
Lemma browser_ok_users s s' b : the_users s' = the_users s → browser_ok s b → browser_ok s' b.
Proof. intros Hu [Hc Hp]. split; [|done]. unfold user_ids. by rewrite Hu. Qed.

Lemma conn_ok_catalogue k t :
  conn_ok k → table_wf (site_books t) ∧ clean (site_books t) →
  site_reviews t = site_reviews (the_site k.1) → conn_ok (with_site t k).
Proof.
  intros [[Hb Hr Hu Hs Hso [Ho1 Ho2 Ho3] Hfs] Hbr] Ht Hrev.
  split; [|by apply (browser_ok_users k.1)]. split; cbn; rewrite ?Hrev; try done. split; cbn; by rewrite ?Hrev.
Qed.

Lemma conn_ok_review k u r t :
  conn_ok k → user_of_cookie (accounts_of k) = Some u → review_user_id r = user_id u →
  site_books t = site_books (the_site k.1) →
  site_reviews t = site_reviews (the_site k.1) ++ [stored (site_reviews (the_site k.1)) r] →
  conn_ok (with_site t k).
Proof.
  intros [[Hb Hr Hu Hs Hso [Ho1 Ho2 Ho3] Hfs] Hbr] Hcu Hru Hbooks Hrev.
  split; [|by apply (browser_ok_users k.1)]. split; cbn; rewrite ?Hbooks, ?Hrev; try done.
  - by apply reviews_wf_snoc.
  - split; cbn; rewrite ?Hrev; try done. apply Forall_app. split; [done|].
    constructor; [|done]. change (review_user_id (stored _ r)) with (review_user_id r).
    rewrite Hru. by apply (user_of_cookie_id (accounts_of k)).
Qed.

Lemma conn_ok_shelves k u c :
  conn_ok k → user_of_cookie (accounts_of k) = Some u → caller c = user_id u →
  conn_ok (with_shelves (run_call c (the_shelves k.1)).2 k).
Proof.
  intros [[Hb Hr Hu Hs Hso [Ho1 Ho2 Ho3] Hfs] Hbr] Hcu Hc.
  pose proof (user_of_cookie_id (accounts_of k) u Hcu) as Hid.
  destruct (run_call_owner c _ Hs) as [Hf Hh]. rewrite Hc in Hf, Hh.
  split; [|by apply (browser_ok_users k.1)]. split; cbn; try done.
  - by apply (shelf_step_wf (the_shelves k.1)); [exists c|].
  - split; cbn; [done|..]; apply Forall_forall.
    + intros f [Hin | ->]%Hf; [by apply (proj1 (Forall_forall _ _) Ho2)|done].
    + intros h [Hin | ->]%Hh; [by apply (proj1 (Forall_forall _ _) Ho3)|done].
Qed.

Lemma conn_ok_social k t : conn_ok k → step (the_social k.1) t → conn_ok (with_social t k).
Proof.
  intros [[Hb Hr Hu Hs Hso [Ho1 Ho2 Ho3] Hfs] Hbr] Hstep.
  split; [|by apply (browser_ok_users k.1)]. split; cbn; try done. by apply (step_wf (the_social k.1)).
Qed.

Lemma conn_ok_accounts k q :
  conn_ok k →
  conn_ok (with_accounts (serve q (accounts_of k)).2 k) ∧
  ∀ i, i ∈ user_ids k.1 → i ∈ user_ids (with_accounts (serve q (accounts_of k)).2 k).1.
Proof.
  intros Hk. pose proof (serve_keeps_ok q _ (accounts_ok_of k Hk)) as [Hwf Hc Hrows Hcookie].
  destruct Hk as [[Hb Hr (_ & Hcu & _) Hs Hso [Ho1 Ho2 Ho3] Hfs] [_ Hp]].
  assert (∀ i, i ∈ user_ids k.1 →
               i ∈ user_id <$> rows (users (serve q (accounts_of k)).2)) as Hgrow
    by (intros i Hi; apply serve_ids; [exact Hcu|exact Hi]).
  split; [|done]. split; [|by split]. split; cbn; try done.
  split; cbn; (eapply Forall_impl; [done|]); intros x; apply Hgrow.
Qed.

Lemma conn_ok_prefs k q : conn_ok k → conn_ok (with_prefs (submit q (prefs k.2)).2 k).
Proof. intros [Hs [Hc Hp]]. split; [done|]. split; [done|]. by apply submit_wf. Qed.

Lemma conn_ok_files k fs : conn_ok k → files_ok fs → conn_ok (with_files fs k).
Proof.
  intros [[Hb Hr Hu Hs Hso [Ho1 Ho2 Ho3] Hfs] Hbr] Hok.
  split; [|by apply (browser_ok_users k.1)]. by split.
Qed.

(** A change keeps the invariant and forgets no user. *)
Lemma change_ok k k' :
  conn_ok k → change k k' → conn_ok k' ∧ ∀ i, i ∈ user_ids k.1 → i ∈ user_ids k'.1.
Proof.
  intros Hk [|t Ht Hr|u r t Hu Hr Hb Hrev|u c Hu Hc|t Hstep|q|form fs Hfs|fs Hfs|q].
  - done.
  - split; [by apply conn_ok_catalogue|done].
  - split; [by eapply conn_ok_review|done].
  - split; [by eapply conn_ok_shelves|done].
  - split; [by apply conn_ok_social|done].
  - by apply conn_ok_accounts.
  - destruct (conn_ok_accounts k (EditProfile form) Hk) as [Hk' Hids].
    split; [by apply conn_ok_files|exact Hids].
  - split; [by apply conn_ok_files|done].
  - split; [by apply conn_ok_prefs|done].
Qed.

End change.

(** *** Every route is a change *)

Section routes.
Context `{PyRuntime, Network, Crypto, Uploads}.
Implicit Types (k : conn) (s : server) (now : Z) (salt : string).

Lemma in_site_state {A} (c : M site A) k : (in_site c k).2 = with_site (c (the_site k.1)).2 k.
Proof. unfold in_site. by rewrite zoom_run. Qed.

Lemma in_shelves_state {A} (c : M shelves A) k :
  (in_shelves c k).2 = with_shelves (c (the_shelves k.1)).2 k.
Proof. unfold in_shelves. by rewrite zoom_run. Qed.

Lemma in_social_state {A} (c : M social A) k :
  (in_social c k).2 = with_social (c (the_social k.1)).2 k.
Proof. unfold in_social. by rewrite zoom_run. Qed.

Lemma in_accounts_state {A} (c : M accounts A) k :
  (in_accounts c k).2 = with_accounts (c (accounts_of k)).2 k.
Proof. unfold in_accounts. by rewrite zoom_run. Qed.

Lemma in_profile_state {A} (c : M (accounts * files) A) k :
  (in_profile c k).2 =
    with_files (c (accounts_of k, the_files k.1)).2.2
      (with_accounts (c (accounts_of k, the_files k.1)).2.1 k).
Proof. unfold in_profile. by rewrite zoom_run. Qed.

Lemma in_prefs_state {A} (c : M session A) k :
  (in_prefs c k).2 = with_prefs (c (prefs k.2)).2 k.
Proof. unfold in_prefs. by rewrite zoom_run. Qed.

Lemma render_state {S A} (c : M S A) (x : S) : (render c x).2 = (c x).2.
Proof. by rewrite render_run. Qed.

Lemma redirects_state {S A} (c : M S page) (x : S) : (redirects (A := A) c x).2 = (c x).2.
Proof. by rewrite redirects_run. Qed.

(** [@login_required] when nothing waits in the session. *)
Lemma with_login_run {A} (handler : User → M conn (page + A)) k :
  clean (the_users k.1) →
  with_login handler k =
    match user_of_cookie (accounts_of k) with
    | Some u => handler u k
    | None => (Ok (inl unauthorized), k)
    end.
Proof.
  intros Hc. unfold with_login, in_accounts.
  rewrite (M_bind_ok _ _ k (user_of_cookie (accounts_of k)) k);
    [by destruct (user_of_cookie _)|].
  rewrite zoom_run, (current_user_clean (accounts_of k) Hc). cbn [fst snd]. by rewrite with_accounts_same.
Qed.

Lemma within_listing (t : site) : within t (all_books_ui t).2.
Proof.
  split_and!; [|apply books_ui_keys|apply books_ui_polite].
  pose proof (books_ui_net_length BOOKS t). unfold all_books_ui. lia.
Qed.

(** A handler that leaves the cache alone. *)
Lemma within_same_cache (t0 t : site) :
  length (site_net t) ≤ length (site_net t0) + (length BOOKS + 2) →
  site_cache t = site_cache t0 → sent polite (site_net t0) (site_net t) → within t0 t.
Proof.
  intros Hn Hc Hs. split_and!; [done| |done]. unfold cached_within. rewrite Hc.
  apply union_subseteq_l.
Qed.

Lemma within_refl (t : site) : within t t.
Proof. apply within_same_cache; [lia|done|reflexivity]. Qed.

Lemma within_demo_cache (t0 t : site) : within t0 t → demo_cache t0 → demo_cache t.
Proof.
  intros (_ & Hk & _) Ht0. unfold demo_cache. etrans; [exact Hk|]. by apply union_least.
Qed.

(** The seeding pass and the form of /add-book run on the log and the
    table of the process. *)
Lemma as_world_keeps {A} P (c : M world A) :
  keeps (via net (sent P)) c → keeps (via site_net (sent P)) (as_world c).
Proof. intros Hc. by apply (keeps_zoom _ (via net (sent P))). Qed.

(** The listing is a change of the catalogue. *)
Lemma change_listing k :
  conn_ok k → change k (with_site (all_books_ui (the_site k.1)).2 k).
Proof.
  intros [[[Hwf Hc] _ _ _ _ _ _] _]. apply change_catalogue.
  - unfold all_books_ui. by rewrite books_ui_books.
  - apply books_ui_reviews.
  - apply within_listing.
Qed.

Lemma change_same_site k t : t = the_site k.1 → change k (with_site t k).
Proof. intros ->. rewrite with_site_same. constructor. Qed.

Lemma change_add_book post k :
  conn_ok k → change k (with_site (as_world (redirects (A := Empty_set) (add_book post))
                                     (the_site k.1)).2 k).
Proof.
  intros [[[Hwf Hc] _ _ _ _ _ _] _]. unfold as_world. rewrite zoom_run, redirects_state.
  apply change_catalogue; [|done|]; cbn [snd site_books].
  - by apply add_book_wf.
  - pose proof (add_book_sent post (World (site_net (the_site k.1))
                                         (site_books (the_site k.1))) Hc) as Hs.
    apply within_same_cache; [cbn [site_net net] in *; lia|done|].
    apply (add_book_polite post (World _ _)).
Qed.

Lemma change_openlibrary q k :
  conn_ok k → change k (with_site (on_net (render (api_openlibrary q)) (the_site k.1)).2 k).
Proof.
  intros [[Hb _ _ _ _ _ _] _]. unfold on_net. rewrite zoom_run, render_state.
  pose proof (api_openlibrary_sent q (site_net (the_site k.1))).
  apply change_catalogue; [done..|].
  apply within_same_cache; [cbn [snd site_net]; lia|done|apply api_openlibrary_polite].
Qed.

Lemma change_book_details users now title k :
  conn_ok k → change k (with_site (book_details users now title (the_site k.1)).2 k).
Proof.
  intros [[[Hwf Hc] _ _ _ _ _ _] _].
  destruct (book_details_state users now title _ Hwf Hc) as (? & ? & ?).
  apply change_catalogue; [done..|].
  split_and!; [|by apply book_details_keys|apply book_details_polite].
  pose proof (book_details_requests users now title _ Hc). lia.
Qed.

(** A review form of the user of the cookie. *)
Lemma change_add_review u now post k :
  conn_ok k → user_of_cookie (accounts_of k) = Some u →
  change k (with_site (add_review (user_id u) now post (the_site k.1)).2 k).
Proof.
  intros Hk Hu. pose proof Hk as [[[Hwf Hc] _ _ _ _ _ _] _].
  destruct (add_review_shape (user_id u) now post _ Hc) as [-> | [-> | (r & Hr & ->)]].
  - by apply change_same_site.
  - by apply change_listing.
  - apply (change_review k u r); [done..| | |]; cbn [saved site_books site_reviews].
    + unfold all_books_ui. by rewrite books_ui_books.
    + unfold all_books_ui. by rewrite books_ui_reviews.
    + apply within_listing.
Qed.

(** The routes of the catalogue. *)
Lemma change_views k t :
  conn_ok k → t = the_site k.1 ∨ t = (all_books_ui (the_site k.1)).2 → change k (with_site t k).
Proof. intros Hk [-> | ->]; [by apply change_same_site|by apply change_listing]. Qed.

Lemma change_shelf_reads u books q k :
  conn_ok k →
  change k (with_shelves (api_favourites_list (user_id u) (the_shelves k.1)).2 k) ∧
  change k (with_shelves (favourites books (user_id u) q (the_shelves k.1)).2 k) ∧
  change k (with_shelves (history books (user_id u) q (the_shelves k.1)).2 k).
Proof.
  intros [[_ _ _ [[_ Hf] [_ Hh]] _ _ _] _].
  destruct (shelf_reads books (user_id u) q _ Hf Hh) as (-> & -> & ->).
  rewrite with_shelves_same. split_and!; constructor.
Qed.

(** A request to an account page that is a GET or only shows the user. *)
Lemma change_account_reads k a : a = accounts_of k → change k (with_accounts a k).
Proof. intros ->. rewrite with_accounts_same. constructor. Qed.

Lemma change_serve q k a :
  a = (serve q (accounts_of k)).2 → change k (with_accounts a k).
Proof. intros ->. constructor. Qed.

Lemma serve_state q (a : accounts) :
  (serve q a).2 =
    match q with
    | Signup salt form => (signup salt (Some form) a).2
    | Login form => (login (Some form) a).2
    | Logout => (logout a).2
    | Forgot now email => (forgot_password now (Some email) a).2
    | Reset now salt token form => (reset_password now salt token (Some form) a).2
    | ChangePassword salt form => (change_password salt (Some form) a).2
    | EditProfile form => (edit_profile_text (Some form) a).2
    end.
Proof. destruct q; unfold serve; by rewrite M_then_tt_state. Qed.

Lemma all_users_run k : all_users k = (Ok (rows (the_users k.1)), k).
Proof. done. Qed.

Lemma all_books_run k : all_books k = (Ok (rows (site_books (the_site k.1))), k).
Proof. done. Qed.

Lemma change_home k : conn_ok k → change k (with_site (home (the_site k.1)).2 k).
Proof. intros Hk. apply change_views; [done|]. right. apply views_state. Qed.

Lemma change_browse genre q k :
  conn_ok k → change k (with_site (browse genre q (the_site k.1)).2 k).
Proof. intros Hk. apply change_views; [done|]. right. apply views_state. Qed.

Lemma change_top_rated q k : conn_ok k → change k (with_site (top_rated q (the_site k.1)).2 k).
Proof. intros Hk. apply change_views; [done|]. right. apply views_state. Qed.

Lemma change_api_search q k :
  conn_ok k → change k (with_site (api_search_books q (the_site k.1)).2 k).
Proof. intros Hk. apply change_views; [done|]. apply views_state. Qed.

Lemma change_book_reviews users title k :
  conn_ok k → change k (with_site (book_reviews users title (the_site k.1)).2 k).
Proof. intros Hk. apply change_views; [done|]. right. apply book_reviews_state. Qed.

Lemma change_profile u k : change k (with_site (profile_page u (the_site k.1)).2 k).
Proof. by apply change_same_site. Qed.

Lemma change_my_reviews uid k : change k (with_site (my_reviews uid (the_site k.1)).2 k).
Proof. by apply change_same_site. Qed.

Lemma change_favourites_list u k :
  conn_ok k → change k (with_shelves (api_favourites_list (user_id u) (the_shelves k.1)).2 k).
Proof. intros Hk. by apply (change_shelf_reads u [] None k). Qed.

Lemma change_favourites u books q k :
  conn_ok k → change k (with_shelves (favourites books (user_id u) q (the_shelves k.1)).2 k).
Proof. intros Hk. by apply (change_shelf_reads u books q k). Qed.

Lemma change_history u books q k :
  conn_ok k → change k (with_shelves (history books (user_id u) q (the_shelves k.1)).2 k).
Proof. intros Hk. by apply (change_shelf_reads u books q k). Qed.

Lemma change_toggle u now body k :
  user_of_cookie (accounts_of k) = Some u →
  change k (with_shelves (api_favourites_toggle (user_id u) now body (the_shelves k.1)).2 k).
Proof. intros Hu. by apply (change_shelves k u (ToggleFavourite (user_id u) now body)). Qed.

Lemma change_history_add u now body k :
  user_of_cookie (accounts_of k) = Some u →
  change k (with_shelves (api_history_add (user_id u) now body (the_shelves k.1)).2 k).
Proof. intros Hu. by apply (change_shelves k u (AddHistory (user_id u) now body)). Qed.

Lemma change_following q k : change k (with_social (following q (the_social k.1)).2 k).
Proof. change (following q _).2 with (the_social k.1). rewrite with_social_same. constructor. Qed.

Lemma change_followers q k : change k (with_social (followers q (the_social k.1)).2 k).
Proof. change (followers q _).2 with (the_social k.1). rewrite with_social_same. constructor. Qed.

Lemma change_following_toggle body k :
  change k (with_social (api_following_toggle body (the_social k.1)).2 k).
Proof. apply change_social, step_toggle. Qed.

Lemma change_followers_remove body k :
  change k (with_social (api_followers_remove body (the_social k.1)).2 k).
Proof. apply change_social, step_remove. Qed.

(** *** The account pages: a request of [serve] or nothing *)

Lemma change_account k a :
  a = accounts_of k ∨ (∃ q, a = (serve q (accounts_of k)).2) → change k (with_accounts a k).
Proof. intros [-> | [q ->]]; [by apply change_account_reads|by apply (change_serve q)]. Qed.

Section account_pages.
Context (k : conn) (Hk : conn_ok k).

Lemma accounts_clean : clean (users (accounts_of k)).
Proof. by destruct Hk as [[_ _ (_ & ? & _) _ _ _ _] _]. Qed.

Lemma change_signup salt post :
  change k (with_accounts (signup salt post (accounts_of k)).2 k).
Proof.
  apply change_account. destruct post as [form|]; [right|left; apply account_reads, accounts_clean].
  exists (Signup salt form). by rewrite serve_state.
Qed.

Lemma change_login post : change k (with_accounts (login post (accounts_of k)).2 k).
Proof.
  apply change_account. destruct post as [form|]; [right|left; apply account_reads, accounts_clean].
  exists (Login form). by rewrite serve_state.
Qed.

Lemma change_logout : change k (with_accounts (logout (accounts_of k)).2 k).
Proof. apply change_account. right. exists Logout. by rewrite serve_state. Qed.

Lemma change_forgot now post :
  change k (with_accounts (forgot_password now post (accounts_of k)).2 k).
Proof.
  apply change_account. destruct post as [email|]; [right|left; apply account_reads, accounts_clean].
  exists (Forgot now email). by rewrite serve_state.
Qed.

Lemma change_reset now salt token post :
  change k (with_accounts (reset_password now salt token post (accounts_of k)).2 k).
Proof.
  apply change_account. destruct post as [form|].
  - right. exists (Reset now salt token form). by rewrite serve_state.
  - left. apply account_reads, accounts_clean.
Qed.

Lemma change_change_password salt post :
  change k (with_accounts (change_password salt post (accounts_of k)).2 k).
Proof.
  apply change_account. destruct post as [form|].
  - right. exists (ChangePassword salt form). by rewrite serve_state.
  - left. apply account_reads, accounts_clean.
Qed.

(** The profile form: a step of the accounts with the picture saved, the
    folder made for a picture that could not be saved, or nothing. *)
Lemma change_edit_profile post :
  change k (with_files (edit_profile post (accounts_of k, the_files k.1)).2.2
              (with_accounts (edit_profile post (accounts_of k, the_files k.1)).2.1 k)).
Proof.
  pose proof accounts_clean as Hc. destruct Hk as [[_ _ _ _ _ _ Hfs] _].
  destruct post as [[form file]|].
  - rewrite edit_profile_post by done. pose proof (save_picture_files_ok file _ Hfs) as Hfs'.
    destruct (user_of_cookie (accounts_of k)) as [u|] eqn:Hu; cbn [fst snd].
    + destruct (save_picture file (the_files k.1)).1; cbn [fst snd].
      * assert (with_user (user_id u) (edited form) (accounts_of k)
                = (serve (EditProfile form) (accounts_of k)).2) as ->
          by (by rewrite serve_state, edit_run, Hu).
        by apply change_upload.
      * rewrite with_accounts_same. by apply change_files.
    + rewrite with_accounts_same, with_files_same. constructor.
  - rewrite edit_profile_get. cbn [fst snd].
    destruct (account_reads (accounts_of k) Hc) as (_ & _ & _ & _ & _ & -> & _).
    rewrite with_accounts_same, with_files_same. constructor.
Qed.

Lemma change_account_views :
  change k (with_accounts (settings (accounts_of k)).2 k) ∧
  change k (with_accounts (share_profile (accounts_of k)).2 k) ∧
  (∀ handle, change k (with_accounts (public_profile handle (accounts_of k)).2 k)) ∧
  (∀ url, change k (with_accounts (qr_profile url (accounts_of k)).2 k)).
Proof.
  pose proof (account_reads _ accounts_clean) as (_ & _ & _ & _ & _ & _ & Hs & Hp & Hq & Hr).
  split_and!; intros; by apply change_account_reads.
Qed.

End account_pages.

Lemma change_privacy post k : change k (with_prefs (privacy_settings post (prefs k.2)).2 k).
Proof. exact (change_prefs k (Privacy post)). Qed.

Lemma change_notifications post k :
  change k (with_prefs (notifications_settings post (prefs k.2)).2 k).
Proof. exact (change_prefs k (Notifications post)). Qed.

Lemma change_theme post k : change k (with_prefs (theme_settings post (prefs k.2)).2 k).
Proof. exact (change_prefs k (Theme post)). Qed.

Lemma change_language post k : change k (with_prefs (language_settings post (prefs k.2)).2 k).
Proof. exact (change_prefs k (Language post)). Qed.

Create HintDb routes.

#[local] Hint Resolve change_home change_browse change_top_rated change_api_search
  change_book_reviews change_book_details change_add_book change_openlibrary
  change_add_review change_profile change_my_reviews change_favourites_list
  change_favourites change_history change_toggle change_history_add change_following
  change_followers change_following_toggle change_followers_remove change_signup
  change_login change_logout change_forgot change_reset change_change_password
  change_edit_profile change_none change_privacy change_notifications change_theme
  change_language : routes.

(** What a request does to the state it sees is a change: one request
    of one component, with the user of the cookie as the sender where
    the route needs one, or nothing. *)
Lemma handle_change now salt r k : conn_ok k → change k (handle now salt r k).2.
Proof.
  intros Hk. pose proof (accounts_clean k Hk) as Hc.
  destruct (change_account_views k Hk) as (? & ? & ? & ?).
  destruct r; unfold handle; rewrite ?with_login_run by done;
    try (destruct (user_of_cookie _) as [u|] eqn:Hu; [|by constructor]);
    rewrite ?get_json_bind; try (destruct body as [data|]; [|by constructor]);
    rewrite ?(M_bind_ok _ _ _ _ _ (all_users_run k)), ?(M_bind_ok _ _ _ _ _ (all_books_run k));
    rewrite ?in_site_state, ?in_shelves_state, ?in_social_state, ?in_accounts_state,
            ?in_profile_state, ?in_prefs_state, ?render_state, ?redirects_state;
    eauto with routes.
Qed.

End routes.

(** *** The process *)

Section process.
Context `{PyRuntime, Network, Crypto, Uploads}.
Implicit Types (a : app) (k : conn).

(** A cookie that names a user still does when users are added. *)
Lemma browser_ok_grow s s' b :
  (∀ i, i ∈ user_ids s → i ∈ user_ids s') → browser_ok s b → browser_ok s' b.
Proof. intros Hg [Hc Hp]. split; [|done]. intros i Hi. by apply Hg, Hc. Qed.

Lemma browser_of_ok c a : app_ok a → conn_ok (process a, browser_of c a).
Proof.
  intros [Hs Hb]. split; [done|]. unfold browser_of.
  destruct (browsers a !! c) as [b|] eqn:Eb; [by apply (Hb c)|].
  split; [done|apply map_Forall_empty].
Qed.

(** The state in which a request leaves the process and its browser. *)
Lemma respond_state c now salt r a :
  app_ok a →
  ∃ k', change (process a, browser_of c a) k' ∧
        (respond c now salt r a).2 = App k'.1 (<[c := k'.2]> (browsers a)).
Proof.
  intros Ha. pose proof (browser_of_ok c a Ha) as Hk.
  pose proof (handle_change now salt r _ Hk) as Hch.
  exists (handle now salt r (process a, browser_of c a)).2. split; [done|].
  unfold respond. cbn [snd]. f_equal. apply teardown_ok.
  by destruct (change_ok _ _ Hk Hch) as [[? _] _].
Qed.

Lemma respond_ok c now salt r a : app_ok a → app_ok (respond c now salt r a).2.
Proof.
  intros Ha. destruct (respond_state c now salt r a Ha) as (k' & Hch & ->).
  destruct (change_ok _ _ (browser_of_ok c a Ha) Hch) as [[Hs Hb] Hgrow].
  split; [done|]. apply map_Forall_insert_2; [done|].
  intros c' b Hb'. eapply browser_ok_grow; [done|]. by apply (ok_browsers a Ha c').
Qed.

Lemma startup_books w w' :
  table_wf (books w) → clean (books w) → startup w = (Ok tt, w') →
  table_wf (books w') ∧ clean (books w').
Proof.
  intros Hwf Hc Hrun. pose proof (ensure_seeded_pass_spec CURATED_SHELVES 250 w Hwf Hc) as Hs.
  unfold startup, _ensure_seeded_curated in Hrun. simpl in Hs. rewrite Hrun in Hs. simpl in Hs.
  by destruct Hs as (? & ? & _).
Qed.

Lemma started_ok env instance_path cfg fs sch w a :
  app_ok a → configure env instance_path (the_files (process a)) = (Ok cfg, fs) →
  startup (file_of a) = (Ok tt, w) → app_ok (started w fs sch a).
Proof.
  intros [[[Hwf Hc] Hr Hu Hs _ [Ho1 Ho2 Ho3] Hfs] Hb] Hcfg Hrun.
  destruct (configure_full env instance_path _ Hfs) as (Hfs' & _). rewrite Hcfg in Hfs'.
  destruct (startup_books (file_of a) w Hwf Hc Hrun) as [Hwf' Hc'].
  split; [|eapply map_Forall_impl; [exact Hb|]; intros ? ?; by apply browser_ok_users].
  split; cbn; try done. apply social_wf_initial.
Qed.

(** A database file with no row and no browser, whatever its schema. *)
Lemma empty_file_ok sch :
  app_ok (App (Server (Site [] ∅ empty_table []) empty_table [] start initial ∅ sch) ∅).
Proof.
  split; [|apply map_Forall_empty]. split; cbn.
  - split; [apply empty_table_wf|done].
  - split; constructor.
  - split_and!; [apply rows_wf_nil|done|done].
  - apply start_wf.
  - apply social_wf_initial.
  - by split.
  - apply map_Forall_empty.
Qed.

Lemma installed_ok : app_ok installed.
Proof. apply empty_file_ok. Qed.

Lemma app_step_ok m a a' : app_step m a a' → app_ok a → app_ok a'.
Proof.
  intros [c now salt r|cfg fs sch w Hcfg Hsch Hw] Ha; [by apply respond_ok|].
  by apply (started_ok (environment m) (instance_folder m) cfg).
Qed.

(** A request does not touch the schema. *)
Lemma change_schema k k' : change k k' → the_schema k'.1 = the_schema k.1.
Proof. by destruct 1. Qed.

(** What a request sends and caches. *)
Lemma change_sent k k' : change k k' → within (the_site k.1) (the_site k'.1).
Proof.
  destruct 1;
    cbn [with_site with_shelves with_social with_accounts with_files with_prefs fst the_site];
    try assumption; apply within_refl.
Qed.

Lemma app_step_settled m a a' :
  app_step m a a' → app_ok a → settled (the_schema (process a)) →
  settled (the_schema (process a')).
Proof.
  intros [c now salt r|cfg fs sch w Hcfg Hsch Hw] Ha Hs.
  - destruct (respond_state c now salt r a Ha) as (k' & Hch & ->).
    cbn [process]. by rewrite (change_schema _ _ Hch).
  - destruct Hs as (s0 & Hl & Hk & Heq). exists s0. split_and!; [done..|].
    cbn [started process the_schema]. rewrite Heq, (setup_idempotent s0 Hl) in Hsch.
    by injection Hsch as <-.
Qed.

(** A schema that is settled stays so, whatever the requests and the
    starts that follow. *)
Lemma settled_steps m a a' :
  rtc (app_step m) a a' → app_ok a → settled (the_schema (process a)) →
  app_ok a' ∧ settled (the_schema (process a')).
Proof.
  induction 1 as [a|a1 a2 a3 Hs _ IH]; [done|]. intros Ha Hset.
  apply IH; [by eapply app_step_ok|by eapply app_step_settled].
Qed.

(** Induction on the life of a process: what holds after the first
    start and is kept by every step from a state of the invariant holds
    in every state. *)
Lemma live_ind (P : app → Prop) :
  (∀ env inst cfg fs sch w,
     configure env inst ∅ = (Ok cfg, fs) → setup ∅ = (Ok tt, sch) →
     startup (file_of installed) = (Ok tt, w) → P (started w fs sch installed)) →
  (∀ m a a', app_ok a → P a → app_step m a a' → P a') →
  ∀ a, live a → app_ok a ∧ P a.
Proof.
  intros Hstart Hstep a (m & cfg & fs & sch & w & Hcfg & Hsch & Hw & Hrun).
  revert a Hrun. apply rtc_ind_r.
  - split; [|by eapply Hstart].
    by apply (started_ok (environment m) (instance_folder m) cfg); [apply installed_ok|..].
  - intros a1 a2 _ Hs [Ha HP]. split; [by eapply app_step_ok|by eapply Hstep].
Qed.

Lemma live_ok a : live a → app_ok a.
Proof. intros Ha. by apply (live_ind (λ _, True)). Qed.

Lemma live_settled a : live a → app_ok a ∧ settled (the_schema (process a)).
Proof.
  apply (live_ind (λ a, settled (the_schema (process a)))).
  - intros env inst cfg fs sch w _ Hsch _. exists ∅. split_and!; [done..|].
    cbn [started process the_schema]. by rewrite Hsch.
  - intros m a1 a2 Ha Hs Hstep. by eapply app_step_settled.
Qed.

(** The cache of a process that runs: a request adds entries of demo
    books, a start empties it. *)
Lemma app_step_demo_cache m a a' :
  app_step m a a' → app_ok a → demo_cache (the_site (process a)) →
  demo_cache (the_site (process a')).
Proof.
  intros [c now salt r|cfg fs sch w Hcfg Hsch Hw] Ha Hs.
  - destruct (respond_state c now salt r a Ha) as (k' & Hch & ->). cbn [process].
    by apply (within_demo_cache _ _ (change_sent _ _ Hch)).
  - unfold demo_cache. cbn [started process the_site site_cache].
    rewrite dom_empty_L. apply empty_subseteq.
Qed.

Lemma live_demo_cache a : live a → demo_cache (the_site (process a)).
Proof.
  intros Ha. apply (live_ind (λ a, demo_cache (the_site (process a)))); [| |done].
  - intros. unfold demo_cache. cbn [started process the_site site_cache].
    rewrite dom_empty_L. apply empty_subseteq.
  - intros m a1 a2 Ha1 Hs Hstep. by eapply app_step_demo_cache.
Qed.

(** The log of a process that runs: requests of the program only. *)
Lemma startup_polite a w : startup (file_of a) = (Ok tt, w) → Forall polite (net w).
Proof.
  intros Hw. pose proof (ensure_seeded_polite CURATED_SHELVES 250 (file_of a)) as Hsent.
  fold (_ensure_seeded_curated 250) startup in Hsent. rewrite Hw in Hsent.
  by eapply sent_Forall.
Qed.

Lemma app_step_polite m a a' :
  app_step m a a' → app_ok a → Forall polite (site_net (the_site (process a))) →
  Forall polite (site_net (the_site (process a'))).
Proof.
  intros [c now salt r|cfg fs sch w Hcfg Hsch Hw] Ha Hs.
  - destruct (respond_state c now salt r a Ha) as (k' & Hch & ->). cbn [process].
    destruct (change_sent _ _ Hch) as (_ & _ & Hsent). by eapply sent_Forall.
  - by apply (startup_polite a).
Qed.

Lemma live_polite_log a : live a → Forall polite (site_net (the_site (process a))).
Proof.
  intros Ha. apply (live_ind (λ a, Forall polite (site_net (the_site (process a))))); [| |done].
  - intros env inst cfg fs sch w _ _ Hw. by apply (startup_polite installed).
  - intros m a1 a2 Ha1 Hs Hstep. by eapply app_step_polite.
Qed.

End process.

(** *** What a request does to the accounts, to the cookie and to what
    a user owns *)

Section projections.
Context `{PyRuntime, Network, Crypto, Uploads}.
Implicit Types (a : app) (k : conn).

Lemma accounts_of_with (x : accounts) k : accounts_of (with_accounts x k) = x.
Proof. by destruct x. Qed.

Lemma accounts_of_files fs k : accounts_of (with_files fs k) = accounts_of k.
Proof. done. Qed.

(** The accounts after the profile form: those after the request it
    carries, or the accounts as they were when the picture could not be
    saved. *)
Lemma profile_accounts now salt post k :
  conn_ok k →
  let after := accounts_of (handle now salt (AtEditProfile post) k).2 in
  after = match account_request_of now salt (AtEditProfile post) with
          | Some q => (serve q (accounts_of k)).2
          | None => accounts_of k
          end ∨ after = accounts_of k.
Proof.
  intros Hk. pose proof (accounts_clean k Hk) as Hc. cbv zeta. unfold handle.
  rewrite in_profile_state, accounts_of_files, accounts_of_with.
  destruct post as [[form file]|]; cbn [account_request_of].
  - rewrite edit_profile_post, serve_state, edit_run by done.
    destruct (user_of_cookie _); [destruct (save_picture _ _).1|]; cbn [fst snd]; auto.
  - rewrite edit_profile_get. cbn [fst snd]. left. by apply account_reads.
Qed.

(** The accounts after a request are those after the request the route
    carries, and the accounts as they were when it carries none or
    fails before its commit. *)
Lemma handle_accounts now salt r k :
  conn_ok k →
  let after := accounts_of (handle now salt r k).2 in
  after = match account_request_of now salt r with
          | Some q => (serve q (accounts_of k)).2
          | None => accounts_of k
          end ∨ after = accounts_of k.
Proof.
  intros Hk. pose proof (accounts_clean k Hk) as Hc.
  pose proof (account_reads _ Hc) as (? & ? & ? & ? & ? & ? & ? & ? & ? & ?).
  destruct r as [| | | | | | | | | | | | | | | | | | | |post| | | | |[?|]| | | | | |[?|]|[?|]
                | |[?|]|?[?|]];
    try (by apply profile_accounts); left;
    unfold handle; rewrite ?with_login_run by done;
    try (destruct (user_of_cookie _) as [u|] eqn:Hu; [|done]);
    rewrite ?get_json_bind; try (destruct body as [data|]; [|done]);
    rewrite ?(M_bind_ok _ _ _ _ _ (all_users_run k)), ?(M_bind_ok _ _ _ _ _ (all_books_run k));
    rewrite ?in_site_state, ?in_shelves_state, ?in_social_state, ?in_accounts_state,
            ?in_prefs_state, ?render_state, ?redirects_state, ?accounts_of_with;
    cbn [account_request_of]; rewrite ?serve_state; done.
Qed.

Lemma cookie_of_user k u :
  user_of_cookie (accounts_of k) = Some u → cookie k.2 = Some (user_id u).
Proof.
  unfold user_of_cookie, accounts_of. cbn [logged_in users].
  destruct (cookie k.2) as [i|]; [|done]. simpl. by intros [_ ->]%find_id_elem.
Qed.

(** A change leaves what the other users own as it is. *)
Lemma change_owned k k' i :
  conn_ok k → change k k' → cookie k.2 ≠ Some i → owned i k'.1 = owned i k.1.
Proof.
  intros Hk [|t Ht Hr|u r t Hu Hr Hb Hrev|u c Hu Hc|t Hstep|q|form fs Hfs|fs Hfs|q] Hi;
    try done; unfold owned; cbn.
  - by rewrite Hr.
  - rewrite Hrev, filter_snoc_not; [done|].
    change (review_user_id (stored _ r)) with (review_user_id r). rewrite Hr.
    apply cookie_of_user in Hu. congruence.
  - f_equal. apply run_call_others; [by destruct Hk as [[] _]|].
    apply cookie_of_user in Hu. congruence.
Qed.

(** Without a cookie a protected route answers with the redirect to the
    login page and changes nothing. *)
(** The answer of an endpoint run through its lens. *)
Lemma rendered {S A} (c : M S A) (x : S) (v : A) :
  (render c x).1 = Ok (inr v) → (c x).1 = Ok v.
Proof. rewrite render_run. cbn [fst]. destruct (c x).1; by intros [= <-]. Qed.

Lemma handle_typed now salt r k v resp fields :
  conn_ok k → (handle now salt r k).1 = Ok (inr v) →
  as_response r v = Some resp → answer_fields r = Some fields → well_typed fields resp.
Proof.
  intros Hk Hrun Hv Hf. pose proof (accounts_clean k Hk) as Hc.
  destruct Hk as [[_ _ _ [[_ Hfav] [_ Hhis]] _ _ _] _].
  destruct r; try discriminate Hf; injection Hf as <-; injection Hv as <-;
    unfold handle in Hrun; rewrite ?with_login_run in Hrun by done;
    try (destruct (user_of_cookie _); [|discriminate Hrun]);
    rewrite ?get_json_bind in Hrun; try (destruct body as [data|]; [|discriminate Hrun]);
    unfold in_shelves, in_social in Hrun; rewrite zoom_run in Hrun; cbn [fst] in Hrun;
    apply rendered in Hrun.
  - by eapply (shelf_answers_typed _ _ _ _ v Hfav Hhis).
  - by eapply (shelf_answers_typed _ 0 JNull _ v Hfav Hhis).
  - by eapply (shelf_answers_typed _ _ _ _ v Hfav Hhis).
  - by eapply (social_answers_typed _ _ v).
  - by eapply (social_answers_typed _ _ v).
Qed.

Lemma handle_unauthorized now salt r k :
  clean (the_users k.1) → protected r = true → cookie k.2 = None →
  handle now salt r k = (Ok (inl unauthorized), k).
Proof.
  intros Hc Hp Hn.
  assert (user_of_cookie (accounts_of k) = None) as Hu
    by (unfold user_of_cookie, accounts_of; cbn; by rewrite Hn).
  destruct r as [| | | | | | | | | | | | | | | | | | | |post| | | | | | | | | | | | | | |];
    try discriminate Hp; unfold handle; rewrite ?with_login_run, ?Hu by done; try done.
  - unfold in_profile. rewrite zoom_run. cbn [fst snd].
    destruct post as [[form file]|];
      [rewrite edit_profile_post, Hu by done
      |rewrite edit_profile_get; unfold edit_profile_text;
       rewrite login_required_clean, Hu by done];
      cbn [fst snd]; by rewrite with_accounts_same, with_files_same.
  - unfold in_accounts, settings. rewrite zoom_run, login_required_clean, Hu by done.
    cbn [fst snd]. by rewrite with_accounts_same.
  - unfold in_accounts, change_password. rewrite zoom_run, login_required_clean, Hu by done.
    cbn [fst snd]. by rewrite with_accounts_same.
Qed.

End projections.

(** ** Theorems *)

Section app_theorems.
Context `{PyRuntime, Network, Crypto, Uploads}.
Implicit Types (a : app) (c : nat) (r : route).

(** C11. In every state of a process started on an empty database file,
    whatever requests it served and however often it was started again:
    the tables are well formed with nothing waiting in the session, every
    review, favourite and history row names a user of the table, the
    cookie of every browser names a user of the table, and every stored
    preference is in the range of its page. *)
Theorem live_invariant a : live a → app_ok a.
Proof. apply live_ok. Qed.

(** C12. A request of the application is one step of one component or
    none: it changes the catalogue and the log, adds a review of the user
    of the cookie, runs one request of that user on the favourites and
    the history, one request on the social lists, one on the accounts
    (with the save of a picture for the profile form), or one on the
    preferences of the browser; the browser it came from is the only one
    whose cookie and preferences may change. *)
Theorem respond_refines c now salt r a :
  app_ok a →
  ∃ k', change (process a, browser_of c a) k' ∧
        (respond c now salt r a).2 = App k'.1 (<[c := k'.2]> (browsers a)).
Proof. apply respond_state. Qed.

(** C13. A request sent with another cookie than that of the user [i], or
    with none, leaves the reviews, the favourites and the history of [i]
    as they are, whatever the route and whatever it carries. *)
Theorem respond_isolated c now salt r a i :
  app_ok a → cookie (browser_of c a) ≠ Some i →
  owned i (process (respond c now salt r a).2) = owned i (process a).
Proof.
  intros Ha Hi. destruct (respond_state c now salt r a Ha) as (k' & Hch & ->).
  by apply (change_owned _ _ i (browser_of_ok c a Ha) Hch).
Qed.

(** C15. A route under [@login_required] asked without a cookie is answered
    with the redirect to the login page; the process is left as it was
    and the browser stays logged out. *)
Theorem protected_unauthorized c now salt r a :
  app_ok a → protected r = true → cookie (browser_of c a) = None →
  (respond c now salt r a).1 = Ok (inl unauthorized) ∧
  process (respond c now salt r a).2 = process a ∧
  browser_of c (respond c now salt r a).2 = browser_of c a.
Proof.
  intros Ha Hp Hn. pose proof Ha as [Hs _]. unfold respond.
  rewrite handle_unauthorized by (done || apply Hs). cbn [fst snd].
  split_and!; [done|by apply teardown_ok|]. unfold browser_of at 1. cbn [browsers].
  by rewrite lookup_insert_eq.
Qed.

(** C14. A browser comes to hold the cookie of a user only by a login with
    the address of that user and a password that matches the stored
    hash, or by the signup that creates the user. *)
Theorem cookie_needs_password c now salt r a i :
  app_ok a → cookie (browser_of c (respond c now salt r a).2) = Some i →
  cookie (browser_of c a) ≠ Some i →
  (∃ form u, r = AtLogin (Some form) ∧ u ∈ rows (the_users (process a)) ∧ user_id u = i ∧
             user_email u = lower (arg_text (li_email form)) ∧
             check_password u (arg_or (li_password form) EmptyString) = true) ∨
  (∃ form, r = AtSignup (Some form) ∧ i ∉ user_ids (process a)).
Proof.
  intros Ha Hafter Hbefore. pose proof (browser_of_ok c a Ha) as Hk.
  unfold browser_of at 1, respond in Hafter. cbn [browsers snd] in Hafter.
  rewrite lookup_insert_eq in Hafter. cbn [default] in Hafter.
  assert (logged_in (accounts_of (handle now salt r (process a, browser_of c a)).2) = Some i)
    as Hacc by exact Hafter.
  destruct (handle_accounts now salt r _ Hk) as [Heq|Heq]; rewrite Heq in Hacc; clear Heq;
    [|by destruct Hbefore].
  pose proof (accounts_clean _ Hk) as Hc.
  destruct (account_request_of now salt r) as [q|] eqn:Hq; [|by destruct Hbefore].
  pose proof (serve_cookie q _ Hc) as Hs. rewrite Hacc in Hs. clear Hafter Hacc.
  destruct r as [| | | | | | | | | | | | | | | | | | | |[[? ?]|]| | | | |[?|]| | | | | |[f|]|[f|]
                | |[?|]|?[?|]]; cbn [account_request_of] in Hq; try discriminate Hq;
    injection Hq as <-; cbv iota in Hs; try by destruct Hbefore.
  - right. exists f. split; [done|]. destruct Hs as [Hs | [= ->]]; [by destruct Hbefore|].
    exact (next_id_fresh (rows (the_users (process a)))).
  - left. destruct Hs as [Hs | (u & ? & ? & ? & [= ->])]; [by destruct Hbefore|].
    by exists f, u.
Qed.

(** C40. Whatever the route, what it carries and what the network answers,
    a request ends, with a page or with an exception, after at most one
    call to Open Library for each demo book and two more: no handler
    waits for the network more than eleven times, and each call goes
    out with a time limit of 20 seconds at most, so that no request
    waits for the network longer than 220 seconds. *)
Theorem respond_requests c now salt r a :
  app_ok a →
  ∃ new,
    site_net (the_site (process (respond c now salt r a).2)) =
      site_net (the_site (process a)) ++ new ∧
    length new ≤ 11 ∧ Forall polite new.
Proof.
  intros Ha. destruct (respond_state c now salt r a Ha) as (k' & Hch & ->).
  destruct (change_sent _ _ Hch) as (Hn & _ & new & Hnew & Hp). exists new.
  split_and!; [done| |done]. cbn [process] in *. rewrite Hnew, length_app in Hn.
  change (length BOOKS) with 9 in Hn. lia.
Qed.

(** C26. An upgrade: on what an earlier version of the program left,
    with a database file that lacks at most the columns the migration
    adds and names its columns in lower case, the set-up of the start
    does not fail; and in every state of the process started on it,
    after any requests and further starts, every table has every column
    of its model, and the set-up of the next start succeeds and changes
    nothing. *)
Theorem upgrade_schema m old a :
  app_ok old → lowercase (the_schema (process old)) → known (the_schema (process old)) →
  (setup (the_schema (process old))).1 = Ok tt ∧
  (started_on m old a →
   setup (the_schema (process a)) = (Ok tt, the_schema (process a)) ∧
   ∀ t cols (col : string), (t, cols) ∈ MODELS → col ∈ cols →
     ∃ have, the_schema (process a) !! t = Some have ∧ col ∈ have).
Proof.
  intros Ha Hl Hk. split; [by destruct (setup_run _ Hl) as (s' & -> & _)|].
  intros (cfg & fs & sch & w & Hcfg & Hsch & Hw & Hrun).
  destruct (settled_steps m _ a Hrun) as (_ & s0 & Hl0 & Hk0 & ->).
  - by apply (started_ok (environment m) (instance_folder m) cfg).
  - exists (the_schema (process old)). split_and!; [done..|].
    cbn [started process the_schema]. by rewrite Hsch.
  - split; [by apply setup_idempotent|].
    intros t cols col Ht Hc. by apply (setup_complete s0 t cols col).
Qed.

(** A body that is not a JSON document: the endpoints of the social
    lists raise [BadRequest] and change nothing. *)
Theorem bad_body_social now salt k :
  handle now salt (AtApiFollowingToggle None) k = (Raise BadRequest, k) ∧
  handle now salt (AtApiFollowersRemove None) k = (Raise BadRequest, k).
Proof. done. Qed.

(** The endpoints of the shelves do the same for a user who is logged
    in; any other browser is sent to the login page before the body is
    read ([protected_unauthorized]). *)
Theorem bad_body_shelves now salt k u :
  clean (the_users k.1) → user_of_cookie (accounts_of k) = Some u →
  handle now salt (AtApiFavouritesToggle None) k = (Raise BadRequest, k) ∧
  handle now salt (AtApiHistoryAdd None) k = (Raise BadRequest, k).
Proof. intros Hc Hu. unfold handle. by rewrite !with_login_run, Hu by done. Qed.

(** C30. Every answer made by [jsonify] of an object has the fields the
    scripts of the pages read, whatever the request carries: status 200
    goes with [ok] true and the fields of the route, a status from 400
    to 499 with [ok] false and a message. *)
Theorem respond_typed c now salt r a v resp fields :
  app_ok a → (respond c now salt r a).1 = Ok (inr v) →
  as_response r v = Some resp → answer_fields r = Some fields → well_typed fields resp.
Proof.
  intros Ha Hrun. by apply (handle_typed now salt r _ v resp fields (browser_of_ok c a Ha)).
Qed.

(** C27. The cache of covers is bounded: in every state of a running
    process, whatever the requests were and whatever the network
    answered, it holds entries of demo books only, so never more
    entries than there are demo books. *)
Theorem live_cache a :
  live a →
  dom (site_cache (the_site (process a))) ⊆ keys_of BOOKS ∧
  size (site_cache (the_site (process a))) ≤ length BOOKS.
Proof. intros Hk%live_demo_cache. split; [done|by apply keys_of_size]. Qed.

(** Every request a running process has sent since its start went
    out under the User-Agent of the program and with a time limit of 10
    to 20 seconds, whatever the pages asked for and whatever the
    answers were: with [respond_requests], no page waits for the
    network longer than 220 seconds. *)
Theorem live_polite a :
  live a → Forall polite (site_net (the_site (process a))).
Proof. apply live_polite_log. Qed.

(** Once a listing has been returned the cache holds one entry for
    every demo book, and keeps them until the process stops. *)
Theorem listing_fills_cache a bs t :
  live a → all_books_ui (the_site (process a)) = (Ok bs, t) →
  dom (site_cache t) = keys_of BOOKS.
Proof.
  intros Hk%live_demo_cache Hrun. apply set_eq. intros key. split.
  - pose proof (books_ui_keys BOOKS (the_site (process a))) as Hsub.
    fold all_books_ui in Hsub. rewrite Hrun in Hsub. intros Hin.
    apply Hsub, elem_of_union in Hin as [Hin|Hin]; [by apply Hk|done].
  - destruct (books_ui_ok _ _ _ _ Hrun) as (_ & Hall & _).
    intros Hin. apply elem_of_list_to_set, list_elem_of_fmap in Hin as (b & -> & Hb).
    by apply elem_of_dom, Hall.
Qed.

End app_theorems.

(** The page of the people followed is the same for every browser. *)
Lemma following_for_all `{PyRuntime, Network, Crypto, Uploads} c c' now now' salt salt' q a :
  (respond c now salt (AtFollowing q) a).1 = (respond c' now' salt' (AtFollowing q) a).1.
Proof. unfold respond, handle, in_social. by rewrite !zoom_run. Qed.

(** ** Witnesses *)

Lemma first_start_live : @live demo_runtime offline demo_crypto demo_uploads first_start.
Proof.
  exists (Machine ∅ "/srv/instance"),
    (Config "dev-change-me" "sqlite:////srv/instance/bookbuddy.db" false "login"),
    (configure ∅ "/srv/instance" ∅).2,
    (setup ∅).2, (@startup demo_runtime offline (file_of installed)).2.
  split_and!; [| |apply pair_eq_fst; vm_compute; reflexivity|done];
    apply pair_eq_fst; vm_compute; reflexivity.
Qed.

Lemma first_page_live : @live demo_runtime offline demo_crypto demo_uploads first_page.
Proof.
  destruct first_start_live as (m & cfg & fs & sch & w & Hcfg & Hsch & Hw & Hrun).
  exists m, cfg, fs, sch, w. split_and!; [done..|].
  eapply rtc_r; [exact Hrun|apply Responds].
Qed.

Lemma live_cache_witness :
  dom (site_cache (the_site (process first_page))) ⊆ keys_of BOOKS ∧
  size (site_cache (the_site (process first_page))) ≤ length BOOKS.
Proof.
  exact (@live_cache demo_runtime offline demo_crypto demo_uploads first_page first_page_live).
Defined.

(** After the first page the cache is full: nine entries. *)
Example first_page_cache : size (site_cache (the_site (process first_page))) = 9.
Proof. vm_compute. reflexivity. Qed.

Lemma live_invariant_witness : app_ok first_start.
Proof. exact (@live_invariant demo_runtime offline demo_crypto demo_uploads first_start first_start_live). Defined.

Lemma respond_refines_witness :
  ∃ k', @change demo_crypto (process installed, browser_of 0 installed) k' ∧
        (@respond demo_runtime offline demo_crypto demo_uploads 0 0 "s" (AtSignup (Some form_cy)) installed).2
          = App k'.1 (<[0 := k'.2]> (browsers installed)).
Proof.
  exact (@respond_refines demo_runtime offline demo_crypto demo_uploads 0 0 "s" (AtSignup (Some form_cy))
           installed installed_ok).
Defined.

Lemma respond_isolated_witness :
  owned 1 (process (@respond demo_runtime offline demo_crypto demo_uploads 0 0 "s"
                      (AtApiFollowingToggle (Some (body_of "@zed"))) installed).2)
    = owned 1 (process installed).
Proof.
  by apply (@respond_isolated demo_runtime offline demo_crypto demo_uploads 0 0 "s"
              (AtApiFollowingToggle (Some (body_of "@zed"))) installed 1 installed_ok).
Defined.

Lemma protected_unauthorized_witness :
  (@respond demo_runtime offline demo_crypto demo_uploads 0 0 "s" AtSettings installed).1
    = Ok (inl unauthorized) ∧
  process (@respond demo_runtime offline demo_crypto demo_uploads 0 0 "s" AtSettings installed).2
    = process installed ∧
  browser_of 0 (@respond demo_runtime offline demo_crypto demo_uploads 0 0 "s" AtSettings installed).2
    = browser_of 0 installed.
Proof.
  by apply (@protected_unauthorized demo_runtime offline demo_crypto demo_uploads 0 0 "s" AtSettings
              installed installed_ok).
Defined.

Lemma respond_requests_witness :
  ∃ new,
    site_net (the_site (process
      (@respond demo_runtime offline demo_crypto demo_uploads 0 0 "s" (AtBookDetails "Dune")
         installed).2)) = site_net (the_site (process installed)) ++ new ∧
    length new ≤ 11 ∧ Forall polite new.
Proof.
  exact (@respond_requests demo_runtime offline demo_crypto demo_uploads 0 0 "s" (AtBookDetails "Dune")
           installed installed_ok).
Defined.


(** Offline, the page of a demo book asks for nine covers and once for
    the description. *)
Example book_page_requests :
  length (site_net (the_site (process
    (@respond demo_runtime offline demo_crypto demo_uploads 0 0 "s" (AtBookDetails "1984") installed).2)))
    = 10.
Proof. vm_compute. reflexivity. Qed.

Lemma two_signed_up_ok : app_ok two_signed_up.
Proof. apply respond_ok, respond_ok, installed_ok. Qed.

Lemma old_install_ok : app_ok old_install.
Proof. apply empty_file_ok. Qed.

Lemma upgraded_start_on :
  @started_on demo_runtime offline demo_crypto demo_uploads (Machine ∅ "/srv/instance")
    old_install upgraded_start.
Proof.
  exists (Config "dev-change-me" "sqlite:////srv/instance/bookbuddy.db" false "login"),
    (configure ∅ "/srv/instance" ∅).2, (setup old_file).2,
    (@startup demo_runtime offline (file_of old_install)).2.
  split_and!; [| |apply pair_eq_fst; vm_compute; reflexivity|done];
    apply pair_eq_fst; vm_compute; reflexivity.
Qed.

Lemma upgrade_schema_witness :
  (setup old_file).1 = Ok tt ∧
  setup (the_schema (process upgraded_start)) = (Ok tt, the_schema (process upgraded_start)) ∧
  ∃ have, the_schema (process upgraded_start) !! "user" = Some have ∧ "bio" ∈ have.
Proof.
  destruct (@upgrade_schema demo_runtime offline demo_crypto demo_uploads
              (Machine ∅ "/srv/instance") old_install upgraded_start
              old_install_ok old_file_lowercase old_file_known) as [Hsetup Hon].
  destruct (Hon upgraded_start_on) as [Hnext Hcols]. split_and!; [done..|].
  apply (Hcols "user" ["id"; "email"; "password_hash"; "name"; "handle"; "bio"] "bio");
    apply (bool_decide_unpack (_ ∈ _)); reflexivity.
Defined.

(** The columns of [user] after the upgrade: [bio] comes last. *)
Example upgraded_start_user :
  the_schema (process upgraded_start) !! "user"
    = Some ["id"; "email"; "password_hash"; "name"; "handle"; "bio"].
Proof. vm_compute. reflexivity. Qed.

Lemma bad_body_shelves_witness :
  @handle demo_runtime offline demo_crypto demo_uploads 5 "s" (AtApiFavouritesToggle None)
     (process two_signed_up, browser_of 0 two_signed_up)
    = (Raise BadRequest, (process two_signed_up, browser_of 0 two_signed_up)) ∧
  @handle demo_runtime offline demo_crypto demo_uploads 5 "s" (AtApiHistoryAdd None)
     (process two_signed_up, browser_of 0 two_signed_up)
    = (Raise BadRequest, (process two_signed_up, browser_of 0 two_signed_up)).
Proof.
  eapply (@bad_body_shelves demo_runtime offline demo_crypto demo_uploads 5 "s");
    [done|vm_compute; reflexivity].
Defined.

Lemma respond_typed_witness : well_typed [("favourited", TBool)] (favourited true).
Proof.
  apply (@respond_typed demo_runtime offline demo_crypto demo_uploads 0 5 "s"
           (AtApiFavouritesToggle (Some (book_body 2))) two_signed_up (favourited true)
           (favourited true) [("favourited", TBool)] two_signed_up_ok); [|done|done].
  vm_compute. reflexivity.
Defined.

Lemma cookie_needs_password_witness :
  (∃ form u, AtSignup (Some form_cy) = AtLogin (Some form) ∧
             u ∈ rows (the_users (process installed)) ∧ user_id u = 1%Z ∧
             user_email u = lower (arg_text (li_email form)) ∧
             @check_password demo_crypto u (arg_or (li_password form) EmptyString) = true) ∨
  (∃ form, AtSignup (Some form_cy) = AtSignup (Some form) ∧ 1%Z ∉ user_ids (process installed)).
Proof.
  apply (@cookie_needs_password demo_runtime offline demo_crypto demo_uploads 0 0 "s"
           (AtSignup (Some form_cy)) installed 1 installed_ok); [|done].
  vm_compute. reflexivity.
Defined.

(** A browser without a cookie adds a book: /add-book is not under
    [@login_required]. *)
Example anonymous_adds_book :
  cookie (browser_of 0 installed) = None ∧
  book_key <$> rows (site_books (the_site (process
    (@respond demo_runtime offline demo_crypto demo_uploads 0 0 "s"
       (AtAddBook (Some (form_of "Dune" "Frank Herbert"))) installed).2)))
    = [("Dune", "Frank Herbert")].
Proof. split; [done|]. vm_compute. reflexivity. Qed.

(** The handle one browser follows is on the page of every other. *)
Example following_shared :
  let a1 := (@respond demo_runtime offline demo_crypto demo_uploads 1 0 "s"
               (AtApiFollowingToggle (Some (body_of "@zed"))) installed).2 in
  ∃ people, (@respond demo_runtime offline demo_crypto demo_uploads 2 0 "s" (AtFollowing None) a1).1
              = Ok (inr people) ∧ "@zed" ∈ handles people.
Proof.
  eexists. split; [vm_compute; reflexivity|]. apply (bool_decide_unpack (_ ∈ _)).
  vm_compute. reflexivity.
Qed.

(** A start of the process forgets who is followed. *)
Example following_lost_at_start w fs sch a :
  the_social (process (started w fs sch a)) = initial.
Proof. done. Qed.

(** The picture of one user is replaced by the picture another user
    sends under the same name: the name of the file is the one the
    browser sent. *)
Example picture_replaced :
  let a1 := (@respond demo_runtime offline demo_crypto demo_uploads 0 0 "s"
               (picture_form "me.png" "CY") two_signed_up).2 in
  let a2 := (@respond demo_runtime offline demo_crypto demo_uploads 1 0 "s"
               (picture_form "me.png" "DI") a1).2 in
  the_files (process a1) !! ["static"; "uploads"; "avatars"; "me.png"] = Some (File "CY") ∧
  the_files (process a2) !! ["static"; "uploads"; "avatars"; "me.png"] = Some (File "DI").
Proof. split; vm_compute; reflexivity. Qed.

(** A picture whose name is emptied fails the request, and the text
    fields sent with it are not stored. *)
Example picture_without_name :
  let r := @respond demo_runtime offline demo_crypto demo_uploads 0 0 "s"
             (AtEditProfile (Some (ProfileForm (Some "Cyrus") None None,
                                   Some (Picture "/" "CY")))) two_signed_up in
  r.1 = Raise OSError ∧
  user_name <$> rows (the_users (process r.2)) = ["Cy"; "Di"].
Proof. split; vm_compute; reflexivity. Qed.
