(* ===== verification/Sessions.v ===== *)
(** * Sessions: what a browser keeps from one request to the next

    A request of App is one step.  Here the steps are put in sequence:
    what the cookie of a browser is after a login, after a logout, and
    after any number of requests of other browsers and starts of the
    process in between; and what one visitor sees of what another has
    written. *)

From Stdlib Require Import ZArith Lia QArith.
From stdpp Require Import base tactics option list strings gmap relations.
From S2P Require Import Prelude PyStr Files Config Json Flask Http Fixtures Db Accounts Profile.
From S2P Require Import Search Social.
From S2P Require Import Catalog Listing Reviews Shelf Settings Migrate Seeder AddBook App.

(** ** Definitions *)

(** The routes whose handler calls [login_user] or [logout_user]. *)
Definition changes_cookie (r : route) : bool :=
  match r with
  | AtSignup (Some _) | AtLogin (Some _) | AtLogout => true
  | _ => false
  end.

(** A step of the process in which the browser [c] neither logs in,
    nor signs up, nor logs out: a request of another browser, any other
    request of [c], or a start of the process. *)
Inductive quiet_step `{PyRuntime, Network, Crypto, Uploads} (m : machine) (c : nat) (a : app)
  : app → Prop :=
  | Quiet_other c' now salt r : c' ≠ c → quiet_step m c a (respond c' now salt r a).2
  | Quiet_own now salt r :
      changes_cookie r = false → quiet_step m c a (respond c now salt r a).2
  | Quiet_start cfg fs sch w :
      configure (environment m) (instance_folder m) (the_files (process a)) = (Ok cfg, fs) →
      setup (the_schema (process a)) = (Ok tt, sch) →
      startup (file_of a) = (Ok tt, w) → quiet_step m c a (started w fs sch a).

(** The user as whom the browser [c] is logged in. *)
Definition user_at (c : nat) (a : app) : option User :=
  user_of_cookie (accounts_of (process a, browser_of c a)).

(** The ids and the addresses of the users, in the order of the table. *)
Definition identities (a : app) : list (Z * string) :=
  identity <$> rows (the_users (process a)).

(** *** Fixtures *)

(** Two users logged in; then the second logs out and the first opens
    the home page. *)
Definition one_left : app :=
  (@respond demo_runtime offline demo_crypto demo_uploads 0 5 "s" AtHome
     (@respond demo_runtime offline demo_crypto demo_uploads 1 3 "s" AtLogout
        two_signed_up).2).2.

(** The row of the first of them. *)
Definition cy : User := @signed_up demo_crypto "s" form_cy 1.

(** ** Lemmas *)

Section steps.
Context `{PyRuntime, Network, Crypto, Uploads}.
Implicit Types (a : app) (c : nat) (r : route) (k : conn).

(** *** One request *)

Lemma respond_process c now salt r a :
  app_ok a → process (respond c now salt r a).2 = (handle now salt r (process a, browser_of c a)).2.1.
Proof.
  intros Ha. pose proof (browser_of_ok c a Ha) as Hk.
  unfold respond. cbn [snd process]. apply teardown_ok.
  by destruct (change_ok _ _ Hk (handle_change now salt r _ Hk)) as [[? _] _].
Qed.

Lemma respond_browser c now salt r a :
  browser_of c (respond c now salt r a).2 = (handle now salt r (process a, browser_of c a)).2.2.
Proof. unfold browser_of at 1, respond. cbn [snd browsers]. by rewrite lookup_insert_eq. Qed.

Lemma respond_other c c' now salt r a :
  c' ≠ c → browser_of c (respond c' now salt r a).2 = browser_of c a.
Proof. intros Hc. unfold browser_of, respond. cbn [snd browsers]. by rewrite lookup_insert_ne. Qed.

(** A request that neither logs in nor out leaves the cookie. *)
Lemma handle_cookie now salt r k :
  conn_ok k → changes_cookie r = false → cookie (handle now salt r k).2.2 = cookie k.2.
Proof.
  intros Hk Hr. pose proof (accounts_clean _ Hk) as Hc.
  change (logged_in (accounts_of (handle now salt r k).2) = logged_in (accounts_of k)).
  destruct (handle_accounts now salt r k Hk) as [-> | ->]; [|done].
  destruct (account_request_of now salt r) as [q|] eqn:Hq; [|done].
  pose proof (serve_cookie q _ Hc) as Hs.
  destruct r; cbn [account_request_of changes_cookie] in Hq, Hr; repeat case_match;
    simplify_eq; done.
Qed.

(** The rows of the users after a request: who was there stays. *)
Lemma respond_identities c now salt r a :
  app_ok a → identities a `prefix_of` identities (respond c now salt r a).2.
Proof.
  intros Ha. pose proof (browser_of_ok c a Ha) as Hk. unfold identities.
  rewrite respond_process by done.
  change (identity <$> rows (users (accounts_of (process a, browser_of c a))) `prefix_of`
          identity <$> rows (users (accounts_of (handle now salt r (process a, browser_of c a)).2))).
  destruct (handle_accounts now salt r _ Hk) as [-> | ->]; [|done].
  destruct (account_request_of now salt r) as [q|]; [|done].
  apply serve_identities, (accounts_clean _ Hk).
Qed.

(** *** Steps that leave the session of a browser *)

Lemma quiet_app_step m c a a' : quiet_step m c a a' → app_step m a a'.
Proof. destruct 1; econstructor; eauto. Qed.

Lemma quiet_step_cookie m c a a' :
  app_ok a → quiet_step m c a a' → cookie (browser_of c a') = cookie (browser_of c a).
Proof.
  intros Ha [c' now salt r Hc|now salt r Hr|cfg fs sch w _ _ _].
  - by rewrite respond_other.
  - rewrite respond_browser. by apply handle_cookie; [apply browser_of_ok|].
  - done.
Qed.

Lemma app_step_identities m a a' :
  app_ok a → app_step m a a' → identities a `prefix_of` identities a'.
Proof. intros Ha [c now salt r|cfg fs sch w _ _ _]; [by apply respond_identities|done]. Qed.

(** The cookie and the rows over a sequence of such steps. *)
Lemma quiet_steps m c a a' :
  app_ok a → rtc (quiet_step m c) a a' →
  app_ok a' ∧ cookie (browser_of c a') = cookie (browser_of c a) ∧
  identities a `prefix_of` identities a'.
Proof.
  intros Ha Hrun. induction Hrun as [a|a a1 a2 Hstep _ IH]; [done|].
  pose proof (quiet_app_step _ _ _ _ Hstep) as Hs.
  destruct (IH (app_step_ok _ _ _ Hs Ha)) as (Hok & Hc & Hi). split_and!; [done|..].
  - by rewrite Hc, (quiet_step_cookie m c a a1).
  - etrans; [by eapply app_step_identities|done].
Qed.

(** The user of a cookie that names a row. *)
Lemma user_at_identity c a i e :
  app_ok a → cookie (browser_of c a) = Some i → (i, e) ∈ identities a →
  ∃ u, user_at c a = Some u ∧ identity u = (i, e).
Proof.
  intros [[_ _ [Hwf [Hc _]] _ _ _ _] _] Hi He. unfold user_at, user_of_cookie, accounts_of.
  cbn [logged_in users fst snd]. rewrite Hi. cbn [mbind option_bind].
  apply find_identity; [|done]. destruct Hwf as [_ Hids _]. by rewrite visible_clean in Hids.
Qed.

(** *** The routes of the reviews, run through the process *)

Lemma respond_add_review c now salt post a u :
  app_ok a → user_at c a = Some u →
  let out := add_review (user_id u) now post (the_site (process a)) in
  (respond c now salt (AtAddReview post) a).1 = out.1 ∧
  the_site (process (respond c now salt (AtAddReview post) a).2) = out.2 ∧
  the_users (process (respond c now salt (AtAddReview post) a).2) = the_users (process a).
Proof.
  intros Ha Hu out. pose proof (accounts_clean _ (browser_of_ok c a Ha)) as Hc.
  rewrite respond_process by done. unfold respond, handle. cbn [fst].
  rewrite with_login_run by done. fold (user_at c a). rewrite Hu. unfold in_site.
  by rewrite zoom_run.
Qed.

Lemma respond_book_reviews c now salt title a :
  (respond c now salt (AtBookReviews title) a).1 =
    (book_reviews (rows (the_users (process a))) title (the_site (process a))).1.
Proof.
  unfold respond, handle. cbn [fst].
  rewrite (M_bind_ok _ _ _ _ _ (all_users_run _)). unfold in_site. by rewrite zoom_run.
Qed.

(** The row of the user beside a review the user wrote. *)
Lemma user_of_own c a u rv :
  app_ok a → user_at c a = Some u → review_user_id rv = user_id u →
  user_of (rows (the_users (process a))) rv = Some u.
Proof.
  intros Ha Hu Hr. unfold user_of. rewrite Hr.
  unfold user_at, user_of_cookie, accounts_of in Hu. cbn [logged_in users fst snd] in Hu.
  destruct (cookie _) as [i|]; [|done]. cbn [mbind option_bind] in Hu.
  by destruct (find_id_elem _ _ _ Hu) as [_ ->].
Qed.

End steps.

(** ** Theorems *)

Section session_theorems.
Context `{PyRuntime, Network, Crypto, Uploads}.
Implicit Types (a : app) (c : nat) (r : route).

(** C16. A browser that holds the cookie of a user keeps it, and the
    cookie keeps naming the row with the same id and the same address,
    over every sequence of requests of other browsers, of its own
    requests other than a login, a signup and a logout, and of starts of
    the process on the same machine: a session ends at a logout and in
    no other way. *)
Theorem session_kept m c a a' i e :
  app_ok a → cookie (browser_of c a) = Some i → (i, e) ∈ identities a →
  rtc (quiet_step m c) a a' →
  ∃ u, user_at c a' = Some u ∧ user_id u = i ∧ user_email u = e.
Proof.
  intros Ha Hi He (Hok & Hc & Hpre)%quiet_steps; [|done].
  destruct (user_at_identity c a' i e Hok) as (u & Hu & [= ? ?]); [congruence| |by exists u].
  destruct Hpre as [l ->]. apply elem_of_app. by left.
Qed.

(** A login with the address of a user and the password of that user
    answers with the redirect to the home page, leaves the process as it
    was, and the browser holds the cookie of the user. *)
Theorem login_opens c now salt form u a :
  app_ok a →
  List.find (by_email (lower (arg_text (li_email form)))) (rows (the_users (process a)))
    = Some u →
  check_password u (arg_or (li_password form) EmptyString) = true →
  (respond c now salt (AtLogin (Some form)) a).1 = Ok (inl (goto "home")) ∧
  process (respond c now salt (AtLogin (Some form)) a).2 = process a ∧
  user_at c (respond c now salt (AtLogin (Some form)) a).2 = Some u.
Proof.
  intros Ha Hf Hp. pose proof (browser_of_ok c a Ha) as Hk.
  pose proof (accounts_clean _ Hk) as Hc. unfold user_at.
  rewrite respond_process, respond_browser by done. unfold respond, handle, in_accounts.
  rewrite zoom_run, redirects_run, login_run by done. cbn [accounts_of users fst] in Hf |- *.
  rewrite Hf, Hp. cbn [fst snd fmap outcome_fmap]. split_and!; [done|by destruct (process a)|].
  unfold user_of_cookie, accounts_of. cbn. apply find_some in Hf as [Hin%list_elem_of_In _].
  apply find_id_of_elem; [|done]. destruct Ha as [[_ _ [[_ Hids _] [Hcl _]] _ _ _ _] _].
  by rewrite visible_clean in Hids.
Qed.

(** After a logout every route under [@login_required] answers with the
    redirect to the login page. *)
Theorem logout_closes c now salt now' salt' r a :
  app_ok a → protected r = true →
  (respond c now' salt' r (respond c now salt AtLogout a).2).1 = Ok (inl unauthorized).
Proof.
  intros Ha Hr. pose proof (respond_ok c now salt AtLogout a Ha) as Ha1.
  unfold respond at 1. cbn [fst]. rewrite handle_unauthorized; [done|apply Ha1|done|].
  by rewrite respond_browser.
Qed.

(** While a browser holds the cookie of a user, the settings page shows
    the name and the handle of that user. *)
Theorem settings_shows c now salt a u :
  app_ok a → user_at c a = Some u →
  (respond c now salt AtSettings a).1 = Ok (inr (user_name u, user_handle u)).
Proof.
  intros Ha Hu. pose proof (accounts_clean _ (browser_of_ok c a Ha)) as Hc.
  unfold respond, handle, in_accounts, settings. cbn [fst].
  rewrite zoom_run, login_required_clean by done. fold (user_at c a). rewrite Hu.
  cbn [fst]. by rewrite !str_or_empty_r.
Qed.

(** C32. A review that a logged-in user posts and that is accepted heads
    the page of the reviews of its book for every browser that asks for
    it next, logged in or not: the card shows the user as the site
    displays users, the text stripped, the rating as given and the
    instant of the post. *)
Theorem review_published c c' now now' salt salt' form u a :
  app_ok a → user_at c a = Some u →
  Forall (λ rv, (review_created rv < now)%Z) (site_reviews (the_site (process a))) →
  (respond c now salt (AtAddReview (Some form)) a).1 = Ok (inl thanks) →
  ∃ rp card,
    (respond c' now' salt' (AtBookReviews (arg_text (rf_book_title form)))
       (respond c now salt (AtAddReview (Some form)) a).2).1 = Ok (inr rp) ∧
    head (rp_reviews rp) = Some card ∧
    card_user card = display_user (Some u) ∧
    card_text card = strip (arg_text (rf_review form)) ∧
    arg_int (rf_rating form) = Ok (card_rating card) ∧ card_when card = now.
Proof.
  intros Ha Hu Hnow Hrun. pose proof Ha as [[[_ Hc] _ _ _ _ _ _] _].
  destruct (respond_add_review c now salt (Some form) a u Ha Hu) as (Hout & Hsite & Husers).
  rewrite Hout in Hrun. rewrite respond_book_reviews, Hsite, Husers.
  destruct (add_review _ _ _ _) as [out s2] eqn:Hadd. cbn [fst snd] in Hrun |- *. subst out.
  destruct (add_review_listed (rows (the_users (process a))) _ _ _ _ _ Hc Hnow Hadd)
    as (rp & rv & Hrp & _ & Hid & Htext & Hwhen & Hrating & Hcards).
  exists rp, (card_of (rows (the_users (process a))) review_created rv).
  rewrite Hrp, Hcards. unfold card_of. cbn [fst head card_user card_text card_when card_rating].
  by rewrite (user_of_own c a u rv), Htext.
Qed.

End session_theorems.

(** ** Witnesses *)

Lemma session_kept_witness :
  ∃ u, @user_at 0 one_left = Some u ∧ user_id u = 1%Z ∧ user_email u = "cy@example.org".
Proof.
  apply (@session_kept demo_runtime offline demo_crypto demo_uploads (Machine ∅ "/srv/instance")
           0 two_signed_up one_left 1%Z "cy@example.org" two_signed_up_ok).
  - vm_compute. reflexivity.
  - apply (bool_decide_unpack (_ ∈ _)). vm_compute. reflexivity.
  - eapply rtc_l; [by apply (Quiet_other _ 0 _ 1 3%Z "s" AtLogout)|].
    eapply rtc_l; [by apply (Quiet_own _ 0 _ 5%Z "s" AtHome)|]. apply rtc_refl.
Defined.

Lemma cy_logged_in : user_at 0 two_signed_up = Some cy.
Proof. vm_compute. reflexivity. Qed.

Lemma review_published_witness :
  ∃ rp card,
    (@respond demo_runtime offline demo_crypto demo_uploads 1 9 "s" (AtBookReviews "1984")
       (@respond demo_runtime offline demo_crypto demo_uploads 0 7 "s"
          (AtAddReview (Some (form_1984 "5"))) two_signed_up).2).1 = Ok (inr rp) ∧
    head (rp_reviews rp) = Some card ∧
    card_user card = display_user (Some cy) ∧
    card_text card = strip (arg_text (rf_review (form_1984 "5"))) ∧
    arg_int (rf_rating (form_1984 "5")) = Ok (card_rating card) ∧ card_when card = 7%Z.
Proof.
  apply (@review_published demo_runtime offline demo_crypto demo_uploads 0 1 7%Z 9%Z "s" "s"
           (form_1984 "5") cy two_signed_up two_signed_up_ok cy_logged_in).
  - constructor.
  - vm_compute. reflexivity.
Defined.
